(* ===== verification/_CoqProject ===== *)
-Q . S2P
Prelude.v
JsString.v
Number.v
NumberExact.v
Value.v
Semantics.v
Dom.v
Query.v
Cart.v
Confirm.v
Checkout.v
WellFormed.v
ViewModel.v
Base64.v
NumberText.v
Utf8.v
UrlQuery.v
Json.v
NumberFormat.v
Browser.v
Sender.v
IntegerText.v
Amount.v
Scenarios.v
