(* ===== verification/Prelude.v ===== *)
(** * The checkout page script: a verification development

    ** The program

    [src/checkout_web/script.js] is the script of a checkout page.  It runs
    once when the page loads and does four things in order:
    - it reads five parameters of the query string ([user_id], [name],
      [email], [amount], [items], lines 2-8), each with a default applied
      by [||], parses the amount with [parseFloat] and formats it as pesos
      (lines 11-15), and writes name, e-mail, id and amount into four
      elements through [textContent] (lines 18-21);
    - it decodes the cart: the [items] parameter goes from the URL-safe
      base64 alphabet to the standard one, through [atob] and [JSON.parse],
      inside a [try]/[catch] that logs and continues with an empty cart
      (lines 24-32);
    - it builds a table with a fixed header and one row per item, the cells
      interpolated into [innerHTML], and appends it to the [.card-right]
      container (lines 35-62);
    - it registers a click listener on the confirm button that shows a
      message, disables the button and changes its label (lines 65-72).
    Nothing catches an exception outside the [try]: a missing element or an
    item the row template cannot render stops the script where it is.

    ** The files

    The script is modelled as a shallow embedding in three layers.

    _The language._
    - [Prelude] (this file): completions (normal or thrown), commands over a
      store that keep their effects when they throw, [try]/[catch],
      the [forEach] loop, their laws, triples with a postcondition for the
      exceptional exit, and the tactics and hint databases the other files
      use.
    - [JsString]: strings as lists of UTF-16 code units, literals,
      [replace] with a global one-character pattern.
    - [Number]: Numbers as IEEE 754 doubles ([SpecFloat], precision 53,
      exponent bound 1024) with the correctly rounded product and decimal
      conversion.
    - [NumberExact]: integers below [2^53] as doubles, and the exactness
      of their product, proved along the rounding steps of [SpecFloat].
    - [Value]: the values [JSON.parse] can yield and the others the script
      meets, own properties, the errors, and the interface [Builtins] of
      the host functions with the laws [BuiltinsLaws] assumed of them.
    - [Semantics]: the operators of the script on arbitrary values:
      [||], property read, ToString, ToNumber, [*], [.toLocaleString],
      the receiver of [.forEach].

    _The script._
    - [Dom]: the page as the record of the seven elements the script
      touches, the console, and the writes; a write to an element that is
      not there is the [TypeError] of a property access on [null].
    - [Query]: lines 2-15 ([userId], [name], [email], [amountRaw],
      [itemsEncoded], [amountNumber], [amountFormatted]).
    - [Cart]: lines 24-60 ([decode_items], [build_table] and the row
      function [render_row]), with the table as a plain map over the items
      ([table_of]) proved equal to the loop.
    - [Confirm]: lines 65-72 ([confirm_handler]) and the browser's side of a
      click ([click]), the control as a two-state machine, the stores a
      session reaches ([reachable]).
    - [Checkout]: the whole script ([initialize], [load]) and its result
      case by case ([initialize_eq]).
    - [WellFormed]: adequacy of the representation of strings.  A
      [jsstring] is a list of integers; this file shows that every text
      the model puts on the page and on the console is a string of 16-bit
      code units, carried through the script with the triples of this
      file.  It is a fact about the model and not a property of the
      script, and is not among the properties listed below.
    - [ViewModel]: the description of the specification (typed line items,
      [computeViewModel], [render]) and the proof that the script
      implements it.
    These files are parametric in the host: their theorems hold for every
    implementation of [Builtins], under [BuiltinsLaws] where stated.

    _The host._
    - [Base64]: [atob] (forgiving-base64 decode of the WHATWG Infra
      standard) and the encoder, with [atob] inverting it.
    - [NumberText]: [parseFloat] and StringToNumber of ECMA-262.
    - [Utf8]: strings as scalar values, the UTF-8 encoder and the decoder
      of the Encoding standard as its state machine.
    - [UrlQuery]: [new URLSearchParams(window.location.search)] of line 2
      (the parser of the URL standard) and the serializer that writes a
      link; [page_load] is the script run from the search string.
    - [Json]: [JSON.parse], a recursive descent with fuel.
    - [NumberFormat]: Number::toString (shortest digits that read back) and
      [toLocaleString] for [es-AR], plain and as currency.
    - [Browser]: the instance of [Builtins] made of these, the proof of its
      laws, and the decoding of the script on it.
    - [Sender]: the other end of the link: the JSON text of a cart of
      whole quantities and prices, as a serializer writes it.
    - [IntegerText]: what the three formats of [NumberFormat] print for
      the double of an integer below [10^15]: its decimal digits, plain or
      grouped by three; with it, the rows of a cart of whole numbers as
      the text the page shows.
    - [Amount]: [parseFloat(amountRaw) || 0] of line 11 on that host: the
      texts that are shown as zero, and the texts that start with an
      integer.
    - [Scenarios]: the script run on that host for concrete links and a
      concrete page, the examples of the specification among them, as
      examples that hold by evaluation, and the general theorems applied
      to these runs.

    ** The theorems

    - The script as a function ([Checkout]): on a complete page with a cart
      the loop can render, [load] leaves exactly the rendered page
      ([load_renders]); when the loop throws, it leaves the texts but no
      table, no header, and a button without listener ([load_aborts],
      [load_dead_button]); when a slot is missing, it stops at the write to
      it ([load_missing_slot]); only a [TypeError] ever escapes
      ([initialize_throws]); the four texts are written in every case
      ([load_paints_buyer]); no click changes them or the table
      ([session_keeps_order]); without a cart, or with one that does not
      decode, the page is rendered with the header-only table and at most
      one console line ([load_without_cart]); the script followed by any
      positive number of clicks leaves the rendered page with the three
      writes of the listener ([session_confirmed]).
    - The script against its description ([ViewModel]): on a cart of line
      items the page is the rendering of the view model
      ([load_refines_render]), and such a cart always renders
      ([typed_cart_renders]).
    - The cart ([Cart]): decoding never throws and logs one line per
      failure ([decode_items_contained]); the table has one row per item,
      in order ([build_table_rows]); it can be built exactly when the cart
      is an array of renderable items ([build_table_is_normal]); the loop
      is the map ([build_table_as_map]); the name of an item reaches the
      markup unescaped ([row_markup_injection]); the alphabet mapping
      inverts the URL-safe one exactly on standard texts
      ([base64url_round_trip]).
    - The arithmetic ([NumberExact], [Cart]): the product of line 50 does
      not round on integers whose product is below [2^53]
      ([num_mul_exact]), so whole prices and quantities give whole
      subtotals ([integer_subtotal]); beyond the bound it rounds
      ([num_of_Z_rounds]), and a zero product keeps the sign
      ([num_mul_negative_zero]).
    - The confirm control ([Confirm]): a click confirms
      ([click_confirms]), a second click changes nothing ([click_twice]),
      and after the first click of a session every store is the confirmed
      one ([click_is_final]).  The last needs both halves: the listener
      disables the button, and the browser sends no click to a disabled
      button ([reachable_confirmed], which holds for any listener).
    - The parameters ([Query], [Amount]): defaults for absent and empty
      parameters ([query_defaults]); the amount is never [NaN] nor [-0]
      ([amountNumber_cases]); in the browser a text that starts with no
      number is shown as zero ([amount_word_is_zero]), and a text that
      starts with an integer is that integer, whatever follows
      ([amount_integer_prefix]), shown as whole pesos
      ([amount_integer_text]).
    - Whole numbers as text ([IntegerText]): on the double of an integer
      below [10^15] the search for the shortest decimal ends at the
      integer without its trailing zeros ([shortest_integer]), so
      Number::toString prints its digits ([Number_toString_integer]) and
      the locale formats its digits in groups of three
      ([Number_toLocaleString_integer],
      [Number_toLocaleCurrency_integer]); hence the four cells of a row
      ([integer_row_text]) and the table of the page opened at the
      sender's link ([sender_page_text]) are known as text.
    - The host ([Browser], and the lemmas of the host files): [atob]
      returns bytes and inverts the encoder, so the script hands the
      sender's text to [JSON.parse] ([decode_payload_encoded]); the parser
      consumes input at every step and its fuel is enough
      ([decode_payload_fuel], from [parse_value_fuel]); a parsed value has
      no [undefined], no [NaN] and no duplicate key; every text the
      formatters produce is a well-formed string.
    - The link ([UrlQuery], [Utf8], [Browser]): the parser reads back
      what the serializer wrote, for all strings without lone surrogates
      ([page_load_link], from the round trips [utf8_string_round_trip] and
      [percent_decode_encoded]); a link written by hand in plain ASCII is
      read as written ([page_load_raw]); a payload in the URL-safe alphabet
      reaches [JSON.parse] as the sender wrote it ([cart_through_link]),
      which the standard alphabet does not ([standard_alphabet_is_lost]);
      the decoder yields scalar values on every input
      ([utf8_decode_scalar]).
    - The cart from sender to page ([Sender]): [JSON.parse] reads back the
      text of every cart, whatever the names and the layout
      ([cart_round_trip], from [parse_chars_print] and
      [parse_number_integer]); the page opened at the sender's link is the
      rendered page with one row per item ([sender_link_renders]), and the
      subtotals are the integer products ([sender_rows_whole]).
    - Runs ([Scenarios]) are examples, not properties: the order of three
      Widgets end to end ([widget_end_to_end]), carts that do not decode
      ([malformed_cart_renders_empty]), amounts ([amount_examples]), a
      broken URL ([broken_url_renders]).  The general statements behind
      them are [load_renders] and [sender_link_renders],
      [load_without_cart], and the two theorems of [Amount].

    ** Bounds and fuel

    - [Json.parse_value] takes the length of the text plus one as fuel.
      Each recursive call follows the consumption of a character
      ([parse_value_length]), and [parse_value_fuel] shows the result is the
      same for every larger fuel: running out cannot happen.
    - [NumberFormat.shortest] searches the decimal exponent upward from
      [-324] in at most 640 steps, which spans the range of a double
      ([4.9e-324] to [1.8e308]).  It tries the lengths 1 to 17 in turn; at
      each length it looks at the two decimals next to the exact value,
      keeps those that read back as the double and takes the closer one
      (the even one in a tie), as Number::toString asks.  That 17 digits
      always suffice is a known fact about doubles which is not proved
      here: were it to fail, the closest decimal of 18 digits would be
      returned.  No theorem depends on it; the examples
      [Number_toString_model_long] run the doubles that need all 17
      digits.  [digits] runs for one step per binary digit.
    - Strings and arrays are unbounded lists; code units are integers with
      the range [[0, 65536)] as the predicate [wf_string].
    - [Sender]: the cart is parsed with fuel [length its + 6], enough for
      its three levels of nesting and one step per item, and
      [parse_value_fuel_le] carries the result to the fuel of
      [JSON.parse].
    - Numbers are kept at the width of a double: the bound [2^53] of the
      exactness theorems is the width of the mantissa; beyond it integers
      and products round ([num_of_Z_rounds]).
    - The bound [10^15] of [IntegerText] is the largest power of ten below
      [2^53]: for an integer of at most fifteen digits every decimal the
      search of [shortest] tries, rounded up ones included, is an integer
      of at most [10^15], which a double holds exactly.  Between [10^15]
      and [2^53] the texts are the same, but the proof would need the
      exactness of the even integers up to [2^54]; the theorems stop at
      [10^15].

    ** What is not modelled

    - The address of the page: the script is run from the search string
      ([page_load]) or from the parsed list of pairs ([load]); how the
      browser derives [location.search] from the address is not modelled.
    - The HTML parser behind [innerHTML]: markup is kept as text, so the
      injection theorem counts cell openers in the text and does not
      build the resulting tree.
    - The document as a tree: the seven elements are assumed distinct and
      not nested in each other; the page file itself is not in the
      sources.
    - Prototypes are assumed unmodified, and values with accessors or
      functions do not occur, since every value comes from [JSON.parse].
    - The limits of an engine: ToString of an array nested thousands of
      levels deep exhausts the stack of a browser (a [RangeError]); the
      model recurses without limit, so [initialize_throws] speaks of the
      language and not of such limits.
    - The listener looks its elements up when it runs; the script looks
      them up once, at lines 65-66, and the listener uses those
      references.  The two agree as long as no element is added to or
      removed from the page after the script ran, which nothing in the
      model does.
    - [toLocaleString] rounds the shortest decimal of the double, as the
      formatting library of the browsers does, where ECMA-402 words the
      rounding on the exact value ([rounding_shortest_vs_exact]).
    - The dispatch of a click ([click]) is the browser's, modelled from
      the HTML standard: a disabled button receives none.
    - Objects keep their keys in the order of the text; that JavaScript
      lists integer-like keys first is not modelled, since the script reads
      properties by name and never enumerates them.
    - The sender is modelled for carts of whole quantities and prices; a
      serializer of arbitrary doubles or of arbitrary JSON values is not.
    - Locale data ([es_AR]) is written down as the browsers ship it; it is
      data of the host, not of the script. *)

From Stdlib Require Import ZArith List Lia.
From stdpp Require Import base tactics list option numbers.

#[local] Open Scope Z_scope.

(** ** Completion records

    An ECMAScript evaluation either completes normally with a value or
    abruptly with a thrown value.  [completion E A] is that sum; the script
    model threads it through every call that can throw. *)

Inductive completion (E A : Type) : Type :=
| Normal (a : A)
| Throw (e : E).
Arguments Normal {E A} a.
Arguments Throw {E A} e.

#[export] Instance completion_eq_dec {E A} `{EqDecision E, EqDecision A} :
  EqDecision (completion E A).
Proof. solve_decision. Defined.

Definition is_normal {E A} (c : completion E A) : bool :=
  match c with Normal _ => true | Throw _ => false end.

Definition completion_bind {E A B} (c : completion E A)
    (k : A -> completion E B) : completion E B :=
  match c with
  | Normal a => k a
  | Throw e => Throw e
  end.

Definition completion_map {E A B} (f : A -> B) (c : completion E A) :
    completion E B :=
  completion_bind c (fun a => Normal (f a)).

(** [try { c } catch (e) { h e }] on pure completions. *)
Definition completion_catch {E A} (c : completion E A)
    (h : E -> completion E A) : completion E A :=
  match c with
  | Normal a => Normal a
  | Throw e => h e
  end.

(** ** Commands: state and exceptions

    A command runs on a store [S]; it returns a completion and the store it
    leaves behind.  The store is kept when the command throws: effects made
    before a [throw] persist, as they do in the browser. *)

Definition cmd (S E A : Type) : Type := S -> completion E A * S.

Definition cmd_ret {S E A} (a : A) : cmd S E A := fun s => (Normal a, s).

Definition cmd_throw {S E A} (e : E) : cmd S E A := fun s => (Throw e, s).

Definition cmd_lift {S E A} (c : completion E A) : cmd S E A :=
  fun s => (c, s).

Definition cmd_bind {S E A B} (m : cmd S E A) (k : A -> cmd S E B) :
    cmd S E B :=
  fun s =>
    match m s with
    | (Normal a, s') => k a s'
    | (Throw e, s') => (Throw e, s')
    end.

Definition cmd_catch {S E A} (m : cmd S E A) (h : E -> cmd S E A) :
    cmd S E A :=
  fun s =>
    match m s with
    | (Normal a, s') => (Normal a, s')
    | (Throw e, s') => h e s'
    end.

Definition cmd_get {S E} : cmd S E S := fun s => (Normal s, s).

Definition cmd_modify {S E} (f : S -> S) : cmd S E unit :=
  fun s => (Normal tt, f s).

(** [for_each f l] runs [f] on the elements of [l] from left to right and
    stops at the first one that throws (Array.prototype.forEach with a
    callback that may throw). *)
Fixpoint for_each {S E A} (f : A -> cmd S E unit) (l : list A) :
    cmd S E unit :=
  match l with
  | [] => cmd_ret tt
  | x :: l' => cmd_bind (f x) (fun _ => for_each f l')
  end.

(** The pure counterpart: map a fallible function over a list, failing at
    the first element that fails. *)
Fixpoint map_completion {E A B} (f : A -> completion E B) (l : list A) :
    completion E (list B) :=
  match l with
  | [] => Normal []
  | x :: l' =>
      completion_bind (f x) (fun y =>
      completion_bind (map_completion f l') (fun ys => Normal (y :: ys)))
  end.

Declare Scope js_scope.
Delimit Scope js_scope with js.

Notation "x <- c ;; k" := (completion_bind c (fun x => k))
  (at level 20, c at level 99, k at level 200, only parsing) : js_scope.
Notation "x <~ c ;; k" := (cmd_bind c (fun x => k))
  (at level 20, c at level 99, k at level 200, only parsing) : js_scope.
Notation "c ;;; k" := (cmd_bind c (fun _ => k))
  (at level 100, k at level 200, only parsing, right associativity) : js_scope.

(** ** Automation *)

Create HintDb js discriminated.
Create Rewrite HintDb js_rw.

(** Case analysis on the completion (or pair with a completion) that blocks
    the goal. *)
Ltac case_completion :=
  match goal with
  | |- context [match ?c with Normal _ => _ | Throw _ => _ end] =>
      let E := fresh "Hc" in destruct c eqn:E
  | |- context [let (_, _) := ?p in _] =>
      let E := fresh "Hp" in destruct p eqn:E
  | |- context [match ?p with (_, _) => _ end] =>
      let E := fresh "Hp" in destruct p eqn:E
  end.

(** Linear arithmetic with division and remainder by constants. *)
Ltac zlia := Z.div_mod_to_equations; lia.

(** A conjunction of closed facts, each decided by evaluation.  The
    conjuncts are separated before anything is compared, so that every
    comparison is made on values. *)
Ltac by_compute :=
  repeat match goal with |- _ /\ _ => split end; vm_compute; done.

Ltac js_simp :=
  repeat (autounfold with js in *; cbn in *; simplify_eq; try case_completion).

#[export] Hint Unfold cmd_ret cmd_throw cmd_lift cmd_bind cmd_catch cmd_get
  cmd_modify completion_map : js.

Section CompletionLaws.
Context {E A B C : Type}.
Implicit Types (c : completion E A) (f : A -> completion E B).

Lemma completion_bind_normal a f : completion_bind (Normal a) f = f a.
Proof. reflexivity. Qed.

Lemma completion_bind_throw e f : completion_bind (Throw e) f = Throw e.
Proof. reflexivity. Qed.

Lemma completion_bind_ret c : completion_bind c Normal = c.
Proof. by destruct c. Qed.

Lemma completion_bind_assoc c f (g : B -> completion E C) :
  completion_bind (completion_bind c f) g
  = completion_bind c (fun a => completion_bind (f a) g).
Proof. by destruct c. Qed.

Lemma completion_bind_inv c f b :
  completion_bind c f = Normal b -> exists a, c = Normal a /\ f a = Normal b.
Proof. destruct c; [eauto | done]. Qed.

Lemma completion_bind_throw_inv c f e :
  completion_bind c f = Throw e ->
  c = Throw e \/ exists a, c = Normal a /\ f a = Throw e.
Proof. destruct c; cbn; [eauto | intros [= ->]; auto]. Qed.

Lemma is_normal_map c (g : A -> B) :
  is_normal (completion_bind c (fun a => Normal (g a))) = is_normal c.
Proof. by destruct c. Qed.

Lemma is_normal_bind c f :
  is_normal (completion_bind c f) = true <->
  exists a, c = Normal a /\ is_normal (f a) = true.
Proof.
  destruct c as [a|e]; cbn; split; [eauto | | done |].
  - by intros (a' & [= ->] & Ha).
  - by intros (a & [=] & _).
Qed.

Lemma completion_catch_normal c h :
  (forall e, is_normal (h e) = true) -> is_normal (completion_catch c h) = true.
Proof. intros Hh. destruct c; cbn; auto. Qed.

End CompletionLaws.

#[export] Hint Rewrite @completion_bind_ret @completion_bind_assoc : js_rw.

(** ** Options and lists *)

Definition is_some {A} (o : option A) : bool :=
  match o with Some _ => true | None => false end.

Lemma is_some_true {A} (o : option A) : is_some o = true <-> exists a, o = Some a.
Proof. destruct o; cbn; split; [by eauto | done | done | by intros [? ?]]. Qed.

Lemma forallb_Forall_ext {A} (f g : A -> bool) (l : list A) :
  Forall (fun x => f x = g x) l -> forallb f l = forallb g l.
Proof. induction 1 as [|x l Hx _ IH]; cbn; [done | by rewrite Hx, IH]. Qed.

Lemma forallb_Forall_true {A} (f : A -> bool) (l : list A) :
  forallb f l = true <-> Forall (fun x => f x = true) l.
Proof. rewrite forallb_forall, List.Forall_forall. done. Qed.

Lemma forallb_rev {A} (f : A -> bool) (l : list A) :
  forallb f (rev l) = forallb f l.
Proof.
  induction l as [|x l IH]; [done|]. cbn.
  rewrite forallb_app, IH. cbn. rewrite andb_true_r. apply andb_comm.
Qed.

(** Induction on a list three or four elements at a time, for the codecs
    that read their input in groups. *)
Lemma list_ind3 {A} (P : list A -> Prop) :
  P [] -> (forall a, P [a]) -> (forall a b, P [a; b]) ->
  (forall a b c l, P l -> P (a :: b :: c :: l)) ->
  forall l, P l.
Proof.
  intros H0 H1 H2 Hstep l.
  assert (P l /\ (forall a, P (a :: l)) /\ (forall a b, P (a :: b :: l)))
    as [? _]; [|done].
  induction l as [|x l (IH0 & IH1 & IH2)]; [by auto|].
  split_and!; auto.
Qed.

Lemma list_ind4 {A} (P : list A -> Prop) :
  P [] -> (forall a, P [a]) -> (forall a b, P [a; b]) ->
  (forall a b c, P [a; b; c]) ->
  (forall a b c d l, P l -> P (a :: b :: c :: d :: l)) ->
  forall l, P l.
Proof.
  intros H0 H1 H2 H3 Hstep l.
  assert (P l /\ (forall a, P (a :: l)) /\ (forall a b, P (a :: b :: l))
          /\ (forall a b c, P (a :: b :: c :: l))) as [? _]; [|done].
  induction l as [|x l (IH0 & IH1 & IH2 & IH3)]; [by auto|].
  split_and!; auto.
Qed.

Section CmdLaws.
Context {S E A B C : Type}.
Implicit Types (m : cmd S E A) (s : S).

Lemma cmd_bind_ret_l a (k : A -> cmd S E B) s :
  cmd_bind (cmd_ret a) k s = k a s.
Proof. reflexivity. Qed.

Lemma cmd_bind_ret_r m s : cmd_bind m cmd_ret s = m s.
Proof. unfold cmd_bind. by destruct (m s) as [[] ?]. Qed.

Lemma cmd_bind_assoc m (k : A -> cmd S E B) (h : B -> cmd S E C) s :
  cmd_bind (cmd_bind m k) h s = cmd_bind m (fun a => cmd_bind (k a) h) s.
Proof. unfold cmd_bind. by destruct (m s) as [[] ?]. Qed.

Lemma cmd_bind_throw e (k : A -> cmd S E B) s :
  cmd_bind (cmd_throw e) k s = (Throw e, s).
Proof. reflexivity. Qed.

(** Running a sequence one command at a time. *)
Lemma cmd_bind_normal m (k : A -> cmd S E B) s a s' :
  m s = (Normal a, s') -> cmd_bind m k s = k a s'.
Proof. unfold cmd_bind. by intros ->. Qed.

Lemma cmd_bind_abrupt m (k : A -> cmd S E B) s e s' :
  m s = (Throw e, s') -> cmd_bind m k s = (Throw e, s').
Proof. unfold cmd_bind. by intros ->. Qed.

Lemma cmd_catch_ok m (h : E -> cmd S E A) s a s' :
  m s = (Normal a, s') -> cmd_catch m h s = (Normal a, s').
Proof. unfold cmd_catch. by intros ->. Qed.

Lemma cmd_catch_caught m (h : E -> cmd S E A) s e s' :
  m s = (Throw e, s') -> cmd_catch m h s = h e s'.
Proof. unfold cmd_catch. by intros ->. Qed.

(** A handler that never throws makes the guarded command total. *)
Lemma cmd_catch_normal m (h : E -> cmd S E A) s :
  (forall e s', is_normal (h e s').1 = true) ->
  is_normal (cmd_catch m h s).1 = true.
Proof. intros Hh. unfold cmd_catch. destruct (m s) as [[] ?]; cbn; auto. Qed.

End CmdLaws.

Section ForEach.
Context {S E A : Type}.
Implicit Types (f : A -> cmd S E unit) (l : list A) (s : S).

Lemma for_each_app f l1 l2 s :
  for_each f (l1 ++ l2) s
  = cmd_bind (for_each f l1) (fun _ => for_each f l2) s.
Proof.
  revert s. induction l1 as [|x l1 IH]; intros s; cbn.
  - reflexivity.
  - rewrite cmd_bind_assoc. unfold cmd_bind at 1 2.
    destruct (f x s) as [[[]|e] s']; [apply IH | done].
Qed.

(** When the callback is a total state update, the loop is a left fold. *)
Lemma for_each_total f (g : A -> S -> S) l s :
  (forall x s', f x s' = (Normal tt, g x s')) ->
  for_each f l s = (Normal tt, fold_left (fun acc x => g x acc) l s).
Proof.
  intros Hf. revert s. induction l as [|x l IH]; intros s; cbn; [done|].
  unfold cmd_bind. rewrite Hf. apply IH.
Qed.

(** The loop stops at the first throwing element; the store is the one
    left by the elements before it and by the failing call itself. *)
Lemma for_each_throw f l1 x l2 s s1 e s2 :
  for_each f l1 s = (Normal tt, s1) ->
  f x s1 = (Throw e, s2) ->
  for_each f (l1 ++ x :: l2) s = (Throw e, s2).
Proof.
  intros H1 Hx. rewrite for_each_app. unfold cmd_bind at 1. rewrite H1.
  cbn. unfold cmd_bind. by rewrite Hx.
Qed.

End ForEach.

Section MapCompletion.
Context {E A B : Type}.
Implicit Types (f : A -> completion E B) (l : list A).

Lemma map_completion_length f l ys :
  map_completion f l = Normal ys -> length ys = length l.
Proof.
  revert ys. induction l as [|x l IH]; intros ys; cbn.
  - by intros [= <-].
  - destruct (f x); [|done]. destruct (map_completion f l); [|done].
    intros [= <-]. cbn. f_equal. by apply IH.
Qed.

Lemma map_completion_total f (g : A -> B) l :
  (forall x, In x l -> f x = Normal (g x)) ->
  map_completion f l = Normal (map g l).
Proof.
  induction l as [|x l IH]; intros Hf; cbn; [done|].
  rewrite Hf by (by left). cbn. rewrite IH; [done|].
  intros y Hy. apply Hf. by right.
Qed.

(** The traversal completes normally exactly when every call does. *)
Lemma map_completion_is_normal f l :
  is_normal (map_completion f l) = forallb (fun x => is_normal (f x)) l.
Proof.
  induction l as [|x l IH]; cbn; [done|]. rewrite <- IH.
  destruct (f x); [|done]. by destruct (map_completion f l).
Qed.

Lemma map_completion_throw_inv f l e :
  map_completion f l = Throw e -> exists x, In x l /\ f x = Throw e.
Proof.
  induction l as [|x l IH]; cbn; [done|].
  destruct (f x) as [y|e'] eqn:Hx; cbn.
  - destruct (map_completion f l); [done|]. intros [= ->].
    destruct IH as (x' & ? & ?); eauto.
  - intros [= ->]. eauto.
Qed.

(** The results are the images of the elements, in order. *)
Lemma map_completion_Forall2 f l ys :
  map_completion f l = Normal ys <-> Forall2 (fun x y => f x = Normal y) l ys.
Proof.
  revert ys. induction l as [|x l IH]; intros ys; cbn.
  - split; [intros [= <-]; constructor | by inversion 1].
  - split.
    + destruct (f x) as [y|] eqn:Hy; [|done]. cbn.
      destruct (map_completion f l) as [ys'|]; [|done].
      intros [= <-]. constructor; [done|]. by apply IH.
    + inversion 1 as [|? y ? ys' Hy Hys]; subst. rewrite Hy. cbn.
      apply IH in Hys. by rewrite Hys.
Qed.

Lemma map_completion_app f l1 l2 :
  map_completion f (l1 ++ l2)
  = completion_bind (map_completion f l1) (fun ys1 =>
    completion_bind (map_completion f l2) (fun ys2 => Normal (ys1 ++ ys2))).
Proof.
  induction l1 as [|x l1 IH]; cbn.
  - by rewrite completion_bind_ret.
  - destruct (f x); [|done]. cbn. rewrite IH.
    destruct (map_completion f l1); [|done]. cbn.
    by destruct (map_completion f l2).
Qed.

(** The first failing element decides the thrown value. *)
Lemma map_completion_throw f l1 x l2 ys e :
  map_completion f l1 = Normal ys -> f x = Throw e ->
  map_completion f (l1 ++ x :: l2) = Throw e.
Proof.
  intros H1 Hx. rewrite map_completion_app, H1. cbn. by rewrite Hx.
Qed.

End MapCompletion.

(** ** Triples

    [triple P c Q X]: from a store that satisfies [P], the command [c]
    either returns [a] in a store that satisfies [Q a], or throws in a
    store that satisfies [X].  Commands are total functions, so a triple
    is a statement of total correctness.  The exceptional postcondition is
    what makes an invariant survive an exception that nobody catches. *)

Definition triple {S E A} (P : S -> Prop) (c : cmd S E A)
    (Q : A -> S -> Prop) (X : S -> Prop) : Prop :=
  forall s, P s ->
    match c s with
    | (Normal a, s') => Q a s'
    | (Throw _, s') => X s'
    end.

Section Triples.
Context {S E : Type}.
Implicit Types (P X : S -> Prop).

Lemma triple_ret {A} (a : A) P (Q : A -> S -> Prop) X :
  (forall s, P s -> Q a s) -> triple P (cmd_ret (E:=E) a) Q X.
Proof. intros H s Hs. by apply H. Qed.

Lemma triple_throw {A} (e : E) P (Q : A -> S -> Prop) X :
  (forall s, P s -> X s) -> triple P (cmd_throw e) Q X.
Proof. intros H s Hs. by apply H. Qed.

(** A computation without effect keeps the store as it is. *)
Lemma triple_lift {A} (c : completion E A) P (Q : A -> S -> Prop) X :
  (forall a s, c = Normal a -> P s -> Q a s) -> (forall s, P s -> X s) ->
  triple P (cmd_lift c) Q X.
Proof. intros HQ HX s Hs. unfold cmd_lift. destruct c; auto. Qed.

Lemma triple_bind {A B} (c : cmd S E A) (k : A -> cmd S E B) P
    (R : A -> S -> Prop) (Q : B -> S -> Prop) X :
  triple P c R X -> (forall a, triple (R a) (k a) Q X) ->
  triple P (cmd_bind c k) Q X.
Proof.
  intros Hc Hk s Hs. specialize (Hc s Hs). unfold cmd_bind.
  destruct (c s) as [[a|e] s']; [by apply Hk | done].
Qed.

(** Sequencing under an invariant. *)
Lemma triple_inv_bind {A B} (c : cmd S E A) (k : A -> cmd S E B) (I : S -> Prop) :
  triple I c (fun _ => I) I -> (forall a, triple I (k a) (fun _ => I) I) ->
  triple I (cmd_bind c k) (fun _ => I) I.
Proof. intros Hc Hk. by eapply triple_bind. Qed.

(** A fact that does not depend on the store can be taken out of the
    precondition. *)
Lemma triple_assume {A} (F : Prop) P (c : cmd S E A) (Q : A -> S -> Prop) X :
  (F -> triple P c Q X) -> triple (fun s => F /\ P s) c Q X.
Proof. intros H s [HF Hs]. by apply H. Qed.

(** [try]/[catch]: the handler starts where the body threw. *)
Lemma triple_catch {A} (c : cmd S E A) (h : E -> cmd S E A) P
    (Q : A -> S -> Prop) X Y :
  triple P c Q Y -> (forall e, triple Y (h e) Q X) ->
  triple P (cmd_catch c h) Q X.
Proof.
  intros Hc Hh s Hs. specialize (Hc s Hs). unfold cmd_catch.
  destruct (c s) as [[a|e] s']; [done | by apply Hh].
Qed.

Lemma triple_consequence {A} (c : cmd S E A) P P' (Q Q' : A -> S -> Prop) X X' :
  triple P' c Q' X' ->
  (forall s, P s -> P' s) -> (forall a s, Q' a s -> Q a s) ->
  (forall s, X' s -> X s) ->
  triple P c Q X.
Proof.
  intros Hc HP HQ HX s Hs. specialize (Hc s (HP s Hs)).
  destruct (c s) as [[a|e] s']; auto.
Qed.

(** A loop keeps what each of its steps keeps, whether it ends or stops at
    an exception. *)
Lemma triple_for_each {A} (f : A -> cmd S E unit) (l : list A) (I : S -> Prop) :
  (forall x, In x l -> triple I (f x) (fun _ => I) I) ->
  triple I (for_each f l) (fun _ => I) I.
Proof.
  induction l as [|x l IH]; intros Hf; [by intros s Hs|].
  cbn [for_each]. eapply triple_bind; [apply Hf; by left|].
  intros u. apply IH. intros y Hy. apply Hf. by right.
Qed.

End Triples.

(** [throw_cases H] splits [H : (x <- c ;; k) = Throw e] into the case where
    [c] threw and the case where the rest did, down the whole sequence. *)
Ltac throw_cases H :=
  let a := fresh "a" in
  let Ha := fresh "Ha" in
  apply completion_bind_throw_inv in H as [H|(a & Ha & H)];
  [|try throw_cases H].

(** [run_with L] executes the first command of a sequence with the lemma [L],
    which gives its completion and store. *)
Tactic Notation "run_with" uconstr(L) :=
  first [ erewrite cmd_bind_normal by (apply L; eauto with js)
        | erewrite cmd_bind_abrupt by (apply L; eauto with js)
        | erewrite L by eauto with js ].
