(* ===== verification/JsString.v ===== *)
(** * ECMAScript strings as sequences of UTF-16 code units

    A JavaScript string is a finite sequence of 16-bit code units.  The
    script of [src/checkout_web/script.js] builds and rewrites such strings
    (the two [replace] calls of line 27, the template literal of lines
    52-57); this file holds the representation, the literal notation and the
    lemmas the other files share. *)

From Stdlib Require Import ZArith List Lia String Ascii.
From stdpp Require Import base tactics list option numbers.
From S2P Require Import Prelude.

#[local] Open Scope Z_scope.

(** A string is the list of its code units, each in [0, 2^16). *)
Abbreviation jsstring := (list Z).

Definition is_code_unit (c : Z) : bool := (0 <=? c) && (c <? 65536).

Definition wf_string (s : jsstring) : Prop := Forall (fun c => 0 <= c < 65536) s.

(** Strings whose code units are all below 256 ("binary strings": what
    [atob] returns and [btoa] accepts). *)
Definition is_byte_string (s : jsstring) : Prop := Forall (fun c => 0 <= c < 256) s.

(** [str "abc"] is the JavaScript string literal with the same ASCII
    characters. *)
Fixpoint str (s : string) : jsstring :=
  match s with
  | EmptyString => []
  | String a s' => Z.of_N (N_of_ascii a) :: str s'
  end.

(** [s.replace(/c/g, d)] for a one-character pattern [c] and a
    one-character replacement [d]: every occurrence is replaced. *)
Definition replace_all (c d : Z) (s : jsstring) : jsstring :=
  map (fun x => if x =? c then d else x) s.

(** [s.includes(c)] for a single code unit. *)
Definition mem_unit (c : Z) (s : jsstring) : bool := existsb (Z.eqb c) s.

(** Occurrences of the substring [p] in [s], counted at every offset. *)
Fixpoint is_prefix (p s : jsstring) : bool :=
  match p, s with
  | [], _ => true
  | _ :: _, [] => false
  | a :: p', b :: s' => (a =? b) && is_prefix p' s'
  end.

Fixpoint count_occ_sub (p s : jsstring) : nat :=
  match s with
  | [] => if is_prefix p [] then 1%nat else 0%nat
  | _ :: s' => ((if is_prefix p s then 1 else 0) + count_occ_sub p s')%nat
  end.

Section StringFacts.
Implicit Types (s t : jsstring) (c d : Z).

Lemma wf_string_nil : wf_string [].
Proof. constructor. Qed.

Lemma wf_string_app s t : wf_string (s ++ t) <-> wf_string s /\ wf_string t.
Proof. apply Forall_app. Qed.

Lemma wf_string_cons c s :
  wf_string (c :: s) <-> 0 <= c < 65536 /\ wf_string s.
Proof. apply Forall_cons_iff. Qed.

Lemma is_byte_string_wf s : is_byte_string s -> wf_string s.
Proof. apply Forall_impl. lia. Qed.

Lemma is_byte_string_app s t :
  is_byte_string (s ++ t) <-> is_byte_string s /\ is_byte_string t.
Proof. apply Forall_app. Qed.

Lemma N_of_ascii_lt a : (N_of_ascii a < 256)%N.
Proof. apply N_ascii_bounded. Qed.

Lemma str_byte_string l : is_byte_string (str l).
Proof.
  induction l as [|a l IH]; constructor; [|done].
  pose proof (N_of_ascii_lt a). lia.
Qed.

Lemma str_wf l : wf_string (str l).
Proof. apply is_byte_string_wf, str_byte_string. Qed.

Lemma str_app l1 l2 : str (l1 ++ l2)%string = str l1 ++ str l2.
Proof. induction l1 as [|a l1 IH]; cbn; [done | by rewrite IH]. Qed.

Lemma str_length l : length (str l) = String.length l.
Proof. induction l as [|a l IH]; cbn; [done | by rewrite IH]. Qed.

Lemma str_inj l1 l2 : str l1 = str l2 -> l1 = l2.
Proof.
  revert l2. induction l1 as [|a l1 IH]; intros [|b l2]; cbn; try done.
  intros [= Hab Hl]. f_equal; [|by apply IH].
  rewrite <- (ascii_N_embedding a), <- (ascii_N_embedding b). f_equal. lia.
Qed.

(** *** [replace_all] *)

Lemma replace_all_length c d s : length (replace_all c d s) = length s.
Proof. apply length_map. Qed.

Lemma replace_all_app c d s t :
  replace_all c d (s ++ t) = replace_all c d s ++ replace_all c d t.
Proof. apply map_app. Qed.

Lemma replace_all_cons c d x s :
  replace_all c d (x :: s) = (if x =? c then d else x) :: replace_all c d s.
Proof. reflexivity. Qed.

Lemma mem_unit_spec c s : mem_unit c s = true <-> In c s.
Proof.
  unfold mem_unit. rewrite existsb_exists. split.
  - by intros (x & Hx & ->%Z.eqb_eq).
  - intros Hc. exists c. split; [done | apply Z.eqb_refl].
Qed.

Lemma mem_unit_false c s : mem_unit c s = false -> ~ In c s.
Proof. intros H Hin%mem_unit_spec. congruence. Qed.

Lemma replace_all_absent c d s : ~ In c s -> replace_all c d s = s.
Proof.
  induction s as [|x s IH]; intros Hc; [done|].
  apply not_in_cons in Hc as [Hx Hs]. rewrite replace_all_cons, IH by done.
  destruct (Z.eqb_spec x c); congruence.
Qed.

(** After the replacement the pattern no longer occurs, unless it is its own
    replacement. *)
Lemma replace_all_removes c d s : c <> d -> ~ In c (replace_all c d s).
Proof.
  intros Hcd. unfold replace_all. rewrite in_map_iff.
  intros (x & Hx & _). destruct (Z.eqb_spec x c); congruence.
Qed.

Lemma replace_all_idem c d s :
  c <> d -> replace_all c d (replace_all c d s) = replace_all c d s.
Proof. intros. by apply replace_all_absent, replace_all_removes. Qed.

(** Replacements of distinct characters by characters that are not patterns
    commute. *)
Lemma replace_all_comm c1 d1 c2 d2 s :
  c1 <> c2 -> d1 <> c2 -> d2 <> c1 ->
  replace_all c1 d1 (replace_all c2 d2 s)
  = replace_all c2 d2 (replace_all c1 d1 s).
Proof.
  intros H12 H1 H2. unfold replace_all. rewrite !map_map.
  apply map_ext. intros x.
  destruct (Z.eqb_spec x c2), (Z.eqb_spec x c1); subst; try congruence.
  - destruct (Z.eqb_spec d2 c1), (Z.eqb_spec c2 c2); congruence.
  - destruct (Z.eqb_spec d1 c2), (Z.eqb_spec c1 c1); congruence.
  - destruct (Z.eqb_spec x c2), (Z.eqb_spec x c1); congruence.
Qed.

Lemma replace_all_Forall (P : Z -> Prop) c d s :
  P d -> Forall P s -> Forall P (replace_all c d s).
Proof.
  intros Hd Hs. unfold replace_all. rewrite Forall_map.
  eapply Forall_impl; [|exact Hs]. intros x Hx. by destruct (x =? c).
Qed.

Lemma replace_all_wf c d s :
  0 <= d < 65536 -> wf_string s -> wf_string (replace_all c d s).
Proof. apply (replace_all_Forall (fun x => 0 <= x < 65536)). Qed.

Lemma replace_all_byte_string c d s :
  0 <= d < 256 -> is_byte_string s -> is_byte_string (replace_all c d s).
Proof. apply (replace_all_Forall (fun x => 0 <= x < 256)). Qed.

(** *** Prefixes and occurrences *)

Lemma is_prefix_app p s : is_prefix p (p ++ s) = true.
Proof. induction p as [|a p IH]; cbn; [done|]. by rewrite Z.eqb_refl. Qed.

Lemma is_prefix_spec p s : is_prefix p s = true <-> exists t, s = p ++ t.
Proof.
  split.
  - revert s. induction p as [|a p IH]; intros s; cbn; [by eexists|].
    destruct s as [|b s]; [done|].
    intros [->%Z.eqb_eq Hp]%andb_true_iff.
    destruct (IH _ Hp) as [t ->]. by exists t.
  - intros [t ->]. apply is_prefix_app.
Qed.

Lemma count_occ_sub_app_l p s t :
  (count_occ_sub p t <= count_occ_sub p (s ++ t))%nat.
Proof. induction s as [|x s IH]; cbn; lia. Qed.

Lemma count_occ_sub_here p t : p <> [] -> (1 <= count_occ_sub p (p ++ t))%nat.
Proof.
  destruct p as [|a p]; [done|]. intros _. cbn [app count_occ_sub].
  change (a :: p ++ t) with ((a :: p) ++ t). rewrite is_prefix_app. lia.
Qed.

Lemma is_prefix_app_r p s t : is_prefix p s = true -> is_prefix p (s ++ t) = true.
Proof.
  intros [u ->]%is_prefix_spec. rewrite <- app_assoc. apply is_prefix_app.
Qed.

(** Occurrences inside the two halves of a concatenation are occurrences
    of the whole (which may have more, across the seam). *)
Lemma count_occ_sub_app p s t :
  p <> [] ->
  (count_occ_sub p s + count_occ_sub p t <= count_occ_sub p (s ++ t))%nat.
Proof.
  intros Hp. induction s as [|x s IH]; cbn [app count_occ_sub].
  - destruct p; [done|]. cbn. lia.
  - destruct (is_prefix p (x :: s)) eqn:E.
    + change (x :: s ++ t) with ((x :: s) ++ t).
      rewrite (is_prefix_app_r _ _ t E). lia.
    + destruct (is_prefix p (x :: s ++ t)); lia.
Qed.

Lemma count_occ_sub_concat p parts :
  p <> [] ->
  (list_sum (map (count_occ_sub p) parts) <= count_occ_sub p (concat parts))%nat.
Proof.
  intros Hp. induction parts as [|s parts IH].
  - cbn. lia.
  - change (list_sum (map (count_occ_sub p) (s :: parts)))
      with (count_occ_sub p s + list_sum (map (count_occ_sub p) parts))%nat.
    change (concat (s :: parts)) with (s ++ concat parts).
    pose proof (count_occ_sub_app p s (concat parts) Hp). lia.
Qed.

(** The inverse replacement undoes [replace_all] when the replacement
    character was not there before. *)
Lemma replace_all_inverse c d s :
  ~ In d s -> replace_all d c (replace_all c d s) = s.
Proof.
  induction s as [|x s IH]; intros Hd; [done|].
  apply not_in_cons in Hd as [Hx Hs]. rewrite !replace_all_cons, IH by done.
  f_equal. destruct (Z.eqb_spec x c) as [->|Hc].
  - by rewrite Z.eqb_refl.
  - destruct (Z.eqb_spec x d); congruence.
Qed.

(** Well-formedness through the list operations, in the form [auto with js]
    applies. *)
Lemma wf_string_app_2 s t : wf_string s -> wf_string t -> wf_string (s ++ t).
Proof. intros. by apply wf_string_app. Qed.

Lemma wf_string_cons_2 c s :
  0 <= c < 65536 -> wf_string s -> wf_string (c :: s).
Proof. intros. by apply wf_string_cons. Qed.

Lemma wf_string_rev s : wf_string s -> wf_string (rev s).
Proof. apply Forall_rev. Qed.

Lemma wf_string_take (n : nat) s : wf_string s -> wf_string (take n s).
Proof. apply Forall_take. Qed.

Lemma wf_string_drop (n : nat) s : wf_string s -> wf_string (drop n s).
Proof. apply Forall_drop. Qed.

Lemma wf_string_repeat c (n : nat) : 0 <= c < 65536 -> wf_string (repeat c n).
Proof. intros Hc. induction n; cbn; by constructor. Qed.

End StringFacts.

(** Literals stay folded under [cbn] and [simpl]; [vm_compute] and
    [reflexivity] still evaluate them. *)
#[global] Arguments str : simpl never.

#[export] Hint Resolve str_wf str_byte_string wf_string_nil : js.
#[export] Hint Resolve wf_string_app_2 wf_string_cons_2 wf_string_rev
  wf_string_take wf_string_drop wf_string_repeat : js.
#[export] Hint Extern 2 (_ <= _ < _) => lia : js.
#[export] Hint Rewrite replace_all_length replace_all_app : js_rw.
