(* ===== verification/Number.v ===== *)
(** * ECMAScript Numbers: IEEE 754 binary64

    A JavaScript Number is a double-precision float.  The script multiplies
    two of them ([item.unit_price * item.quantity], line 50) and tests one
    for truthiness ([parseFloat(amountRaw) || 0], line 11).  Numbers are
    modelled at their width with the Standard Library's [SpecFloat]
    (precision 53, exponent bound 1024): the operations round exactly as the
    hardware does, so [0.1 * 3] is not [0.3] here either. *)

From Stdlib Require Import ZArith List Lia Bool SpecFloat.
From stdpp Require Import base tactics option numbers.
From S2P Require Import Prelude.

#[local] Open Scope Z_scope.

Abbreviation number := spec_float.

Definition prec : Z := 53.
Definition emax : Z := 1024.

#[export] Instance number_eq_dec : EqDecision number.
Proof. solve_decision. Defined.

Definition num_nan : number := S754_nan.
Definition num_zero : number := S754_zero false.
Definition num_neg_zero : number := S754_zero true.
Definition num_infinity (neg : bool) : number := S754_infinity neg.

(** The Number value of the integer [z] (round to nearest, ties to even). *)
Definition num_of_Z (z : Z) : number := binary_normalize prec emax z 0 false.

(** The Number value of the decimal [m * 10^e10] with [m >= 0], negated when
    [neg]: the real number is rounded once, to nearest with ties to even.
    For a negative exponent the quotient [m / 10^(-e10)] is computed with
    enough bits and the position of the remainder, as a correctly rounded
    division does. *)
Definition num_of_decimal (neg : bool) (m e10 : Z) : number :=
  if m <=? 0 then S754_zero neg
  else if 0 <=? e10 then
    match binary_normalize prec emax (m * 10 ^ e10) 0 false with
    | S754_finite _ m' e' => S754_finite neg m' e'
    | S754_infinity _ => S754_infinity neg
    | S754_zero _ => S754_zero neg
    | S754_nan => S754_nan
    end
  else
    let '(q, e, l) := SFdiv_core_binary prec emax m 0 (10 ^ (- e10)) 0 in
    binary_round_aux prec emax neg q e l.

(** [x * y] on Numbers. *)
Definition num_mul (x y : number) : number := SFmul prec emax x y.

Definition num_is_nan (x : number) : bool :=
  match x with S754_nan => true | _ => false end.

Definition num_is_zero (x : number) : bool :=
  match x with S754_zero _ => true | _ => false end.

Definition num_is_finite (x : number) : bool :=
  match x with S754_zero _ | S754_finite _ _ _ => true | _ => false end.

Definition num_sign (x : number) : bool :=
  match x with
  | S754_zero s | S754_infinity s | S754_finite s _ _ => s
  | S754_nan => false
  end.

(** ToBoolean on a Number: [NaN], [+0] and [-0] are falsy. *)
Definition num_to_boolean (x : number) : bool :=
  negb (num_is_nan x || num_is_zero x).

(** The exact value of a finite Number as [(m, e)], meaning [m * 2^e]. *)
Definition num_value (x : number) : option (Z * Z) :=
  match x with
  | S754_zero _ => Some (0, 0)
  | S754_finite s m e => Some (cond_Zopp s (Zpos m), e)
  | _ => None
  end.

(** The mathematical integer a finite Number denotes, when it is one. *)
Definition num_to_Z (x : number) : option Z :=
  match num_value x with
  | Some (m, e) =>
      if 0 <=? e then Some (m * 2 ^ e)
      else if m mod 2 ^ (- e) =? 0 then Some (m / 2 ^ (- e)) else None
  | None => None
  end.

(** Numbers in canonical form (the only ones the operations produce). *)
Definition num_valid (x : number) : bool := valid_binary prec emax x.

Section NumberFacts.
Implicit Types (x y : number).

Lemma num_mul_nan_l y : num_mul num_nan y = num_nan.
Proof. reflexivity. Qed.

Lemma num_mul_nan_r x : num_mul x num_nan = num_nan.
Proof. by destruct x. Qed.

(** Multiplication is commutative, bit for bit. *)
Lemma num_mul_comm x y : num_mul x y = num_mul y x.
Proof.
  destruct x as [sx|sx| |sx mx ex], y as [sy|sy| |sy my ey]; cbn;
    rewrite ?(xorb_comm sx sy); try reflexivity.
  by rewrite (Pos.mul_comm mx my), (Z.add_comm ex ey).
Qed.

(** *** Rounding never invents a NaN

    [binary_round_aux] answers NaN only on a negative mantissa, which
    shifting and rounding a non-negative one cannot produce. *)

Lemma shr_1_nonneg mrs : 0 <= shr_m mrs -> 0 <= shr_m (shr_1 mrs).
Proof. destruct mrs as [[|[p|p|]|p] r s]; cbn; lia. Qed.

Lemma iter_pos_shr_1_nonneg p mrs :
  0 <= shr_m mrs -> 0 <= shr_m (SpecFloat.iter_pos shr_1 p mrs).
Proof.
  revert mrs. induction p as [p IH|p IH|]; intros mrs H; cbn;
    auto using shr_1_nonneg.
Qed.

Lemma shr_nonneg mrs e n : 0 <= shr_m mrs -> 0 <= shr_m (shr mrs e n).1.
Proof. destruct n; cbn; auto using iter_pos_shr_1_nonneg. Qed.

Lemma shr_record_of_loc_m m l : shr_m (shr_record_of_loc m l) = m.
Proof. by destruct l as [|[]]. Qed.

Lemma shr_fexp_nonneg m e l :
  0 <= m -> 0 <= shr_m (shr_fexp prec emax m e l).1.
Proof.
  intros H. unfold shr_fexp. apply shr_nonneg.
  by rewrite shr_record_of_loc_m.
Qed.

Lemma round_nearest_even_nonneg m l : 0 <= m -> 0 <= round_nearest_even m l.
Proof. destruct l as [|[]]; cbn; try destruct (Z.even m); lia. Qed.

Lemma binary_round_aux_not_nan s m e l :
  0 <= m -> num_is_nan (binary_round_aux prec emax s m e l) = false.
Proof.
  intros Hm. unfold binary_round_aux.
  pose proof (shr_fexp_nonneg m e l Hm) as H1.
  destruct (shr_fexp prec emax m e l) as [mrs1 e1]. cbn in H1.
  pose proof (shr_fexp_nonneg _ e1 loc_Exact
    (round_nearest_even_nonneg _ (loc_of_shr_record mrs1) H1)) as H2.
  destruct (shr_fexp prec emax _ e1 loc_Exact) as [mrs2 e2]. cbn in H2.
  destruct (shr_m mrs2); [done| |lia]. by destruct (_ <=? _).
Qed.

(** A product is NaN exactly when an operand is, or for zero times
    infinity. *)
Lemma num_mul_is_nan x y :
  num_is_nan (num_mul x y) = true <->
  num_is_nan x = true \/ num_is_nan y = true
  \/ (num_is_zero x = true /\ y = num_infinity (num_sign y))
  \/ (x = num_infinity (num_sign x) /\ num_is_zero y = true).
Proof.
  destruct x as [sx|sx| |sx mx ex], y as [sy|sy| |sy my ey]; cbn;
    try (split; [discriminate | intros [|[|[[]|[]]]]; discriminate]);
    try (split; auto 6; fail).
  unfold num_mul; cbn. rewrite binary_round_aux_not_nan by lia.
  split; [discriminate | intros [|[|[[]|[]]]]; discriminate].
Qed.

Lemma num_of_Z_not_nan z : num_is_nan (num_of_Z z) = false.
Proof.
  unfold num_of_Z, binary_normalize, binary_round.
  destruct z as [|p|p]; [done| |];
    destruct (shl_align _ _ _) as [mz ez]; by apply binary_round_aux_not_nan.
Qed.

Lemma SFdiv_core_binary_nonneg m1 e1 m2 e2 :
  0 <= m1 -> 0 < m2 ->
  0 <= (SFdiv_core_binary prec emax m1 e1 m2 e2).1.1.
Proof.
  intros H1 H2. unfold SFdiv_core_binary.
  set (s := e1 - e2 - _). set (m' := match s with 0 => _ | _ => _ end).
  assert (0 <= m') as Hm'.
  { subst m'. destruct s; [done| |done]. by apply Z.shiftl_nonneg. }
  pose proof (Z.div_pos m' m2 Hm' H2) as Hq. unfold Z.div in Hq.
  by destruct (Z.div_eucl m' m2).
Qed.

Lemma num_of_decimal_not_nan neg m e10 :
  num_is_nan (num_of_decimal neg m e10) = false.
Proof.
  unfold num_of_decimal. destruct (Z.leb_spec m 0); [done|].
  destruct (Z.leb_spec 0 e10).
  - pose proof (num_of_Z_not_nan (m * 10 ^ e10)) as Hn. unfold num_of_Z in Hn.
    by destruct (binary_normalize _ _ _ _ _).
  - assert (0 < 10 ^ (- e10)) as Hpow by (apply Z.pow_pos_nonneg; lia).
    pose proof (SFdiv_core_binary_nonneg m 0 (10 ^ (- e10)) 0 ltac:(lia) Hpow).
    destruct (SFdiv_core_binary _ _ _ _ _ _) as [[q e] l].
    by apply binary_round_aux_not_nan.
Qed.

Lemma num_to_boolean_true x :
  num_to_boolean x = true <-> num_is_nan x = false /\ num_is_zero x = false.
Proof. unfold num_to_boolean. by rewrite negb_true_iff, orb_false_iff. Qed.

Lemma num_to_boolean_nan : num_to_boolean num_nan = false.
Proof. reflexivity. Qed.

Lemma num_to_boolean_zero s : num_to_boolean (S754_zero s) = false.
Proof. reflexivity. Qed.

Lemma num_of_Z_0 : num_of_Z 0 = num_zero.
Proof. reflexivity. Qed.

Lemma num_of_decimal_0 neg e10 : num_of_decimal neg 0 e10 = S754_zero neg.
Proof. reflexivity. Qed.

Lemma num_value_finite x : is_Some (num_value x) <-> num_is_finite x = true.
Proof. destruct x; cbn; split; intros H; try done; by inversion H. Qed.

End NumberFacts.

(** Doubles behave as in the browser on the classic examples. *)
Example num_mul_10_3 : num_mul (num_of_Z 10) (num_of_Z 3) = num_of_Z 30.
Proof. vm_compute. reflexivity. Qed.

Example num_mul_tenth_3 :
  num_mul (num_of_decimal false 1 (-1)) (num_of_Z 3)
  <> num_of_decimal false 3 (-1).
Proof. vm_compute. discriminate. Qed.

Example num_of_decimal_overflow :
  num_of_decimal false 1 400 = num_infinity false.
Proof. vm_compute. reflexivity. Qed.

Example num_to_Z_30 : num_to_Z (num_of_Z 30) = Some 30.
Proof. vm_compute. reflexivity. Qed.

#[export] Hint Rewrite num_mul_nan_l num_mul_nan_r : js_rw.
