(* ===== verification/NumberExact.v ===== *)
(** * Integers as doubles

    The product [item.unit_price * item.quantity] of line 50 of
    [src/checkout_web/script.js] is a product of doubles.  This file shows
    when it is exact: an integer below [2^53] in absolute value is a double
    ([num_of_Z] does not round it), and the double product of two such
    integers is their integer product as long as that stays below [2^53].
    Prices and quantities that are whole numbers therefore have whole,
    exact subtotals; beyond [2^53] the product rounds.

    The proof follows the rounding of [SpecFloat] step by step: a mantissa
    is aligned to 53 binary digits, and the digits a product shifts out are
    zeros. *)

From Stdlib Require Import ZArith List Lia Bool SpecFloat.
From stdpp Require Import base tactics option numbers.
From S2P Require Import Prelude Number.

#[local] Open Scope Z_scope.

(** The mantissa and the exponent of the double of an integer [z > 0]
    below [2^53]: [z] shifted left to 53 binary digits. *)
Definition int_mantissa (z : Z) : positive :=
  Z.to_pos (z * 2 ^ (prec - Zdigits2 z)).

Definition int_exponent (z : Z) : Z := Zdigits2 z - prec.

(** The double of such an integer, sign apart. *)
Definition int_number (neg : bool) (z : Z) : number :=
  S754_finite neg (int_mantissa z) (int_exponent z).

(** The integer a double is, when it is one (what [Number.isInteger]
    tests): the mantissa shifted by the exponent, when no bit is lost. *)
Definition num_integer (x : number) : option Z :=
  match x with
  | S754_zero _ => Some 0
  | S754_finite s m e =>
      let v := if s then Zneg m else Zpos m in
      if 0 <=? e then Some (v * 2 ^ e)
      else if v mod 2 ^ (- e) =? 0 then Some (v / 2 ^ (- e)) else None
  | _ => None
  end.

Section Digits.
Implicit Types (p : positive) (d k : Z).

(** *** Binary digits *)

Lemma digits2_bounds p :
  2 ^ (Zpos (digits2_pos p) - 1) <= Zpos p < 2 ^ Zpos (digits2_pos p).
Proof.
  induction p as [p IH|p IH|]; cbn [digits2_pos]; [| |cbn; lia];
    rewrite Pos2Z.inj_succ;
    replace (Z.succ (Zpos (digits2_pos p)) - 1)
      with (Z.succ (Zpos (digits2_pos p) - 1)) by lia;
    rewrite !Z.pow_succ_r by lia; lia.
Qed.

Lemma pow2_lt_inv a b : 0 <= b -> 2 ^ a < 2 ^ b -> a < b.
Proof.
  intros Hb H. destruct (Z.lt_ge_cases a 0) as [|Ha]; [lia|].
  apply (Z.pow_lt_mono_r_iff 2); lia.
Qed.

(** The number of digits is determined by the two powers around. *)
Lemma digits2_unique p d :
  2 ^ (d - 1) <= Zpos p < 2 ^ d -> Zpos (digits2_pos p) = d.
Proof.
  intros [H1 H2]. pose proof (digits2_bounds p) as [H3 H4].
  assert (0 < d).
  { destruct (Z.lt_trichotomy d 0) as [Hd|[->|Hd]];
      [rewrite Z.pow_neg_r in H2 by lia; lia | cbn in H2; lia | done]. }
  assert (Zpos (digits2_pos p) - 1 < d) by (apply pow2_lt_inv; lia).
  assert (d - 1 < Zpos (digits2_pos p)) by (apply pow2_lt_inv; lia).
  lia.
Qed.

Lemma pow2_pos k : 0 <= k -> 0 < 2 ^ k.
Proof. intros. apply Z.pow_pos_nonneg; lia. Qed.

(** Shifting left by [k] adds [k] digits. *)
Lemma digits2_shift p q k :
  0 <= k -> Zpos q = Zpos p * 2 ^ k ->
  Zpos (digits2_pos q) = Zpos (digits2_pos p) + k.
Proof.
  intros Hk Hq. apply digits2_unique. rewrite Hq.
  pose proof (digits2_bounds p) as [H1 H2]. pose proof (pow2_pos k Hk).
  replace (Zpos (digits2_pos p) + k - 1) with (Zpos (digits2_pos p) - 1 + k)
    by lia.
  rewrite !Z.pow_add_r by lia. nia.
Qed.

(** *** Shifting out zeros *)

Lemma shr_1_even k : 0 <= k ->
  shr_1 {| shr_m := 2 * k; shr_r := false; shr_s := false |}
  = {| shr_m := k; shr_r := false; shr_s := false |}.
Proof. intros Hk. destruct k; [done|done|lia]. Qed.

Lemma iter_pos_shr_1_exact p k : 0 <= k ->
  SpecFloat.iter_pos shr_1 p
    {| shr_m := k * 2 ^ Zpos p; shr_r := false; shr_s := false |}
  = {| shr_m := k; shr_r := false; shr_s := false |}.
Proof.
  revert k. induction p as [p IH|p IH|]; intros k Hk; cbn [SpecFloat.iter_pos].
  - replace (k * 2 ^ Zpos p~1) with (2 * ((k * 2 ^ Zpos p) * 2 ^ Zpos p)).
    + assert (0 <= 2 ^ Zpos p) by (apply Z.pow_nonneg; lia).
      rewrite shr_1_even, IH, IH by nia. done.
    + rewrite Pos2Z.inj_xI.
      replace (2 * Zpos p + 1) with (Zpos p + Zpos p + 1) by lia.
      rewrite !Z.pow_add_r, Z.pow_1_r by lia. lia.
  - replace (k * 2 ^ Zpos p~0) with ((k * 2 ^ Zpos p) * 2 ^ Zpos p).
    + rewrite IH, IH; [done|lia|]. apply Z.mul_nonneg_nonneg; [lia|].
      apply Z.pow_nonneg. lia.
    + replace (Zpos p~0) with (Zpos p + Zpos p) by lia.
      rewrite Z.pow_add_r by lia. lia.
  - rewrite Z.pow_1_r, Z.mul_comm. by apply shr_1_even.
Qed.

Lemma iter_xO p (n : positive) :
  Zpos (Pos.iter xO p n) = Zpos p * 2 ^ Zpos n.
Proof.
  induction n as [|n IH] using Pos.peano_ind.
  - cbn. lia.
  - rewrite Pos.iter_succ, Pos2Z.inj_xO, IH, Pos2Z.inj_succ, Z.pow_succ_r by lia.
    lia.
Qed.

End Digits.

Section Rounding.
Implicit Types (m : positive) (e : Z) (s : bool).

(** *** Rounding what needs no rounding *)

(** A mantissa already in place is kept. *)
Lemma binary_round_aux_aligned s m e :
  fexp prec emax (Zpos (digits2_pos m) + e) = e -> e <= emax - prec ->
  binary_round_aux prec emax s (Zpos m) e loc_Exact = S754_finite s m e.
Proof.
  intros Hf He. unfold binary_round_aux, shr_fexp. cbn [Zdigits2].
  rewrite Hf, Z.sub_diag. cbn [shr shr_record_of_loc shr_m loc_of_shr_record
    round_nearest_even Zdigits2].
  rewrite Hf, Z.sub_diag. cbn [shr shr_record_of_loc shr_m].
  by rewrite (proj2 (Z.leb_le _ _) He).
Qed.

(** A mantissa with [n] zeros too many is shifted by [n], exactly. *)
Lemma binary_round_aux_shift s m m' e (n : positive) :
  Zpos m = Zpos m' * 2 ^ Zpos n ->
  fexp prec emax (Zpos (digits2_pos m) + e) = e + Zpos n ->
  e + Zpos n <= emax - prec ->
  binary_round_aux prec emax s (Zpos m) e loc_Exact
  = S754_finite s m' (e + Zpos n).
Proof.
  intros Hm Hf He. unfold binary_round_aux, shr_fexp. cbn [Zdigits2].
  rewrite Hf. replace (e + Zpos n - e) with (Zpos n) by lia.
  cbn [shr shr_record_of_loc]. rewrite Hm, iter_pos_shr_1_exact by lia.
  cbn [shr_m loc_of_shr_record round_nearest_even Zdigits2].
  assert (Hd : Zpos (digits2_pos m') + (e + Zpos n) = Zpos (digits2_pos m) + e).
  { rewrite (digits2_shift m' m (Zpos n)); lia. }
  rewrite Hd, Hf, Z.sub_diag. cbn [shr shr_record_of_loc shr_m].
  by rewrite (proj2 (Z.leb_le _ _) He).
Qed.

End Rounding.

Section Integers.
Implicit Types (p q : positive) (s : bool) (a b z : Z).

(** *** Integers below [2^53] *)

Lemma fexp_normal x : 3 - emax <= x -> fexp prec emax x = x - prec.
Proof. unfold fexp, SpecFloat.emin, prec, emax. lia. Qed.

Lemma digits2_small p : Zpos p < 2 ^ prec -> Zpos (digits2_pos p) <= prec.
Proof.
  intros Hp. pose proof (digits2_bounds p) as [H1 _].
  assert (Zpos (digits2_pos p) - 1 < prec); [|lia].
  apply pow2_lt_inv; [done|lia].
Qed.

(** The mantissa of [int_number] is the integer shifted to 53 digits. *)
Lemma int_mantissa_spec p :
  Zpos p < 2 ^ prec ->
  Zpos (int_mantissa (Zpos p))
  = Zpos p * 2 ^ (prec - Zpos (digits2_pos p)).
Proof.
  intros Hp%digits2_small. unfold int_mantissa. cbn [Zdigits2].
  pose proof (pow2_pos (prec - Zpos (digits2_pos p))). rewrite Z2Pos.id; lia.
Qed.

Lemma int_mantissa_digits p :
  Zpos p < 2 ^ prec -> Zpos (digits2_pos (int_mantissa (Zpos p))) = prec.
Proof.
  intros Hp. pose proof (digits2_small p Hp).
  rewrite (digits2_shift p _ (prec - Zpos (digits2_pos p)));
    [lia|lia|by apply int_mantissa_spec].
Qed.

(** Digits of a product: the sum of the digits, or one less. *)
Lemma digits2_mul p q :
  Zpos (digits2_pos p) + Zpos (digits2_pos q) - 1
  <= Zpos (digits2_pos (p * q))
  <= Zpos (digits2_pos p) + Zpos (digits2_pos q).
Proof.
  pose proof (digits2_bounds p) as [Hp1 Hp2].
  pose proof (digits2_bounds q) as [Hq1 Hq2].
  pose proof (digits2_bounds (p * q)) as [H1 H2].
  rewrite Pos2Z.inj_mul in H1, H2.
  set (dp := Zpos (digits2_pos p)) in *. set (dq := Zpos (digits2_pos q)) in *.
  assert (0 < dp /\ 0 < dq) as [? ?] by (unfold dp, dq; lia).
  pose proof (pow2_pos (dp - 1)). pose proof (pow2_pos (dq - 1)).
  assert (dp + dq - 2 < Zpos (digits2_pos (p * q))).
  { apply pow2_lt_inv; [lia|].
    replace (dp + dq - 2) with ((dp - 1) + (dq - 1)) by lia.
    rewrite Z.pow_add_r by lia. nia. }
  assert (Zpos (digits2_pos (p * q)) - 1 < dp + dq); [|lia].
  apply pow2_lt_inv; [lia|]. rewrite (Z.pow_add_r 2 dp dq) by lia. nia.
Qed.

(** An integer below [2^53] is a double: [num_of_Z] does not round. *)
Lemma binary_round_integer s p :
  Zpos p < 2 ^ prec ->
  binary_round prec emax s p 0 = int_number s (Zpos p).
Proof.
  intros Hp. pose proof (digits2_small p Hp) as Hd.
  pose proof (int_mantissa_spec p Hp) as Hm.
  unfold binary_round, shl_align, int_number, int_exponent. cbn [Zdigits2].
  rewrite fexp_normal by (unfold emax; lia).
  destruct (Zpos (digits2_pos p) + 0 - prec - 0) as [|d|d] eqn:Ed; [|lia|].
  - replace (prec - Zpos (digits2_pos p)) with 0 in Hm by lia.
    rewrite binary_round_aux_aligned.
    + f_equal; try lia; apply Pos2Z.inj; rewrite Hm; cbn; lia.
    + rewrite fexp_normal by (unfold emax; lia). lia.
    + done.
  - replace (prec - Zpos (digits2_pos p)) with (Zpos d) in Hm by lia.
    rewrite binary_round_aux_aligned.
    + f_equal; try lia; apply Pos2Z.inj; by rewrite iter_xO, Hm.
    + rewrite (digits2_shift p _ (Zpos d)), fexp_normal;
        [lia|unfold emax; lia|lia|apply iter_xO].
    + unfold emax, prec in *. lia.
Qed.

Lemma num_of_Z_integer z :
  z <> 0 -> Z.abs z < 2 ^ prec ->
  num_of_Z z = int_number (z <? 0) (Z.abs z).
Proof.
  intros Hz Hp. destruct z as [|p|p]; [done| |];
    by apply binary_round_integer.
Qed.

(** An integer literal is read without rounding as well. *)
Lemma num_of_decimal_integer s z :
  0 < z < 2 ^ prec -> num_of_decimal s z 0 = int_number s z.
Proof.
  intros [H1 H2]. unfold num_of_decimal.
  rewrite (proj2 (Z.leb_gt _ _) H1). cbn [Z.leb Z.compare Z.pow].
  rewrite Z.mul_1_r. destruct z as [|p|p]; [lia| |lia]. cbn [binary_normalize].
  by rewrite (binary_round_integer false p H2).
Qed.

Lemma num_of_decimal_num_of_Z s z :
  0 < z < 2 ^ prec -> num_of_decimal s z 0 = num_of_Z (if s then - z else z).
Proof.
  intros Hz. rewrite num_of_decimal_integer, num_of_Z_integer by (destruct s; lia).
  destruct s; [replace (Z.abs (- z)) with z by lia
              |replace (Z.abs z) with z by lia]; f_equal; lia.
Qed.

(** *** Products of integers *)

(** The double product of two integer doubles is the integer product,
    while that is below [2^53]. *)
Lemma int_number_mul s1 s2 p q :
  Zpos (p * q) < 2 ^ prec ->
  num_mul (int_number s1 (Zpos p)) (int_number s2 (Zpos q))
  = int_number (xorb s1 s2) (Zpos (p * q)).
Proof.
  intros Hpq.
  assert (Zpos p < 2 ^ prec /\ Zpos q < 2 ^ prec) as [Hp Hq] by nia.
  pose proof (digits2_small _ Hp). pose proof (digits2_small _ Hq).
  pose proof (digits2_small _ Hpq). pose proof (digits2_mul p q) as [Hd1 Hd2].
  pose proof (int_mantissa_spec _ Hp) as Hmp.
  pose proof (int_mantissa_spec _ Hq) as Hmq.
  pose proof (int_mantissa_spec _ Hpq) as Hmpq.
  unfold num_mul, int_number, int_exponent, SFmul. cbn [Zdigits2].
  set (dp := Zpos (digits2_pos p)) in *. set (dq := Zpos (digits2_pos q)) in *.
  set (d := Zpos (digits2_pos (p * q))) in *.
  assert (0 < dp /\ 0 < dq /\ 0 < d) as (? & ? & ?) by (unfold dp, dq, d; lia).
  assert (Hn : Zpos (Z.to_pos (d + prec - dp - dq)) = d + prec - dp - dq)
    by (unfold prec in *; lia).
  assert (Hm : Zpos (int_mantissa (Zpos p) * int_mantissa (Zpos q))
               = Zpos (int_mantissa (Zpos (p * q)))
                 * 2 ^ Zpos (Z.to_pos (d + prec - dp - dq))).
  { rewrite Pos2Z.inj_mul, Hmp, Hmq, Hmpq, Hn, Pos2Z.inj_mul.
    replace (Zpos p * Zpos q * 2 ^ (prec - d) * 2 ^ (d + prec - dp - dq))
      with (Zpos p * Zpos q * (2 ^ (prec - d) * 2 ^ (d + prec - dp - dq)))
      by lia.
    rewrite <- Z.pow_add_r by (unfold prec in *; lia).
    replace (Zpos p * 2 ^ (prec - dp) * (Zpos q * 2 ^ (prec - dq)))
      with (Zpos p * Zpos q * (2 ^ (prec - dp) * 2 ^ (prec - dq))) by lia.
    rewrite <- Z.pow_add_r by lia. do 2 f_equal. lia. }
  rewrite (binary_round_aux_shift _ _ _ _ _ Hm).
  - f_equal. lia.
  - rewrite (digits2_shift _ _ _ (Pos2Z.is_nonneg _) Hm), int_mantissa_digits
      by done.
    rewrite fexp_normal; unfold prec, emax in *; lia.
  - unfold prec, emax in *. lia.
Qed.

Lemma num_mul_integers a b :
  a <> 0 -> b <> 0 -> Z.abs (a * b) < 2 ^ prec ->
  num_mul (num_of_Z a) (num_of_Z b) = num_of_Z (a * b).
Proof.
  intros Ha Hb Hab.
  assert (Z.abs a < 2 ^ prec /\ Z.abs b < 2 ^ prec) as [? ?] by nia.
  rewrite !num_of_Z_integer by lia.
  destruct a as [|p|p], b as [|q|q]; try done; by apply int_number_mul.
Qed.

(** Without negative operands the zero products are [+0] as well. *)
Lemma num_mul_naturals a b :
  0 <= a < 2 ^ prec -> 0 <= b < 2 ^ prec -> a * b < 2 ^ prec ->
  num_mul (num_of_Z a) (num_of_Z b) = num_of_Z (a * b).
Proof.
  intros Ha Hb Hab.
  destruct (decide (a = 0)) as [->|Ha0]; [|destruct (decide (b = 0)) as [->|Hb0]].
  - destruct (decide (b = 0)) as [->|Hb0]; [done|].
    by rewrite (num_of_Z_integer b), (proj2 (Z.ltb_ge _ _)) by lia.
  - by rewrite Z.mul_0_r, (num_of_Z_integer a), (proj2 (Z.ltb_ge _ _)) by lia.
  - apply num_mul_integers; [done|done|]. rewrite Z.abs_eq; nia.
Qed.

(** *** Reading the integer back *)

Lemma int_number_integer s p :
  Zpos p < 2 ^ prec ->
  num_integer (int_number s (Zpos p)) = Some (if s then Zneg p else Zpos p).
Proof.
  intros Hp. pose proof (digits2_small p Hp) as Hd.
  pose proof (int_mantissa_spec p Hp) as Hm.
  unfold int_number, int_exponent, num_integer. cbn [Zdigits2].
  set (d := Zpos (digits2_pos p)) in *.
  assert (Hv : (if s then Zneg (int_mantissa (Zpos p))
                else Zpos (int_mantissa (Zpos p)))
               = (if s then Zneg p else Zpos p) * 2 ^ (prec - d))
    by (destruct s; lia).
  rewrite Hv. pose proof (pow2_pos (prec - d)).
  destruct (0 <=? d - prec) eqn:E.
  - replace (prec - d) with 0 by lia. replace (d - prec) with 0 by lia.
    f_equal. cbn. lia.
  - replace (- (d - prec)) with (prec - d) by lia.
    rewrite Z.mod_mul, Z.div_mul by lia. done.
Qed.

Lemma num_of_Z_integer_value z :
  Z.abs z < 2 ^ prec -> num_integer (num_of_Z z) = Some z.
Proof.
  intros Hz. destruct z as [|p|p]; [done| |];
    unfold num_of_Z; cbn [binary_normalize];
    by rewrite binary_round_integer, int_number_integer.
Qed.

End Integers.

Section Exactness.

(** Integers are doubles: an integer below [2^53] in absolute value
    is converted to a double without rounding: the double read back as an
    integer is the integer. *)
Theorem num_of_Z_exact (z : Z) :
  Z.abs z < 2 ^ 53 -> num_integer (num_of_Z z) = Some z.
Proof. apply num_of_Z_integer_value. Qed.

(** C29 (integer products are exact). The double product of two integers
    below [2^53] is their integer product, as long as that is below [2^53]
    as well: [*] on whole prices and quantities does not round.  A zero
    operand gives a zero, of either sign. *)
Theorem num_mul_exact (a b : Z) :
  Z.abs a < 2 ^ 53 -> Z.abs b < 2 ^ 53 -> Z.abs (a * b) < 2 ^ 53 ->
  num_integer (num_mul (num_of_Z a) (num_of_Z b)) = Some (a * b).
Proof.
  change (2 ^ 53) with (2 ^ prec). intros Ha Hb Hab.
  destruct (decide (a = 0)) as [->|Ha0]; [|destruct (decide (b = 0)) as [->|Hb0]].
  - destruct (decide (b = 0)) as [->|Hb0]; [done|].
    by rewrite (num_of_Z_integer b).
  - by rewrite Z.mul_0_r, (num_of_Z_integer a).
  - by rewrite num_mul_integers, num_of_Z_integer_value by done.
Qed.

(** Beyond [2^53] the conversion and the product round: the odd integer
    [2^53 + 1] becomes [2^53], and the square of [94906267] loses its last
    bit. *)
Example num_of_Z_rounds :
  num_integer (num_of_Z (2 ^ 53 + 1)) = Some (2 ^ 53)
  /\ num_integer (num_mul (num_of_Z 94906267) (num_of_Z 94906267))
     = Some (94906267 * 94906267 - 1).
Proof. by vm_compute. Qed.

(** The sign of a zero product is the product of the signs. *)
Example num_mul_negative_zero :
  num_mul (num_of_Z (-3)) (num_of_Z 0) = S754_zero true.
Proof. reflexivity. Qed.

End Exactness.
