(* ===== verification/Value.v ===== *)
(** * ECMAScript values, thrown errors and the host interface

    The values the script handles are the ones [JSON.parse] can return
    (line 28), plus [undefined], which reading a missing property yields
    (lines 50-56).  This file holds the value type with its induction
    principle and decidable equality, the errors the script can meet, and
    [Builtins]: the operations of the browser that the script calls but does
    not define.  The script is verified against that interface; the files
    that model the browser discharge it. *)

From Stdlib Require Import ZArith List Lia Bool.
From stdpp Require Import base tactics list option numbers.
From S2P Require Import Prelude JsString Number.

#[local] Open Scope Z_scope.

(** ** Values *)

(** An object is the list of its own properties in creation order, each key
    once.  Arrays are dense: [JSON.parse] makes no holes. *)
#[warnings="-register-all"]
Inductive value : Type :=
| VUndefined
| VNull
| VBool (b : bool)
| VNumber (x : number)
| VString (s : jsstring)
| VArray (l : list value)
| VObject (props : list (jsstring * value)).

(** ** Errors

    The three kinds of exception the script can meet: a [TypeError] of the
    language itself, the [SyntaxError] of [JSON.parse] and the
    [InvalidCharacterError] DOMException of [atob]. *)
Inductive type_error : Type :=
| NullishProperty     (* a property of undefined or null is read or set *)
| NotCallable         (* a value that is not a function is called *)
| NotPrimitive.       (* an object has no primitive value *)

Inductive error : Type :=
| TypeError (r : type_error)
| SyntaxError
| InvalidCharacterError.

#[export] Instance type_error_eq_dec : EqDecision type_error.
Proof. solve_decision. Defined.
#[export] Instance error_eq_dec : EqDecision error.
Proof. solve_decision. Defined.

(** Evaluations that can throw. *)
Abbreviation result := (completion error).

(** ** The host interface *)

Class Builtins : Type := {
  (** [atob(s)]: forgiving-base64 decode; throws [InvalidCharacterError]. *)
  atob : jsstring -> result jsstring;
  (** [JSON.parse(s)]; throws [SyntaxError]. *)
  JSON_parse : jsstring -> result value;
  (** [parseFloat(s)]. *)
  parseFloat : jsstring -> number;
  (** ToNumber on a string (StringToNumber). *)
  StringToNumber : jsstring -> number;
  (** Number::toString, radix 10. *)
  Number_toString : number -> jsstring;
  (** [x.toLocaleString("es-AR")]. *)
  Number_toLocaleString : number -> jsstring;
  (** [x.toLocaleString("es-AR", {style: "currency", currency: "ARS"})]. *)
  Number_toLocaleCurrency : number -> jsstring;
  (** The separator of [Array.prototype.toLocaleString]. *)
  list_separator : jsstring;
}.

(** ** Structural induction through the nested lists *)

Section ValueInd.
Variable P : value -> Prop.
Hypothesis Hundef : P VUndefined.
Hypothesis Hnull : P VNull.
Hypothesis Hbool : forall b, P (VBool b).
Hypothesis Hnum : forall x, P (VNumber x).
Hypothesis Hstr : forall s, P (VString s).
Hypothesis Harr : forall l, Forall P l -> P (VArray l).
Hypothesis Hobj : forall p, Forall (fun kv => P kv.2) p -> P (VObject p).

Fixpoint value_ind_strong (v : value) : P v :=
  match v with
  | VUndefined => Hundef
  | VNull => Hnull
  | VBool b => Hbool b
  | VNumber x => Hnum x
  | VString s => Hstr s
  | VArray l =>
      Harr l ((fix go l : Forall P l :=
        match l with
        | [] => Forall_nil _
        | x :: l' => Forall_cons _ _ _ (value_ind_strong x) (go l')
        end) l)
  | VObject p =>
      Hobj p ((fix go p : Forall (fun kv => P kv.2) p :=
        match p with
        | [] => Forall_nil _
        | kv :: p' => Forall_cons _ kv _ (value_ind_strong kv.2) (go p')
        end) p)
  end.
End ValueInd.

(** ** Decidable equality *)

Fixpoint value_eqb (x y : value) : bool :=
  match x, y with
  | VUndefined, VUndefined | VNull, VNull => true
  | VBool a, VBool b => bool_decide (a = b)
  | VNumber a, VNumber b => bool_decide (a = b)
  | VString a, VString b => bool_decide (a = b)
  | VArray l1, VArray l2 =>
      (fix go l1 l2 :=
        match l1, l2 with
        | [], [] => true
        | a :: l1', b :: l2' => value_eqb a b && go l1' l2'
        | _, _ => false
        end) l1 l2
  | VObject p1, VObject p2 =>
      (fix go p1 p2 :=
        match p1, p2 with
        | [], [] => true
        | (k1, a) :: p1', (k2, b) :: p2' =>
            bool_decide (k1 = k2) && value_eqb a b && go p1' p2'
        | _, _ => false
        end) p1 p2
  | _, _ => false
  end.

Lemma value_eqb_eq x y : value_eqb x y = true <-> x = y.
Proof.
  revert y.
  induction x as [| |a|a|a|l IH|p IH] using value_ind_strong;
    intros [| |b|b|b|l'|p']; cbn; try (split; congruence);
    rewrite ?bool_decide_eq_true; try (split; congruence).
  - revert l'. induction IH as [|a l Ha Hl IHl]; intros [|b l'];
      try (split; congruence).
    rewrite andb_true_iff, Ha, IHl.
    split; [by intros [-> [= ->]] | by intros [= -> ->]].
  - revert p'. induction IH as [|[k a] p Ha Hp IHp]; intros [|[k' b] p'];
      try (split; congruence).
    rewrite !andb_true_iff, bool_decide_eq_true, Ha, IHp. cbn.
    split; [by intros [[-> ->] [= ->]] | by intros [= -> -> ->]].
Qed.

#[export] Instance value_eq_dec : EqDecision value.
Proof.
  intros x y. destruct (value_eqb x y) eqn:E.
  - left. by apply value_eqb_eq.
  - right. intros H%value_eqb_eq. congruence.
Defined.

(** ** Own properties *)

(** The value of the own property [k], if the object has one. *)
Fixpoint lookup_prop (k : jsstring) (props : list (jsstring * value)) :
    option value :=
  match props with
  | [] => None
  | (k', v) :: props' =>
      if bool_decide (k' = k) then Some v else lookup_prop k props'
  end.

Definition has_own (k : jsstring) (props : list (jsstring * value)) : bool :=
  match lookup_prop k props with Some _ => true | None => false end.

(** CreateDataProperty: overwrite the value of an existing key in place,
    append a new key at the end. *)
Fixpoint set_prop (k : jsstring) (v : value) (props : list (jsstring * value)) :
    list (jsstring * value) :=
  match props with
  | [] => [(k, v)]
  | (k', v') :: props' =>
      if bool_decide (k' = k) then (k', v) :: props'
      else (k', v') :: set_prop k v props'
  end.

(** ** Shape predicates *)

(** Values of JSON texts: no [undefined] anywhere, no [NaN] (a number too
    large for a double is read as an infinity, so those occur), every
    object key used once. *)
Fixpoint is_json (v : value) : bool :=
  match v with
  | VUndefined => false
  | VNull | VBool _ | VString _ => true
  | VNumber x => negb (num_is_nan x)
  | VArray l => forallb is_json l
  | VObject p =>
      forallb (fun kv => is_json kv.2) p
      && bool_decide (NoDup (map fst p))
  end.

(** Every string inside the value, keys included, is a sequence of code
    units. *)
Fixpoint wf_value (v : value) : bool :=
  match v with
  | VString s => forallb is_code_unit s
  | VArray l => forallb wf_value l
  | VObject props =>
      forallb (fun kv => forallb is_code_unit kv.1 && wf_value kv.2) props
  | _ => true
  end.

Definition is_array (v : value) : bool :=
  match v with VArray _ => true | _ => false end.

Definition is_nullish (v : value) : bool :=
  match v with VUndefined | VNull => true | _ => false end.

Section PropFacts.
Implicit Types (k : jsstring) (v : value) (p : list (jsstring * value)).

Lemma lookup_set_prop_eq k v p : lookup_prop k (set_prop k v p) = Some v.
Proof.
  induction p as [|[k' v'] p IH]; cbn.
  - by rewrite bool_decide_eq_true_2.
  - case_bool_decide as Hk; cbn.
    + by rewrite bool_decide_eq_true_2.
    + by rewrite bool_decide_eq_false_2.
Qed.

Lemma lookup_set_prop_ne k k' v p :
  k <> k' -> lookup_prop k' (set_prop k v p) = lookup_prop k' p.
Proof.
  intros Hne. induction p as [|[k0 v0] p IH]; cbn.
  - by rewrite bool_decide_eq_false_2.
  - case_bool_decide as Hk; cbn; [subst k0|].
    + by rewrite !bool_decide_eq_false_2.
    + by rewrite IH.
Qed.

Lemma lookup_prop_In k v p : lookup_prop k p = Some v -> In (k, v) p.
Proof.
  induction p as [|[k0 v0] p IH]; cbn; [done|].
  case_bool_decide as Hk; [intros [= ->]; subst; by left | right; auto].
Qed.

Lemma lookup_prop_None k p : lookup_prop k p = None <-> ~ In k (map fst p).
Proof.
  induction p as [|[k0 v0] p IH]; cbn; [tauto|].
  case_bool_decide as Hk; [split; [done | tauto] | rewrite IH; tauto].
Qed.

Lemma set_prop_keys_present k v p :
  In k (map fst p) -> map fst (set_prop k v p) = map fst p.
Proof.
  induction p as [|[k0 v0] p IH]; cbn; [done|].
  case_bool_decide as Hk; cbn; [done|]. intros [|]; [done|]. by rewrite IH.
Qed.

Lemma set_prop_keys_absent k v p :
  ~ In k (map fst p) -> map fst (set_prop k v p) = map fst p ++ [k].
Proof.
  induction p as [|[k0 v0] p IH]; cbn; [done|].
  case_bool_decide as Hk; cbn; [tauto|]. intros Hn. rewrite IH; tauto.
Qed.

(** Keys stay pairwise distinct under [set_prop]. *)
Lemma set_prop_NoDup k v p :
  NoDup (map fst p) -> NoDup (map fst (set_prop k v p)).
Proof.
  intros Hp. destruct (in_dec (list_eq_dec Z.eq_dec) k (map fst p)) as [Hi|Hn].
  - by rewrite set_prop_keys_present.
  - rewrite set_prop_keys_absent by done.
    apply list.NoDup_app; split_and!; [done| |apply NoDup_singleton].
    intros x Hx%list_elem_of_In ->%list_elem_of_singleton. done.
Qed.

Lemma is_code_unit_spec c : is_code_unit c = true <-> 0 <= c < 65536.
Proof. unfold is_code_unit. lia. Qed.

Lemma forallb_is_code_unit (s : jsstring) :
  forallb is_code_unit s = true <-> wf_string s.
Proof.
  rewrite forallb_Forall_true. unfold wf_string.
  apply Forall_iff. intros c. apply is_code_unit_spec.
Qed.

Lemma wf_value_set_prop k v p :
  wf_string k -> wf_value v = true -> wf_value (VObject p) = true ->
  wf_value (VObject (set_prop k v p)) = true.
Proof.
  intros Hk%forallb_is_code_unit Hv. cbn [wf_value].
  induction p as [|[k' v'] p IH]; cbn; [by rewrite Hk, Hv|].
  rewrite andb_true_iff. intros [[Hk' Hv']%andb_true_iff Hp].
  case_bool_decide; cbn; rewrite ?Hk', ?Hv, ?Hv', ?Hp; auto.
Qed.

(** A property read from a well-formed object is well-formed. *)
Lemma wf_value_lookup_prop k v p :
  wf_value (VObject p) = true -> lookup_prop k p = Some v ->
  wf_value v = true.
Proof.
  cbn [wf_value]. induction p as [|[k' v'] p IH]; cbn; [done|].
  rewrite andb_true_iff. intros [[_ Hv']%andb_true_iff Hp].
  case_bool_decide; [by intros [= <-] | by apply IH].
Qed.

End PropFacts.

(** ** What the script's theorems need of a host, beyond its types *)

Class BuiltinsLaws (B : Builtins) : Prop := {
  atob_error s e : atob s = Throw e -> e = InvalidCharacterError;
  atob_byte_string s t : atob s = Normal t -> is_byte_string t;
  JSON_parse_error s e : JSON_parse s = Throw e -> e = SyntaxError;
  JSON_parse_is_json s v : JSON_parse s = Normal v -> is_json v = true;
  JSON_parse_wf s v :
    wf_string s -> JSON_parse s = Normal v -> wf_value v = true;
  Number_toString_wf x : wf_string (Number_toString x);
  Number_toLocaleString_wf x : wf_string (Number_toLocaleString x);
  Number_toLocaleCurrency_wf x : wf_string (Number_toLocaleCurrency x);
  list_separator_wf : wf_string list_separator;
}.
