(* ===== verification/Semantics.v ===== *)
(** * The language operations the script applies to values

    Each definition is the ECMAScript meaning of an operator or conversion
    that [src/checkout_web/script.js] uses: [a || b] (lines 4-11), property
    reads [item.name] (lines 50-56), [x * y] (line 50), the conversion to
    string of a template literal substitution (lines 52-57), the method call
    [v.toLocaleString("es-AR")] (lines 55-56) and [items.forEach] (line 47).
    They are defined on every value, because the cart payload is attacker
    controlled and the script never checks its shape.

    The built-in prototypes are assumed unmodified: the script is the only
    code of the page.  An object from [JSON.parse] then converts to a string
    through [Object.prototype.toString] unless one of its own properties
    shadows the method with a value that is not callable. *)

From Stdlib Require Import ZArith List Lia Bool String.
From stdpp Require Import base tactics list option numbers.
From S2P Require Import Prelude JsString Number Value.

#[local] Open Scope Z_scope.
#[local] Open Scope js_scope.

(** The three properties the script reads from a cart item. *)
Inductive field : Type := F_name | F_quantity | F_unit_price.

#[export] Instance field_eq_dec : EqDecision field.
Proof. solve_decision. Defined.

Definition field_key (f : field) : jsstring :=
  match f with
  | F_name => str "name"
  | F_quantity => str "quantity"
  | F_unit_price => str "unit_price"
  end.

(** [sep.join(parts)]. *)
Fixpoint join (sep : jsstring) (parts : list jsstring) : jsstring :=
  match parts with
  | [] => []
  | [s] => s
  | s :: parts' => s ++ sep ++ join sep parts'
  end.

(** ToBoolean. *)
Definition to_boolean (v : value) : bool :=
  match v with
  | VUndefined | VNull => false
  | VBool b => b
  | VNumber x => num_to_boolean x
  | VString s => match s with [] => false | _ => true end
  | VArray _ | VObject _ => true
  end.

(** [a || b]. *)
Definition js_or (a b : value) : value := if to_boolean a then a else b.

(** [params.get(k) || d], where [get] returns a string or [null]. *)
Definition or_string (o : option jsstring) (d : jsstring) : jsstring :=
  match o with
  | Some ((_ :: _) as s) => s
  | _ => d
  end.

(** [x || 0] on a Number. *)
Definition or_zero (x : number) : number :=
  if num_to_boolean x then x else num_zero.

(** [v.f] for one of the three fields: an own property of an object, or
    [undefined]; reading from [undefined] or [null] throws. *)
Definition get_field (f : field) (v : value) : result value :=
  match v with
  | VUndefined | VNull => Throw (TypeError NullishProperty)
  | VObject props => Normal (default VUndefined (lookup_prop (field_key f) props))
  | _ => Normal VUndefined
  end.

(** ToPrimitive on an object made by [JSON.parse]: the inherited [toString]
    answers unless an own property of that name (never callable) hides it,
    and the inherited [valueOf] returns the object itself. *)
Definition object_to_primitive (props : list (jsstring * value)) :
    result jsstring :=
  if has_own (str "toString") props then Throw (TypeError NotPrimitive)
  else Normal (str "[object Object]").

Section WithBuiltins.
Context {B : Builtins}.

(** ToString, as a template literal applies it to a substitution. *)
Fixpoint to_string (v : value) : result jsstring :=
  match v with
  | VUndefined => Normal (str "undefined")
  | VNull => Normal (str "null")
  | VBool b => Normal (if b then str "true" else str "false")
  | VNumber x => Normal (Number_toString x)
  | VString s => Normal s
  | VArray l =>
      parts <- map_completion
        (fun e => if is_nullish e then Normal [] else to_string e) l ;;
      Normal (join (str ",") parts)
  | VObject props => object_to_primitive props
  end.

(** ToNumber. *)
Definition to_number (v : value) : result number :=
  match v with
  | VUndefined => Normal num_nan
  | VNull => Normal num_zero
  | VBool b => Normal (if b then num_of_Z 1 else num_zero)
  | VNumber x => Normal x
  | VString s => Normal (StringToNumber s)
  | VArray _ | VObject _ => s <- to_string v ;; Normal (StringToNumber s)
  end.

(** [a * b]: both operands are converted, left first, then multiplied. *)
Definition js_mul (a b : value) : result number :=
  x <- to_number a ;; y <- to_number b ;; Normal (num_mul x y).

(** [v.toLocaleString("es-AR")]. *)
Fixpoint to_locale_string (v : value) : result jsstring :=
  match v with
  | VUndefined | VNull => Throw (TypeError NullishProperty)
  | VBool b => Normal (if b then str "true" else str "false")
  | VNumber x => Normal (Number_toLocaleString x)
  | VString s => Normal s
  | VArray l =>
      parts <- map_completion
        (fun e => if is_nullish e then Normal [] else to_locale_string e) l ;;
      Normal (join list_separator parts)
  | VObject props =>
      if has_own (str "toLocaleString") props then Throw (TypeError NotCallable)
      else if has_own (str "toString") props then Throw (TypeError NotCallable)
      else Normal (str "[object Object]")
  end.

End WithBuiltins.

(** [items.forEach]: the elements the callback will see, or the TypeError
    of calling a method that only arrays have. *)
Definition for_each_target (items : value) : result (list value) :=
  match items with
  | VArray l => Normal l
  | VUndefined | VNull => Throw (TypeError NullishProperty)
  | _ => Throw (TypeError NotCallable)
  end.

(** ** Shapes on which the conversions succeed *)

(** No object with an own [toString] is reached by ToString. *)
Fixpoint stringifiable (v : value) : bool :=
  match v with
  | VArray l => forallb stringifiable l
  | VObject props => negb (has_own (str "toString") props)
  | _ => true
  end.

Definition is_primitive (v : value) : bool :=
  match v with VArray _ | VObject _ => false | _ => true end.

(** [v.toLocaleString] can be called and returns. *)
Fixpoint localizable (v : value) : bool :=
  match v with
  | VUndefined | VNull => false
  | VArray l => forallb (fun e => is_nullish e || localizable e) l
  | VObject props =>
      negb (has_own (str "toLocaleString") props)
      && negb (has_own (str "toString") props)
  | _ => true
  end.

Section SemanticsFacts.
Context {B : Builtins}.
Implicit Types (v a b : value) (s d : jsstring) (x : number).

(** *** [||] *)

Definition value_of_param (o : option jsstring) : value :=
  match o with Some s => VString s | None => VNull end.

(** The typed shortcut agrees with the operator on values. *)
Lemma or_string_js_or o d :
  js_or (value_of_param o) (VString d) = VString (or_string o d).
Proof. by destruct o as [[|c s]|]. Qed.

Lemma or_zero_js_or x : js_or (VNumber x) (VNumber num_zero) = VNumber (or_zero x).
Proof. unfold js_or, or_zero. cbn. by destruct (num_to_boolean x). Qed.

Lemma or_string_nonempty o d : d <> [] -> or_string o d <> [].
Proof. by destruct o as [[|c s]|]. Qed.

Lemma or_string_some o d s : o = Some s -> s <> [] -> or_string o d = s.
Proof. intros ->. by destruct s. Qed.

Lemma or_string_default o d : o = None \/ o = Some [] -> or_string o d = d.
Proof. by intros [->| ->]. Qed.

Lemma or_zero_not_nan x : num_is_nan (or_zero x) = false.
Proof. unfold or_zero, num_to_boolean. by destruct x. Qed.

(** [x || 0] is never the negative zero. *)
Lemma or_zero_not_neg_zero x : or_zero x <> num_neg_zero.
Proof. unfold or_zero, num_to_boolean. by destruct x. Qed.

Lemma or_zero_truthy x : num_to_boolean x = true -> or_zero x = x.
Proof. unfold or_zero. by intros ->. Qed.

Lemma or_zero_idem x : or_zero (or_zero x) = or_zero x.
Proof. unfold or_zero. by destruct (num_to_boolean x) eqn:E; rewrite ?E. Qed.

(** *** [join] *)

Lemma join_cons sep s parts :
  parts <> [] -> join sep (s :: parts) = s ++ sep ++ join sep parts.
Proof. by destruct parts. Qed.

Lemma join_wf sep parts :
  wf_string sep -> Forall wf_string parts -> wf_string (join sep parts).
Proof.
  intros Hsep. induction 1 as [|s parts Hs Hp IH]; [constructor|].
  destruct parts as [|t parts]; [done|]. rewrite join_cons by done.
  by rewrite !wf_string_app.
Qed.

(** *** Property reads *)

Lemma get_field_throws f v :
  is_normal (get_field f v) = negb (is_nullish v).
Proof. by destruct v. Qed.

Lemma get_field_object f props :
  get_field f (VObject props)
  = Normal (default VUndefined (lookup_prop (field_key f) props)).
Proof. reflexivity. Qed.

Lemma field_key_inj f g : field_key f = field_key g -> f = g.
Proof. destruct f, g; vm_compute; congruence. Qed.

(** *** Conversions on primitives never throw *)

Lemma to_string_primitive v :
  is_primitive v = true -> is_normal (to_string v) = true.
Proof. by destruct v. Qed.

Lemma to_number_primitive v :
  is_primitive v = true -> is_normal (to_number v) = true.
Proof. by destruct v. Qed.

Lemma js_mul_numbers x y : js_mul (VNumber x) (VNumber y) = Normal (num_mul x y).
Proof. reflexivity. Qed.

Lemma to_locale_string_number x :
  to_locale_string (VNumber x) = Normal (Number_toLocaleString x).
Proof. reflexivity. Qed.

Lemma for_each_target_normal items :
  is_normal (for_each_target items) = is_array items.
Proof. by destruct items. Qed.

(** *** When the conversions throw *)

(** ToString throws exactly on a value that contains, outside of object
    properties, an object with an own [toString]. *)
Lemma to_string_is_normal v : is_normal (to_string v) = stringifiable v.
Proof.
  induction v as [| |b|x|s|l IH|p _] using value_ind_strong; cbn; try done.
  - rewrite is_normal_map, map_completion_is_normal.
    apply forallb_Forall_ext. eapply Forall_impl; [|exact IH].
    intros e He. cbn in He. by destruct e.
  - unfold object_to_primitive. by destruct (has_own _ p).
Qed.

Lemma to_number_is_normal v : is_normal (to_number v) = stringifiable v.
Proof.
  destruct v; try done; unfold to_number;
    by rewrite is_normal_map, to_string_is_normal.
Qed.

Lemma js_mul_is_normal a b :
  is_normal (js_mul a b) = stringifiable a && stringifiable b.
Proof.
  unfold js_mul. rewrite <- !to_number_is_normal.
  destruct (to_number a); [|done]. cbn. by destruct (to_number b).
Qed.

Lemma to_locale_string_is_normal v :
  is_normal (to_locale_string v) = localizable v.
Proof.
  induction v as [| |b|x|s|l IH|p _] using value_ind_strong; cbn; try done.
  - rewrite is_normal_map, map_completion_is_normal.
    apply forallb_Forall_ext. eapply Forall_impl; [|exact IH].
    intros e He. cbn in He. by destruct e.
  - by destruct (has_own _ p), (has_own _ p).
Qed.

(** Whatever the conversions throw is a TypeError. *)
Lemma to_string_throws v e : to_string v = Throw e -> exists r, e = TypeError r.
Proof.
  revert e.
  induction v as [| |b|x|s|l IH|p _] using value_ind_strong; cbn; try done.
  - intros e. destruct (map_completion _ l) as [parts|e'] eqn:Hl; [done|].
    intros [= <-]. apply map_completion_throw_inv in Hl as (v & Hv & He).
    rewrite List.Forall_forall in IH. destruct (is_nullish v); [done|].
    by eapply IH.
  - intros e. unfold object_to_primitive. destruct (has_own _ p); [|done].
    intros [= <-]. eauto.
Qed.

Lemma to_number_throws v e : to_number v = Throw e -> exists r, e = TypeError r.
Proof.
  destruct v; try done; unfold to_number; intros H; throw_cases H;
    by eauto using to_string_throws.
Qed.

Lemma js_mul_throws a b e : js_mul a b = Throw e -> exists r, e = TypeError r.
Proof.
  unfold js_mul. intros H. throw_cases H; by eauto using to_number_throws.
Qed.

Lemma to_locale_string_throws v e :
  to_locale_string v = Throw e -> exists r, e = TypeError r.
Proof.
  revert e.
  induction v as [| |b|x|s|l IH|p _] using value_ind_strong; cbn; intros e;
    try done; try (intros [= <-]; by eauto).
  - intros H. throw_cases H; [|done].
    apply map_completion_throw_inv in H as (v & Hv & He).
    rewrite List.Forall_forall in IH. destruct (is_nullish v); [done|].
    by eapply IH.
  - repeat case_match; try done; intros [= <-]; by eauto.
Qed.

End SemanticsFacts.

Section WellFormed.
Context {B : Builtins} {L : BuiltinsLaws B}.

(** ToString of a well-formed value is a well-formed string. *)
Lemma to_string_wf v s :
  wf_value v = true -> to_string v = Normal s -> wf_string s.
Proof.
  revert s.
  induction v as [| |b|x|t|l IH|p _] using value_ind_strong; cbn; intros s.
  - intros _ [= <-]. apply str_wf.
  - intros _ [= <-]. apply str_wf.
  - intros _ [= <-]. destruct b; apply str_wf.
  - intros _ [= <-]. apply Number_toString_wf.
  - intros Ht [= <-]. by apply forallb_is_code_unit.
  - intros Hl. destruct (map_completion _ l) as [parts|] eqn:Hp; [|done].
    intros [= <-]. apply join_wf; [apply str_wf|].
    apply forallb_Forall_true in Hl. apply map_completion_Forall2 in Hp.
    clear -IH Hl Hp. induction Hp as [|v t l parts Hv _ IHp]; [constructor|].
    inversion IH; inversion Hl; subst.
    constructor; [|by apply IHp]. destruct (is_nullish v); [|by auto].
    injection Hv as <-. constructor.
  - intros _. unfold object_to_primitive. destruct (has_own _ p); [done|].
    intros [= <-]. apply str_wf.
Qed.

(** So is the text [toLocaleString] gives. *)
Lemma to_locale_string_wf v s :
  wf_value v = true -> to_locale_string v = Normal s -> wf_string s.
Proof.
  revert s.
  induction v as [| |b|x|t|l IH|p _] using value_ind_strong; cbn; intros s;
    try done.
  - intros _ [= <-]. destruct b; apply str_wf.
  - intros _ [= <-]. apply Number_toLocaleString_wf.
  - intros Ht [= <-]. by apply forallb_is_code_unit.
  - intros Hl. destruct (map_completion _ l) as [parts|] eqn:Hp; [|done].
    intros [= <-]. apply join_wf; [apply list_separator_wf|].
    apply forallb_Forall_true in Hl. apply map_completion_Forall2 in Hp.
    clear -IH Hl Hp. induction Hp as [|v t l parts Hv _ IHp]; [constructor|].
    inversion IH; inversion Hl; subst.
    constructor; [|by apply IHp]. destruct (is_nullish v); [|by auto].
    injection Hv as <-. constructor.
  - intros _. repeat case_match; try done. intros [= <-]. apply str_wf.
Qed.

(** A property read from a well-formed value is well-formed. *)
Lemma get_field_wf f v u :
  wf_value v = true -> get_field f v = Normal u -> wf_value u = true.
Proof.
  destruct v as [| | | | | |p]; cbn [get_field]; try done;
    try by intros _ [= <-].
  intros Hp [= <-]. destruct (lookup_prop _ p) as [u|] eqn:Hu; [|done].
  by eapply wf_value_lookup_prop.
Qed.

End WellFormed.
