(* ===== verification/Dom.v ===== *)
(** * The page the script runs in

    The script reads and writes a fixed set of elements, found by id or by
    class: four text slots, the container the table goes into, the confirm
    button and the confirmation message.  The page itself (the HTML file) is
    not part of the sources, so it is an input here: each element may be
    present or missing, and its state before the script runs is arbitrary.

    The elements are taken to be distinct and not nested in one another, as
    the interface description of the page has them.  A lookup of a missing
    element returns [null], and the property write that follows throws a
    TypeError, as in the browser.

    The store of a run is the page plus the console; a command keeps its
    effects on the store when it throws. *)

From Stdlib Require Import ZArith List Lia Bool String.
From stdpp Require Import base tactics list option numbers.
From S2P Require Import Prelude JsString Number Value.

#[local] Open Scope Z_scope.
#[local] Open Scope js_scope.

(** ** Nodes the script creates *)

(** An element made by [document.createElement]: its tag, its [className],
    the markup last assigned to its [innerHTML] (kept as text: the HTML
    parser is not modelled) and the children appended after that, in order. *)
#[warnings="-register-all"]
Inductive element : Type :=
| Element (tag className innerHTML : jsstring) (children : list element).

Definition el_tag (e : element) : jsstring := let 'Element t _ _ _ := e in t.
Definition el_class (e : element) : jsstring := let 'Element _ c _ _ := e in c.
Definition el_markup (e : element) : jsstring := let 'Element _ _ m _ := e in m.
Definition el_children (e : element) : list element :=
  let 'Element _ _ _ ch := e in ch.

(** [document.createElement(tag)]. *)
Definition createElement (tag : jsstring) : element := Element tag [] [] [].

(** [e.className = c]. *)
Definition set_className (c : jsstring) (e : element) : element :=
  Element (el_tag e) c (el_markup e) (el_children e).

(** [e.innerHTML = m]: the former children are replaced by the markup. *)
Definition set_innerHTML (m : jsstring) (e : element) : element :=
  Element (el_tag e) (el_class e) m [].

(** [e.appendChild(c)] for a child that has no parent yet. *)
Definition appendChild (c : element) (e : element) : element :=
  Element (el_tag e) (el_class e) (el_markup e) (el_children e ++ [c]).

(** ** The page *)

(** The four elements whose text the script sets. *)
Inductive slot : Type := BuyerName | BuyerEmail | BuyerId | OrderAmount.

#[export] Instance slot_eq_dec : EqDecision slot.
Proof. solve_decision. Defined.

Definition slot_id (s : slot) : jsstring :=
  match s with
  | BuyerName => str "buyer-name"
  | BuyerEmail => str "buyer-email"
  | BuyerId => str "buyer-id"
  | OrderAmount => str "order-amount"
  end.

(** The only function the script registers as an event listener. *)
Inductive listener : Type := ConfirmListener.

#[export] Instance listener_eq_dec : EqDecision listener.
Proof. solve_decision. Defined.

Record Button : Type := {
  btn_disabled : bool;
  btn_text : jsstring;
  btn_listeners : list listener;
}.

Record Page : Type := {
  buyer_name : option jsstring;
  buyer_email : option jsstring;
  buyer_id : option jsstring;
  order_amount : option jsstring;
  (** children of the first element of class [card-right] *)
  card_right : option (list element);
  btn_confirm : option Button;
  (** the [hidden] flag of [#confirmation-message] *)
  confirmation_hidden : option bool;
}.

(** What reaches the console: [console.error(msg, e)] and the report of an
    exception nobody caught. *)
Inductive log_entry : Type :=
| LogError (msg : jsstring) (e : error)
| Uncaught (e : error).

Record Browser : Type := {
  page : Page;
  console : list log_entry;
}.

(** Commands of the script. *)
Abbreviation js := (cmd Browser error).

(** ** Reading and writing the page *)

Definition get_slot (s : slot) (p : Page) : option jsstring :=
  match s with
  | BuyerName => buyer_name p
  | BuyerEmail => buyer_email p
  | BuyerId => buyer_id p
  | OrderAmount => order_amount p
  end.

Definition put_slot (s : slot) (t : jsstring) (p : Page) : Page :=
  match s with
  | BuyerName =>
      {| buyer_name := Some t; buyer_email := buyer_email p;
         buyer_id := buyer_id p; order_amount := order_amount p;
         card_right := card_right p; btn_confirm := btn_confirm p;
         confirmation_hidden := confirmation_hidden p |}
  | BuyerEmail =>
      {| buyer_name := buyer_name p; buyer_email := Some t;
         buyer_id := buyer_id p; order_amount := order_amount p;
         card_right := card_right p; btn_confirm := btn_confirm p;
         confirmation_hidden := confirmation_hidden p |}
  | BuyerId =>
      {| buyer_name := buyer_name p; buyer_email := buyer_email p;
         buyer_id := Some t; order_amount := order_amount p;
         card_right := card_right p; btn_confirm := btn_confirm p;
         confirmation_hidden := confirmation_hidden p |}
  | OrderAmount =>
      {| buyer_name := buyer_name p; buyer_email := buyer_email p;
         buyer_id := buyer_id p; order_amount := Some t;
         card_right := card_right p; btn_confirm := btn_confirm p;
         confirmation_hidden := confirmation_hidden p |}
  end.

Definition put_card_right (ch : list element) (p : Page) : Page :=
  {| buyer_name := buyer_name p; buyer_email := buyer_email p;
     buyer_id := buyer_id p; order_amount := order_amount p;
     card_right := Some ch; btn_confirm := btn_confirm p;
     confirmation_hidden := confirmation_hidden p |}.

Definition put_button (b : Button) (p : Page) : Page :=
  {| buyer_name := buyer_name p; buyer_email := buyer_email p;
     buyer_id := buyer_id p; order_amount := order_amount p;
     card_right := card_right p; btn_confirm := Some b;
     confirmation_hidden := confirmation_hidden p |}.

Definition put_hidden (h : bool) (p : Page) : Page :=
  {| buyer_name := buyer_name p; buyer_email := buyer_email p;
     buyer_id := buyer_id p; order_amount := order_amount p;
     card_right := card_right p; btn_confirm := btn_confirm p;
     confirmation_hidden := Some h |}.

Definition with_page (f : Page -> Page) (w : Browser) : Browser :=
  {| page := f (page w); console := console w |}.

Definition log (entry : log_entry) (w : Browser) : Browser :=
  {| page := page w; console := console w ++ [entry] |}.

(** A write to a property of the result of a lookup: it throws when the
    lookup found nothing. *)
Definition write_if {A} (found : Page -> option A) (f : Page -> Page) : js unit :=
  fun w =>
    match found (page w) with
    | Some _ => (Normal tt, with_page f w)
    | None => (Throw (TypeError NullishProperty), w)
    end.

(** [document.getElementById(id).textContent = t]. *)
Definition set_textContent (s : slot) (t : jsstring) : js unit :=
  write_if (get_slot s) (put_slot s t).

(** [document.querySelector(".card-right").appendChild(e)]. *)
Definition card_right_appendChild (e : element) : js unit :=
  write_if card_right
    (fun p => put_card_right (default [] (card_right p) ++ [e]) p).

(** Updates of the button's own state. *)
Definition add_listener (l : listener) (b : Button) : Button :=
  {| btn_disabled := btn_disabled b; btn_text := btn_text b;
     btn_listeners := btn_listeners b ++ [l] |}.

Definition disable (d : bool) (b : Button) : Button :=
  {| btn_disabled := d; btn_text := btn_text b;
     btn_listeners := btn_listeners b |}.

Definition relabel (t : jsstring) (b : Button) : Button :=
  {| btn_disabled := btn_disabled b; btn_text := t;
     btn_listeners := btn_listeners b |}.

Definition map_button (f : Button -> Button) (p : Page) : Page :=
  match btn_confirm p with
  | Some b => put_button (f b) p
  | None => p
  end.

(** [btnConfirm.addEventListener("click", l)]. *)
Definition addEventListener (l : listener) : js unit :=
  write_if btn_confirm (map_button (add_listener l)).

(** [confirmationMsg.hidden = h]. *)
Definition set_hidden (h : bool) : js unit :=
  write_if confirmation_hidden (put_hidden h).

(** [btnConfirm.disabled = d]. *)
Definition set_disabled (d : bool) : js unit :=
  write_if btn_confirm (map_button (disable d)).

(** [btnConfirm.textContent = t]. *)
Definition set_button_text (t : jsstring) : js unit :=
  write_if btn_confirm (map_button (relabel t)).

(** [console.error(msg, e)]. *)
Definition console_error (msg : jsstring) (e : error) : js unit :=
  cmd_modify (log (LogError msg e)).

(** ** Pages that have every element the script looks up *)

Definition complete_page (p : Page) : bool :=
  is_some (buyer_name p) && is_some (buyer_email p)
  && is_some (buyer_id p) && is_some (order_amount p)
  && is_some (card_right p) && is_some (btn_confirm p)
  && is_some (confirmation_hidden p).

(** ** Laws of the store *)

Section DomFacts.
Implicit Types (p : Page) (w : Browser) (s : slot) (t : jsstring).

Lemma write_if_some {A} (found : Page -> option A) f w a :
  found (page w) = Some a -> write_if found f w = (Normal tt, with_page f w).
Proof. unfold write_if. by intros ->. Qed.

Lemma write_if_none {A} (found : Page -> option A) f w :
  found (page w) = None ->
  write_if found f w = (Throw (TypeError NullishProperty), w).
Proof. unfold write_if. by intros ->. Qed.

(** A write either happens or throws the TypeError of a failed lookup; it
    never touches the console. *)
Lemma write_if_console {A} (found : Page -> option A) f w :
  console (write_if found f w).2 = console w.
Proof. unfold write_if. by destruct (found (page w)). Qed.

(** What a write leaves alone on the page, it leaves alone in the store,
    whether it happens or throws. *)
Lemma write_if_frame {A X} (found : Page -> option A) f (g : Page -> X) w :
  (forall p, g (f p) = g p) -> g (page (write_if found f w).2) = g (page w).
Proof. intros Hf. unfold write_if. destruct (found (page w)); cbn; auto. Qed.

Lemma get_put_slot_eq s t p : get_slot s (put_slot s t p) = Some t.
Proof. by destruct s. Qed.

Lemma get_put_slot_ne s s' t p :
  s <> s' -> get_slot s' (put_slot s t p) = get_slot s' p.
Proof. by destruct s, s'. Qed.

Lemma put_slot_card_right s t p : card_right (put_slot s t p) = card_right p.
Proof. by destruct s. Qed.

Lemma put_slot_btn_confirm s t p : btn_confirm (put_slot s t p) = btn_confirm p.
Proof. by destruct s. Qed.

Lemma put_slot_hidden s t p :
  confirmation_hidden (put_slot s t p) = confirmation_hidden p.
Proof. by destruct s. Qed.

Lemma get_slot_put_card_right s ch p :
  get_slot s (put_card_right ch p) = get_slot s p.
Proof. by destruct s. Qed.

Lemma get_slot_map_button s f p : get_slot s (map_button f p) = get_slot s p.
Proof. unfold map_button. by destruct (btn_confirm p), s. Qed.

Lemma get_slot_put_hidden s h p : get_slot s (put_hidden h p) = get_slot s p.
Proof. by destruct s. Qed.

Lemma btn_confirm_map_button f p :
  btn_confirm (map_button f p) = option_map f (btn_confirm p).
Proof. unfold map_button. by destruct (btn_confirm p) eqn:E; rewrite ?E. Qed.

Lemma card_right_map_button f p : card_right (map_button f p) = card_right p.
Proof. unfold map_button. by destruct (btn_confirm p). Qed.

Lemma hidden_map_button f p :
  confirmation_hidden (map_button f p) = confirmation_hidden p.
Proof. unfold map_button. by destruct (btn_confirm p). Qed.

(** Writing a slot keeps the page complete. *)
Lemma complete_put_slot s t p :
  complete_page p = true -> complete_page (put_slot s t p) = true.
Proof. unfold complete_page. rewrite !andb_true_iff. destruct s; cbn; tauto. Qed.

End DomFacts.

#[export] Hint Rewrite get_put_slot_eq put_slot_card_right put_slot_btn_confirm
  put_slot_hidden get_slot_put_card_right get_slot_map_button
  get_slot_put_hidden btn_confirm_map_button card_right_map_button
  hidden_map_button : js_rw.
