(* ===== verification/Query.v ===== *)
(** * The order context read from the query string

    Lines 2-15 of [src/checkout_web/script.js]: the five parameters with
    their defaults, the amount parsed as a Number and its display form. *)

From Stdlib Require Import ZArith List Lia Bool String.
From stdpp Require Import base tactics list option numbers.
From S2P Require Import Prelude JsString Number Value Semantics.

#[local] Open Scope Z_scope.

(** The parsed query string: name-value pairs in the order of the URL. *)
Abbreviation URLSearchParams := (list (jsstring * jsstring)).

(** [params.get(k)]: the value of the first pair named [k], or [null]. *)
Fixpoint params_get (k : jsstring) (params : URLSearchParams) : option jsstring :=
  match params with
  | [] => None
  | (k', v) :: params' =>
      if bool_decide (k' = k) then Some v else params_get k params'
  end.

(** The EN DASH (U+2013) of the default buyer id. *)
Definition en_dash : jsstring := [8211].

Definition userId (params : URLSearchParams) : jsstring :=
  or_string (params_get (str "user_id") params) en_dash.

Definition name (params : URLSearchParams) : jsstring :=
  or_string (params_get (str "name") params) (str "Cliente").

Definition email (params : URLSearchParams) : jsstring :=
  or_string (params_get (str "email") params) (str "sin-email@example.com").

Definition amountRaw (params : URLSearchParams) : jsstring :=
  or_string (params_get (str "amount") params) (str "0").

(** [params.get("items") || null]: a non-empty string, or [null]. *)
Definition itemsEncoded (params : URLSearchParams) : option jsstring :=
  match params_get (str "items") params with
  | Some ((_ :: _) as s) => Some s
  | _ => None
  end.

Section Amount.
Context {B : Builtins}.

Definition amountNumber (params : URLSearchParams) : number :=
  or_zero (parseFloat (amountRaw params)).

Definition amountFormatted (params : URLSearchParams) : jsstring :=
  Number_toLocaleCurrency (amountNumber params).

End Amount.

(** ** Lookup *)

Section ParamsFacts.
Implicit Types (k v : jsstring) (params : URLSearchParams).

Lemma params_get_None k params :
  params_get k params = None <-> ~ In k (map fst params).
Proof.
  induction params as [|[k' v'] params IH]; cbn; [tauto|].
  case_bool_decide; [split; [done | tauto] | rewrite IH; tauto].
Qed.

(** The first pair of a name wins; later duplicates are ignored. *)
Lemma params_get_first k v params1 params2 :
  ~ In k (map fst params1) ->
  params_get k (params1 ++ (k, v) :: params2) = Some v.
Proof.
  induction params1 as [|[k' v'] params1 IH]; cbn; intros Hk.
  - by rewrite bool_decide_eq_true_2.
  - rewrite bool_decide_eq_false_2 by tauto. apply IH. tauto.
Qed.

Lemma params_get_Some k v params :
  params_get k params = Some v ->
  exists params1 params2,
    params = params1 ++ (k, v) :: params2 /\ ~ In k (map fst params1).
Proof.
  induction params as [|[k' v'] params IH]; cbn; [done|].
  case_bool_decide as Hk.
  - intros [= ->]. subst k'. exists [], params. split; [done | by intros []].
  - intros (p1 & p2 & -> & Hn)%IH. exists ((k', v') :: p1), p2.
    split; [done|]. cbn. tauto.
Qed.

(** A parameter that is absent or empty takes the default; otherwise its
    first value is used as it is. *)
Lemma or_string_params k d params :
  or_string (params_get k params) d
  = match params_get k params with
    | None | Some [] => d
    | Some s => s
    end.
Proof. by destruct (params_get k params) as [[|c s]|]. Qed.

Lemma itemsEncoded_Some params s :
  itemsEncoded params = Some s <->
  params_get (str "items") params = Some s /\ s <> [].
Proof.
  unfold itemsEncoded.
  destruct (params_get _ params) as [[|c t]|]; split;
    first [by intros [= <-] | by intros [[= <-] ?] | done].
Qed.

Lemma itemsEncoded_nonempty params : itemsEncoded params <> Some [].
Proof. unfold itemsEncoded. by destruct (params_get _ params) as [[|c t]|]. Qed.

End ParamsFacts.

Section AmountFacts.
Context {B : Builtins}.
Implicit Types (params : URLSearchParams).

(** The amount is never NaN and never the negative zero: both are replaced
    by [+0], as is [0] itself. *)
Lemma amountNumber_not_nan params : num_is_nan (amountNumber params) = false.
Proof. apply or_zero_not_nan. Qed.

Lemma amountNumber_parsed params :
  num_to_boolean (parseFloat (amountRaw params)) = true ->
  amountNumber params = parseFloat (amountRaw params).
Proof. apply or_zero_truthy. Qed.

Lemma amountNumber_zero params :
  num_to_boolean (parseFloat (amountRaw params)) = false ->
  amountNumber params = num_zero.
Proof. unfold amountNumber, or_zero. by intros ->. Qed.

Lemma amountRaw_default params :
  params_get (str "amount") params = None -> amountRaw params = str "0".
Proof. unfold amountRaw. by intros ->. Qed.

End AmountFacts.

(** ** Properties *)

(** C18 (parameters and defaults). Each of the five values the script reads
    is the first value of its parameter in the query string; a parameter
    that is absent or empty gives the default: the dash, [Cliente],
    [sin-email@example.com], [0], and [null] for the cart. *)
Theorem query_defaults (params : URLSearchParams) :
  let field (k : string) (d : jsstring) :=
    match params_get (str k) params with
    | None | Some [] => d
    | Some s => s
    end in
  userId params = field "user_id"%string en_dash
  /\ name params = field "name"%string (str "Cliente")
  /\ email params = field "email"%string (str "sin-email@example.com")
  /\ amountRaw params = field "amount"%string (str "0")
  /\ itemsEncoded params
     = match params_get (str "items") params with
       | None | Some [] => None
       | Some s => Some s
       end.
Proof.
  cbv zeta. split_and!; try apply or_string_params.
  unfold itemsEncoded. by destruct (params_get _ params) as [[|c s]|].
Qed.

(** C19 (the amount is a number one can print). Whatever [parseFloat]
    makes of the parameter, the amount is that number when it is truthy and
    [+0] otherwise: never [NaN], never the negative zero. *)
Theorem amountNumber_cases `{B : Builtins} (params : URLSearchParams) :
  amountNumber params
  = (if num_to_boolean (parseFloat (amountRaw params))
     then parseFloat (amountRaw params) else num_zero)
  /\ num_is_nan (amountNumber params) = false
  /\ amountNumber params <> num_neg_zero.
Proof.
  split_and!; [done|apply or_zero_not_nan|apply or_zero_not_neg_zero].
Qed.
