(* ===== verification/Cart.v ===== *)
(** * The cart: decoding the payload and building the table

    Lines 24-60 of [src/checkout_web/script.js].  The payload of the [items]
    parameter is mapped from the URL-safe base64 alphabet to the standard
    one, decoded by [atob] and parsed by [JSON.parse] under a [try]/[catch]
    that logs and swallows any failure.  The table gets a fixed header and
    one row per element of the decoded array; the row callback reads three
    properties of the element without checking its shape, so it can throw,
    and nothing catches that. *)

From Stdlib Require Import ZArith List Lia Bool String.
From stdpp Require Import base tactics list option numbers.
From S2P Require Import Prelude JsString Number NumberExact Value Semantics Dom.

#[local] Open Scope Z_scope.
#[local] Open Scope js_scope.

(** ** Markup *)

Definition nl : jsstring := [10].

(** The header row assigned to [table.innerHTML]. *)
Definition header_markup : jsstring :=
  nl ++ str "    <tr>"
  ++ nl ++ str "      <th>Producto</th>"
  ++ nl ++ str "      <th>Cant.</th>"
  ++ nl ++ str "      <th>Unit.</th>"
  ++ nl ++ str "      <th>Subtotal</th>"
  ++ nl ++ str "    </tr>"
  ++ nl ++ str "  ".

(** The template literal of a body row, its four substitutions already
    converted to strings. *)
Definition row_markup (name quantity unit_price subtotal : jsstring) : jsstring :=
  nl ++ str "      <td>" ++ name ++ str "</td>"
  ++ nl ++ str "      <td>" ++ quantity ++ str "</td>"
  ++ nl ++ str "      <td>$" ++ unit_price ++ str "</td>"
  ++ nl ++ str "      <td>$" ++ subtotal ++ str "</td>"
  ++ nl ++ str "    ".

(** ** Decoding *)

(** URL-safe base64 to standard base64: [-] becomes [+], then [_] becomes
    [/]. *)
Definition base64url_to_base64 (s : jsstring) : jsstring :=
  replace_all 95 47 (replace_all 45 43 s).

(** The other direction, as the sender of the link applies it. *)
Definition base64_to_base64url (s : jsstring) : jsstring :=
  replace_all 47 95 (replace_all 43 45 s).

Definition decode_error_message : jsstring := str "Error decoding items:".

Section Decode.
Context {B : Builtins}.

(** The body of the [try] block. *)
Definition decode_payload (encoded : jsstring) : result value :=
  decoded <- atob (base64url_to_base64 encoded) ;;
  JSON_parse decoded.

(** [items] after the [if]: the empty array unless [itemsEncoded] is set and
    decodes; a failure is logged and swallowed. *)
Definition decode_items (encoded : option jsstring) : js value :=
  match encoded with
  | None => cmd_ret (VArray [])
  | Some s =>
      cmd_catch (cmd_lift (decode_payload s))
        (fun e => console_error decode_error_message e ;;; cmd_ret (VArray []))
  end.

(** What [decode_items] computes, without the store: the value of [items]
    and the lines it adds to the console. *)
Definition decoded_cart (encoded : option jsstring) : value * list log_entry :=
  match encoded with
  | None => (VArray [], [])
  | Some s =>
      match decode_payload s with
      | Normal v => (v, [])
      | Throw e => (VArray [], [LogError decode_error_message e])
      end
  end.

End Decode.

(** ** The table *)

(** The table before the loop (lines 35-45). *)
Definition new_table : element :=
  set_innerHTML header_markup
    (set_className (str "items-table") (createElement (str "table"))).

(** [rows] appended to [t], in order. *)
Definition append_children (rows : list element) (t : element) : element :=
  Element (el_tag t) (el_class t) (el_markup t) (el_children t ++ rows).

(** The cell values of a row that rendered. *)
Definition row_of (name quantity unit_price subtotal : jsstring) : element :=
  set_innerHTML (row_markup name quantity unit_price subtotal)
    (createElement (str "tr")).

Section Table.
Context {B : Builtins}.

(** [item.unit_price * item.quantity]. *)
Definition subtotal (item : value) : result number :=
  unit_price <- get_field F_unit_price item ;;
  quantity <- get_field F_quantity item ;;
  js_mul unit_price quantity.

(** The callback of [forEach], up to the row it appends. *)
Definition render_row (item : value) : result element :=
  sub <- subtotal item ;;
  n <- get_field F_name item ;;
  name_s <- to_string n ;;
  q <- get_field F_quantity item ;;
  quantity_s <- to_string q ;;
  u <- get_field F_unit_price item ;;
  unit_price_s <- to_locale_string u ;;
  Normal (row_of name_s quantity_s unit_price_s (Number_toLocaleString sub)).

(** The callback, on the table under construction. *)
Definition append_row (item : value) : cmd element error unit :=
  fun table =>
    match render_row item with
    | Normal row => (Normal tt, appendChild row table)
    | Throw e => (Throw e, table)
    end.

(** Lines 35-60: the table with its header and one row per item. *)
Definition build_table (items : value) : result element :=
  l <- for_each_target items ;;
  let (c, table) := for_each append_row l new_table in
  _ <- c ;; Normal table.

(** The same table without the loop: the rows are the images of the items. *)
Definition table_of (items : value) : result element :=
  l <- for_each_target items ;;
  rows <- map_completion render_row l ;;
  Normal (append_children rows new_table).

End Table.

(** The value of the property [f] of an object, [undefined] elsewhere. *)
Definition field_of (f : field) (item : value) : value :=
  match item with
  | VObject props => default VUndefined (lookup_prop (field_key f) props)
  | _ => VUndefined
  end.

(** The items on which the row callback returns. *)
Definition renderable (item : value) : bool :=
  negb (is_nullish item)
  && stringifiable (field_of F_unit_price item)
  && stringifiable (field_of F_quantity item)
  && stringifiable (field_of F_name item)
  && localizable (field_of F_unit_price item).

(** An item of the documented shape. *)
Definition line_item (name : jsstring) (quantity unit_price : number) : value :=
  VObject [(str "name", VString name);
           (str "quantity", VNumber quantity);
           (str "unit_price", VNumber unit_price)].

(** ** The alphabet mapping *)

Section Alphabet.
Implicit Types (s : jsstring).

Lemma base64url_to_base64_length s :
  length (base64url_to_base64 s) = length s.
Proof. unfold base64url_to_base64. by rewrite !replace_all_length. Qed.

Lemma base64url_to_base64_app s t :
  base64url_to_base64 (s ++ t)
  = base64url_to_base64 s ++ base64url_to_base64 t.
Proof. unfold base64url_to_base64. by rewrite !replace_all_app. Qed.

(** The result holds neither [-] nor [_]. *)
Lemma base64url_to_base64_clean s :
  ~ In 45 (base64url_to_base64 s) /\ ~ In 95 (base64url_to_base64 s).
Proof.
  unfold base64url_to_base64. split; [|by apply replace_all_removes].
  rewrite replace_all_comm by done. by apply replace_all_removes.
Qed.

(** A payload already in the standard alphabet goes through unchanged. *)
Lemma base64url_to_base64_id s :
  ~ In 45 s -> ~ In 95 s -> base64url_to_base64 s = s.
Proof.
  intros H1 H2. unfold base64url_to_base64.
  by rewrite (replace_all_absent 45), replace_all_absent.
Qed.

Lemma base64url_to_base64_idem s :
  base64url_to_base64 (base64url_to_base64 s) = base64url_to_base64 s.
Proof.
  destruct (base64url_to_base64_clean s). by apply base64url_to_base64_id.
Qed.

End Alphabet.

(** ** Decoding never throws *)

Section DecodeFacts.
Context {B : Builtins}.
Implicit Types (w : Browser) (encoded : option jsstring).

(** [decode_items] as a function of the payload alone: it returns normally,
    leaves the page as it was and appends its log lines to the console. *)
Lemma decode_items_eq encoded w :
  decode_items encoded w
  = (Normal (decoded_cart encoded).1,
     {| page := page w; console := console w ++ (decoded_cart encoded).2 |}).
Proof.
  destruct w as [p c]. destruct encoded as [s|]; cbn.
  - unfold cmd_catch, cmd_lift. destruct (decode_payload s); cbn;
      by rewrite ?app_nil_r.
  - by rewrite app_nil_r.
Qed.

Lemma decode_items_normal encoded w :
  is_normal (decode_items encoded w).1 = true.
Proof. by rewrite decode_items_eq. Qed.

Lemma decode_items_page encoded w :
  page (decode_items encoded w).2 = page w.
Proof. by rewrite decode_items_eq. Qed.

(** The cart is the parsed payload, or the empty array. *)
Lemma decoded_cart_cases encoded :
  (exists s v, encoded = Some s /\ decode_payload s = Normal v
               /\ decoded_cart encoded = (v, []))
  \/ (exists s e, encoded = Some s /\ decode_payload s = Throw e
               /\ decoded_cart encoded
                  = (VArray [], [LogError decode_error_message e]))
  \/ (encoded = None /\ decoded_cart encoded = (VArray [], [])).
Proof.
  destruct encoded as [s|]; cbn; [|by auto].
  destruct (decode_payload s) eqn:E; eauto 10.
Qed.

(** A failure of the decoding is one of the two errors of the host
    functions, and it is logged once. *)
Lemma decode_payload_error `{!BuiltinsLaws B} s e :
  decode_payload s = Throw e -> e = InvalidCharacterError \/ e = SyntaxError.
Proof.
  unfold decode_payload. destruct (atob _) as [t|e'] eqn:Ha; cbn.
  - intros He%JSON_parse_error. by right.
  - intros [= <-]. apply atob_error in Ha. by left.
Qed.

End DecodeFacts.

(** ** The table *)

Section TableFacts.
Context {B : Builtins}.
Implicit Types (item : value) (l : list value) (t : element).

Lemma new_table_eq :
  new_table = Element (str "table") (str "items-table") header_markup [].
Proof. reflexivity. Qed.

Lemma append_children_nil t : append_children [] t = t.
Proof. destruct t. unfold append_children. cbn. by rewrite app_nil_r. Qed.

Lemma append_children_cons row rows t :
  append_children (row :: rows) t = append_children rows (appendChild row t).
Proof.
  destruct t. unfold append_children, appendChild. cbn.
  by rewrite <- app_assoc.
Qed.

(** The loop and the map agree: same completion, and on success the same
    table. *)
Lemma for_each_append_row l t :
  (for_each append_row l t).1
  = completion_map (fun _ => tt) (map_completion render_row l)
  /\ forall rows, map_completion render_row l = Normal rows ->
       (for_each append_row l t).2 = append_children rows t.
Proof.
  revert t. induction l as [|item l IH]; intros t; cbn.
  - split; [done|]. intros rows [= <-]. by rewrite append_children_nil.
  - unfold cmd_bind, append_row at 1 3. destruct (render_row item) as [row|e].
    + destruct (IH (appendChild row t)) as [IH1 IH2]. rewrite IH1. cbn.
      destruct (map_completion render_row l) as [rows|e]; cbn; split;
        try done.
      intros ? [= <-]. rewrite append_children_cons. by apply IH2.
    + by split.
Qed.

(** Lines 35-60 compute [table_of]: the header, then the image of every
    item, in the order of the array. *)
Lemma build_table_eq (items : value) : build_table items = table_of items.
Proof.
  unfold build_table, table_of. destruct (for_each_target items) as [l|e];
    cbn; [|done].
  destruct (for_each_append_row l new_table) as [H1 H2].
  destruct (for_each append_row l new_table) as [c t]. cbn in *. subst c.
  destruct (map_completion render_row l) as [rows|e]; cbn; [|done].
  f_equal. by apply H2.
Qed.

(** *** Rows *)

Lemma get_field_field_of f item :
  is_nullish item = false -> get_field f item = Normal (field_of f item).
Proof. by destruct item. Qed.

Lemma get_field_nullish f item :
  is_nullish item = true -> get_field f item = Throw (TypeError NullishProperty).
Proof. by destruct item. Qed.

(** The row callback after its property reads. *)
Lemma render_row_fields item :
  is_nullish item = false ->
  render_row item
  = (sub <- js_mul (field_of F_unit_price item) (field_of F_quantity item) ;;
     name_s <- to_string (field_of F_name item) ;;
     quantity_s <- to_string (field_of F_quantity item) ;;
     unit_price_s <- to_locale_string (field_of F_unit_price item) ;;
     Normal (row_of name_s quantity_s unit_price_s (Number_toLocaleString sub))).
Proof.
  intros Hn. unfold render_row, subtotal.
  by rewrite !(get_field_field_of _ _ Hn).
Qed.

(** The callback returns exactly on the renderable items. *)
Lemma render_row_is_normal item : is_normal (render_row item) = renderable item.
Proof.
  unfold renderable. destruct (is_nullish item) eqn:Hn.
  { unfold render_row, subtotal. by rewrite get_field_nullish. }
  rewrite render_row_fields by done. cbn [negb andb].
  rewrite <- js_mul_is_normal, <- to_string_is_normal.
  rewrite <- to_locale_string_is_normal.
  pose proof (js_mul_is_normal (field_of F_unit_price item)
    (field_of F_quantity item)) as Hm.
  destruct (js_mul _ _) as [sub|]; [|done]. cbn in Hm |- *.
  symmetry in Hm. apply andb_true_iff in Hm as [_ Hq].
  rewrite <- to_string_is_normal in Hq.
  destruct (to_string (field_of F_name item)); [|done]. cbn.
  destruct (to_string (field_of F_quantity item)); [|done]. cbn.
  by destruct (to_locale_string _).
Qed.

Lemma render_row_throws item e :
  render_row item = Throw e -> exists r, e = TypeError r.
Proof.
  destruct (is_nullish item) eqn:Hn.
  { unfold render_row, subtotal. rewrite get_field_nullish by done.
    intros [= <-]. eauto. }
  rewrite render_row_fields by done. intros H. throw_cases H;
    eauto using js_mul_throws, to_string_throws, to_locale_string_throws.
  done.
Qed.

(** So does the loop: what it throws is a [TypeError]. *)
Lemma build_table_throws items e :
  build_table items = Throw e -> exists r, e = TypeError r.
Proof.
  rewrite build_table_eq. unfold table_of.
  destruct items as [| | | | |l|]; cbn; try (intros [= <-]; by eauto).
  destruct (map_completion render_row l) as [rows|e'] eqn:Hr; [done|].
  intros [= <-]. apply map_completion_throw_inv in Hr as (x & _ & Hx).
  by eapply render_row_throws.
Qed.

End TableFacts.

(** ** Properties *)

Section CartProperties.
Context {B : Builtins}.

(** C3 (error containment). Decoding the cart never throws, whatever the
    [items] parameter holds and whatever [atob] and [JSON.parse] do with
    it: the result is the parsed payload when both succeed, and the empty
    array otherwise; a failure adds exactly one line to the console, and the
    page is not touched. *)
Theorem decode_items_contained (encoded : option jsstring) (w : Browser) :
  match encoded with
  | None => decode_items encoded w = (Normal (VArray []), w)
  | Some s =>
      match decode_payload s with
      | Normal v => decode_items encoded w = (Normal v, w)
      | Throw e =>
          decode_items encoded w
          = (Normal (VArray []), log (LogError decode_error_message e) w)
      end
  end.
Proof.
  rewrite decode_items_eq. destruct w as [p c]. unfold log.
  destruct encoded as [s|]; cbn; [|by rewrite app_nil_r].
  destruct (decode_payload s); cbn; by rewrite ?app_nil_r.
Qed.

(** C4 (table invariant). When the table is built, the cart is an array,
    the table keeps its tag, class and header, and its body rows are the
    rendered items: as many as the array has elements, in the same order,
    none dropped, merged or duplicated. *)
Theorem build_table_rows (items : value) (t : element) :
  build_table items = Normal t ->
  exists l,
    items = VArray l
    /\ el_tag t = str "table" /\ el_class t = str "items-table"
    /\ el_markup t = header_markup
    /\ length (el_children t) = length l
    /\ Forall2 (fun item row => render_row item = Normal row) l (el_children t).
Proof.
  rewrite build_table_eq. unfold table_of.
  destruct items; cbn; try done.
  destruct (map_completion render_row l) as [rows|] eqn:Hrows; [|done].
  intros [= <-]. exists l. split_and!; try done.
  - by apply map_completion_length in Hrows.
  - by apply map_completion_Forall2.
Qed.

(** C5 (when the table cannot be built). Building the table returns exactly
    when the cart is an array whose every element is renderable: not
    [null], with [name], [quantity] and [unit_price] convertible to strings
    and a [unit_price] on which [toLocaleString] can be called.  On any
    other payload, valid JSON included, the loop throws. *)
Theorem build_table_is_normal (items : value) :
  is_normal (build_table items)
  = match items with
    | VArray l => forallb renderable l
    | _ => false
    end.
Proof.
  rewrite build_table_eq. unfold table_of. destruct items; try done. cbn.
  rewrite is_normal_map, map_completion_is_normal.
  apply forallb_Forall_ext, List.Forall_forall. intros item _.
  apply render_row_is_normal.
Qed.

(** C10 (rows of well-shaped items). An item with a string [name] and
    Numbers [quantity] and [unit_price] always renders: the cells are the
    name as it is, the quantity in the plain Number format, the unit price
    and the subtotal in the locale format, the subtotal being the double
    product [unit_price * quantity]. *)
Theorem render_row_line_item (n : jsstring) (q u : number) :
  render_row (line_item n q u)
  = Normal (row_of n (Number_toString q) (Number_toLocaleString u)
              (Number_toLocaleString (num_mul u q))).
Proof. rewrite render_row_fields by done. reflexivity. Qed.

(** C30 (whole prices, whole subtotals). For an item whose [unit_price]
    and [quantity] are nonzero integers with a product below [2^53], the
    subtotal cell shows the integer product: the multiplication of line 50
    does not round. *)
Theorem integer_subtotal (n : jsstring) (q u : Z) :
  u <> 0 -> q <> 0 -> Z.abs (u * q) < 2 ^ 53 ->
  subtotal (line_item n (num_of_Z q) (num_of_Z u)) = Normal (num_of_Z (u * q))
  /\ render_row (line_item n (num_of_Z q) (num_of_Z u))
     = Normal (row_of n (Number_toString (num_of_Z q))
                 (Number_toLocaleString (num_of_Z u))
                 (Number_toLocaleString (num_of_Z (u * q)))).
Proof.
  intros Hu Hq Hb. rewrite render_row_fields by done.
  rewrite <- (num_mul_integers u q Hu Hq Hb). done.
Qed.

(** C23 (the loop is a map). The table the [forEach] loop builds by
    appending to a table under construction, stopping at the first item
    that throws, is the header with the images of the items under the row
    function, or the first exception among them in order. *)
Theorem build_table_as_map (items : value) :
  build_table items = table_of items.
Proof. apply build_table_eq. Qed.

End CartProperties.

(** A text without [-] and [_] comes back from the URL-safe alphabet. *)
Lemma base64url_inverse (s : jsstring) :
  ~ In 45 s -> ~ In 95 s ->
  base64url_to_base64 (base64_to_base64url s) = s.
Proof.
  intros H1 H2. unfold base64url_to_base64, base64_to_base64url.
  rewrite (replace_all_comm 45 43 47 95) by done.
  rewrite (replace_all_inverse 43 45) by done.
  by rewrite (replace_all_inverse 47 95).
Qed.

(** C12 (alphabet round trip). A text sent through the URL-safe alphabet
    and mapped back by the two replacements of the script is the same text
    again exactly when it holds no [-] and no [_], as every standard base64
    text does; a text that holds one comes back changed. *)
Theorem base64url_round_trip (s : jsstring) :
  base64url_to_base64 (base64_to_base64url s) = s <-> ~ In 45 s /\ ~ In 95 s.
Proof.
  split; [|intros [H1 H2]; by apply base64url_inverse].
  intros <-. apply base64url_to_base64_clean.
Qed.

Example base64url_round_trip_sample :
  base64url_to_base64 (base64_to_base64url (str "a+b/c=")) = str "a+b/c="
  /\ base64url_to_base64 (base64_to_base64url (str "a-b")) = str "a+b".
Proof. split; reflexivity. Qed.

(** The row template as the list of its pieces. *)
Lemma row_markup_concat n q u s :
  row_markup n q u s
  = concat [nl; str "      <td>"; n; str "</td>";
            nl; str "      <td>"; q; str "</td>";
            nl; str "      <td>$"; u; str "</td>";
            nl; str "      <td>$"; s; str "</td>"; nl; str "    "].
Proof. reflexivity. Qed.

(** C11 (markup injection). The name of an item goes into the row markup
    unescaped: every [<td>] in it is one more cell opener in the markup, on
    top of the four of the template. *)
Theorem row_markup_injection (n q u s : jsstring) :
  (4 + count_occ_sub (str "<td>") n
   <= count_occ_sub (str "<td>") (row_markup n q u s))%nat.
Proof.
  rewrite row_markup_concat.
  etransitivity; [|apply (count_occ_sub_concat (str "<td>")); done].
  cbn [map list_sum fold_right].
  generalize (count_occ_sub (str "<td>") n), (count_occ_sub (str "<td>") q),
    (count_occ_sub (str "<td>") u), (count_occ_sub (str "<td>") s).
  intros cn cq cu cs. cbv -[Nat.add]. lia.
Qed.
