(* ===== verification/Confirm.v ===== *)
(** * The confirm button

    Lines 65-72 of [src/checkout_web/script.js]: the listener that the
    script registers on [#btn-confirm], and the browser's side of a click.
    The listener shows the confirmation message, disables the button and
    changes its label.  Nothing in the script remembers that the order was
    confirmed: the state of the control is the [disabled] flag of the button,
    and a second confirmation is prevented only because a disabled button
    receives no click. *)

From Stdlib Require Import ZArith List Lia Bool String.
From stdpp Require Import base tactics list option numbers.
From S2P Require Import Prelude JsString Number Value Dom.

#[local] Open Scope Z_scope.
#[local] Open Scope js_scope.

Definition confirmed_label : jsstring := str "Pedido confirmado (demo)".

(** The listener of lines 68-72. *)
Definition confirm_handler : js unit :=
  set_hidden false ;;;
  set_disabled true ;;;
  set_button_text confirmed_label.

Definition run_listener (l : listener) : js unit :=
  match l with ConfirmListener => confirm_handler end.

(** An exception that reaches the top of a script or of a listener is
    reported on the console; the store keeps what was done before it. *)
Definition report (r : result unit * Browser) : Browser :=
  match r with
  | (Normal _, w) => w
  | (Throw e, w) => log (Uncaught e) w
  end.

(** A click of the user on the confirm button: a disabled button receives
    nothing; otherwise the listeners registered so far run in order, each
    to its end or to its exception. *)
Definition click (w : Browser) : Browser :=
  match btn_confirm (page w) with
  | Some b =>
      if btn_disabled b then w
      else fold_left (fun w' l => report (run_listener l w')) (btn_listeners b) w
  | None => w
  end.

(** The page after the listener ran to its end. *)
Definition confirmed_page (p : Page) : Page :=
  map_button (relabel confirmed_label)
    (map_button (disable true) (put_hidden false p)).

(** The effect of a click on the page alone: the listener runs to its end
    when the button is enabled and has a listener and the message element
    exists; in every other case the page stays as it is. *)
Definition click_page (p : Page) : Page :=
  match btn_confirm p with
  | Some b =>
      if btn_disabled b then p
      else if is_some (confirmation_hidden p)
              && negb (bool_decide (btn_listeners b = [])) then confirmed_page p
      else p
  | None => p
  end.

(** ** The control as a state machine *)

Inductive confirm_state : Type := Active | Confirmed.

#[export] Instance confirm_state_eq_dec : EqDecision confirm_state.
Proof. solve_decision. Defined.

(** The state of the control is read off the button. *)
Definition confirm_state_of (p : Page) : option confirm_state :=
  option_map (fun b => if btn_disabled b then Confirmed else Active)
    (btn_confirm p).

(** The stores a session can be in after any number of clicks. *)
Inductive reachable (w0 : Browser) : Browser -> Prop :=
| reach_start : reachable w0 w0
| reach_click w : reachable w0 w -> reachable w0 (click w).

(** Both elements the listener writes to exist. *)
Definition can_confirm (p : Page) : bool :=
  is_some (btn_confirm p) && is_some (confirmation_hidden p).

(** The button carries the listener of the script and nothing else. *)
Definition wired (p : Page) : bool :=
  match btn_confirm p with
  | Some b => bool_decide (btn_listeners b = [ConfirmListener])
  | None => false
  end.

(** What [Confirmed] looks like on the page. *)
Definition shows_confirmation (p : Page) : bool :=
  match btn_confirm p, confirmation_hidden p with
  | Some b, Some h =>
      btn_disabled b && negb h && bool_decide (btn_text b = confirmed_label)
  | _, _ => false
  end.

Section ConfirmFacts.
Implicit Types (w : Browser) (p : Page) (b : Button).

(** *** The listener *)

Lemma confirm_handler_ok w :
  can_confirm (page w) = true ->
  confirm_handler w = (Normal tt, with_page confirmed_page w).
Proof. by destruct w as [[? ? ? ? ? [b|] [h|]] c]. Qed.

(** Without the message element the first statement throws: the button is
    neither disabled nor relabelled. *)
Lemma confirm_handler_no_message w :
  confirmation_hidden (page w) = None ->
  confirm_handler w = (Throw (TypeError NullishProperty), w).
Proof. destruct w as [[? ? ? ? ? ? [h|]] c]; by intros [=]. Qed.

Lemma confirmed_page_idem p : confirmed_page (confirmed_page p) = confirmed_page p.
Proof. by destruct p as [? ? ? ? ? [b|] ?]. Qed.

Lemma can_confirm_confirmed_page p :
  can_confirm (confirmed_page p) = is_some (btn_confirm p).
Proof. by destruct p as [? ? ? ? ? [b|] ?]. Qed.

Lemma confirmed_page_shows p :
  is_some (btn_confirm p) = true -> shows_confirmation (confirmed_page p) = true.
Proof. destruct p as [? ? ? ? ? [b|] ?]; [|done]. intros _. cbn.
  by rewrite bool_decide_eq_true_2. Qed.

Lemma confirmed_page_frame p :
  buyer_name (confirmed_page p) = buyer_name p
  /\ buyer_email (confirmed_page p) = buyer_email p
  /\ buyer_id (confirmed_page p) = buyer_id p
  /\ order_amount (confirmed_page p) = order_amount p
  /\ card_right (confirmed_page p) = card_right p.
Proof. by destruct p as [? ? ? ? ? [b|] ?]. Qed.

Lemma confirmed_page_state p :
  is_some (btn_confirm p) = true ->
  confirm_state_of (confirmed_page p) = Some Confirmed.
Proof. by destruct p as [? ? ? ? ? [b|] ?]. Qed.

(** *** Dispatch *)

Lemma report_confirm_handler w :
  can_confirm (page w) = true ->
  report (run_listener ConfirmListener w) = with_page confirmed_page w.
Proof. intros H. cbn. by rewrite confirm_handler_ok. Qed.

(** One or several copies of the listener leave the same store. *)
Lemma dispatch_confirm (ls : list listener) w :
  can_confirm (page w) = true -> ls <> [] ->
  fold_left (fun w' l => report (run_listener l w')) ls w
  = with_page confirmed_page w.
Proof.
  intros Hw Hls. destruct ls as [|[] ls]; [done|]. clear Hls. cbn [fold_left].
  rewrite report_confirm_handler by done.
  assert (Hc : can_confirm (page (with_page confirmed_page w)) = true).
  { cbn. rewrite can_confirm_confirmed_page.
    by apply andb_true_iff in Hw as [? _]. }
  assert (Hi : with_page confirmed_page (with_page confirmed_page w)
               = with_page confirmed_page w).
  { unfold with_page. cbn. by rewrite confirmed_page_idem. }
  generalize dependent (with_page confirmed_page w). intros w' Hc Hi.
  induction ls as [|[] ls IH]; cbn [fold_left]; [done|].
  rewrite report_confirm_handler by done. rewrite Hi. apply IH.
Qed.

Lemma click_disabled w b :
  btn_confirm (page w) = Some b -> btn_disabled b = true -> click w = w.
Proof. unfold click. by intros -> ->. Qed.

Lemma click_no_button w : btn_confirm (page w) = None -> click w = w.
Proof. unfold click. by intros ->. Qed.

Lemma click_active w b :
  btn_confirm (page w) = Some b -> btn_disabled b = false ->
  confirmation_hidden (page w) <> None -> btn_listeners b <> [] ->
  click w = with_page confirmed_page w.
Proof.
  intros Hb Hd Hm Hl. unfold click. rewrite Hb, Hd.
  apply dispatch_confirm; [|done]. unfold can_confirm. rewrite Hb.
  by destruct (confirmation_hidden (page w)).
Qed.

(** Without the message element every listener throws at once: each click
    adds one report per listener to the console and changes nothing else. *)
Lemma dispatch_no_message (ls : list listener) w :
  confirmation_hidden (page w) = None ->
  fold_left (fun w' l => report (run_listener l w')) ls w
  = {| page := page w;
       console := console w
         ++ map (fun _ => Uncaught (TypeError NullishProperty)) ls |}.
Proof.
  revert w. induction ls as [|[] ls IH]; intros [p c] Hm; cbn [fold_left map].
  - by rewrite app_nil_r.
  - cbn [run_listener]. rewrite confirm_handler_no_message by done.
    cbn [report]. rewrite IH by done. cbn. by rewrite <- app_assoc.
Qed.

(** What a click does to the page is a function of the page. *)
Lemma page_click w : page (click w) = click_page (page w).
Proof.
  unfold click, click_page.
  destruct (btn_confirm (page w)) as [b|] eqn:Hb; [|done].
  destruct (btn_disabled b) eqn:Hd; [done|].
  destruct (confirmation_hidden (page w)) as [h|] eqn:Hm.
  - destruct (btn_listeners b) as [|l ls] eqn:Hl; [done|].
    rewrite dispatch_confirm; [done| |done].
    unfold can_confirm. by rewrite Hb, Hm.
  - by rewrite dispatch_no_message.
Qed.

Lemma click_page_idem p : click_page (click_page p) = click_page p.
Proof.
  destruct p as [? ? ? ? ? [[[] ? [|l ls]]|] [h|]]; reflexivity.
Qed.

(** A click touches the button and the message, nothing else. *)
Lemma click_page_frame p :
  (forall s, get_slot s (click_page p) = get_slot s p)
  /\ card_right (click_page p) = card_right p.
Proof.
  destruct p as [? ? ? ? ? [[[] ? [|l ls]]|] [h|]]; split; try done;
    by intros [].
Qed.

(** Whatever was clicked, the stores of a session differ from its first
    one in the button, the message and the console only. *)
Lemma reachable_frame w0 w :
  reachable w0 w ->
  (forall s, get_slot s (page w) = get_slot s (page w0))
  /\ card_right (page w) = card_right (page w0).
Proof.
  induction 1 as [|w Hw [IH1 IH2]]; [done|]. rewrite page_click.
  destruct (click_page_frame (page w)) as [H1 H2].
  split; [intros s; by rewrite H1 | by rewrite H2].
Qed.

(** *** Sessions *)

(** The click that confirms, in terms of the state machine. *)
Lemma click_wired w :
  confirm_state_of (page w) = Some Active -> wired (page w) = true ->
  is_some (confirmation_hidden (page w)) = true ->
  click w = with_page confirmed_page w /\ is_some (btn_confirm (page w)) = true.
Proof.
  unfold confirm_state_of, wired.
  destruct (btn_confirm (page w)) as [b|] eqn:Hb; [|done]. cbn.
  destruct (btn_disabled b) eqn:Hd; [done|]. intros _ Hw%bool_decide_eq_true Hm.
  split; [|done]. apply (click_active w b); rewrite ?Hw; try done.
  by destruct (confirmation_hidden (page w)).
Qed.

(** A disabled button ends the session: this is the browser's part, and
    holds whatever the listeners are. *)
Lemma reachable_confirmed w0 w :
  confirm_state_of (page w0) = Some Confirmed -> reachable w0 w -> w = w0.
Proof.
  intros H0. induction 1 as [|w Hw IH]; [done|]. subst w.
  unfold confirm_state_of in H0.
  destruct (btn_confirm (page w0)) as [b|] eqn:Hb; [|done].
  eapply click_disabled; [done|]. cbn in H0. by destruct (btn_disabled b).
Qed.

(** A session is its first store or one that follows a click on it. *)
Lemma reachable_inv w0 w :
  reachable w0 w -> w = w0 \/ reachable (click w0) w.
Proof.
  induction 1 as [|w Hw [->|IH]]; [by left|right; constructor|].
  right. by constructor.
Qed.

End ConfirmFacts.

(** ** Properties *)

(** C7 (confirmation). A click on the active button, wired by the script,
    of a page that has the message element, confirms: the button is
    disabled and carries the confirmation label, the message is visible,
    the control is in state [Confirmed]; the buyer fields, the table and the
    console are as they were. *)
Theorem click_confirms (w : Browser) :
  confirm_state_of (page w) = Some Active ->
  wired (page w) = true ->
  is_some (confirmation_hidden (page w)) = true ->
  shows_confirmation (page (click w)) = true
  /\ confirm_state_of (page (click w)) = Some Confirmed
  /\ (forall s, get_slot s (page (click w)) = get_slot s (page w))
  /\ card_right (page (click w)) = card_right (page w)
  /\ console (click w) = console w.
Proof.
  unfold confirm_state_of, wired.
  destruct (btn_confirm (page w)) as [b|] eqn:Hb; [|done]. cbn.
  destruct (btn_disabled b) eqn:Hd; [done|]. intros _ Hw%bool_decide_eq_true Hm.
  rewrite (click_active w b) by (rewrite ?Hw; try done;
    by destruct (confirmation_hidden (page w))).
  cbn [page console with_page].
  destruct (confirmed_page_frame (page w)) as (? & ? & ? & ? & ?).
  split_and!; try done.
  - apply confirmed_page_shows. by rewrite Hb.
  - apply confirmed_page_state. by rewrite Hb.
  - by intros [].
Qed.

(** C13 (no second confirmation). Whatever the page, the second of two
    clicks changes nothing on it: either the first click confirmed and
    disabled the button, or it could not change the page and neither can
    the second. *)
Theorem click_twice (w : Browser) : page (click (click w)) = page (click w).
Proof. rewrite !page_click. apply click_page_idem. Qed.

(** C8 (one confirmation, for good). On a page whose button is active and
    wired by the script and whose message element exists, the first click
    decides the rest of the session: however many clicks follow it, the
    store is the one the first click left, in which the control is
    [Confirmed] and the page shows the confirmation.  The listener has to
    disable the button for this: the state is read off the button, and it
    is the button that keeps later clicks away. *)
Theorem click_is_final (w0 w : Browser) :
  confirm_state_of (page w0) = Some Active ->
  wired (page w0) = true ->
  is_some (confirmation_hidden (page w0)) = true ->
  reachable (click w0) w ->
  w = click w0
  /\ confirm_state_of (page w) = Some Confirmed
  /\ shows_confirmation (page w) = true.
Proof.
  intros Ha Hw Hm Hr.
  destruct (click_wired w0 Ha Hw Hm) as (Hc & Hb). rewrite Hc in Hr |- *.
  assert (Hs : confirm_state_of (page (with_page confirmed_page w0))
               = Some Confirmed) by by apply confirmed_page_state.
  rewrite (reachable_confirmed _ _ Hs Hr).
  split_and!; [done..|by apply confirmed_page_shows].
Qed.

