(* ===== verification/Checkout.v ===== *)
(** * The whole script

    [src/checkout_web/script.js] from its first line to its last: the four
    text writes (lines 18-21), the cart (lines 24-32), the table and its
    insertion into the page (lines 35-62), the listener of the confirm button
    (lines 65-72).  [load] is the script run by the browser when the page
    loads; together with [click] of [Confirm] it is all that ever changes
    the page. *)

From Stdlib Require Import ZArith List Lia Bool String.
From stdpp Require Import base tactics list option numbers.
From S2P Require Import Prelude JsString Number Value Semantics Dom.
From S2P Require Import Query Cart Confirm.

#[local] Open Scope Z_scope.
#[local] Open Scope js_scope.

Section Script.
Context {B : Builtins}.

(** Lines 18-21. *)
Definition paint_buyer (params : URLSearchParams) : js unit :=
  set_textContent BuyerName (name params) ;;;
  set_textContent BuyerEmail (email params) ;;;
  set_textContent BuyerId (userId params) ;;;
  set_textContent OrderAmount (amountFormatted params).

(** The function the script consists of. *)
Definition initialize (params : URLSearchParams) : js unit :=
  paint_buyer params ;;;
  items <~ decode_items (itemsEncoded params) ;;
  table <~ cmd_lift (build_table items) ;;
  card_right_appendChild table ;;;
  addEventListener ConfirmListener.

(** Loading the page runs the script once; an exception that escapes it is
    reported on the console. *)
Definition load (params : URLSearchParams) (w : Browser) : Browser :=
  report (initialize params w).

(** ** The script as a function of its inputs *)

(** The text each slot is given. *)
Definition slot_text (params : URLSearchParams) (s : slot) : jsstring :=
  match s with
  | BuyerName => name params
  | BuyerEmail => email params
  | BuyerId => userId params
  | OrderAmount => amountFormatted params
  end.

(** The page after the four text writes. *)
Definition painted (params : URLSearchParams) (p : Page) : Page :=
  put_slot OrderAmount (amountFormatted params)
    (put_slot BuyerId (userId params)
       (put_slot BuyerEmail (email params)
          (put_slot BuyerName (name params) p))).

(** The cart the table is built from. *)
Definition cart (params : URLSearchParams) : value :=
  (decoded_cart (itemsEncoded params)).1.

(** The console lines of the decoding. *)
Definition cart_log (params : URLSearchParams) : list log_entry :=
  (decoded_cart (itemsEncoded params)).2.

(** The page after the table [t] went into the container. *)
Definition with_table (t : element) (p : Page) : Page :=
  put_card_right (default [] (card_right p) ++ [t]) p.

(** The page at the end of a run in which nothing threw. *)
Definition rendered (params : URLSearchParams) (t : element) (p : Page) : Page :=
  map_button (add_listener ConfirmListener) (with_table t (painted params p)).

(** The four text slots exist. *)
Definition has_slots (p : Page) : bool :=
  is_some (buyer_name p) && is_some (buyer_email p)
  && is_some (buyer_id p) && is_some (order_amount p).

(** The slots in the order the script writes them. *)
Definition slot_order : list slot := [BuyerName; BuyerEmail; BuyerId; OrderAmount].

(** The first slot, in that order, that the page lacks. *)
Definition first_missing (p : Page) : option slot :=
  find (fun s => negb (is_some (get_slot s p))) slot_order.

(** The page after the writes that come before the write to [s]. *)
Definition painted_before (s : slot) (params : URLSearchParams) (p : Page) :
    Page :=
  let put s' p' := put_slot s' (slot_text params s') p' in
  match s with
  | BuyerName => p
  | BuyerEmail => put BuyerName p
  | BuyerId => put BuyerEmail (put BuyerName p)
  | OrderAmount => put BuyerId (put BuyerEmail (put BuyerName p))
  end.

End Script.

Section ScriptFacts.
Context {B : Builtins}.
Implicit Types (params : URLSearchParams) (w : Browser) (p : Page).

Lemma complete_has_slots p : complete_page p = true -> has_slots p = true.
Proof.
  unfold complete_page, has_slots. rewrite !andb_true_iff. tauto.
Qed.

Lemma paint_buyer_ok params w :
  has_slots (page w) = true ->
  paint_buyer params w = (Normal tt, with_page (painted params) w).
Proof. by destruct w as [[[?|] [?|] [?|] [?|] ? ? ?] c]. Qed.

(** A missing slot stops the script at the write to it. *)
Lemma paint_buyer_throws params w :
  has_slots (page w) = false ->
  (paint_buyer params w).1 = Throw (TypeError NullishProperty).
Proof. by destruct w as [[[?|] [?|] [?|] [?|] ? ? ?] c]. Qed.

Lemma painted_slot params p s :
  get_slot s (painted params p) = Some (slot_text params s).
Proof. by destruct s. Qed.

Lemma painted_frame params p :
  card_right (painted params p) = card_right p
  /\ btn_confirm (painted params p) = btn_confirm p
  /\ confirmation_hidden (painted params p) = confirmation_hidden p.
Proof. done. Qed.

(** The run of the script, case by case, on a page that has the four
    slots: the store after the text writes and the decoding, then the three
    places where the rest can stop. *)
Lemma initialize_eq params w :
  has_slots (page w) = true ->
  let w2 := {| page := painted params (page w);
               console := console w ++ cart_log params |} in
  initialize params w
  = match build_table (cart params) with
    | Throw e => (Throw e, w2)
    | Normal t =>
        match card_right (page w), btn_confirm (page w) with
        | None, _ => (Throw (TypeError NullishProperty), w2)
        | Some _, None =>
            (Throw (TypeError NullishProperty), with_page (with_table t) w2)
        | Some _, Some _ =>
            (Normal tt, {| page := rendered params t (page w);
                           console := console w ++ cart_log params |})
        end
    end.
Proof.
  intros Hs. unfold initialize.
  rewrite (cmd_bind_normal _ _ _ _ _ (paint_buyer_ok params w Hs)).
  rewrite (cmd_bind_normal _ _ _ _ _ (decode_items_eq _ _)).
  fold (cart params) (cart_log params). cbn [page console with_page].
  unfold cmd_bind at 1, cmd_lift.
  destruct (build_table (cart params)) as [t|e]; [|done].
  destruct w as [[? ? ? ? [ch|] [b|] ?] c]; reflexivity.
Qed.

(** The store [load] leaves, in the two cases that matter. *)
Lemma load_ok params w t :
  complete_page (page w) = true -> build_table (cart params) = Normal t ->
  load params w = {| page := rendered params t (page w);
                     console := console w ++ cart_log params |}.
Proof.
  intros Hc Ht. unfold load.
  rewrite initialize_eq, Ht by by apply complete_has_slots.
  unfold complete_page in Hc. rewrite !andb_true_iff in Hc.
  destruct Hc as [[[_ Hcr] Hb] _].
  by destruct (card_right (page w)), (btn_confirm (page w)).
Qed.

Lemma load_failed params w e :
  has_slots (page w) = true -> build_table (cart params) = Throw e ->
  load params w = {| page := painted params (page w);
                     console := console w ++ cart_log params ++ [Uncaught e] |}.
Proof.
  intros Hs Ht. unfold load. rewrite initialize_eq, Ht by done.
  cbn. unfold log. cbn. by rewrite <- app_assoc.
Qed.

Lemma rendered_slot params t p s :
  get_slot s (rendered params t p) = Some (slot_text params s).
Proof.
  unfold rendered, with_table.
  by rewrite get_slot_map_button, get_slot_put_card_right, painted_slot.
Qed.

(** Wherever the run stops after the text writes, the slots hold the
    texts. *)
Lemma load_slot params w s :
  has_slots (page w) = true ->
  get_slot s (page (load params w)) = Some (slot_text params s).
Proof.
  intros Hs. unfold load. rewrite initialize_eq by done.
  destruct (build_table (cart params)) as [t|e]; [|apply painted_slot].
  destruct (card_right (page w)) as [ch|] eqn:Hcr; [|apply painted_slot].
  destruct (btn_confirm (page w)) as [b|]; [apply rendered_slot|].
  cbn -[painted get_slot put_card_right]. unfold with_table.
  by rewrite get_slot_put_card_right, painted_slot.
Qed.

(** The empty cart gives the table as it is before the loop. *)
Lemma build_table_empty : build_table (VArray []) = Normal new_table.
Proof. reflexivity. Qed.

(** The click after a run that reached its end, on a page whose button was
    enabled: the listener the run registered is there to confirm. *)
Lemma click_rendered params w t :
  complete_page (page w) = true ->
  confirm_state_of (page w) = Some Active ->
  let w1 := {| page := rendered params t (page w);
               console := console w ++ cart_log params |} in
  click w1 = with_page confirmed_page w1
  /\ confirm_state_of (confirmed_page (page w1)) = Some Confirmed
  /\ shows_confirmation (confirmed_page (page w1)) = true.
Proof.
  intros Hc Ha w1. unfold complete_page in Hc. rewrite !andb_true_iff in Hc.
  destruct Hc as [[_ Hb] Hm]. unfold confirm_state_of in Ha.
  destruct (btn_confirm (page w)) as [b|] eqn:Eb; [|done].
  assert (Hb1 : btn_confirm (page w1) = Some (add_listener ConfirmListener b)).
  { subst w1. cbn [page]. unfold rendered. rewrite btn_confirm_map_button.
    change (btn_confirm (with_table t (painted params (page w))))
      with (btn_confirm (page w)). by rewrite Eb. }
  assert (Hs : is_some (btn_confirm (page w1)) = true) by by rewrite Hb1.
  split_and!; [|by apply confirmed_page_state|by apply confirmed_page_shows].
  apply (click_active w1 _ Hb1).
  - cbn in *. by destruct (btn_disabled b).
  - cbn. unfold rendered. rewrite hidden_map_button. cbn.
    by destruct (confirmation_hidden (page w)).
  - cbn. by destruct (btn_listeners b).
Qed.

End ScriptFacts.

(** ** Properties *)

Section CheckoutProperties.
Context {B : Builtins}.
Implicit Types (params : URLSearchParams) (w : Browser).

(** C1 (the rendered page). On a page that has every element, with a cart
    the table can be built from, the script runs to its end and leaves: the
    four slots holding the name, e-mail, id and formatted amount of the
    query string (or their defaults); the table as the last child of the
    container, after whatever the container held; one more click listener
    on the button, whose label and [disabled] flag are untouched; the
    message element as it was; and on the console only what the decoding
    logged. *)
Theorem load_renders params w t :
  complete_page (page w) = true ->
  build_table (cart params) = Normal t ->
  (forall s, get_slot s (page (load params w)) = Some (slot_text params s))
  /\ card_right (page (load params w))
     = Some (default [] (card_right (page w)) ++ [t])
  /\ btn_confirm (page (load params w))
     = option_map (add_listener ConfirmListener) (btn_confirm (page w))
  /\ confirmation_hidden (page (load params w)) = confirmation_hidden (page w)
  /\ console (load params w) = console w ++ cart_log params.
Proof.
  intros Hc Ht. rewrite (load_ok params w t Hc Ht). cbn [page console].
  unfold rendered.
  rewrite card_right_map_button, btn_confirm_map_button, hidden_map_button.
  split_and!; try done. intros s. apply rendered_slot.
Qed.

(** C2 (the aborted page). When the table cannot be built (the cart is
    valid JSON but no array, or one of its elements is not renderable), the
    exception of the loop is caught by nobody: the script stops there.  The
    four slots are written, but no table is inserted, no header either, and
    the confirm button gets no listener; the console holds the report of the
    uncaught exception. *)
Theorem load_aborts params w e :
  has_slots (page w) = true ->
  build_table (cart params) = Throw e ->
  (forall s, get_slot s (page (load params w)) = Some (slot_text params s))
  /\ card_right (page (load params w)) = card_right (page w)
  /\ btn_confirm (page (load params w)) = btn_confirm (page w)
  /\ confirmation_hidden (page (load params w)) = confirmation_hidden (page w)
  /\ console (load params w) = console w ++ cart_log params ++ [Uncaught e].
Proof.
  intros Hs Ht. rewrite (load_failed params w e Hs Ht). cbn [page console].
  split_and!; try done. intros s. apply painted_slot.
Qed.

(** C6 (buyer fields always render). Whatever the [items] parameter holds
    and whichever of the other elements are missing, a page that has the
    four slots shows the buyer's name, e-mail, id and the amount after the
    script ran. *)
Theorem load_paints_buyer params w :
  has_slots (page w) = true ->
  get_slot BuyerName (page (load params w)) = Some (name params)
  /\ get_slot BuyerEmail (page (load params w)) = Some (email params)
  /\ get_slot BuyerId (page (load params w)) = Some (userId params)
  /\ get_slot OrderAmount (page (load params w))
     = Some (amountFormatted params).
Proof.
  intros Hs.
  split_and!; [apply (load_slot params w BuyerName Hs)
              |apply (load_slot params w BuyerEmail Hs)
              |apply (load_slot params w BuyerId Hs)
              |apply (load_slot params w OrderAmount Hs)].
Qed.

(** C9 (a session, from the link to the confirmation). On a page that
    has every element and an enabled button, with a cart the table can be
    built from, the script followed by one click or by any number of them
    leaves one store: the rendered page with the listener's three writes
    on top of it (the message shown, the button disabled and relabelled),
    and on the console what the decoding logged.  The script has to
    register the listener, and the listener to disable the button, for
    this to hold. *)
Theorem session_confirmed params w t w' :
  complete_page (page w) = true ->
  confirm_state_of (page w) = Some Active ->
  build_table (cart params) = Normal t ->
  reachable (click (load params w)) w' ->
  w' = {| page := confirmed_page (rendered params t (page w));
          console := console w ++ cart_log params |}
  /\ confirm_state_of (page w') = Some Confirmed
  /\ shows_confirmation (page w') = true.
Proof.
  intros Hc Ha Ht Hr. rewrite (load_ok params w t Hc Ht) in Hr.
  destruct (click_rendered params w t Hc Ha) as (Hk & Hs & Hv).
  rewrite Hk in Hr.
  by rewrite (reachable_confirmed (with_page confirmed_page _) w' Hs Hr).
Qed.

(** C16 (no cart, or one that cannot be decoded). On a page that has
    every element, a link without the [items] parameter, or with one that
    [atob] or [JSON.parse] rejects, is rendered to its end: the buyer
    fields, the table with its header and no row, the listener.  The
    console gets nothing in the first case and the one line of the [catch]
    block in the second; the exception itself goes no further. *)
Theorem load_without_cart params w :
  complete_page (page w) = true ->
  (itemsEncoded params = None ->
   load params w = {| page := rendered params new_table (page w);
                      console := console w |})
  /\ (forall s e,
        itemsEncoded params = Some s -> decode_payload s = Throw e ->
        load params w
        = {| page := rendered params new_table (page w);
             console := console w ++ [LogError decode_error_message e] |}).
Proof.
  intros Hc. split; [intros Hi|intros s e Hi He];
    rewrite (load_ok params w new_table Hc);
    unfold cart, cart_log; rewrite Hi; cbn [decoded_cart fst snd];
    rewrite ?He, ?app_nil_r; done.
Qed.

(** C17 (a dead button). After a run that stopped in the loop, the confirm
    button of a freshly served page has no listener: a click on it changes
    nothing, the order cannot be confirmed. *)
Theorem load_dead_button params w e b :
  has_slots (page w) = true ->
  build_table (cart params) = Throw e ->
  btn_confirm (page w) = Some b -> btn_listeners b = [] ->
  click (load params w) = load params w.
Proof.
  intros Hs Ht Hb Hl. rewrite (load_failed params w e Hs Ht). unfold click.
  cbn [page]. destruct (painted_frame params (page w)) as (_ & -> & _).
  rewrite Hb, Hl. by destruct (btn_disabled b).
Qed.

(** C27 (a missing slot). On a page that lacks one of the four slots the
    script stops at the first write that finds none: the slots before it,
    in the order name, e-mail, id, amount, hold their texts, everything
    else on the page is as served (no table, no listener), and the console
    reports the [TypeError]. *)
Theorem load_missing_slot params w s :
  first_missing (page w) = Some s ->
  load params w
  = log (Uncaught (TypeError NullishProperty))
      (with_page (painted_before s params) w).
Proof.
  destruct w as [[[?|] [?|] [?|] [?|] ? ? ?] c]; intros [= <-]; reflexivity.
Qed.

(** C28 (only type errors escape). Whatever the page and the parameters,
    an exception that escapes the script is a [TypeError]: the errors of
    [atob] and [JSON.parse] never do. *)
Theorem initialize_throws params w e :
  (initialize params w).1 = Throw e -> exists r, e = TypeError r.
Proof.
  destruct (has_slots (page w)) eqn:Hs.
  - rewrite initialize_eq by done.
    destruct (build_table (cart params)) as [t|e'] eqn:Ht; cbn.
    + destruct (card_right (page w)), (btn_confirm (page w));
        intros [= <-]; eauto.
    + intros [= <-]. by eapply build_table_throws.
  - unfold initialize. intros H. pose proof (paint_buyer_throws params w Hs) as Hp.
    unfold cmd_bind in H at 1.
    destruct (paint_buyer params w) as [[[]|e'] w']; cbn in *; [done|].
    simplify_eq. eauto.
Qed.

(** C24 (what a session keeps). After the script ran on a page with the
    four slots, no sequence of clicks changes what the slots show or what
    the container holds: the order on display is the order of the link for
    as long as the page lives. *)
Theorem session_keeps_order params w w' :
  has_slots (page w) = true ->
  reachable (load params w) w' ->
  (forall s, get_slot s (page w') = Some (slot_text params s))
  /\ card_right (page w') = card_right (page (load params w)).
Proof.
  intros Hs [H1 H2]%reachable_frame. split; [|done].
  intros s. rewrite H1. by apply load_slot.
Qed.

End CheckoutProperties.
