(* ===== verification/WellFormed.v ===== *)
(** * Well-formed stores: adequacy of the representation

    A JavaScript string is a sequence of 16-bit code units by construction;
    the strings of this development are lists of integers, which need not
    be.  This file shows that the difference never matters: every string
    the model of the script puts on the page or on the console is a
    sequence of 16-bit code units, provided the strings of the query string
    are and the host keeps its promises ([BuiltinsLaws]).  It is a fact
    about the model, which any script written with these operations would
    share, and not one of the properties of [script.js]; it is what allows
    the other files to read a [jsstring] as a string.  The invariant
    [wf_store] is carried through the script with the triples of [Prelude]:
    it holds after a run that ends and after a run that throws, and every
    click keeps it. *)

From Stdlib Require Import ZArith List Lia Bool String.
From stdpp Require Import base tactics list option numbers.
From S2P Require Import Prelude JsString Number Value Semantics Dom.
From S2P Require Import Query Cart Confirm Checkout.

#[local] Open Scope Z_scope.
#[local] Open Scope js_scope.

(** ** The invariant *)

Definition wf_text (s : jsstring) : bool := forallb is_code_unit s.

Fixpoint wf_element (e : element) : bool :=
  match e with
  | Element t c m ch =>
      wf_text t && wf_text c && wf_text m && forallb wf_element ch
  end.

Definition wf_option {A} (f : A -> bool) (o : option A) : bool :=
  match o with Some a => f a | None => true end.

Definition wf_button (b : Button) : bool := wf_text (btn_text b).

Definition wf_page (p : Page) : bool :=
  wf_option wf_text (buyer_name p) && wf_option wf_text (buyer_email p)
  && wf_option wf_text (buyer_id p) && wf_option wf_text (order_amount p)
  && wf_option (forallb wf_element) (card_right p)
  && wf_option wf_button (btn_confirm p).

Definition wf_entry (l : log_entry) : bool :=
  match l with LogError msg _ => wf_text msg | Uncaught _ => true end.

Definition wf_store (w : Browser) : bool :=
  wf_page (page w) && forallb wf_entry (console w).

Definition wf_params (params : URLSearchParams) : bool :=
  forallb (fun kv => wf_text kv.1 && wf_text kv.2) params.

(** The invariant as a predicate on stores. *)
Definition Wf (w : Browser) : Prop := wf_store w = true.

(** Splits the conjunctions of the invariant, in the goal and the
    hypotheses. *)
Ltac wf_split :=
  unfold Wf, wf_store, wf_page, wf_button in *; cbn in *;
  rewrite ?andb_true_iff in *; intuition idtac.

(** ** The page operations keep it *)

Section PageWf.
Implicit Types (p : Page) (w : Browser) (t : jsstring).

Lemma wf_text_spec t : wf_text t = true <-> wf_string t.
Proof. apply forallb_is_code_unit. Qed.

Lemma wf_text_str (l : string) : wf_text (str l) = true.
Proof. apply wf_text_spec, str_wf. Qed.

Lemma put_slot_wf s t p :
  wf_text t = true -> wf_page p = true -> wf_page (put_slot s t p) = true.
Proof. destruct s; wf_split. Qed.

Lemma put_card_right_wf ch p :
  forallb wf_element ch = true -> wf_page p = true ->
  wf_page (put_card_right ch p) = true.
Proof. wf_split. Qed.

Lemma put_hidden_wf h p : wf_page p = true -> wf_page (put_hidden h p) = true.
Proof. wf_split. Qed.

Lemma map_button_wf (f : Button -> Button) p :
  (forall b, wf_button b = true -> wf_button (f b) = true) ->
  wf_page p = true -> wf_page (map_button f p) = true.
Proof.
  intros Hf. unfold map_button. destruct (btn_confirm p) as [b|] eqn:Hb; [|done].
  specialize (Hf b). unfold wf_page. rewrite Hb. wf_split.
Qed.

Lemma with_page_wf (f : Page -> Page) w :
  (wf_page (page w) = true -> wf_page (f (page w)) = true) ->
  Wf w -> Wf (with_page f w).
Proof. unfold Wf, wf_store. cbn. rewrite !andb_true_iff. tauto. Qed.

Lemma log_wf entry w : wf_entry entry = true -> Wf w -> Wf (log entry w).
Proof.
  unfold Wf, wf_store. cbn. rewrite forallb_app, !andb_true_iff. cbn.
  intros ->. tauto.
Qed.

(** A write to an element keeps the invariant if the update does; when the
    element is missing nothing is written. *)
Lemma write_if_wf {A} (found : Page -> option A) (f : Page -> Page) :
  (forall p, wf_page p = true -> wf_page (f p) = true) ->
  triple Wf (write_if found f) (fun _ => Wf) Wf.
Proof.
  intros Hf w Hw. unfold write_if. destruct (found (page w)); [|done].
  apply with_page_wf; auto.
Qed.

Lemma set_textContent_wf s t :
  wf_text t = true -> triple Wf (set_textContent s t) (fun _ => Wf) Wf.
Proof. intros Ht. apply write_if_wf. intros p. by apply put_slot_wf. Qed.

Lemma card_right_appendChild_wf e :
  wf_element e = true -> triple Wf (card_right_appendChild e) (fun _ => Wf) Wf.
Proof.
  intros He. apply write_if_wf. intros p Hp. apply put_card_right_wf; [|done].
  rewrite forallb_app. cbn. rewrite He.
  destruct (card_right p) as [ch|] eqn:Hc; [|done].
  unfold wf_page in Hp. rewrite Hc in Hp. wf_split.
Qed.

Lemma addEventListener_wf l : triple Wf (addEventListener l) (fun _ => Wf) Wf.
Proof. apply write_if_wf. intros p. by apply map_button_wf. Qed.

Lemma confirm_handler_wf : triple Wf confirm_handler (fun _ => Wf) Wf.
Proof.
  unfold confirm_handler.
  repeat (apply triple_inv_bind; [|intros ?]); apply write_if_wf; intros p.
  - apply put_hidden_wf.
  - by apply map_button_wf.
  - apply map_button_wf. intros b _. apply wf_text_str.
Qed.

Lemma report_wf (r : result unit * Browser) :
  Wf r.2 -> Wf (report r).
Proof. destruct r as [[[]|e] w]; [done|]. by apply log_wf. Qed.

End PageWf.

(** ** The parameters *)

Section ParamsWf.
Context {B : Builtins} {L : BuiltinsLaws B}.
Implicit Types (params : URLSearchParams).

Lemma params_get_wf k params v :
  wf_params params = true -> params_get k params = Some v -> wf_text v = true.
Proof.
  unfold wf_params. induction params as [|[k' v'] params IH]; cbn; [done|].
  rewrite !andb_true_iff. intros [[_ Hv'] Hp].
  case_bool_decide; [by intros [= <-] | by apply IH].
Qed.

Lemma or_string_wf k (d : string) params :
  wf_params params = true ->
  wf_text (or_string (params_get k params) (str d)) = true.
Proof.
  intros Hp. rewrite or_string_params.
  destruct (params_get k params) as [[|c s]|] eqn:Hk;
    eauto using wf_text_str, params_get_wf.
Qed.

Lemma slot_text_wf params s :
  wf_params params = true -> wf_text (slot_text params s) = true.
Proof.
  intros Hp. destruct s; cbn [slot_text].
  - by apply or_string_wf.
  - by apply or_string_wf.
  - unfold userId. rewrite or_string_params.
    destruct (params_get _ params) as [[|c t]|] eqn:Hk;
      eauto using params_get_wf.
  - apply wf_text_spec, Number_toLocaleCurrency_wf.
Qed.

Lemma paint_buyer_wf params :
  wf_params params = true ->
  triple Wf (paint_buyer params) (fun _ => Wf) Wf.
Proof.
  intros Hp. unfold paint_buyer.
  repeat (apply triple_inv_bind; [|intros ?]); apply set_textContent_wf.
  - apply (slot_text_wf params BuyerName Hp).
  - apply (slot_text_wf params BuyerEmail Hp).
  - apply (slot_text_wf params BuyerId Hp).
  - apply (slot_text_wf params OrderAmount Hp).
Qed.

End ParamsWf.

(** ** The cart and the table *)

Section CartWf.
Context {B : Builtins} {L : BuiltinsLaws B}.
Implicit Types (item items : value) (t row : element).

(** Whatever the parameter holds, the cart is well-formed: [atob] returns
    bytes, and [JSON.parse] makes its strings from those. *)
Lemma decoded_cart_wf (encoded : option jsstring) :
  wf_value (decoded_cart encoded).1 = true
  /\ forallb wf_entry (decoded_cart encoded).2 = true.
Proof.
  destruct encoded as [s|]; [|done]. cbn [decoded_cart].
  destruct (decode_payload s) as [v|e] eqn:Hd; cbn;
    [|unfold decode_error_message; by rewrite wf_text_str].
  split; [|done]. unfold decode_payload in Hd.
  destruct (atob _) as [t|] eqn:Ht; [|done]. cbn in Hd.
  eapply JSON_parse_wf; [|done]. eapply is_byte_string_wf, atob_byte_string, Ht.
Qed.

Lemma decode_items_wf (encoded : option jsstring) :
  triple Wf (decode_items encoded)
    (fun items w => wf_value items = true /\ Wf w) Wf.
Proof.
  intros w Hw. rewrite decode_items_eq.
  destruct (decoded_cart_wf encoded) as [Hv Hl]. split; [done|].
  unfold Wf, wf_store in *. cbn. rewrite forallb_app, Hl.
  by rewrite andb_true_r.
Qed.

Lemma row_markup_wf (n q u s : jsstring) :
  wf_string n -> wf_string q -> wf_string u -> wf_string s ->
  wf_string (row_markup n q u s).
Proof. intros. unfold row_markup, nl. auto 30 with js. Qed.

Lemma header_markup_wf : wf_string header_markup.
Proof. unfold header_markup, nl. auto 40 with js. Qed.

Lemma render_row_wf item row :
  wf_value item = true -> render_row item = Normal row ->
  wf_element row = true.
Proof.
  intros Hi H. unfold render_row in H.
  apply completion_bind_inv in H as (sub & _ & H).
  apply completion_bind_inv in H as (n & Hn%get_field_wf & H); [|done].
  apply completion_bind_inv in H as (ns & Hns%to_string_wf & H); [|done].
  apply completion_bind_inv in H as (q & Hq%get_field_wf & H); [|done].
  apply completion_bind_inv in H as (qs & Hqs%to_string_wf & H); [|done].
  apply completion_bind_inv in H as (u & Hu%get_field_wf & H); [|done].
  apply completion_bind_inv in H as (us & Hus%to_locale_string_wf & H); [|done].
  injection H as <-. cbn -[row_markup]. rewrite wf_text_str. cbn -[row_markup].
  rewrite andb_true_r. apply wf_text_spec, row_markup_wf; try done.
  apply Number_toLocaleString_wf.
Qed.

Lemma new_table_wf : wf_element new_table = true.
Proof.
  cbn -[header_markup]. rewrite !wf_text_str. cbn -[header_markup].
  rewrite andb_true_r. apply wf_text_spec, header_markup_wf.
Qed.

Lemma build_table_wf items t :
  wf_value items = true -> build_table items = Normal t ->
  wf_element t = true.
Proof.
  rewrite build_table_eq. unfold table_of.
  destruct items as [| | | | |l|]; try done. cbn. intros Hl.
  destruct (map_completion render_row l) as [rows|] eqn:Hr; [|done].
  intros [= <-]. pose proof new_table_wf as Ht. cbn in Ht |- *.
  rewrite !andb_true_iff in *. split; [tauto|].
  apply forallb_Forall_true in Hl. apply map_completion_Forall2 in Hr.
  apply forallb_Forall_true. clear -L Hl Hr.
  induction Hr as [|item row l rows Hrow _ IH]; [constructor|].
  apply Forall_cons_iff in Hl as [Hi Hl].
  constructor; [by eapply render_row_wf | by apply IH].
Qed.

End CartWf.

(** ** The script and the clicks *)

Section ScriptWf.
Context {B : Builtins} {L : BuiltinsLaws B}.
Implicit Types (params : URLSearchParams) (w : Browser).

Lemma initialize_wf params :
  wf_params params = true ->
  triple Wf (initialize params) (fun _ => Wf) Wf.
Proof.
  intros Hp. unfold initialize.
  apply triple_inv_bind; [by apply paint_buyer_wf | intros _].
  eapply triple_bind; [apply decode_items_wf | intros items].
  apply triple_assume. intros Hi.
  eapply (triple_bind _ _ _ (fun t w => wf_element t = true /\ Wf w)).
  - apply triple_lift; [|done]. intros t w Ht Hw. eauto using build_table_wf.
  - intros t. apply triple_assume. intros Ht.
    apply triple_inv_bind; [by apply card_right_appendChild_wf | intros _].
    apply addEventListener_wf.
Qed.

Lemma run_listener_wf l w : Wf w -> Wf (report (run_listener l w)).
Proof.
  intros Hw. apply report_wf. destruct l. cbn [run_listener].
  pose proof (confirm_handler_wf w Hw) as H.
  by destruct (confirm_handler w) as [[[]|e] w'].
Qed.

Lemma click_wf w : Wf w -> Wf (click w).
Proof.
  intros Hw. unfold click. destruct (btn_confirm (page w)) as [b|]; [|done].
  destruct (btn_disabled b); [done|].
  revert w Hw. induction (btn_listeners b) as [|l ls IH]; intros w Hw; [done|].
  cbn [fold_left]. by apply IH, run_listener_wf.
Qed.

(** The script keeps the invariant, whether it runs to its end or stops at
    an exception. *)
Lemma load_wf params w :
  wf_params params = true -> Wf w -> Wf (load params w).
Proof.
  intros Hp Hw. apply report_wf. pose proof (initialize_wf params Hp w Hw) as H.
  by destruct (initialize params w) as [[[]|e] w'].
Qed.

End ScriptWf.

(** ** Sessions *)

Section SessionWf.
Context {B : Builtins} {L : BuiltinsLaws B}.

(** Every store of a session is well-formed: the one the script leaves,
    whether it ran to its end or stopped at an exception, and every one a
    sequence of clicks leads to. *)
Lemma session_wf (params : URLSearchParams) (w w' : Browser) :
  wf_params params = true -> wf_store w = true ->
  reachable (load params w) w' -> wf_store w' = true.
Proof.
  intros Hp Hw. induction 1 as [|w' _ IH]; [by apply load_wf | by apply click_wf].
Qed.

End SessionWf.
