(* ===== verification/ViewModel.v ===== *)
(** * The script as a view model and its rendering

    The specification describes the script as two stages: a pure function
    from the query parameters to a view model (the order context and the
    sequence of line items), and a rendering of the view model onto the
    elements of the page.  This file states that description (the typed
    [LineItem], [computeViewModel], [render]) and proves that the script
    implements it on every cart of the documented shape: an array of objects
    with a string [name] and numeric [quantity] and [unit_price].  On other
    carts the description says nothing, and [Cart] and [Checkout] say what
    the script does. *)

From Stdlib Require Import ZArith List Lia Bool String.
From stdpp Require Import base tactics list option numbers.
From S2P Require Import Prelude JsString Number Value Semantics Dom.
From S2P Require Import Query Cart Confirm Checkout.

#[local] Open Scope Z_scope.

(** ** The data of the specification *)

Record LineItem : Type := {
  li_name : jsstring;
  li_quantity : number;
  li_unit_price : number;
}.

Record OrderContext : Type := {
  buyerId : jsstring;
  buyerName : jsstring;
  buyerEmail : jsstring;
  amount : number;
}.

Record ViewModel : Type := {
  orderContext : OrderContext;
  items : list LineItem;
}.

(** An object is a line item when it has the three fields with the
    documented types; other fields are ignored. *)
Definition as_line_item (v : value) : option LineItem :=
  match v with
  | VObject props =>
      match lookup_prop (field_key F_name) props,
            lookup_prop (field_key F_quantity) props,
            lookup_prop (field_key F_unit_price) props with
      | Some (VString n), Some (VNumber q), Some (VNumber u) =>
          Some {| li_name := n; li_quantity := q; li_unit_price := u |}
      | _, _, _ => None
      end
  | _ => None
  end.

(** A payload is a cart when it is an array of line items. *)
Definition as_cart (v : value) : option (list LineItem) :=
  match v with
  | VArray l => mapM as_line_item l
  | _ => None
  end.

Section Stages.
Context {B : Builtins}.

(** The derived field of the specification. *)
Definition li_subtotal (li : LineItem) : number :=
  num_mul (li_unit_price li) (li_quantity li).

(** First stage: from the parameters to the view model, when the payload
    is a cart. *)
Definition computeViewModel (params : URLSearchParams) : option ViewModel :=
  match as_cart (cart params) with
  | Some lis =>
      Some {| orderContext :=
                {| buyerId := userId params; buyerName := name params;
                   buyerEmail := email params; amount := amountNumber params |};
              items := lis |}
  | None => None
  end.

(** The body row of a line item. *)
Definition item_row (li : LineItem) : element :=
  row_of (li_name li) (Number_toString (li_quantity li))
    (Number_toLocaleString (li_unit_price li))
    (Number_toLocaleString (li_subtotal li)).

Definition items_table (lis : list LineItem) : element :=
  append_children (map item_row lis) new_table.

(** Second stage: the view model on the page. *)
Definition render (vm : ViewModel) (p : Page) : Page :=
  let o := orderContext vm in
  let p1 :=
    put_slot OrderAmount (Number_toLocaleCurrency (amount o))
      (put_slot BuyerId (buyerId o)
         (put_slot BuyerEmail (buyerEmail o)
            (put_slot BuyerName (buyerName o) p))) in
  map_button (add_listener ConfirmListener)
    (with_table (items_table (items vm)) p1).

End Stages.

(** ** The script implements the two stages *)

Section Refinement.
Context {B : Builtins}.
Implicit Types (v : value) (li : LineItem) (lis : list LineItem).

Lemma as_line_item_nullish v li :
  as_line_item v = Some li -> is_nullish v = false.
Proof. by destruct v. Qed.

Lemma as_line_item_fields v li :
  as_line_item v = Some li ->
  field_of F_name v = VString (li_name li)
  /\ field_of F_quantity v = VNumber (li_quantity li)
  /\ field_of F_unit_price v = VNumber (li_unit_price li).
Proof.
  destruct v as [| | | | | |p]; try done. cbn [as_line_item field_of].
  destruct (lookup_prop (field_key F_name) p) as [[| | | |n| |]|]; try done.
  destruct (lookup_prop (field_key F_quantity) p) as [[| | |q| | |]|]; try done.
  destruct (lookup_prop (field_key F_unit_price) p) as [[| | |u| | |]|];
    try done.
  by intros [= <-].
Qed.

(** The row callback on a line item is its row. *)
Lemma render_row_item v li :
  as_line_item v = Some li -> render_row v = Normal (item_row li).
Proof.
  intros Hv. rewrite render_row_fields by by eapply as_line_item_nullish.
  destruct (as_line_item_fields v li Hv) as (-> & -> & ->). reflexivity.
Qed.

Lemma map_completion_items l lis :
  mapM as_line_item l = Some lis ->
  map_completion render_row l = Normal (map item_row lis).
Proof.
  intros H%mapM_Some. induction H as [|v li l lis Hv _ IH]; [done|].
  cbn. by rewrite (render_row_item v li Hv), IH.
Qed.

(** The loop on a cart builds the table of its items. *)
Lemma build_table_cart v lis :
  as_cart v = Some lis -> build_table v = Normal (items_table lis).
Proof.
  destruct v as [| | | | |l|]; try done. cbn [as_cart]. intros Hl.
  rewrite build_table_eq. unfold table_of. cbn.
  by rewrite (map_completion_items l lis Hl).
Qed.

End Refinement.

(** ** Properties *)

Section ViewModelProperties.
Context {B : Builtins}.

(** C25 (the script implements its description). When the payload is a
    cart of line items, the script on a complete page does what the two
    stages of the specification say: the page it leaves is the rendering of
    the view model computed from the parameters, with one body row per line
    item showing name, quantity, unit price and the subtotal
    [unit_price * quantity]; and it logs nothing but what the decoding
    logged. *)
Theorem load_refines_render (params : URLSearchParams) (w : Browser)
    (vm : ViewModel) :
  complete_page (page w) = true ->
  computeViewModel params = Some vm ->
  load params w
  = {| page := render vm (page w); console := console w ++ cart_log params |}.
Proof.
  intros Hc. unfold computeViewModel.
  destruct (as_cart (cart params)) as [lis|] eqn:Hl; [|done]. intros [= <-].
  by rewrite (load_ok params w (items_table lis) Hc (build_table_cart _ _ Hl)).
Qed.

(** C26 (typed carts always render). A cart of line items never makes the
    loop throw, however many items it has: the table is the header followed
    by the rows of the items in order. *)
Theorem typed_cart_renders (v : value) (lis : list LineItem) :
  as_cart v = Some lis ->
  build_table v = Normal (items_table lis)
  /\ length (el_children (items_table lis)) = length lis.
Proof.
  intros Hv. split; [by apply build_table_cart|].
  unfold items_table, append_children. cbn. by rewrite length_map.
Qed.

End ViewModelProperties.
