(* ===== verification/Base64.v ===== *)
(** * [atob]: forgiving base64

    The browser function the script calls at line 27, modelled after the
    "forgiving-base64 decode" algorithm of the WHATWG Infra standard, which
    the HTML standard prescribes for [atob]: ASCII whitespace is dropped, up
    to two [=] of padding are removed from a text whose length is a multiple
    of four, a length that leaves a remainder of one or a character outside
    the alphabet is an [InvalidCharacterError], and the remaining characters
    are read six bits at a time.  [btoa] is the encoder of the same
    standard; it is here to state that [atob] inverts it. *)

From Stdlib Require Import ZArith List Lia Bool String.
From stdpp Require Import base tactics list option numbers.
From S2P Require Import Prelude JsString Number Value.

#[local] Open Scope Z_scope.

(** TAB, LF, FF, CR and SPACE. *)
Definition is_ascii_whitespace (c : Z) : bool :=
  (c =? 9) || (c =? 10) || (c =? 12) || (c =? 13) || (c =? 32).

(** The value of a character of the alphabet [A-Z a-z 0-9 + /]. *)
Definition b64_value (c : Z) : option Z :=
  if (65 <=? c) && (c <=? 90) then Some (c - 65)
  else if (97 <=? c) && (c <=? 122) then Some (c - 71)
  else if (48 <=? c) && (c <=? 57) then Some (c + 4)
  else if c =? 43 then Some 62
  else if c =? 47 then Some 63
  else None.

(** The character of a six-bit value. *)
Definition b64_char (v : Z) : Z :=
  if v <? 26 then v + 65
  else if v <? 52 then v + 71
  else if v <? 62 then v - 4
  else if v =? 62 then 43
  else 47.

(** Step 2 of the algorithm: with a length that is a multiple of four, one
    or two trailing [=] are removed. *)
Definition strip_padding (d : jsstring) : jsstring :=
  if Z.of_nat (length d) mod 4 =? 0 then
    match rev d with
    | c1 :: c2 :: r =>
        if (c1 =? 61) && (c2 =? 61) then rev r
        else if c1 =? 61 then rev (c2 :: r)
        else d
    | [c1] => if c1 =? 61 then [] else d
    | [] => d
    end
  else d.

(** Groups of four six-bit values make three bytes; a rest of two makes one
    byte and a rest of three makes two, the low bits being dropped. *)
Fixpoint decode_sextets (l : list Z) : list Z :=
  match l with
  | a :: b :: c :: d :: rest =>
      let n := a * 262144 + b * 4096 + c * 64 + d in
      n / 65536 :: (n / 256) mod 256 :: n mod 256 :: decode_sextets rest
  | [a; b; c] =>
      let n := (a * 4096 + b * 64 + c) / 4 in
      [n / 256; n mod 256]
  | [a; b] => [(a * 64 + b) / 16]
  | _ => []
  end.

Definition atob_model (s : jsstring) : result jsstring :=
  let d := strip_padding (filter (fun c => negb (is_ascii_whitespace c)) s) in
  if Z.of_nat (length d) mod 4 =? 1 then Throw InvalidCharacterError
  else
    match mapM b64_value d with
    | Some sextets => Normal (decode_sextets sextets)
    | None => Throw InvalidCharacterError
    end.

(** The encoder on bytes: three bytes make four six-bit values; a rest of
    one byte makes two and a rest of two makes three, zero bits filling the
    last one. *)
Fixpoint encode_sextets (l : list Z) : list Z :=
  match l with
  | x :: y :: z :: rest =>
      let n := x * 65536 + y * 256 + z in
      n / 262144 :: (n / 4096) mod 64 :: (n / 64) mod 64 :: n mod 64
        :: encode_sextets rest
  | [x; y] =>
      let n := (x * 256 + y) * 4 in
      [n / 4096; (n / 64) mod 64; n mod 64]
  | [x] =>
      let n := x * 16 in
      [n / 64; n mod 64]
  | [] => []
  end.

(** [=] signs that fill the last group of four characters. *)
Definition padding (n : nat) : jsstring :=
  match (n mod 3)%nat with
  | 1%nat => [61; 61]
  | 2%nat => [61]
  | _ => []
  end.

Definition encode_bytes (l : list Z) : jsstring :=
  map b64_char (encode_sextets l) ++ padding (length l).

(** [btoa(s)]: a string with a code unit above 255 is refused. *)
Definition btoa_model (s : jsstring) : result jsstring :=
  if forallb (fun c => (0 <=? c) && (c <? 256)) s then Normal (encode_bytes s)
  else Throw InvalidCharacterError.

Section Base64Facts.
Implicit Types (c v : Z) (s d : jsstring).

(** *** The alphabet *)

Lemma b64_value_range c v : b64_value c = Some v -> 0 <= v < 64.
Proof. unfold b64_value. repeat case_match; intros [= <-]; lia. Qed.

Lemma b64_value_char v : 0 <= v < 64 -> b64_value (b64_char v) = Some v.
Proof.
  intros Hv. unfold b64_char, b64_value.
  repeat case_match; try (f_equal; lia); lia.
Qed.

Lemma b64_char_value c v : b64_value c = Some v -> b64_char v = c.
Proof.
  unfold b64_value, b64_char. repeat case_match; intros [= <-]; lia.
Qed.

Lemma b64_char_range v : 0 <= v < 64 -> 43 <= b64_char v <= 122.
Proof. intros Hv. unfold b64_char. repeat case_match; lia. Qed.

Lemma b64_char_not_whitespace v :
  0 <= v < 64 -> is_ascii_whitespace (b64_char v) = false.
Proof.
  intros Hv%b64_char_range. unfold is_ascii_whitespace.
  repeat (apply orb_false_intro); lia.
Qed.

Lemma b64_char_not_padding v : 0 <= v < 64 -> b64_char v <> 61.
Proof. intros Hv. unfold b64_char. repeat case_match; lia. Qed.

(** [-] and [_], the two characters of the URL-safe alphabet that the
    script replaces, are not in the standard one. *)
Lemma b64_value_urlsafe : b64_value 45 = None /\ b64_value 95 = None.
Proof. done. Qed.

(** *** Decoding yields bytes *)

Lemma decode_sextets_bytes l :
  Forall (fun v => 0 <= v < 64) l -> is_byte_string (decode_sextets l).
Proof.
  unfold is_byte_string.
  induction l as [|a|a b|a b c|a b c d l IH] using list_ind4;
    intros Hl; cbn [decode_sextets];
    repeat match goal with
    | H : Forall _ (_ :: _) |- _ => apply Forall_cons_iff in H as [? H]
    end;
    repeat (constructor; [cbn beta; zlia|]); auto.
Qed.

Lemma mapM_b64_value_range d l :
  mapM b64_value d = Some l -> Forall (fun v => 0 <= v < 64) l.
Proof.
  intros H%mapM_Some. induction H as [|c v d l Hc _ IH]; constructor;
    eauto using b64_value_range.
Qed.

(** Whatever [atob] returns is a string of bytes. *)
Lemma atob_model_byte_string s t : atob_model s = Normal t -> is_byte_string t.
Proof.
  unfold atob_model. case_match; [done|].
  destruct (mapM b64_value _) as [l|] eqn:Hl; [|done]. intros [= <-].
  eapply decode_sextets_bytes, mapM_b64_value_range, Hl.
Qed.

(** Its only exception is the [InvalidCharacterError]. *)
Lemma atob_model_error s e : atob_model s = Throw e -> e = InvalidCharacterError.
Proof. unfold atob_model. repeat case_match; by intros [= <-]. Qed.

(** *** [atob] inverts [btoa] *)

Lemma encode_sextets_range l :
  is_byte_string l -> Forall (fun v => 0 <= v < 64) (encode_sextets l).
Proof.
  unfold is_byte_string.
  induction l as [|x|x y|x y z l IH] using list_ind3;
    intros Hl; cbn [encode_sextets];
    repeat match goal with
    | H : Forall _ (_ :: _) |- _ => apply Forall_cons_iff in H as [? H]
    end;
    repeat (constructor; [cbn beta; zlia|]); auto.
Qed.

(** The six-bit values carry the bytes: regrouping them gives the bytes
    back. *)
Lemma decode_encode_sextets l :
  is_byte_string l -> decode_sextets (encode_sextets l) = l.
Proof.
  unfold is_byte_string.
  induction l as [|x|x y|x y z l IH] using list_ind3; intros Hl;
    repeat match goal with
    | H : Forall _ (_ :: _) |- _ => apply Forall_cons_iff in H as [? H]
    end; cbn [encode_sextets decode_sextets]; [done|..].
  - f_equal. zlia.
  - repeat f_equal; zlia.
  - rewrite IH by done. repeat f_equal; zlia.
Qed.

Lemma padding_S3 n : padding (S (S (S n))) = padding n.
Proof.
  unfold padding. replace (S (S (S n))) with (n + 1 * 3)%nat by lia.
  by rewrite Nat.Div0.mod_add.
Qed.

(** The text before the padding never has a length of [4k + 1]; with the
    padding the length is a multiple of four. *)
Lemma encode_lengths l :
  Z.of_nat (length (encode_sextets l)) mod 4 <> 1
  /\ Z.of_nat (length (encode_sextets l) + length (padding (length l))) mod 4
     = 0.
Proof.
  induction l as [|x|x y|x y z l [IH1 IH2]] using list_ind3; try done.
  cbn [encode_sextets length]. rewrite padding_S3.
  rewrite !Nat2Z.inj_add, !Nat2Z.inj_succ in *. split; zlia.
Qed.

Lemma mapM_b64_value_char l :
  Forall (fun v => 0 <= v < 64) l -> mapM b64_value (map b64_char l) = Some l.
Proof.
  intros Hl. apply mapM_Some. induction Hl as [|v l Hv _ IH]; constructor;
    auto using b64_value_char.
Qed.

Lemma filter_whitespace_encoded l :
  Forall (fun v => 0 <= v < 64) l ->
  filter (fun c => negb (is_ascii_whitespace c)) (map b64_char l)
  = map b64_char l.
Proof.
  induction 1 as [|v l Hv _ IH]; [done|]. cbn [map].
  rewrite filter_cons_True, IH; [done|].
  by rewrite b64_char_not_whitespace.
Qed.

Lemma strip_padding_app xs pad :
  Forall (fun c => c <> 61) xs ->
  pad = [] \/ pad = [61] \/ pad = [61; 61] ->
  Z.of_nat (length (xs ++ pad)) mod 4 = 0 ->
  strip_padding (xs ++ pad) = xs.
Proof.
  intros Hxs Hpad Hlen. unfold strip_padding.
  rewrite (proj2 (Z.eqb_eq _ _) Hlen), rev_app_distr.
  apply Forall_rev in Hxs. pose proof (rev_involutive xs) as Hrev.
  destruct Hpad as [->|[->| ->]]; cbn [rev app];
    destruct (rev xs) as [|y r] eqn:E; rewrite <- ?Hrev, ?app_nil_r;
    try apply Forall_cons_iff in Hxs as [Hy%Z.eqb_neq _]; cbn [app];
    rewrite ?Hy, ?Z.eqb_refl; cbn [andb]; try done.
  by destruct r.
Qed.

(** [atob] reads back what [btoa] wrote: every string of bytes survives the
    encoding. *)
Lemma atob_encode_bytes s :
  is_byte_string s -> atob_model (encode_bytes s) = Normal s.
Proof.
  intros Hs. pose proof (encode_sextets_range s Hs) as Hr.
  destruct (encode_lengths s) as [Hl1 Hl4].
  assert (Hpad : padding (length s) = [] \/ padding (length s) = [61]
                 \/ padding (length s) = [61; 61]).
  { unfold padding. repeat case_match; auto. }
  unfold atob_model, encode_bytes. rewrite list.filter_app, filter_whitespace_encoded by done.
  assert (Hf : filter (fun c => negb (is_ascii_whitespace c)) (padding (length s))
               = padding (length s)).
  { by destruct Hpad as [->|[->| ->]]. }
  rewrite Hf, strip_padding_app; [| |done|].
  - rewrite length_map, mapM_b64_value_char by done.
    rewrite (proj2 (Z.eqb_neq _ _) Hl1). by rewrite decode_encode_sextets.
  - apply Forall_map. eapply Forall_impl; [|exact Hr].
    intros v Hv. by apply b64_char_not_padding.
  - by rewrite length_app, length_map.
Qed.

Lemma b64_char_standard v : 0 <= v < 64 -> b64_char v <> 45 /\ b64_char v <> 95.
Proof. intros Hv. unfold b64_char. repeat case_match; lia. Qed.

(** An encoded text holds neither [-] nor [_]. *)
Lemma encode_bytes_standard s :
  is_byte_string s -> ~ In 45 (encode_bytes s) /\ ~ In 95 (encode_bytes s).
Proof.
  intros Hr%encode_sextets_range. unfold encode_bytes.
  assert (Hc : forall c, In c (map b64_char (encode_sextets s)) -> c <> 45 /\ c <> 95).
  { intros c (v & <- & Hv)%in_map_iff. apply b64_char_standard.
    by apply (proj1 (List.Forall_forall _ _) Hr). }
  assert (Hp : forall c, In c (padding (length s)) -> c = 61).
  { unfold padding. intros c. repeat case_match; cbn; intuition. }
  split; intros [Hin|Hin]%in_app_or;
    first [apply Hc in Hin; lia | apply Hp in Hin; lia].
Qed.

Lemma atob_btoa s t : btoa_model s = Normal t -> atob_model t = Normal s.
Proof.
  unfold btoa_model. destruct (forallb _ s) eqn:Hs; [|done]. intros [= <-].
  apply atob_encode_bytes. unfold is_byte_string.
  apply forallb_Forall_true in Hs. eapply Forall_impl; [|exact Hs].
  intros c Hc. cbn beta in Hc. lia.
Qed.

End Base64Facts.
