(* ===== verification/NumberText.v ===== *)
(** * Numbers read from text: [parseFloat] and StringToNumber

    [parseFloat(amountRaw)] of line 11 of [src/checkout_web/script.js], and
    the conversion that [*] applies to a string operand at line 50, as
    ECMA-262 defines them: [parseFloat] skips leading white space and reads
    the longest prefix that is a decimal literal ([NaN] without one);
    StringToNumber trims both ends, reads the empty string as [+0], accepts
    the [0x], [0o] and [0b] integer literals, and wants the whole text to be
    a literal.  The digits are rounded once, by [num_of_decimal]. *)

From Stdlib Require Import ZArith List Lia Bool String.
From stdpp Require Import base tactics list option numbers.
From S2P Require Import Prelude JsString Number.

#[local] Open Scope Z_scope.

(** ** Characters *)

Definition is_digit (c : Z) : bool := (48 <=? c) && (c <=? 57).

(** The value of a hexadecimal digit. *)
Definition hex_value (c : Z) : option Z :=
  if is_digit c then Some (c - 48)
  else if (97 <=? c) && (c <=? 102) then Some (c - 87)
  else if (65 <=? c) && (c <=? 70) then Some (c - 55)
  else None.

(** WhiteSpace and LineTerminator of ECMA-262 (StrWhiteSpaceChar): TAB, LF,
    VT, FF, CR, SPACE, NBSP, the space separators of Unicode, the line
    and paragraph separators, and the byte order mark. *)
Definition is_str_whitespace (c : Z) : bool :=
  ((9 <=? c) && (c <=? 13)) || (c =? 32) || (c =? 160) || (c =? 5760)
  || ((8192 <=? c) && (c <=? 8202)) || (c =? 8232) || (c =? 8233)
  || (c =? 8239) || (c =? 8287) || (c =? 12288) || (c =? 65279).

Fixpoint trim_start (s : jsstring) : jsstring :=
  match s with
  | c :: r => if is_str_whitespace c then trim_start r else s
  | [] => []
  end.

Definition trim (s : jsstring) : jsstring :=
  rev (trim_start (rev (trim_start s))).

(** ** Digits *)

(** The longest run of decimal digits at the head of [s]: its value on top
    of [acc] (Horner), [n] plus the number of digits read, and the rest. *)
Fixpoint read_digits (s : jsstring) (acc n : Z) : Z * Z * jsstring :=
  match s with
  | c :: r =>
      if is_digit c then read_digits r (10 * acc + (c - 48)) (n + 1)
      else (acc, n, s)
  | [] => (acc, n, [])
  end.

(** The digits of radix [b] ([valid] gives the value of one): their value
    when the whole of [s] consists of them. *)
Fixpoint read_radix (b : Z) (s : jsstring) (acc : Z) : option Z :=
  match s with
  | c :: r =>
      match hex_value c with
      | Some d => if d <? b then read_radix b r (b * acc + d) else None
      | None => None
      end
  | [] => Some acc
  end.

(** ExponentPart: [e] or [E], an optional sign, at least one digit.  Without
    a digit nothing is consumed. *)
Definition read_exponent (s : jsstring) : Z * jsstring :=
  match s with
  | c :: r =>
      if (c =? 101) || (c =? 69) then
        let '(neg, r1) :=
          match r with
          | d :: r' =>
              if d =? 45 then (true, r')
              else if d =? 43 then (false, r') else (false, r)
          | [] => (false, r)
          end in
        let '(e, n, r2) := read_digits r1 0 0 in
        if n =? 0 then (0, s) else (if neg then - e else e, r2)
      else (0, s)
  | [] => (0, s)
  end.

(** ** Decimal literals *)

(** The longest prefix that is a StrUnsignedDecimalLiteral: [Infinity], or
    digits with an optional fraction and exponent, or a fraction that starts
    with the point. *)
Definition read_unsigned_decimal (neg : bool) (s : jsstring) :
    option (number * jsstring) :=
  if is_prefix (str "Infinity") s then Some (num_infinity neg, drop 8 s)
  else
    let '(i, ni, r1) := read_digits s 0 0 in
    let '(m, nf, r2) :=
      match r1 with
      | c :: r =>
          if c =? 46 then
            let '(m, nf, r') := read_digits r i 0 in
            if (ni =? 0) && (nf =? 0) then (i, 0, r1) else (m, nf, r')
          else (i, 0, r1)
      | [] => (i, 0, r1)
      end in
    if (ni =? 0) && (nf =? 0) then None
    else
      let '(e, r3) := read_exponent r2 in
      Some (num_of_decimal neg m (e - nf), r3).

(** StrDecimalLiteral: an optional sign in front. *)
Definition read_decimal (s : jsstring) : option (number * jsstring) :=
  match s with
  | c :: r =>
      if c =? 45 then read_unsigned_decimal true r
      else if c =? 43 then read_unsigned_decimal false r
      else read_unsigned_decimal false s
  | [] => None
  end.

(** [parseFloat(s)]. *)
Definition parseFloat_model (s : jsstring) : number :=
  match read_decimal (trim_start s) with
  | Some (x, _) => x
  | None => num_nan
  end.

(** An integer literal with the prefix [0x], [0o] or [0b], in either
    case. *)
Definition read_prefixed (s : jsstring) : option (option Z) :=
  match s with
  | 48 :: c :: r =>
      let radix :=
        if (c =? 120) || (c =? 88) then Some 16
        else if (c =? 111) || (c =? 79) then Some 8
        else if (c =? 98) || (c =? 66) then Some 2
        else None in
      match radix, r with
      | Some b, _ :: _ => Some (read_radix b r 0)
      | Some b, [] => Some None
      | None, _ => None
      end
  | _ => None
  end.

(** StringToNumber. *)
Definition StringToNumber_model (s : jsstring) : number :=
  match trim s with
  | [] => num_zero
  | t =>
      match read_prefixed t with
      | Some (Some z) => num_of_Z z
      | Some None => num_nan
      | None =>
          match read_decimal t with
          | Some (x, []) => x
          | _ => num_nan
          end
      end
  end.

Section NumberTextFacts.
Implicit Types (s r : jsstring) (c acc n : Z).

(** *** Digits *)

Lemma hex_value_range c v : hex_value c = Some v -> 0 <= v < 16.
Proof.
  unfold hex_value, is_digit. repeat case_match; intros [= <-]; lia.
Qed.

Lemma read_digits_app s acc n :
  exists ds, s = ds ++ (read_digits s acc n).2
    /\ forallb is_digit ds = true
    /\ (read_digits s acc n).1.2 = n + Z.of_nat (length ds)
    /\ match (read_digits s acc n).2 with
       | c :: _ => is_digit c = false
       | [] => True
       end.
Proof.
  revert acc n. induction s as [|c s IH]; intros acc n.
  - exists []. cbn. split_and!; [done..|lia|done].
  - cbn [read_digits]. destruct (is_digit c) eqn:Hc.
    + destruct (IH (10 * acc + (c - 48)) (n + 1)) as (ds & H1 & H2 & H3 & H4).
      exists (c :: ds). cbn [app forallb length]. rewrite Hc, H2, H3.
      split_and!; [by f_equal|done|lia|done].
    + exists []. cbn. rewrite Hc. split_and!; [done..|lia|done].
Qed.

(** Reading digits never makes the text longer, and makes it shorter when
    it reads one. *)
Lemma read_digits_length s acc n :
  Z.of_nat (length (read_digits s acc n).2)
  = Z.of_nat (length s) - ((read_digits s acc n).1.2 - n).
Proof.
  destruct (read_digits_app s acc n) as (ds & H1 & _ & H3 & _).
  rewrite H3. rewrite H1 at 2. rewrite length_app. lia.
Qed.

Lemma read_digits_count s acc n : n <= (read_digits s acc n).1.2.
Proof. destruct (read_digits_app s acc n) as (ds & _ & _ & H & _). lia. Qed.

Lemma read_digits_nonneg s acc n : 0 <= acc -> 0 <= (read_digits s acc n).1.1.
Proof.
  revert acc n. induction s as [|c s IH]; intros acc n Hacc; [done|].
  cbn [read_digits]. destruct (is_digit c) eqn:Hc; [|done].
  apply IH. unfold is_digit in Hc. lia.
Qed.

(** What is left after the digits is a part of the text. *)
Lemma read_digits_wf s acc n :
  wf_string s -> wf_string (read_digits s acc n).2.
Proof.
  destruct (read_digits_app s acc n) as (ds & H1 & _). rewrite H1 at 1.
  by intros [_ ?]%wf_string_app.
Qed.

Lemma read_exponent_wf s : wf_string s -> wf_string (read_exponent s).2.
Proof.
  intros Hs. unfold read_exponent. destruct s as [|c r]; [done|].
  case_match; [|done].
  destruct (match r with [] => _ | _ :: _ => _ end) as [neg r1] eqn:Hr.
  assert (wf_string r1) as H1.
  { apply wf_string_cons in Hs as [_ Hs]. destruct r as [|d r']; [by simplify_eq|].
    repeat case_match; simplify_eq; try done;
      by apply wf_string_cons in Hs as [_ ?]. }
  pose proof (read_digits_wf r1 0 0 H1) as H2.
  destruct (read_digits r1 0 0) as [[e n] r2]. by destruct (n =? 0).
Qed.

Lemma read_exponent_length s :
  (length (read_exponent s).2 <= length s)%nat.
Proof.
  unfold read_exponent. destruct s as [|c r]; [done|].
  case_match; [|cbn; lia].
  destruct (match r with [] => _ | _ :: _ => _ end) as [neg r1] eqn:Hr.
  destruct (read_digits r1 0 0) as [[e n] r2] eqn:Hd.
  destruct (n =? 0) eqn:Hn0; [cbn; lia|].
  pose proof (read_digits_length r1 0 0) as Hl. rewrite Hd in Hl.
  pose proof (read_digits_count r1 0 0) as Hn. rewrite Hd in Hn.
  cbn [fst snd length] in *.
  assert (length r1 <= length r)%nat; [|lia].
  destruct r as [|d r']; [by simplify_eq|].
  repeat case_match; simplify_eq; cbn [length]; lia.
Qed.

(** *** The two conversions on the texts the script meets *)

(** The default of the [amount] parameter. *)
Lemma parseFloat_model_0 : parseFloat_model (str "0") = num_zero.
Proof. reflexivity. Qed.

(** No digits, no number: the empty text and words are [NaN]. *)
Lemma parseFloat_model_empty : parseFloat_model [] = num_nan.
Proof. reflexivity. Qed.

Lemma read_decimal_no_digit c s :
  is_digit c = false -> c <> 45 -> c <> 43 -> c <> 46 -> c <> 73 ->
  read_decimal (c :: s) = None.
Proof.
  intros Hd H1%Z.eqb_neq H2%Z.eqb_neq H3%Z.eqb_neq H4%Z.eqb_neq.
  unfold read_decimal. rewrite H1, H2. unfold read_unsigned_decimal.
  change (str "Infinity") with (73 :: str "nfinity"). cbn [is_prefix].
  rewrite Z.eqb_sym, H4. cbn [andb read_digits]. by rewrite Hd, H3.
Qed.

(** StringToNumber of the empty string and of white space is [+0]. *)
Lemma StringToNumber_model_empty : StringToNumber_model [] = num_zero.
Proof. reflexivity. Qed.

End NumberTextFacts.

(** The prefix is read, the rest ignored. *)
Example parseFloat_model_prefix :
  parseFloat_model (str "12abc") = num_of_Z 12.
Proof. reflexivity. Qed.

Example parseFloat_model_decimal :
  parseFloat_model (str "  1234.5") = num_of_decimal false 12345 (-1).
Proof. reflexivity. Qed.

Example parseFloat_model_exponent :
  parseFloat_model (str "-.5e1x") = num_of_decimal true 5 0.
Proof. reflexivity. Qed.

(** An [e] without digits is not part of the number. *)
Example parseFloat_model_dangling :
  parseFloat_model (str "7e+") = num_of_Z 7.
Proof. reflexivity. Qed.

Example StringToNumber_model_strict :
  StringToNumber_model (str "12abc") = num_nan
  /\ StringToNumber_model (str " 12 ") = num_of_Z 12
  /\ StringToNumber_model (str "0x1F") = num_of_Z 31
  /\ StringToNumber_model (str "0x") = num_nan
  /\ StringToNumber_model (str "-Infinity") = num_infinity true.
Proof. repeat split; reflexivity. Qed.
