(* ===== verification/Utf8.v ===== *)
(** * UTF-8 and UTF-16

    The query string of a page is bytes; the strings of the script are
    sequences of UTF-16 code units.  The browser converts between the two
    when it builds [URLSearchParams] (line 2 of
    [src/checkout_web/script.js]): a string is turned into scalar values
    and encoded as UTF-8 before parsing, and the parsed bytes are decoded
    from UTF-8 without failing, a malformed sequence becoming U+FFFD.

    This file holds the conversions as the Encoding and WebIDL standards
    define them, with the decoder as the state machine of the standard, and
    shows that decoding inverts encoding. *)

From Stdlib Require Import ZArith List Lia Bool.
From stdpp Require Import base tactics list option numbers.
From S2P Require Import Prelude JsString.

#[local] Open Scope Z_scope.

(** ** Scalar values and UTF-16 *)

Definition is_lead (c : Z) : bool := (0xD800 <=? c) && (c <=? 0xDBFF).
Definition is_trail (c : Z) : bool := (0xDC00 <=? c) && (c <=? 0xDFFF).

(** A code point that is not a surrogate. *)
Definition is_scalar (c : Z) : bool :=
  (0 <=? c) && (c <? 0x110000) && negb ((0xD800 <=? c) && (c <=? 0xDFFF)).

Definition replacement : Z := 0xFFFD.

(** The scalar values of a string (conversion to a [USVString]): a
    surrogate pair is one code point, a surrogate on its own is replaced
    by U+FFFD. *)
Fixpoint scalar_values (s : jsstring) : list Z :=
  match s with
  | [] => []
  | c :: s' =>
      if is_lead c then
        match s' with
        | d :: s'' =>
            if is_trail d
            then (0x10000 + (c - 0xD800) * 0x400 + (d - 0xDC00)) :: scalar_values s''
            else replacement :: scalar_values s'
        | [] => [replacement]
        end
      else if is_trail c then replacement :: scalar_values s'
      else c :: scalar_values s'
  end.

(** The code units of a code point. *)
Definition utf16_units (c : Z) : jsstring :=
  if c <? 0x10000 then [c]
  else [0xD800 + (c - 0x10000) / 0x400; 0xDC00 + (c - 0x10000) mod 0x400].

Definition utf16_encode (l : list Z) : jsstring := flat_map utf16_units l.

(** A string without a surrogate on its own. *)
Fixpoint well_paired (s : jsstring) : bool :=
  match s with
  | [] => true
  | c :: s' =>
      if is_lead c then
        match s' with
        | d :: s'' => is_trail d && well_paired s''
        | [] => false
        end
      else negb (is_trail c) && well_paired s'
  end.

(** ** The UTF-8 encoder *)

(** The continuation byte that holds the [k]-th group of six bits. *)
Definition continuation (c k : Z) : Z :=
  Z.lor 0x80 (Z.land (Z.shiftr c (6 * k)) 0x3F).

Definition utf8_bytes (c : Z) : list Z :=
  if c <? 0x80 then [c]
  else if c <? 0x800 then [Z.shiftr c 6 + 0xC0; continuation c 0]
  else if c <? 0x10000
  then [Z.shiftr c 12 + 0xE0; continuation c 1; continuation c 0]
  else [Z.shiftr c 18 + 0xF0; continuation c 2; continuation c 1;
        continuation c 0].

Definition utf8_encode (l : list Z) : list Z := flat_map utf8_bytes l.

(** ** The UTF-8 decoder *)

(** The state of the decoder: the code point under construction, the
    continuation bytes seen and needed, and the bounds of the next byte. *)
Record utf8_decoder : Type := Utf8Decoder {
  u_point : Z;
  u_seen : Z;
  u_needed : Z;
  u_lower : Z;
  u_upper : Z
}.

Definition utf8_initial : utf8_decoder :=
  {| u_point := 0; u_seen := 0; u_needed := 0; u_lower := 0x80; u_upper := 0xBF |}.

(** A byte when no continuation is awaited: the code point it is, if any,
    and the next state. *)
Definition utf8_first (b : Z) : list Z * utf8_decoder :=
  if (0 <=? b) && (b <=? 0x7F) then ([b], utf8_initial)
  else if (0xC2 <=? b) && (b <=? 0xDF) then
    ([], {| u_point := Z.land b 0x1F; u_seen := 0; u_needed := 1;
            u_lower := 0x80; u_upper := 0xBF |})
  else if (0xE0 <=? b) && (b <=? 0xEF) then
    ([], {| u_point := Z.land b 0xF; u_seen := 0; u_needed := 2;
            u_lower := if b =? 0xE0 then 0xA0 else 0x80;
            u_upper := if b =? 0xED then 0x9F else 0xBF |})
  else if (0xF0 <=? b) && (b <=? 0xF4) then
    ([], {| u_point := Z.land b 0x7; u_seen := 0; u_needed := 3;
            u_lower := if b =? 0xF0 then 0x90 else 0x80;
            u_upper := if b =? 0xF4 then 0x8F else 0xBF |})
  else ([replacement], utf8_initial).

(** The decoder over a sequence of bytes.  A byte that cannot continue the
    sequence under construction ends it with U+FFFD and is read again from
    the initial state; the end of the input inside a sequence gives U+FFFD
    as well. *)
Fixpoint utf8_run (st : utf8_decoder) (bs : list Z) : list Z :=
  match bs with
  | [] => if u_needed st =? 0 then [] else [replacement]
  | b :: bs' =>
      if u_needed st =? 0 then
        let (out, st') := utf8_first b in out ++ utf8_run st' bs'
      else if (u_lower st <=? b) && (b <=? u_upper st) then
        let p := Z.lor (Z.shiftl (u_point st) 6) (Z.land b 0x3F) in
        if u_seen st + 1 =? u_needed st then p :: utf8_run utf8_initial bs'
        else utf8_run {| u_point := p; u_seen := u_seen st + 1;
                         u_needed := u_needed st;
                         u_lower := 0x80; u_upper := 0xBF |} bs'
      else
        let (out, st') := utf8_first b in
        replacement :: out ++ utf8_run st' bs'
  end.

Definition utf8_decode (bs : list Z) : list Z := utf8_run utf8_initial bs.

(** Bytes to string and back, as the query parser uses them. *)
Definition utf8_to_string (bs : list Z) : jsstring :=
  utf16_encode (utf8_decode bs).

Definition string_to_utf8 (s : jsstring) : list Z :=
  utf8_encode (scalar_values s).

(** ** Bits as arithmetic *)

Section Bits.
Implicit Types (a b c k : Z).

Lemma testbit_small a k i : 0 <= a < 2 ^ k -> 0 <= k <= i -> Z.testbit a i = false.
Proof.
  intros Ha Hk. rewrite <- (Z.mod_small a (2 ^ k)) by done.
  apply Z.mod_pow2_bits_high. lia.
Qed.

(** Bits that do not overlap add up. *)
Lemma lor_shiftl_small a b k :
  0 <= k -> 0 <= b < 2 ^ k -> Z.lor (Z.shiftl a k) b = a * 2 ^ k + b.
Proof.
  intros Hk Hb. rewrite <- Z.shiftl_mul_pow2 by done.
  rewrite <- Z.lxor_lor, Z.add_nocarry_lxor; [done| |];
    apply Z.bits_inj'; intros i Hi;
    rewrite Z.land_spec, Z.bits_0, Z.shiftl_spec by done;
    destruct (Z.lt_ge_cases i k);
    [rewrite Z.testbit_neg_r by lia; done
    |rewrite (testbit_small b k i) by lia; apply andb_false_r
    |rewrite Z.testbit_neg_r by lia; done
    |rewrite (testbit_small b k i) by lia; apply andb_false_r].
Qed.

Lemma land_low a k : 0 <= k -> Z.land a (2 ^ k - 1) = a mod 2 ^ k.
Proof.
  intros Hk. rewrite <- Z.land_ones by done. f_equal.
  rewrite Z.ones_equiv. lia.
Qed.

Lemma continuation_eq c k :
  0 <= k -> continuation c k = 0x80 + (c / 2 ^ (6 * k)) mod 64.
Proof.
  intros Hk. unfold continuation.
  rewrite Z.shiftr_div_pow2 by lia. change 0x3F with (2 ^ 6 - 1).
  rewrite land_low by lia. change 0x80 with (Z.shiftl 2 6).
  rewrite lor_shiftl_small; [done|lia|]. apply Z.mod_pos_bound. lia.
Qed.

(** The step of the decoder on a continuation byte. *)
Lemma decoder_step p b :
  0x80 <= b <= 0xBF ->
  Z.lor (Z.shiftl p 6) (Z.land b 0x3F) = p * 64 + (b - 0x80).
Proof.
  intros Hb. change 0x3F with (2 ^ 6 - 1). rewrite land_low by lia.
  rewrite lor_shiftl_small by (try apply Z.mod_pos_bound; lia).
  change (2 ^ 6) with 64. zlia.
Qed.

End Bits.

(** Decides the comparisons of the goal and drops the impossible cases. *)
Ltac zcases :=
  repeat match goal with
  | |- context [?a <=? ?b] => destruct (Z.leb_spec a b); try lia
  | |- context [?a <? ?b] => destruct (Z.ltb_spec a b); try lia
  | |- context [?a =? ?b] => destruct (Z.eqb_spec a b); try lia
  end; cbn [andb orb negb].

Section Encoder.
Implicit Types (c b : Z) (bs : list Z).

(** The encoder in arithmetic. *)
Lemma utf8_bytes_eq c :
  utf8_bytes c =
    if c <? 0x80 then [c]
    else if c <? 0x800 then [c / 64 + 0xC0; 0x80 + c mod 64]
    else if c <? 0x10000
    then [c / 4096 + 0xE0; 0x80 + (c / 64) mod 64; 0x80 + c mod 64]
    else [c / 262144 + 0xF0; 0x80 + (c / 4096) mod 64;
          0x80 + (c / 64) mod 64; 0x80 + c mod 64].
Proof.
  unfold utf8_bytes. rewrite !continuation_eq, !Z.shiftr_div_pow2 by lia.
  change (2 ^ (6 * 0)) with 1. change (2 ^ (6 * 1)) with 64.
  change (2 ^ (6 * 2)) with 4096. change (2 ^ 6) with 64.
  change (2 ^ 12) with 4096. change (2 ^ 18) with 262144.
  by rewrite Z.div_1_r.
Qed.

Lemma utf8_bytes_byte c :
  0 <= c < 0x110000 -> Forall (fun b => 0 <= b < 256) (utf8_bytes c).
Proof.
  intros Hc. rewrite utf8_bytes_eq. zcases; repeat constructor; zlia.
Qed.

Lemma utf8_encode_byte_string l :
  Forall (fun c => 0 <= c < 0x110000) l -> is_byte_string (utf8_encode l).
Proof.
  unfold utf8_encode, is_byte_string. induction 1 as [|c l Hc _ IH]; cbn.
  - constructor.
  - apply Forall_app. split; [by apply utf8_bytes_byte|done].
Qed.

(** ASCII is encoded as itself. *)
Lemma utf8_encode_ascii l :
  Forall (fun c => 0 <= c < 0x80) l -> utf8_encode l = l.
Proof.
  unfold utf8_encode. induction 1 as [|c l Hc _ IH]; cbn; [done|].
  rewrite IH. unfold utf8_bytes. by zcases.
Qed.

End Encoder.

Section Decoder.
Implicit Types (c b p : Z) (bs : list Z) (st : utf8_decoder).

(** *** The steps of the decoder *)

Lemma utf8_run_initial b bs :
  utf8_run utf8_initial (b :: bs)
  = (utf8_first b).1 ++ utf8_run (utf8_first b).2 bs.
Proof. cbn. by destruct (utf8_first b). Qed.

Lemma utf8_run_continue st b bs :
  u_needed st <> 0 -> u_lower st <= b <= u_upper st -> 0x80 <= b <= 0xBF ->
  u_seen st + 1 <> u_needed st ->
  utf8_run st (b :: bs)
  = utf8_run {| u_point := u_point st * 64 + (b - 0x80);
                u_seen := u_seen st + 1; u_needed := u_needed st;
                u_lower := 0x80; u_upper := 0xBF |} bs.
Proof.
  intros Hn Hb Hr Hs. cbn [utf8_run]. rewrite decoder_step by done. by zcases.
Qed.

Lemma utf8_run_last st b bs :
  u_needed st <> 0 -> u_lower st <= b <= u_upper st -> 0x80 <= b <= 0xBF ->
  u_seen st + 1 = u_needed st ->
  utf8_run st (b :: bs)
  = (u_point st * 64 + (b - 0x80)) :: utf8_run utf8_initial bs.
Proof.
  intros Hn Hb Hr Hs. cbn [utf8_run]. rewrite decoder_step by done. by zcases.
Qed.

Lemma land_lead b k m :
  0 <= k -> m = 2 ^ k - 1 -> Z.land b m = b mod 2 ^ k.
Proof. intros Hk ->. by apply land_low. Qed.

(** A lead byte in arithmetic: what remains of it and the state it opens. *)
Lemma utf8_first_ascii b : 0 <= b <= 0x7F -> utf8_first b = ([b], utf8_initial).
Proof. intros Hb. unfold utf8_first. by zcases. Qed.

Lemma utf8_first_two b :
  0xC2 <= b <= 0xDF ->
  utf8_first b = ([], {| u_point := b - 0xC0; u_seen := 0; u_needed := 1;
                         u_lower := 0x80; u_upper := 0xBF |}).
Proof.
  intros Hb. unfold utf8_first. rewrite (land_lead b 5 0x1F) by first [lia|reflexivity]. zcases.
  do 2 f_equal. zlia.
Qed.

Lemma utf8_first_three b :
  0xE0 <= b <= 0xEF ->
  utf8_first b = ([], {| u_point := b - 0xE0; u_seen := 0; u_needed := 2;
                         u_lower := if b =? 0xE0 then 0xA0 else 0x80;
                         u_upper := if b =? 0xED then 0x9F else 0xBF |}).
Proof.
  intros Hb. unfold utf8_first. rewrite (land_lead b 4 0xF) by first [lia|reflexivity].
  destruct (Z.leb_spec 0 b), (Z.leb_spec b 0x7F), (Z.leb_spec 0xC2 b),
    (Z.leb_spec b 0xDF), (Z.leb_spec 0xE0 b), (Z.leb_spec b 0xEF);
    try lia; cbn [andb]; do 2 f_equal; zlia.
Qed.

Lemma utf8_first_four b :
  0xF0 <= b <= 0xF4 ->
  utf8_first b = ([], {| u_point := b - 0xF0; u_seen := 0; u_needed := 3;
                         u_lower := if b =? 0xF0 then 0x90 else 0x80;
                         u_upper := if b =? 0xF4 then 0x8F else 0xBF |}).
Proof.
  intros Hb. unfold utf8_first. rewrite (land_lead b 3 0x7) by first [lia|reflexivity].
  destruct (Z.leb_spec 0 b), (Z.leb_spec b 0x7F), (Z.leb_spec 0xC2 b),
    (Z.leb_spec b 0xDF), (Z.leb_spec 0xE0 b), (Z.leb_spec b 0xEF),
    (Z.leb_spec 0xF0 b), (Z.leb_spec b 0xF4);
    try lia; cbn [andb]; do 2 f_equal; zlia.
Qed.

End Decoder.

Section RoundTrip.
Implicit Types (c b : Z) (bs l : list Z) (st : utf8_decoder) (s : jsstring).

Lemma is_scalar_spec c :
  is_scalar c = true <-> 0 <= c < 0x110000 /\ ~ 0xD800 <= c <= 0xDFFF.
Proof. unfold is_scalar. zcases; split; (done || lia). Qed.

(** Side conditions of the decoder steps, after the state is computed. *)
Ltac decoder_side :=
  cbn [u_needed u_seen u_lower u_upper u_point]; zcases; zlia.

(** *** Decoding what was encoded *)

(** One code point through the encoder and the decoder. *)
Lemma utf8_run_bytes c bs :
  is_scalar c = true ->
  utf8_run utf8_initial (utf8_bytes c ++ bs) = c :: utf8_run utf8_initial bs.
Proof.
  intros [Hc Hs]%is_scalar_spec. rewrite utf8_bytes_eq.
  destruct (Z.ltb_spec c 0x80);
    [|destruct (Z.ltb_spec c 0x800); [|destruct (Z.ltb_spec c 0x10000)]];
    cbn [app]; rewrite utf8_run_initial.
  - by rewrite utf8_first_ascii by lia.
  - rewrite utf8_first_two by zlia. cbn [fst snd app].
    rewrite utf8_run_last by decoder_side. f_equal. decoder_side.
  - rewrite utf8_first_three by zlia. cbn [fst snd app].
    rewrite utf8_run_continue by decoder_side.
    rewrite utf8_run_last by decoder_side. f_equal. decoder_side.
  - rewrite utf8_first_four by zlia. cbn [fst snd app].
    rewrite utf8_run_continue by decoder_side.
    rewrite utf8_run_continue by decoder_side.
    rewrite utf8_run_last by decoder_side. f_equal. decoder_side.
Qed.

Lemma utf8_decode_encode l :
  Forall (fun c => is_scalar c = true) l -> utf8_decode (utf8_encode l) = l.
Proof.
  unfold utf8_decode, utf8_encode.
  induction 1 as [|c l Hc _ IH]; cbn [flat_map]; [done|].
  by rewrite utf8_run_bytes, IH.
Qed.

(** *** UTF-16 and scalar values *)

Lemma scalar_values_units c s :
  is_scalar c = true ->
  scalar_values (utf16_units c ++ s) = c :: scalar_values s.
Proof.
  intros [Hc Hs]%is_scalar_spec. unfold utf16_units.
  destruct (Z.ltb_spec c 0x10000); cbn [app scalar_values];
    unfold is_lead, is_trail; zcases; try zlia; try done; f_equal; zlia.
Qed.

Lemma scalar_values_utf16_encode l :
  Forall (fun c => is_scalar c = true) l -> scalar_values (utf16_encode l) = l.
Proof.
  unfold utf16_encode. induction 1 as [|c l Hc _ IH]; cbn [flat_map]; [done|].
  by rewrite scalar_values_units, IH.
Qed.

Lemma utf16_units_wf c : 0 <= c < 0x110000 -> wf_string (utf16_units c).
Proof.
  intros Hc. unfold utf16_units, wf_string. zcases; repeat constructor; zlia.
Qed.

Lemma utf16_encode_wf l :
  Forall (fun c => is_scalar c = true) l -> wf_string (utf16_encode l).
Proof.
  unfold utf16_encode. induction 1 as [|c l [Hc _]%is_scalar_spec _ IH];
    cbn [flat_map]; [constructor|].
  apply wf_string_app_2; [by apply utf16_units_wf|done].
Qed.

End RoundTrip.

Section DecoderInvariant.
Implicit Types (c b : Z) (bs : list Z) (st : utf8_decoder).

(** *** The decoder yields scalar values on every input *)

(** What a state that awaits continuation bytes promises: between one and
    three bytes are missing, the next one is a continuation byte, and every
    code point the sequence can still become is a scalar value. *)
Definition awaits (st : utf8_decoder) : Prop :=
  let r := u_needed st - u_seen st in
  let low := (u_point st * 64 + (u_lower st - 0x80)) * 64 ^ (r - 1) in
  let high := (u_point st * 64 + (u_upper st - 0x80) + 1) * 64 ^ (r - 1) in
  1 <= r <= 3 /\ 0x80 <= u_lower st /\ u_upper st <= 0xBF
  /\ 0 <= low /\ high <= 0x110000 /\ (high <= 0xD800 \/ 0xE000 <= low).

Definition decoder_ok (st : utf8_decoder) : Prop :=
  u_needed st = 0 \/ awaits st.

Lemma replacement_scalar : is_scalar replacement = true.
Proof. reflexivity. Qed.

Lemma span_cases r :
  1 <= r <= 3 ->
  r = 1 /\ 64 ^ (r - 1) = 1 \/ r = 2 /\ 64 ^ (r - 1) = 64
  \/ r = 3 /\ 64 ^ (r - 1) = 4096.
Proof.
  intros Hr.
  destruct (decide (r = 1)) as [->|]; [by left|].
  destruct (decide (r = 2)) as [->|]; [by right; left|].
  assert (r = 3) as -> by lia. by right; right.
Qed.

Lemma utf8_first_ok b :
  Forall (fun c => is_scalar c = true) (utf8_first b).1
  /\ decoder_ok (utf8_first b).2.
Proof.
  destruct (decide (0 <= b <= 0x7F)); [|destruct (decide (0xC2 <= b <= 0xDF));
    [|destruct (decide (0xE0 <= b <= 0xEF));
    [|destruct (decide (0xF0 <= b <= 0xF4))]]].
  - rewrite utf8_first_ascii by done. split; [|by left].
    repeat constructor. apply is_scalar_spec. lia.
  - rewrite utf8_first_two by done. split; [constructor|right].
    unfold awaits. cbn. lia.
  - rewrite utf8_first_three by done. split; [constructor|right].
    unfold awaits. cbn. zcases; lia.
  - rewrite utf8_first_four by done. split; [constructor|right].
    unfold awaits. cbn. zcases; lia.
  - assert (utf8_first b = ([replacement], utf8_initial)) as ->
      by (unfold utf8_first; by zcases).
    split; [by repeat constructor|by left].
Qed.

(** A continuation byte keeps the promise, or fulfils it. *)
Lemma awaits_step st b :
  awaits st -> u_lower st <= b <= u_upper st ->
  let p := u_point st * 64 + (b - 0x80) in
  if u_seen st + 1 =? u_needed st then is_scalar p = true
  else awaits {| u_point := p; u_seen := u_seen st + 1;
                 u_needed := u_needed st; u_lower := 0x80; u_upper := 0xBF |}.
Proof.
  unfold awaits. cbn [u_point u_seen u_needed u_lower u_upper].
  intros (Hr & Hl & Hu & H0 & H1 & H2) Hb.
  replace (u_needed st - (u_seen st + 1) - 1)
    with (u_needed st - u_seen st - 1 - 1) by lia.
  destruct (span_cases _ Hr) as [[Er E]|[[Er E]|[Er E]]]; rewrite E in *;
    rewrite Er; destruct (Z.eqb_spec (u_seen st + 1) (u_needed st));
    try lia; cbn; rewrite ?is_scalar_spec; lia.
Qed.

Lemma utf8_run_scalar bs st :
  decoder_ok st -> Forall (fun c => is_scalar c = true) (utf8_run st bs).
Proof.
  revert st. induction bs as [|b bs IH]; intros st Hst; cbn [utf8_run].
  - destruct (u_needed st =? 0); by repeat constructor.
  - pose proof (utf8_first_ok b) as [Ho Hs].
    destruct (Z.eqb_spec (u_needed st) 0) as [|Hn].
    { destruct (utf8_first b). apply Forall_app. split; [done|by apply IH]. }
    destruct Hst as [|Hst]; [done|].
    destruct ((u_lower st <=? b) && (b <=? u_upper st)) eqn:Hb.
    + apply andb_true_iff in Hb as [Hb1%Z.leb_le Hb2%Z.leb_le].
      pose proof Hst as (_ & ? & ? & _).
      rewrite decoder_step by lia.
      pose proof (awaits_step st b Hst (conj Hb1 Hb2)) as Hp. cbn zeta in Hp.
      destruct (u_seen st + 1 =? u_needed st).
      * constructor; [done|]. apply IH. by left.
      * apply IH. by right.
    + destruct (utf8_first b). constructor; [done|].
      apply Forall_app. split; [done|by apply IH].
Qed.

Lemma utf8_decode_scalar bs :
  Forall (fun c => is_scalar c = true) (utf8_decode bs).
Proof. apply utf8_run_scalar. by left. Qed.

(** Whatever the bytes, the decoded text is a string. *)
Lemma utf8_to_string_wf bs : wf_string (utf8_to_string bs).
Proof. apply utf16_encode_wf, utf8_decode_scalar. Qed.

End DecoderInvariant.

Section Utf16.
Implicit Types (c d : Z) (s : jsstring).

(** *** Strings as scalar values *)

(** Induction along [scalar_values]: one unit or a pair at a time. *)
Lemma pairs_ind (P : jsstring -> Prop) :
  P [] -> (forall c, P [c]) ->
  (forall c d s, P s -> P (d :: s) -> P (c :: d :: s)) ->
  forall s, P s.
Proof.
  intros H0 H1 H2 s. cut (P s /\ forall c, P (c :: s)); [by intros [? _]|].
  induction s as [|d s [IH1 IH2]]; [done|]. split; [done|].
  intros c. by apply H2.
Qed.

Lemma pair_scalar c d :
  is_lead c = true -> is_trail d = true ->
  is_scalar (0x10000 + (c - 0xD800) * 0x400 + (d - 0xDC00)) = true.
Proof.
  unfold is_lead, is_trail. rewrite !andb_true_iff, !Z.leb_le, is_scalar_spec.
  lia.
Qed.

Lemma unit_scalar c :
  0 <= c < 65536 -> is_lead c = false -> is_trail c = false ->
  is_scalar c = true.
Proof.
  unfold is_lead, is_trail.
  rewrite !andb_false_iff, !Z.leb_gt, is_scalar_spec. lia.
Qed.

Lemma scalar_values_scalar s :
  wf_string s -> Forall (fun c => is_scalar c = true) (scalar_values s).
Proof.
  unfold wf_string. induction s as [|c|c d s IH1 IH2] using pairs_ind;
    intros Hs; [constructor| |].
  - apply Forall_cons_iff in Hs as [Hc _]. cbn [scalar_values].
    destruct (is_lead c) eqn:Hl; [by repeat constructor|].
    destruct (is_trail c) eqn:Ht; repeat constructor. by apply unit_scalar.
  - apply Forall_cons_iff in Hs as [Hc Hs].
    pose proof Hs as [Hd Hs']%Forall_cons_iff.
    specialize (IH1 Hs'). specialize (IH2 Hs). cbn [scalar_values] in *.
    destruct (is_lead c) eqn:Hl; [destruct (is_trail d) eqn:Ht|
      destruct (is_trail c) eqn:Ht]; constructor;
      auto using pair_scalar, unit_scalar, replacement_scalar.
Qed.

Lemma utf16_units_pair c d :
  is_lead c = true -> is_trail d = true ->
  utf16_units (0x10000 + (c - 0xD800) * 0x400 + (d - 0xDC00)) = [c; d].
Proof.
  unfold is_lead, is_trail, utf16_units. rewrite !andb_true_iff, !Z.leb_le.
  intros [? ?] [? ?]. zcases. do 2 f_equal; [|f_equal]; zlia.
Qed.

Lemma utf16_units_unit c : c < 65536 -> utf16_units c = [c].
Proof. intros Hc. unfold utf16_units. by zcases. Qed.

Lemma scalar_values_unit c s :
  is_lead c = false -> is_trail c = false ->
  scalar_values (c :: s) = c :: scalar_values s.
Proof. intros Hl Ht. cbn [scalar_values]. by rewrite Hl, Ht. Qed.

Lemma well_paired_unit c s :
  is_lead c = false -> well_paired (c :: s) = negb (is_trail c) && well_paired s.
Proof. intros Hl. cbn [well_paired]. by rewrite Hl. Qed.

(** A string without lone surrogates is the encoding of its scalar
    values. *)
Lemma utf16_encode_scalar_values s :
  wf_string s -> well_paired s = true -> utf16_encode (scalar_values s) = s.
Proof.
  unfold utf16_encode, wf_string.
  induction s as [|c|c d s IH1 IH2] using pairs_ind; [done| |];
    intros [Hc Hs]%Forall_cons_iff; destruct (is_lead c) eqn:Hl.
  - cbn [well_paired]. by rewrite Hl.
  - rewrite well_paired_unit by done. destruct (is_trail c) eqn:Ht; [done|].
    intros _. rewrite scalar_values_unit by done.
    cbn. by rewrite utf16_units_unit by lia.
  - pose proof Hs as [Hd Hs']%Forall_cons_iff.
    cbn [well_paired scalar_values]. rewrite Hl.
    destruct (is_trail d) eqn:Ht; [|done]. intros Hp. cbn [flat_map].
    by rewrite utf16_units_pair, IH1.
  - rewrite well_paired_unit by done. destruct (is_trail c) eqn:Ht; [done|].
    intros Hp. rewrite scalar_values_unit by done. cbn [flat_map].
    by rewrite utf16_units_unit, IH2 by (done || lia).
Qed.

(** Strings through UTF-8 and back: lone surrogates are replaced, every
    other string comes back as it is. *)
Lemma utf8_to_string_to_utf8 s :
  wf_string s ->
  utf8_to_string (string_to_utf8 s) = utf16_encode (scalar_values s).
Proof.
  intros Hs. unfold utf8_to_string, string_to_utf8.
  by rewrite utf8_decode_encode by by apply scalar_values_scalar.
Qed.

Lemma utf8_string_round_trip s :
  wf_string s -> well_paired s = true ->
  utf8_to_string (string_to_utf8 s) = s.
Proof.
  intros Hs Hp.
  by rewrite utf8_to_string_to_utf8, utf16_encode_scalar_values.
Qed.

Lemma string_to_utf8_byte_string s :
  wf_string s -> is_byte_string (string_to_utf8 s).
Proof.
  intros Hs%scalar_values_scalar. apply utf8_encode_byte_string.
  rewrite Forall_forall in *. intros c Hc%Hs.
  by apply is_scalar_spec in Hc as [? _].
Qed.

(** ASCII text is its own UTF-8. *)
Lemma scalar_values_ascii s :
  Forall (fun c => 0 <= c < 0x80) s -> scalar_values s = s.
Proof.
  induction 1 as [|c s Hc _ IH]; [done|]. cbn [scalar_values].
  unfold is_lead, is_trail. zcases. by rewrite IH.
Qed.

Lemma string_to_utf8_ascii s :
  Forall (fun c => 0 <= c < 0x80) s -> string_to_utf8 s = s.
Proof.
  intros Hs. unfold string_to_utf8.
  by rewrite scalar_values_ascii, utf8_encode_ascii.
Qed.

Lemma utf8_run_ascii s :
  Forall (fun c => 0 <= c < 0x80) s -> utf8_run utf8_initial s = s.
Proof.
  induction 1 as [|c s Hc _ IH]; [done|].
  rewrite utf8_run_initial, utf8_first_ascii by lia. cbn. by rewrite IH.
Qed.

Lemma utf8_to_string_ascii s :
  Forall (fun c => 0 <= c < 0x80) s -> utf8_to_string s = s.
Proof.
  intros Hs. unfold utf8_to_string, utf8_decode, utf16_encode.
  rewrite utf8_run_ascii by done.
  induction Hs as [|c s Hc _ IH]; [done|]. cbn [flat_map]. rewrite IH.
  unfold utf16_units. by zcases.
Qed.

End Utf16.

(** Examples: [é] (U+00E9), the euro sign (U+20AC), a pair of surrogates
    (U+1F600); an overlong encoding, a surrogate in UTF-8 and a truncated
    sequence are replaced by U+FFFD. *)
Example utf8_samples :
  string_to_utf8 [0xE9] = [0xC3; 0xA9]
  /\ string_to_utf8 [0x20AC] = [0xE2; 0x82; 0xAC]
  /\ string_to_utf8 [0xD83D; 0xDE00] = [0xF0; 0x9F; 0x98; 0x80]
  /\ utf8_to_string [0xF0; 0x9F; 0x98; 0x80] = [0xD83D; 0xDE00]
  /\ string_to_utf8 [0xD83D] = [0xEF; 0xBF; 0xBD]
  /\ utf8_to_string [0xC0; 0xAF] = [0xFFFD; 0xFFFD]
  /\ utf8_to_string [0xED; 0xA0; 0x80] = [0xFFFD; 0xFFFD; 0xFFFD]
  /\ utf8_to_string [0xE2; 0x82; 0x41] = [0xFFFD; 0x41]
  /\ utf8_to_string [0xE2; 0x82] = [0xFFFD].
Proof. by vm_compute. Qed.
