(* ===== verification/UrlQuery.v ===== *)
(** * The query string

    Line 2 of [src/checkout_web/script.js] is
    [new URLSearchParams(window.location.search)]: the browser parses the
    part of the URL after the question mark into the list of pairs the
    script reads with [params.get].  This file models that parser as the
    URL standard defines it ([application/x-www-form-urlencoded] parsing:
    split on [&], break at the first [=], [+] for a space, percent-decoding,
    UTF-8 decoding without failure), and the serializer that writes such a
    list ([URLSearchParams.prototype.toString]), which is how a link to the
    page is made.

    The theorems: the parser inverts the serializer on every list of
    strings without lone surrogates, and reads a link written by hand as
    it is written; a URL-safe base64 payload passes through it unchanged,
    which the standard alphabet does not.  What the parser returns is a
    list of strings of 16-bit code units whatever the URL, which is the
    lemma [WellFormed] needs. *)

From Stdlib Require Import ZArith List Lia Bool String.
From stdpp Require Import base tactics list option numbers.
From S2P Require Import Prelude JsString Number Value Dom NumberText Utf8.
From S2P Require Import Query Confirm Checkout WellFormed.

#[local] Open Scope Z_scope.

(** ** Parsing *)

(** Percent-decoding of a byte sequence: [%] followed by two hexadecimal
    digits is the byte they write; any other [%] stays. *)
Fixpoint percent_decode (bs : list Z) : list Z :=
  match bs with
  | [] => []
  | b :: bs' =>
      if b =? 0x25 then
        match bs' with
        | h :: l :: rest =>
            match hex_value h, hex_value l with
            | Some x, Some y => (x * 16 + y) :: percent_decode rest
            | _, _ => b :: percent_decode bs'
            end
        | _ => b :: percent_decode bs'
        end
      else b :: percent_decode bs'
  end.

(** The sequence before the first separator and the sequences after it. *)
Fixpoint split_on (sep : Z) (bs : list Z) : list Z * list (list Z) :=
  match bs with
  | [] => ([], [])
  | b :: bs' =>
      let (first, others) := split_on sep bs' in
      if b =? sep then ([], first :: others) else (b :: first, others)
  end.

Definition sequences (bs : list Z) : list (list Z) :=
  let (first, others) := split_on 0x26 bs in first :: others.

(** The part before the first separator and, if there is one, the part
    after it. *)
Fixpoint break_at (sep : Z) (bs : list Z) : list Z * option (list Z) :=
  match bs with
  | [] => ([], None)
  | b :: bs' =>
      if b =? sep then ([], Some bs')
      else let (n, v) := break_at sep bs' in (b :: n, v)
  end.

(** A name or a value: [+] is a space, then percent-decoding, then UTF-8
    decoding. *)
Definition urlencoded_text (bs : list Z) : jsstring :=
  utf8_to_string (percent_decode (replace_all 0x2B 0x20 bs)).

(** One sequence between two [&]: a name and a value, the value empty when
    there is no [=]. *)
Definition urlencoded_pair (bs : list Z) : jsstring * jsstring :=
  let (n, v) := break_at 0x3D bs in
  (urlencoded_text n, urlencoded_text (default [] v)).

Definition urlencoded_parse (bs : list Z) : URLSearchParams :=
  map urlencoded_pair (filter (fun s => s <> []) (sequences bs)).

(** [new URLSearchParams(init)] for a string: a leading [?] is dropped, the
    string is encoded as UTF-8 and parsed. *)
Definition URLSearchParams_new (init : jsstring) : URLSearchParams :=
  urlencoded_parse
    (string_to_utf8
       (match init with
        | c :: rest => if c =? 0x3F then rest else init
        | [] => init
        end)).

(** ** Serializing *)

(** The bytes that are written as they are: ASCII letters and digits and
    [*], [-], [.], [_]. *)
Definition is_urlencoded_safe (b : Z) : bool :=
  ((0x30 <=? b) && (b <=? 0x39)) || ((0x41 <=? b) && (b <=? 0x5A))
  || ((0x61 <=? b) && (b <=? 0x7A))
  || (b =? 0x2A) || (b =? 0x2D) || (b =? 0x2E) || (b =? 0x5F).

(** An uppercase hexadecimal digit. *)
Definition hex_digit (n : Z) : Z := if n <? 10 then 0x30 + n else 0x37 + n.

Definition urlencoded_byte (b : Z) : list Z :=
  if b =? 0x20 then [0x2B]
  else if is_urlencoded_safe b then [b]
  else [0x25; hex_digit (b / 16); hex_digit (b mod 16)].

Definition urlencoded_string (s : jsstring) : list Z :=
  flat_map urlencoded_byte (string_to_utf8 s).

Definition urlencoded_field (p : jsstring * jsstring) : list Z :=
  urlencoded_string p.1 ++ 0x3D :: urlencoded_string p.2.

Fixpoint join_with (sep : Z) (l : list (list Z)) : list Z :=
  match l with
  | [] => []
  | f :: l' =>
      match l' with [] => f | _ :: _ => f ++ sep :: join_with sep l' end
  end.

(** [params.toString()]: [name=value] joined by [&]. *)
Definition urlencoded_serialize (ps : URLSearchParams) : jsstring :=
  join_with 0x26 (map urlencoded_field ps).

(** [window.location.search] of a link with these parameters. *)
Definition search_of (ps : URLSearchParams) : jsstring :=
  match ps with [] => [] | _ :: _ => 0x3F :: urlencoded_serialize ps end.

(** A link written by hand: names and values as they are, [=] between
    them, [&] between the pairs. *)
Definition raw_field (p : jsstring * jsstring) : list Z := p.1 ++ 0x3D :: p.2.

Definition raw_search (ps : URLSearchParams) : jsstring :=
  0x3F :: join_with 0x26 (map raw_field ps).

(** What may stand in such a link without being read as something else:
    ASCII other than [%], [+], [&] (and [=], in a name). *)
Definition is_raw_char (c : Z) : bool :=
  (0 <=? c) && (c <? 0x80)
  && negb ((c =? 0x25) || (c =? 0x2B) || (c =? 0x26)).

Definition is_raw_pair (p : jsstring * jsstring) : bool :=
  forallb (fun c => is_raw_char c && negb (c =? 0x3D)) p.1
  && forallb is_raw_char p.2.

(** ** The script on a page opened at a URL *)

(** The whole script (lines 1-73) from [window.location.search]. *)
Definition page_load `{B : Builtins} (search : jsstring) (w : Browser) : Browser :=
  load (URLSearchParams_new search) w.

(** ** Facts *)

(** A character of a serialized name or value: ASCII, and none of the
    characters that structure the query. *)
Definition is_field_char (b : Z) : bool :=
  (0 <=? b) && (b <? 0x80)
  && negb ((b =? 0x26) || (b =? 0x3D) || (b =? 0x3F)).

Section SplitFacts.
Implicit Types (sep b : Z) (bs f : list Z).

Lemma split_on_absent sep f : ~ In sep f -> split_on sep f = (f, []).
Proof.
  induction f as [|b f IH]; [done|]. intros Hf. cbn [split_on].
  rewrite IH by (intros ?; apply Hf; by right).
  destruct (Z.eqb_spec b sep) as [->|]; [|done]. destruct Hf. by left.
Qed.

Lemma split_on_app sep f bs :
  ~ In sep f ->
  split_on sep (f ++ sep :: bs)
  = (f, (split_on sep bs).1 :: (split_on sep bs).2).
Proof.
  induction f as [|b f IH]; intros Hf; cbn [app split_on].
  - rewrite Z.eqb_refl. by destruct (split_on sep bs).
  - rewrite IH by (intros ?; apply Hf; by right).
    destruct (Z.eqb_spec b sep) as [->|]; [|done]. destruct Hf. by left.
Qed.

Lemma break_at_absent sep f : ~ In sep f -> break_at sep f = (f, None).
Proof.
  induction f as [|b f IH]; [done|]. intros Hf. cbn [break_at].
  rewrite IH by (intros ?; apply Hf; by right).
  destruct (Z.eqb_spec b sep) as [->|]; [|done]. destruct Hf. by left.
Qed.

Lemma break_at_app sep f bs :
  ~ In sep f -> break_at sep (f ++ sep :: bs) = (f, Some bs).
Proof.
  induction f as [|b f IH]; intros Hf; cbn [app break_at].
  - by rewrite Z.eqb_refl.
  - rewrite IH by (intros ?; apply Hf; by right).
    destruct (Z.eqb_spec b sep) as [->|]; [|done]. destruct Hf. by left.
Qed.

End SplitFacts.

Section SerializerFacts.
Implicit Types (b n : Z) (bs t : list Z) (s : jsstring) (ps : URLSearchParams).

Lemma split_on_join sep f (l : list (list Z)) :
  Forall (fun f => ~ In sep f) (f :: l) ->
  split_on sep (join_with sep (f :: l)) = (f, l).
Proof.
  revert f. induction l as [|g l IH]; intros f [Hf Hl]%Forall_cons_iff.
  - by apply split_on_absent.
  - cbn [join_with]. rewrite split_on_app by done.
    change (match l with [] => g | _ :: _ => g ++ sep :: join_with sep l end)
      with (join_with sep (g :: l)).
    by rewrite IH.
Qed.

Lemma hex_value_digit n : 0 <= n < 16 -> hex_value (hex_digit n) = Some n.
Proof.
  intros Hn. unfold hex_value, hex_digit, is_digit.
  destruct (Z.ltb_spec n 10); zcases; f_equal; lia.
Qed.

(** *** Percent-encoding is inverted by percent-decoding *)

Lemma urlencoded_safe_plain b :
  is_urlencoded_safe b = true -> b <> 0x2B /\ b <> 0x25.
Proof. unfold is_urlencoded_safe. zcases; (done || lia). Qed.

Lemma hex_digit_plain k :
  0 <= k < 16 -> (if hex_digit k =? 0x2B then 0x20 else hex_digit k) = hex_digit k.
Proof. intros Hk. unfold hex_digit. by zcases. Qed.

Lemma percent_decode_byte b t :
  0 <= b < 256 ->
  percent_decode (replace_all 0x2B 0x20 (urlencoded_byte b) ++ t)
  = b :: percent_decode t.
Proof.
  intros Hb. unfold urlencoded_byte, replace_all.
  destruct (Z.eqb_spec b 0x20) as [->|Hsp]; [done|].
  destruct (is_urlencoded_safe b) eqn:Hs; cbn [map app].
  - apply urlencoded_safe_plain in Hs as [? ?]. cbn [percent_decode].
    by zcases.
  - rewrite !hex_digit_plain by zlia. cbn [percent_decode Z.eqb Pos.eqb].
    rewrite !hex_value_digit by zlia. f_equal. zlia.
Qed.

Lemma percent_decode_encoded bs :
  is_byte_string bs ->
  percent_decode (replace_all 0x2B 0x20 (flat_map urlencoded_byte bs)) = bs.
Proof.
  induction 1 as [|b bs Hb _ IH]; [done|]. cbn [flat_map].
  by rewrite replace_all_app, percent_decode_byte, IH.
Qed.

(** A name or a value comes back from its serialization. *)
Lemma urlencoded_text_string s :
  wf_string s -> well_paired s = true ->
  urlencoded_text (urlencoded_string s) = s.
Proof.
  intros Hs Hp. unfold urlencoded_text, urlencoded_string.
  rewrite percent_decode_encoded by by apply string_to_utf8_byte_string.
  by apply utf8_string_round_trip.
Qed.

(** *** The characters of a serialized query *)

Lemma hex_digit_field k : 0 <= k < 16 -> is_field_char (hex_digit k) = true.
Proof. intros Hk. unfold is_field_char, hex_digit. by zcases. Qed.

Lemma urlencoded_safe_field b :
  is_urlencoded_safe b = true -> is_field_char b = true.
Proof. unfold is_urlencoded_safe, is_field_char. zcases; (done || lia). Qed.

Lemma urlencoded_byte_field b :
  0 <= b < 256 -> Forall (fun c => is_field_char c = true) (urlencoded_byte b).
Proof.
  intros Hb. unfold urlencoded_byte.
  destruct (Z.eqb_spec b 0x20) as [->|Hsp]; [by repeat constructor|].
  destruct (is_urlencoded_safe b) eqn:Hs; repeat constructor;
    auto using urlencoded_safe_field. all: apply hex_digit_field; zlia.
Qed.

Lemma urlencoded_string_field s :
  wf_string s -> Forall (fun c => is_field_char c = true) (urlencoded_string s).
Proof.
  intros Hs%string_to_utf8_byte_string. unfold urlencoded_string.
  induction Hs as [|b bs Hb _ IH]; cbn [flat_map]; [constructor|].
  apply Forall_app. split; [by apply urlencoded_byte_field|done].
Qed.

Lemma field_char_absent (c : Z) bs :
  is_field_char c = false ->
  Forall (fun c => is_field_char c = true) bs -> ~ In c bs.
Proof.
  intros Hc Hbs Hin. rewrite Forall_forall in Hbs.
  apply Hbs in Hin. congruence.
Qed.

End SerializerFacts.

Section RoundTrip.
Implicit Types (c : Z) (bs : list Z) (s : jsstring)
  (p : jsstring * jsstring) (ps : URLSearchParams).

(** *** Parsing what was serialized *)

(** A string that survives the conversion to UTF-8: code units, and no
    surrogate on its own. *)
Definition usv_string (s : jsstring) : Prop :=
  wf_string s /\ well_paired s = true.

Definition usv_pair (p : jsstring * jsstring) : Prop :=
  usv_string p.1 /\ usv_string p.2.

Lemma filter_nonempty (l : list (list Z)) :
  Forall (fun f => f <> []) l -> filter (fun f => f <> []) l = l.
Proof.
  induction 1 as [|f l Hf _ IH]; [done|]. by rewrite filter_cons_True, IH.
Qed.

(** A list of fields without [&], joined by [&], is parsed field by field. *)
Lemma urlencoded_parse_join (fields : list (list Z)) :
  Forall (fun f => f <> [] /\ ~ In 0x26 f) fields ->
  urlencoded_parse (join_with 0x26 fields) = map urlencoded_pair fields.
Proof.
  intros Hf. unfold urlencoded_parse, sequences.
  destruct fields as [|f l]; [done|].
  rewrite split_on_join, filter_nonempty; [done| |];
    rewrite Forall_forall in *; intros g Hg; by apply Hf in Hg as [? ?].
Qed.

Lemma field_chars_query bs :
  Forall (fun c => is_field_char c = true) bs ->
  Forall (fun c => 0 <= c < 0x80 /\ c <> 0x3F) bs.
Proof.
  induction 1 as [|c bs Hc _ IH]; constructor; [|done].
  revert Hc. unfold is_field_char. zcases; (done || lia).
Qed.

Lemma urlencoded_field_spec p :
  usv_pair p ->
  urlencoded_field p <> [] /\ ~ In 0x26 (urlencoded_field p)
  /\ urlencoded_pair (urlencoded_field p) = p
  /\ Forall (fun c => 0 <= c < 0x80 /\ c <> 0x3F) (urlencoded_field p).
Proof.
  destruct p as [n v]. intros [[Hn Hpn] [Hv Hpv]]. unfold urlencoded_field.
  cbn [fst snd] in *.
  pose proof (urlencoded_string_field n Hn) as Fn.
  pose proof (urlencoded_string_field v Hv) as Fv.
  split_and!.
  - by destruct (urlencoded_string n).
  - rewrite in_app_iff. intros [Hin|[?|Hin]]; [|done|].
    + by destruct (field_char_absent 0x26 _ eq_refl Fn).
    + by destruct (field_char_absent 0x26 _ eq_refl Fv).
  - unfold urlencoded_pair.
    rewrite break_at_app by apply (field_char_absent 0x3D _ eq_refl Fn).
    cbn -[urlencoded_text urlencoded_string].
    by rewrite !urlencoded_text_string.
  - apply Forall_app. split; [|constructor; [done|]];
      by apply field_chars_query.
Qed.

Lemma urlencoded_serialize_ascii ps :
  Forall usv_pair ps ->
  Forall (fun c => 0 <= c < 0x80 /\ c <> 0x3F) (urlencoded_serialize ps).
Proof.
  unfold urlencoded_serialize.
  induction 1 as [|p ps Hp Hps IH]; [constructor|]. cbn [map join_with].
  apply urlencoded_field_spec in Hp as (_ & _ & _ & Hp).
  destruct ps as [|q ps]; [done|]. apply Forall_app. split; [done|].
  constructor; [done|]. apply IH.
Qed.

Lemma urlencoded_parse_serialize ps :
  Forall usv_pair ps -> urlencoded_parse (urlencoded_serialize ps) = ps.
Proof.
  intros Hps. unfold urlencoded_serialize. rewrite urlencoded_parse_join.
  - induction Hps as [|p ps Hp _ IH]; [done|]. cbn [map].
    apply urlencoded_field_spec in Hp as (_ & _ & -> & _). by rewrite IH.
  - induction Hps as [|p ps Hp _ IH]; constructor; [|done].
    by apply urlencoded_field_spec in Hp as (? & ? & _).
Qed.

End RoundTrip.

Section Links.
Implicit Types (c : Z) (bs : list Z) (s : jsstring)
  (p : jsstring * jsstring) (ps : URLSearchParams).

(** *** Links in general *)

Lemma join_with_ascii (fields : list (list Z)) :
  Forall (Forall (fun c => 0 <= c < 0x80)) fields ->
  Forall (fun c => 0 <= c < 0x80) (join_with 0x26 fields).
Proof.
  induction 1 as [|f l Hf Hl IH]; [constructor|]. cbn [join_with].
  destruct l; [done|]. apply Forall_app. split; [done|].
  constructor; [lia|done].
Qed.

(** A search string made of ASCII fields without [&] is parsed field by
    field. *)
Lemma URLSearchParams_new_fields (fields : list (list Z)) :
  Forall (fun f => f <> [] /\ ~ In 0x26 f) fields ->
  Forall (Forall (fun c => 0 <= c < 0x80)) fields ->
  URLSearchParams_new (0x3F :: join_with 0x26 fields)
  = map urlencoded_pair fields.
Proof.
  intros Hf Ha. unfold URLSearchParams_new. cbn [Z.eqb Pos.eqb].
  rewrite string_to_utf8_ascii by by apply join_with_ascii.
  by apply urlencoded_parse_join.
Qed.

(** *** Links written by hand *)

Lemma percent_decode_plain bs : ~ In 0x25 bs -> percent_decode bs = bs.
Proof.
  induction bs as [|b bs IH]; [done|]. intros Hb. cbn [percent_decode].
  rewrite IH by (intros ?; apply Hb; by right).
  destruct (Z.eqb_spec b 0x25) as [->|]; [|done]. destruct Hb. by left.
Qed.

Lemma is_raw_char_spec c :
  is_raw_char c = true
  <-> 0 <= c < 0x80 /\ c <> 0x25 /\ c <> 0x2B /\ c <> 0x26.
Proof. unfold is_raw_char. zcases; split; (done || lia). Qed.

Lemma raw_chars bs :
  forallb is_raw_char bs = true ->
  Forall (fun c => 0 <= c < 0x80) bs
  /\ ~ In 0x25 bs /\ ~ In 0x2B bs /\ ~ In 0x26 bs.
Proof.
  induction bs as [|b bs IH]; cbn [forallb];
    [intros _; split_and!; [constructor|..]; by intros []|].
  intros [Hb (Ha & H1 & H2 & H3)%IH]%andb_true_iff.
  apply is_raw_char_spec in Hb as (? & ? & ? & ?).
  split_and!; [by constructor|..]; intros [?|?]; done.
Qed.

Lemma urlencoded_text_raw bs :
  forallb is_raw_char bs = true -> urlencoded_text bs = bs.
Proof.
  intros (Ha & H1 & H2 & _)%raw_chars. unfold urlencoded_text.
  rewrite replace_all_absent, percent_decode_plain by done.
  by apply utf8_to_string_ascii.
Qed.

Lemma raw_name_chars bs :
  forallb (fun c => is_raw_char c && negb (c =? 0x3D)) bs = true ->
  forallb is_raw_char bs = true /\ ~ In 0x3D bs.
Proof.
  induction bs as [|b bs IH]; cbn [forallb]; [by split; [|intros []]|].
  intros [[Hb Hn]%andb_true_iff [Hr Hi]%IH]%andb_true_iff.
  rewrite Hb, Hr. split; [done|]. intros [->|?]; done.
Qed.

Lemma raw_field_spec p :
  is_raw_pair p = true ->
  raw_field p <> [] /\ ~ In 0x26 (raw_field p)
  /\ urlencoded_pair (raw_field p) = p
  /\ Forall (fun c => 0 <= c < 0x80) (raw_field p).
Proof.
  destruct p as [n v]. unfold is_raw_pair, raw_field. cbn [fst snd].
  intros [[Hn Hi]%raw_name_chars Hv]%andb_true_iff.
  pose proof (raw_chars n Hn) as (An & _ & _ & Hn3).
  pose proof (raw_chars v Hv) as (Av & _ & _ & Hv3).
  split_and!.
  - by destruct n.
  - rewrite in_app_iff. intros [?|[?|?]]; done.
  - unfold urlencoded_pair. rewrite break_at_app by done.
    cbn -[urlencoded_text]. by rewrite !urlencoded_text_raw.
  - apply Forall_app. split; [done|]. constructor; [lia|done].
Qed.

End Links.

Section QueryFacts.
Implicit Types (s init : jsstring) (ps : URLSearchParams).

(** The hypothesis of the round trip, as a test. *)
Lemma usv_pairs_check ps :
  forallb (fun p => wf_text p.1 && well_paired p.1
                    && wf_text p.2 && well_paired p.2) ps = true ->
  Forall usv_pair ps.
Proof.
  intros Hps. apply Forall_forall. intros p Hp.
  eapply forallb_forall in Hps; [|done].
  apply andb_true_iff in Hps as [[[H1 H2]%andb_true_iff H3]%andb_true_iff H4].
  by repeat split; try apply wf_text_spec.
Qed.

Lemma urlencoded_parse_wf bs : wf_params (urlencoded_parse bs) = true.
Proof.
  unfold wf_params, urlencoded_parse. apply forallb_forall.
  intros p (f & <- & _)%in_map_iff. unfold urlencoded_pair, urlencoded_text.
  destruct (break_at 0x3D f) as [n v]. cbn [fst snd].
  apply andb_true_iff. split; apply wf_text_spec, utf8_to_string_wf.
Qed.

Lemma URLSearchParams_new_wf init : wf_params (URLSearchParams_new init) = true.
Proof. apply urlencoded_parse_wf. Qed.

Lemma URLSearchParams_new_serialize ps :
  Forall usv_pair ps -> URLSearchParams_new (urlencoded_serialize ps) = ps.
Proof.
  intros Hps. pose proof (urlencoded_serialize_ascii ps Hps) as Ha.
  unfold URLSearchParams_new.
  assert (Forall (fun c => 0 <= c < 0x80) (urlencoded_serialize ps)) as Hb.
  { rewrite Forall_forall in *. intros c Hc. by apply Ha in Hc as [? _]. }
  destruct (urlencoded_serialize ps) as [|c rest] eqn:E.
  - rewrite <- E. rewrite string_to_utf8_ascii by (by rewrite E).
    by apply urlencoded_parse_serialize.
  - apply Forall_cons_iff in Ha as [[_ Hc] _].
    destruct (Z.eqb_spec c 0x3F); [done|].
    rewrite string_to_utf8_ascii by done. rewrite <- E.
    by apply urlencoded_parse_serialize.
Qed.

Lemma URLSearchParams_new_search ps :
  Forall usv_pair ps -> URLSearchParams_new (search_of ps) = ps.
Proof.
  intros Hps. destruct ps as [|p ps]; [done|]. cbn [search_of].
  unfold URLSearchParams_new. cbn [Z.eqb Pos.eqb].
  pose proof (urlencoded_serialize_ascii _ Hps) as Ha.
  rewrite string_to_utf8_ascii.
  - by apply urlencoded_parse_serialize.
  - rewrite Forall_forall in *. intros c Hc. by apply Ha in Hc as [? _].
Qed.

Lemma URLSearchParams_new_raw ps :
  forallb is_raw_pair ps = true -> URLSearchParams_new (raw_search ps) = ps.
Proof.
  intros Hps. unfold raw_search.
  assert (Forall (fun p => is_raw_pair p = true) ps) as Hf
    by (apply Forall_forall; intros p Hp; by eapply forallb_forall in Hps).
  rewrite URLSearchParams_new_fields.
  - induction Hf as [|p ps' Hp Hf IH]; [done|]. cbn [map forallb] in *.
    apply raw_field_spec in Hp as (_ & _ & -> & _).
    apply andb_true_iff in Hps as [_ Hps]. by rewrite IH.
  - clear Hps. induction Hf as [|p ps' Hp _ IH]; constructor; [|done].
    by apply raw_field_spec in Hp as (? & ? & _).
  - clear Hps. induction Hf as [|p ps' Hp _ IH]; constructor; [|done].
    by apply raw_field_spec in Hp as (_ & _ & _ & ?).
Qed.

End QueryFacts.

(** ** Properties *)

Section QueryProperties.
Context {B : Builtins}.
Implicit Types (search : jsstring) (ps : URLSearchParams) (w : Browser).

(** C31 (links are read back). The query parser inverts the serializer:
    for every list of names and values that are strings without lone
    surrogates, the page opened at the link written from the list runs the
    script on that very list, names and values byte for byte, in order and
    with duplicates. *)
Theorem page_load_link ps w :
  Forall usv_pair ps ->
  URLSearchParams_new (search_of ps) = ps
  /\ page_load (search_of ps) w = load ps w.
Proof.
  intros Hps. unfold page_load. by rewrite URLSearchParams_new_search.
Qed.

(** C32 (links written by hand). A search string written without the
    serializer, with names and values of ASCII characters other than [%],
    [+] and [&] (and [=] in a name), is read as it is written. *)
Theorem page_load_raw ps w :
  forallb is_raw_pair ps = true ->
  URLSearchParams_new (raw_search ps) = ps
  /\ page_load (raw_search ps) w = load ps w.
Proof.
  intros Hps. unfold page_load. by rewrite URLSearchParams_new_raw.
Qed.

(** Adequacy of the representation, for pages opened at a URL: the parser
    yields strings of 16-bit code units whatever the search string is, so
    the lemma of [WellFormed] applies without a hypothesis on the
    parameters. *)
Lemma page_session_wf `{!BuiltinsLaws B} search w w' :
  wf_store w = true ->
  reachable (page_load search w) w' -> wf_store w' = true.
Proof.
  intros Hw. induction 1 as [|w' _ IH]; [|by apply click_wf].
  apply load_wf; [apply URLSearchParams_new_wf|done].
Qed.

End QueryProperties.

(** Examples: an escaped name in UTF-8, a [+] for a space, a pair without
    [=], empty sequences, an escape that is not one, a truncated UTF-8
    sequence. *)
Example URLSearchParams_new_samples :
  URLSearchParams_new (str "?name=Jos%C3%A9+P%c3%a9rez&email=a%40b.c")
  = [(str "name", str "Jos" ++ [0xE9; 0x20] ++ str "P" ++ [0xE9] ++ str "rez");
     (str "email", str "a@b.c")]
  /\ URLSearchParams_new (str "a&&b=1=2&") = [(str "a", []); (str "b", str "1=2")]
  /\ URLSearchParams_new (str "?x=100%&y=%zz") = [(str "x", str "100%"); (str "y", str "%zz")]
  /\ URLSearchParams_new (str "?x=%E2%82") = [(str "x", [0xFFFD])]
  /\ URLSearchParams_new [] = [] /\ URLSearchParams_new (str "?") = [].
Proof. by vm_compute. Qed.

Example search_of_sample :
  search_of [(str "name", str "Jos" ++ [0xE9] ++ str " P"); (str "a&b", str "1=2")]
  = str "?name=Jos%C3%A9+P&a%26b=1%3D2".
Proof. by vm_compute. Qed.
