(* ===== verification/Json.v ===== *)
(** * [JSON.parse]

    The parser the script calls at line 28 of [src/checkout_web/script.js]
    on the decoded [items] parameter, after ECMA-262 (24.5.1) and the
    grammar of ECMA-404: white space, the three literals, numbers without
    leading zeros or sign [+], strings with the escapes of JSON, arrays and
    objects.  A text outside the grammar is a [SyntaxError].  A key that
    occurs twice keeps its first position and its last value, as
    CreateDataProperty does; [__proto__] is a key like any other.

    The parser is a recursive descent with fuel.  Every call consumes a
    character before it recurses, so the length of the text (plus one) is
    enough fuel: [parse_value_fuel] shows that more changes nothing. *)

From Stdlib Require Import ZArith List Lia Bool String.
From stdpp Require Import base tactics list option numbers.
From S2P Require Import Prelude JsString Number Value NumberText.

#[local] Open Scope Z_scope.

(** ** Lexical elements *)

(** JSON white space: TAB, LF, CR and SPACE. *)
Definition is_json_ws (c : Z) : bool :=
  (c =? 9) || (c =? 10) || (c =? 13) || (c =? 32).

Fixpoint skip_ws (s : jsstring) : jsstring :=
  match s with
  | c :: r => if is_json_ws c then skip_ws r else s
  | [] => []
  end.

(** The character a one-letter escape stands for. *)
Definition escape_char (e : Z) : option Z :=
  if e =? 34 then Some 34
  else if e =? 92 then Some 92
  else if e =? 47 then Some 47
  else if e =? 98 then Some 8
  else if e =? 102 then Some 12
  else if e =? 110 then Some 10
  else if e =? 114 then Some 13
  else if e =? 116 then Some 9
  else None.

(** The code unit of four hexadecimal digits. *)
Definition hex4 (a b c d : Z) : option Z :=
  match hex_value a, hex_value b, hex_value c, hex_value d with
  | Some x, Some y, Some z, Some w => Some (((x * 16 + y) * 16 + z) * 16 + w)
  | _, _, _, _ => None
  end.

(** The characters of a string after its opening quote, up to the closing
    one; [acc] holds what was read, last character first. *)
Fixpoint parse_chars (s acc : jsstring) : option (jsstring * jsstring) :=
  match s with
  | [] => None
  | c :: r =>
      if c =? 34 then Some (rev acc, r)
      else if c =? 92 then
        match r with
        | [] => None
        | e :: r' =>
            if e =? 117 then
              match r' with
              | a :: b :: c' :: d :: r'' =>
                  match hex4 a b c' d with
                  | Some u => parse_chars r'' (u :: acc)
                  | None => None
                  end
              | _ => None
              end
            else
              match escape_char e with
              | Some x => parse_chars r' (x :: acc)
              | None => None
              end
        end
      else if c <? 32 then None
      else parse_chars r (c :: acc)
  end.

(** A JSON number: [-]? ([0] | [1-9] digits) ([.] digits+)? exponent?. *)
Definition parse_number (s : jsstring) : option (number * jsstring) :=
  let '(neg, s1) :=
    match s with
    | c :: r => if c =? 45 then (true, r) else (false, s)
    | [] => (false, s)
    end in
  let '(i, ni, r1) :=
    match s1 with
    | c :: r => if c =? 48 then (0, 1, r) else read_digits s1 0 0
    | [] => (0, 0, s1)
    end in
  if ni =? 0 then None
  else
    let frac :=
      match r1 with
      | c :: r =>
          if c =? 46 then
            let '(m, nf, r') := read_digits r i 0 in
            if nf =? 0 then None else Some (m, nf, r')
          else Some (i, 0, r1)
      | [] => Some (i, 0, r1)
      end in
    match frac with
    | Some (m, nf, r2) =>
        let '(e, r3) := read_exponent r2 in
        Some (num_of_decimal neg m (e - nf), r3)
    | None => None
    end.

(** ** Values *)

Section Descent.
(** The parser of one value, for the elements and members below. *)
Variable parse_value : jsstring -> option (value * jsstring).

(** The elements of an array after the first [[]: value, then [,] or
    []]. *)
Fixpoint parse_elements (n : nat) (s : jsstring) (acc : list value) :
    option (value * jsstring) :=
  match n with
  | O => None
  | S n =>
      match parse_value s with
      | Some (v, r) =>
          match skip_ws r with
          | c :: r' =>
              if c =? 44 then parse_elements n r' (v :: acc)
              else if c =? 93 then Some (VArray (rev (v :: acc)), r')
              else None
          | [] => None
          end
      | None => None
      end
  end.

(** The members of an object after [{]: string, [:], value, then [,] or
    [}]. *)
Fixpoint parse_members (n : nat) (s : jsstring)
    (acc : list (jsstring * value)) : option (value * jsstring) :=
  match n with
  | O => None
  | S n =>
      match skip_ws s with
      | q :: r0 =>
          if q =? 34 then
            match parse_chars r0 [] with
            | Some (k, r1) =>
                match skip_ws r1 with
                | c :: r2 =>
                    if c =? 58 then
                      match parse_value r2 with
                      | Some (v, r3) =>
                          match skip_ws r3 with
                          | d :: r4 =>
                              if d =? 44 then
                                parse_members n r4 (set_prop k v acc)
                              else if d =? 125 then
                                Some (VObject (set_prop k v acc), r4)
                              else None
                          | [] => None
                          end
                      | None => None
                      end
                    else None
                | [] => None
                end
            | None => None
            end
          else None
      | [] => None
      end
  end.

End Descent.

(** One value with the white space in front of it. *)
Fixpoint parse_value (fuel : nat) (s : jsstring) : option (value * jsstring) :=
  match fuel with
  | O => None
  | S fuel =>
      match skip_ws s with
      | [] => None
      | c :: r =>
          if c =? 123 then
            match skip_ws r with
            | d :: r' =>
                if d =? 125 then Some (VObject [], r')
                else parse_members (parse_value fuel) fuel r []
            | [] => None
            end
          else if c =? 91 then
            match skip_ws r with
            | d :: r' =>
                if d =? 93 then Some (VArray [], r')
                else parse_elements (parse_value fuel) fuel r []
            | [] => None
            end
          else if c =? 34 then
            match parse_chars r [] with
            | Some (t, r') => Some (VString t, r')
            | None => None
            end
          else if is_prefix (str "true") (c :: r) then
            Some (VBool true, drop 4 (c :: r))
          else if is_prefix (str "false") (c :: r) then
            Some (VBool false, drop 5 (c :: r))
          else if is_prefix (str "null") (c :: r) then
            Some (VNull, drop 4 (c :: r))
          else
            match parse_number (c :: r) with
            | Some (x, r') => Some (VNumber x, r')
            | None => None
            end
      end
  end.

(** [JSON.parse(s)]: one value, white space around it, nothing else. *)
Definition JSON_parse_model (s : jsstring) : result value :=
  match parse_value (S (length s)) s with
  | Some (v, r) =>
      match skip_ws r with
      | [] => Normal v
      | _ :: _ => Throw SyntaxError
      end
  | None => Throw SyntaxError
  end.

(** ** Every parser consumes *)

Section Progress.
Implicit Types (s r t : jsstring) (v : value).

Lemma skip_ws_length s : (length (skip_ws s) <= length s)%nat.
Proof. induction s as [|c s IH]; cbn; [lia|]. case_match; cbn; lia. Qed.

Lemma skip_ws_cons s c r : skip_ws s = c :: r -> (length r < length s)%nat.
Proof. intros H. pose proof (skip_ws_length s) as Hl. rewrite H in Hl. cbn in Hl. lia. Qed.

Lemma skip_ws_idem s : skip_ws (skip_ws s) = skip_ws s.
Proof.
  induction s as [|c s IH]; cbn; [done|].
  destruct (is_json_ws c) eqn:Hc; [done|]. cbn. by rewrite Hc.
Qed.

Lemma parse_chars_length s acc t r :
  parse_chars s acc = Some (t, r) -> (length r < length s)%nat.
Proof.
  remember (length s) as n eqn:Hn. revert s acc Hn.
  induction n as [n IH] using lt_wf_ind. intros [|c s] acc ->; [done|].
  cbn [parse_chars length]. repeat case_match; try done; subst.
  - intros [= _ ->]. lia.
  - intros Hrec. eapply (fun H => IH _ H _ _ eq_refl) in Hrec; cbn [length] in *; lia.
  - intros Hrec. eapply (fun H => IH _ H _ _ eq_refl) in Hrec; cbn [length] in *; lia.
  - intros Hrec. eapply (fun H => IH _ H _ _ eq_refl) in Hrec; cbn [length] in *; lia.
Qed.

Lemma parse_number_length s x r :
  parse_number s = Some (x, r) -> (length r < length s)%nat.
Proof.
  unfold parse_number.
  destruct (match s with [] => _ | _ :: _ => _ end) as [neg s1] eqn:Hs.
  assert (H1 : (length s1 <= length s)%nat).
  { destruct s as [|c s']; [by simplify_eq|]. case_match; simplify_eq; cbn; lia. }
  destruct (match s1 with [] => _ | _ :: _ => _ end) as [[i ni] r1] eqn:Hi.
  destruct (ni =? 0) eqn:Hni; [done|]. apply Z.eqb_neq in Hni.
  assert (H2 : (length r1 < length s1)%nat).
  { destruct s1 as [|c s']; [by simplify_eq|]. case_match; [simplify_eq; cbn; lia|].
    pose proof (read_digits_length (c :: s') 0 0) as Hl. rewrite Hi in Hl.
    pose proof (read_digits_count (c :: s') 0 0) as Hc. rewrite Hi in Hc.
    cbn [fst snd] in Hl, Hc. lia. }
  destruct (match r1 with [] => _ | _ :: _ => _ end) as [[[m nf] r2]|] eqn:Hf;
    [|done].
  assert (H3 : (length r2 <= length r1)%nat).
  { destruct r1 as [|c r']; [by simplify_eq|]. case_match; [|by simplify_eq].
    destruct (read_digits r' i 0) as [[m' nf'] r''] eqn:Hd.
    pose proof (read_digits_length r' i 0) as Hl. rewrite Hd in Hl.
    pose proof (read_digits_count r' i 0) as Hc. rewrite Hd in Hc.
    case_match; simplify_eq. cbn [fst snd length] in *. lia. }
  pose proof (read_exponent_length r2) as H4.
  destruct (read_exponent r2) as [e r3]. intros [= _ <-]. cbn [snd] in H4. lia.
Qed.

Section DescentProgress.
Context (pv : jsstring -> option (value * jsstring)).
Context (Hpv : forall s v r, pv s = Some (v, r) -> (length r < length s)%nat).

Lemma parse_elements_length n s acc v r :
  parse_elements pv n s acc = Some (v, r) -> (length r < length s)%nat.
Proof.
  revert s acc. induction n as [|n IH]; intros s acc; [done|].
  cbn [parse_elements]. destruct (pv s) as [[v1 r1]|] eqn:H1; [|done].
  apply Hpv in H1. destruct (skip_ws r1) as [|c r'] eqn:H2; [done|].
  apply skip_ws_cons in H2. repeat case_match; try done.
  - intros Hrec%IH. lia.
  - intros [= _ <-]. lia.
Qed.

Lemma parse_members_length n s acc v r :
  parse_members pv n s acc = Some (v, r) -> (length r < length s)%nat.
Proof.
  revert s acc. induction n as [|n IH]; intros s acc; [done|].
  cbn [parse_members]. destruct (skip_ws s) as [|q r0] eqn:Eq; [done|].
  apply skip_ws_cons in Eq. case_match; [|done].
  destruct (parse_chars r0 []) as [[k r1]|] eqn:Ek; [|done].
  apply parse_chars_length in Ek.
  destruct (skip_ws r1) as [|c r2] eqn:Ec; [done|]. apply skip_ws_cons in Ec.
  case_match; [|done]. destruct (pv r2) as [[v3 r3]|] eqn:Ev; [|done].
  apply Hpv in Ev. destruct (skip_ws r3) as [|d r4] eqn:Ed; [done|].
  apply skip_ws_cons in Ed. repeat case_match; try done.
  - intros Hrec%IH. lia.
  - intros [= _ <-]. lia.
Qed.

End DescentProgress.

(** What is left after a value is shorter than the text. *)
Lemma parse_value_length fuel s v r :
  parse_value fuel s = Some (v, r) -> (length r < length s)%nat.
Proof.
  revert s v r. induction fuel as [|fuel IH]; intros s v r; [done|].
  cbn [parse_value]. destruct (skip_ws s) as [|c r0] eqn:H0; [done|].
  pose proof (skip_ws_length s) as Hs. rewrite H0 in Hs. cbn [length] in Hs.
  repeat case_match; try done; subst;
    try (intros [= _ <-]);
    repeat match goal with
      | H : skip_ws _ = _ :: _ |- _ => apply skip_ws_cons in H
      | H : parse_chars _ _ = Some _ |- _ => apply parse_chars_length in H
      | H : parse_number _ = Some _ |- _ => apply parse_number_length in H
      end;
    try (intros Hrec%parse_members_length; [|done]);
    try (intros Hrec%parse_elements_length; [|done]);
    rewrite ?length_drop; cbn [length] in *; lia.
Qed.

End Progress.

(** ** The fuel is enough *)

Section Fuel.
Implicit Types (s r t : jsstring) (v : value).

Section DescentFuel.
Context (pv pv' : jsstring -> option (value * jsstring)).
Context (Hpv : forall s v r, pv s = Some (v, r) -> (length r < length s)%nat).

(** Two element parsers agree on [s] when the value parsers agree on the
    texts no longer than [s] and the second has a bound above the length. *)
Lemma parse_elements_fuel n n' s acc x :
  (forall t y, (length t <= length s)%nat -> pv t = Some y -> pv' t = Some y) ->
  (length s < n')%nat ->
  parse_elements pv n s acc = Some x -> parse_elements pv' n' s acc = Some x.
Proof.
  revert n' s acc. induction n as [|n IH]; intros n' s acc Hsub Hn'; [done|].
  destruct n' as [|n']; [lia|]. cbn [parse_elements].
  destruct (pv s) as [[v r]|] eqn:Ev; [|done].
  rewrite (Hsub s (v, r)) by done. apply Hpv in Ev.
  destruct (skip_ws r) as [|c r'] eqn:Ec; [done|]. apply skip_ws_cons in Ec.
  repeat case_match; try done. apply IH; [|lia].
  intros t y Ht. apply Hsub. lia.
Qed.

Lemma parse_members_fuel n n' s acc x :
  (forall t y, (length t <= length s)%nat -> pv t = Some y -> pv' t = Some y) ->
  (length s < n')%nat ->
  parse_members pv n s acc = Some x -> parse_members pv' n' s acc = Some x.
Proof.
  revert n' s acc. induction n as [|n IH]; intros n' s acc Hsub Hn'; [done|].
  destruct n' as [|n']; [lia|]. cbn [parse_members].
  destruct (skip_ws s) as [|q r0] eqn:Eq; [done|]. apply skip_ws_cons in Eq.
  case_match; [|done].
  destruct (parse_chars r0 []) as [[k r1]|] eqn:Ek; [|done].
  apply parse_chars_length in Ek.
  destruct (skip_ws r1) as [|c r2] eqn:Ec; [done|]. apply skip_ws_cons in Ec.
  case_match; [|done]. destruct (pv r2) as [[v3 r3]|] eqn:Ev; [|done].
  rewrite (Hsub r2 (v3, r3)) by (done || lia). apply Hpv in Ev.
  destruct (skip_ws r3) as [|d r4] eqn:Ed; [done|]. apply skip_ws_cons in Ed.
  repeat case_match; try done. apply IH; [|lia].
  intros t y Ht. apply Hsub. lia.
Qed.

End DescentFuel.

(** A result obtained with some fuel is obtained with any fuel above the
    length of the text. *)
Lemma parse_value_fuel_le f g s x :
  parse_value f s = Some x -> (length s < g)%nat -> parse_value g s = Some x.
Proof.
  revert g s x. induction f as [|f IH]; intros g s x; [done|].
  destruct g as [|g]; [lia|]. intros H Hg. revert H. cbn [parse_value].
  destruct (skip_ws s) as [|c r] eqn:Es; [done|]. apply skip_ws_cons in Es.
  repeat case_match; try done.
  - apply parse_members_fuel; [apply parse_value_length| |lia].
    intros t y Ht. eauto with lia.
  - apply parse_elements_fuel; [apply parse_value_length| |lia].
    intros t y Ht. eauto with lia.
Qed.

(** The parser with the fuel [JSON_parse_model] gives it and the parser
    with any larger fuel are the same function. *)
Lemma parse_value_fuel g s :
  (length s < g)%nat -> parse_value g s = parse_value (S (length s)) s.
Proof.
  intros Hg. destruct (parse_value g s) as [x|] eqn:E1.
  - symmetry. eapply parse_value_fuel_le; [done|lia].
  - destruct (parse_value (S (length s)) s) as [y|] eqn:E2; [|done].
    apply (parse_value_fuel_le _ g) in E2; [congruence|done].
Qed.

End Fuel.

(** ** What a parse yields *)

Section Shape.
Implicit Types (s r t : jsstring) (v : value) (p : list (jsstring * value)).

Lemma parse_number_not_nan s x r :
  parse_number s = Some (x, r) -> num_is_nan x = false.
Proof.
  unfold parse_number. repeat case_match; try done; intros [= <- _];
    apply num_of_decimal_not_nan.
Qed.

Lemma is_json_set_prop k v p :
  is_json v = true -> is_json (VObject p) = true ->
  is_json (VObject (set_prop k v p)) = true.
Proof.
  cbn [is_json]. rewrite !andb_true_iff, !bool_decide_eq_true.
  intros Hv [Hp Hk]. split; [|by apply set_prop_NoDup]. clear Hk.
  induction p as [|[k' v'] p IH]; cbn in *; [by rewrite Hv|].
  apply andb_true_iff in Hp as [Hv' Hp].
  case_bool_decide; cbn; rewrite ?Hv, ?Hv', ?Hp; auto.
Qed.

Section DescentShape.
Context (pv : jsstring -> option (value * jsstring)).
Context (Hpv : forall s v r, pv s = Some (v, r) -> is_json v = true).

Lemma parse_elements_is_json n s acc v r :
  forallb is_json acc = true ->
  parse_elements pv n s acc = Some (v, r) -> is_json v = true.
Proof.
  revert s acc. induction n as [|n IH]; intros s acc Hacc; [done|].
  cbn [parse_elements]. destruct (pv s) as [[v1 r1]|] eqn:Ev; [|done].
  apply Hpv in Ev. repeat case_match; try done.
  - apply IH. cbn. by rewrite Ev.
  - intros [= <- _]. cbn [is_json rev]. rewrite forallb_app, forallb_rev.
    cbn. by rewrite Hacc, Ev.
Qed.

Lemma parse_members_is_json n s p v r :
  is_json (VObject p) = true ->
  parse_members pv n s p = Some (v, r) -> is_json v = true.
Proof.
  revert s p. induction n as [|n IH]; intros s p Hp; [done|].
  cbn [parse_members]. repeat case_match; try done;
    match goal with H : pv _ = Some _ |- _ => apply Hpv in H end.
  - apply IH. by apply is_json_set_prop.
  - intros [= <- _]. by apply is_json_set_prop.
Qed.

End DescentShape.

Lemma parse_value_is_json fuel s v r :
  parse_value fuel s = Some (v, r) -> is_json v = true.
Proof.
  revert s v r. induction fuel as [|fuel IH]; intros s v r; [done|].
  cbn [parse_value]. repeat case_match; try done; subst;
    try (intros [= <- _]; try done).
  - by apply parse_members_is_json.
  - by apply parse_elements_is_json.
  - cbn. by erewrite parse_number_not_nan.
Qed.

(** *** Strings of code units in, strings of code units out *)

Lemma skip_ws_wf s : wf_string s -> wf_string (skip_ws s).
Proof.
  induction s as [|c s IH]; [done|]. intros Hs. cbn. case_match; [|done].
  apply IH. by apply wf_string_cons in Hs as [_ ?].
Qed.

Lemma hex4_range a b c d u : hex4 a b c d = Some u -> 0 <= u < 65536.
Proof.
  unfold hex4.
  destruct (hex_value a) as [x|] eqn:Ha, (hex_value b) as [y|] eqn:Hb,
    (hex_value c) as [z|] eqn:Hc, (hex_value d) as [w|] eqn:Hd; try done.
  apply hex_value_range in Ha, Hb, Hc, Hd. intros [= <-]. lia.
Qed.

Lemma escape_char_range e x : escape_char e = Some x -> 0 <= x < 65536.
Proof. unfold escape_char. repeat case_match; intros [= <-]; lia. Qed.

Lemma parse_chars_wf s acc t r :
  wf_string s -> wf_string acc ->
  parse_chars s acc = Some (t, r) -> wf_string t /\ wf_string r.
Proof.
  remember (length s) as n eqn:Hn. revert s acc Hn.
  induction n as [n IH] using lt_wf_ind. intros [|c s] acc -> Hs Hacc; [done|].
  cbn [parse_chars]. repeat case_match; try done; subst;
    repeat match goal with
    | H : wf_string (_ :: _) |- _ => apply wf_string_cons in H as [? H]
    | H : hex4 _ _ _ _ = Some _ |- _ => apply hex4_range in H
    | H : escape_char _ = Some _ |- _ => apply escape_char_range in H
    end.
  - intros [= <- <-]. auto with js.
  - intros Hrec. eapply (fun H => IH _ H _ _ eq_refl) in Hrec;
      cbn [length] in *; auto with js; lia.
  - intros Hrec. eapply (fun H => IH _ H _ _ eq_refl) in Hrec;
      cbn [length] in *; auto with js; lia.
  - intros Hrec. eapply (fun H => IH _ H _ _ eq_refl) in Hrec;
      cbn [length] in *; auto with js; lia.
Qed.

Lemma parse_number_wf s x r :
  wf_string s -> parse_number s = Some (x, r) -> wf_string r.
Proof.
  intros Hs. unfold parse_number.
  destruct (match s with [] => _ | _ :: _ => _ end) as [neg s1] eqn:Es.
  assert (H1 : wf_string s1).
  { destruct s as [|c s']; [by simplify_eq|].
    case_match; simplify_eq; [|done]. by apply wf_string_cons in Hs as [_ ?]. }
  destruct (match s1 with [] => _ | _ :: _ => _ end) as [[i ni] r1] eqn:Ei.
  assert (H2 : wf_string r1).
  { destruct s1 as [|c s']; [by simplify_eq|]. case_match; simplify_eq.
    - by apply wf_string_cons in H1 as [_ ?].
    - pose proof (read_digits_wf (c :: s') 0 0 H1) as Hd. by rewrite Ei in Hd. }
  destruct (ni =? 0); [done|].
  destruct (match r1 with [] => _ | _ :: _ => _ end) as [[[m nf] r2]|] eqn:Ef;
    [|done].
  assert (H3 : wf_string r2).
  { destruct r1 as [|c r']; [by simplify_eq|]. case_match; [|by simplify_eq].
    apply wf_string_cons in H2 as [_ H2].
    pose proof (read_digits_wf r' i 0 H2) as Hd.
    destruct (read_digits r' i 0) as [[m' nf'] r'']. by case_match; simplify_eq. }
  pose proof (read_exponent_wf r2 H3) as H4.
  destruct (read_exponent r2) as [e r3]. by intros [= _ <-].
Qed.

Section DescentWf.
Context (pv : jsstring -> option (value * jsstring)).
Context (Hpv : forall s v r, wf_string s -> pv s = Some (v, r) ->
                 wf_value v = true /\ wf_string r).

Lemma parse_elements_wf n s acc v r :
  wf_string s -> forallb wf_value acc = true ->
  parse_elements pv n s acc = Some (v, r) -> wf_value v = true /\ wf_string r.
Proof.
  revert s acc. induction n as [|n IH]; intros s acc Hs Hacc; [done|].
  cbn [parse_elements]. destruct (pv s) as [[v1 r1]|] eqn:Ev; [|done].
  apply Hpv in Ev as [Hv1 Hr1%skip_ws_wf]; [|done].
  destruct (skip_ws r1) as [|c r']; [done|].
  apply wf_string_cons in Hr1 as [_ Hr']. repeat case_match; try done.
  - apply IH; [done|]. cbn. by rewrite Hv1.
  - intros [= <- <-]. split; [|done]. cbn [wf_value rev].
    rewrite forallb_app, forallb_rev. cbn. by rewrite Hacc, Hv1.
Qed.

Lemma parse_members_wf n s p v r :
  wf_string s -> wf_value (VObject p) = true ->
  parse_members pv n s p = Some (v, r) -> wf_value v = true /\ wf_string r.
Proof.
  revert s p. induction n as [|n IH]; intros s p Hs%skip_ws_wf Hp; [done|].
  cbn [parse_members]. destruct (skip_ws s) as [|q r0]; [done|].
  apply wf_string_cons in Hs as [_ Hr0]. case_match; [|done].
  destruct (parse_chars r0 []) as [[k r1]|] eqn:Ek; [|done].
  apply parse_chars_wf in Ek as [Hk Hr1%skip_ws_wf]; [|done|constructor].
  destruct (skip_ws r1) as [|c r2]; [done|].
  apply wf_string_cons in Hr1 as [_ Hr2]. case_match; [|done].
  destruct (pv r2) as [[v3 r3]|] eqn:Ev; [|done].
  apply Hpv in Ev as [Hv3 Hr3%skip_ws_wf]; [|done].
  destruct (skip_ws r3) as [|d r4]; [done|].
  apply wf_string_cons in Hr3 as [_ Hr4]. repeat case_match; try done.
  - apply IH; [done|]. by apply wf_value_set_prop.
  - intros [= <- <-]. split; [|done]. by apply wf_value_set_prop.
Qed.

End DescentWf.

Lemma parse_value_wf fuel s v r :
  wf_string s -> parse_value fuel s = Some (v, r) ->
  wf_value v = true /\ wf_string r.
Proof.
  revert s v r. induction fuel as [|fuel IH]; intros s v r Hs%skip_ws_wf; [done|].
  cbn [parse_value]. destruct (skip_ws s) as [|c r0]; [done|].
  pose proof Hs as [Hc Hr0]%wf_string_cons.
  destruct (c =? 123).
  { pose proof (skip_ws_wf r0 Hr0) as Hw.
    destruct (skip_ws r0) as [|d r']; [done|]. case_match.
    - intros [= <- <-]. split; [done|]. by apply wf_string_cons in Hw as [_ ?].
    - by apply parse_members_wf. }
  destruct (c =? 91).
  { pose proof (skip_ws_wf r0 Hr0) as Hw.
    destruct (skip_ws r0) as [|d r']; [done|]. case_match.
    - intros [= <- <-]. split; [done|]. by apply wf_string_cons in Hw as [_ ?].
    - by apply parse_elements_wf. }
  destruct (c =? 34).
  { destruct (parse_chars r0 []) as [[t r']|] eqn:Et; [|done].
    apply parse_chars_wf in Et as [Ht Hr']; [|done|constructor].
    intros [= <- <-]. split; [|done]. by apply forallb_is_code_unit. }
  repeat case_match; try done; intros [= <- <-]; (split; [done|]);
    try match goal with
      | H : parse_number _ = Some _ |- _ => by apply parse_number_wf in H
      end;
    auto with js.
Qed.

Lemma JSON_parse_model_wf s v :
  wf_string s -> JSON_parse_model s = Normal v -> wf_value v = true.
Proof.
  intros Hs. unfold JSON_parse_model.
  destruct (parse_value _ s) as [[v' r]|] eqn:Hp; [|done].
  apply parse_value_wf in Hp as [Hv _]; [|done].
  case_match; [|done]. by intros [= <-].
Qed.

(** The only exception of [JSON.parse] is the [SyntaxError]. *)
Lemma JSON_parse_model_error s e : JSON_parse_model s = Throw e -> e = SyntaxError.
Proof. unfold JSON_parse_model. repeat case_match; by intros [= <-]. Qed.

(** A parsed value has no [undefined] and no [NaN] in it, and no object
    of it has a key twice. *)
Lemma JSON_parse_model_is_json s v : JSON_parse_model s = Normal v -> is_json v = true.
Proof.
  unfold JSON_parse_model. repeat case_match; try done. intros [= <-].
  eauto using parse_value_is_json.
Qed.

End Shape.
