(* ===== verification/NumberFormat.v ===== *)
(** * Numbers written as text

    Three conversions of [src/checkout_web/script.js]:
    - Number::toString of ECMA-262 (6.1.6.1.20), which the template literal
      of line 53 applies to a numeric [quantity]: the shortest decimal that
      reads back as the same double, laid out with or without exponent;
    - [x.toLocaleString("es-AR")] of lines 54-55: the number rounded to at
      most three decimals (half away from zero), grouped by three;
    - [x.toLocaleString("es-AR", {style: "currency", currency: "ARS"})] of
      lines 12-15: two decimals and the currency symbol.
    The last two follow ECMA-402 (Intl.NumberFormat); the separators, the
    symbol and its spacing are locale data, collected in [es_AR].

    All three work on the exact value [m * 2^e] of the double, with integer
    arithmetic only. *)

From Stdlib Require Import ZArith List Lia Bool String SpecFloat.
From stdpp Require Import base tactics list option numbers.
From S2P Require Import Prelude JsString Number.

#[local] Open Scope Z_scope.

(** ** Decimal digits of an integer *)

Fixpoint digits_fuel (fuel : nat) (z : Z) (acc : jsstring) : jsstring :=
  match fuel with
  | O => acc
  | S fuel =>
      if z <? 10 then 48 + z mod 10 :: acc
      else digits_fuel fuel (z / 10) (48 + z mod 10 :: acc)
  end.

(** The decimal digits of [z >= 0], most significant first.  A number has
    no more decimal digits than binary ones, which bounds the loop. *)
Definition digits (z : Z) : jsstring :=
  digits_fuel (S (Z.to_nat (Z.log2 z))) z [].

(** ** The exact value of a double *)

(** [m * 2^e] as a fraction. *)
Definition num_fraction (m : positive) (e : Z) : Z * Z :=
  if 0 <=? e then (Zpos m * 2 ^ e, 1) else (Zpos m, 2 ^ (- e)).

(** [num / den] times [10^(-p)], as a fraction. *)
Definition scale10 (num den p : Z) : Z * Z :=
  if 0 <=? p then (num, den * 10 ^ p) else (num * 10 ^ (- p), den).

(** The least [n' >= n] with [a / b < 10^(n' - n)]: the denominator grows
    by a factor of ten until it exceeds the numerator. *)
Fixpoint decimal_exponent (fuel : nat) (a b n : Z) : Z :=
  match fuel with
  | O => n
  | S fuel =>
      if a <? b then n else decimal_exponent fuel a (10 * b) (n + 1)
  end.

(** ** Number::toString *)

(** Does the decimal [s * 10^p] read as the double [x]? *)
Definition reads_as (x : number) (s p : Z) : bool :=
  bool_decide (num_of_decimal false s p = x).

(** The [k]-digit decimals next to [x = num / den], where
    [10^(n-1) <= x < 10^n]: the one below and the one above, of which the
    closer one that reads as [x] is chosen, the even one in a tie.  The
    result is [(s, n')] for the decimal [s * 10^(n' - k)]. *)
Definition candidate (x : number) (num den n k : Z) : option (Z * Z) :=
  let p := n - k in
  let '(a, b) := scale10 num den p in
  let lo := a / b in
  let r := a mod b in
  let ok_lo := reads_as x lo p in
  let hi := if lo + 1 =? 10 ^ k then (10 ^ (k - 1), n + 1) else (lo + 1, n) in
  let ok_hi := reads_as x hi.1 (hi.2 - k) in
  match ok_lo, ok_hi with
  | true, true =>
      if 2 * r <? b then Some (lo, n)
      else if b <? 2 * r then Some hi
      else if Z.even lo then Some (lo, n) else Some hi
  | true, false => Some (lo, n)
  | false, true => Some hi
  | false, false => None
  end.

(** The [k]-digit decimal closest to [num / den], the even one in a tie,
    whether it reads as the double or not. *)
Definition nearest (num den n k : Z) : Z * Z :=
  let '(a, b) := scale10 num den (n - k) in
  let lo := a / b in
  let r := a mod b in
  if (2 * r <? b) || ((2 * r =? b) && Z.even lo) then (lo, n)
  else if lo + 1 =? 10 ^ k then (10 ^ (k - 1), n + 1) else (lo + 1, n).

(** The least number of digits, from [k] on, with which [x] can be
    written: [fuel] lengths are tried, each with [candidate], so that among
    the decimals of the least length the closest to [x] is taken.  Were
    none of them to read as [x], the closest decimal of the next length
    would be returned. *)
Fixpoint shortest_from (fuel : nat) (x : number) (num den n k : Z) : Z * Z :=
  match fuel with
  | O => nearest num den n k
  | S fuel =>
      match candidate x num den n k with
      | Some sn => sn
      | None => shortest_from fuel x num den n (k + 1)
      end
  end.

(** The digits [s] and the exponent [n] of the text of [m * 2^e]: the
    value is [0.s * 10^n].  A double lies in [[10^(-324), 10^309)], so the
    exponent is found from [-324] in fewer than 640 steps.  The lengths 1
    to 17 are tried: two doubles are never closer than one part in [2^53],
    and [10^17 > 2^54], so that the closest decimal of 17 digits reads as
    the double it came from. *)
Definition shortest (m : positive) (e : Z) : Z * Z :=
  let '(num, den) := num_fraction m e in
  let n := decimal_exponent 640 (num * 10 ^ 324) den (-324) in
  shortest_from 17 (S754_finite false m e) num den n 1.

(** The decimal that [shortest] stands for, as a fraction. *)
Definition shortest_fraction (m : positive) (e : Z) : Z * Z :=
  let '(s, n) := shortest m e in
  let p := n - Z.of_nat (length (digits s)) in
  if 0 <=? p then (s * 10 ^ p, 1) else (s, 10 ^ (- p)).

(** Steps 6-10 of Number::toString: the digits [ds] of [s] and the
    exponent [n] laid out as an integer, a decimal fraction or in
    exponent notation. *)
Definition num_layout (ds : jsstring) (n : Z) : jsstring :=
  let k := Z.of_nat (length ds) in
  if (k <=? n) && (n <=? 21) then ds ++ repeat 48 (Z.to_nat (n - k))
  else if (0 <? n) && (n <=? 21) then
    take (Z.to_nat n) ds ++ [46] ++ drop (Z.to_nat n) ds
  else if (-6 <? n) && (n <=? 0) then
    [48; 46] ++ repeat 48 (Z.to_nat (- n)) ++ ds
  else
    let es := (if n - 1 <? 0 then [45] else [43]) ++ digits (Z.abs (n - 1)) in
    match ds with
    | [] => []
    | [d] => [d; 101] ++ es
    | d :: rest => d :: 46 :: rest ++ [101] ++ es
    end.

Definition minus_sign (neg : bool) : jsstring := if neg then [45] else [].

Definition Number_toString_model (x : number) : jsstring :=
  match x with
  | S754_nan => str "NaN"
  | S754_zero _ => str "0"
  | S754_infinity neg => minus_sign neg ++ str "Infinity"
  | S754_finite neg m e =>
      let '(s, n) := shortest m e in
      minus_sign neg ++ num_layout (digits s) n
  end.

(** ** Intl.NumberFormat *)

(** What the formatter takes from the locale. *)
Record locale : Type := {
  group_separator : jsstring;
  decimal_separator : jsstring;
  (** the least number of integer digits that are grouped *)
  minimum_grouping : Z;
  nan_text : jsstring;
  infinity_text : jsstring;
  (** what precedes the digits of an amount: the symbol and its space *)
  currency_prefix : jsstring;
}.

(** The Spanish of Argentina: [1.234,5]; amounts as [$ 1.234,50] with a
    no-break space after the symbol. *)
Definition es_AR : locale := {|
  group_separator := [46];
  decimal_separator := [44];
  minimum_grouping := 4;
  nan_text := str "NaN";
  infinity_text := [8734];
  currency_prefix := [36; 160];
|}.

(** [x * 10^f] rounded to an integer, halves away from zero
    ([roundingMode: "halfExpand"], the default), for [x = num / den >= 0]. *)
Definition round_half_expand (num den f : Z) : Z :=
  (2 * num * 10 ^ f + den) / (2 * den).

(** Digits in groups of three, counted from the right; the argument and
    the result are in reverse. *)
Fixpoint group_rev (sep r : jsstring) : jsstring :=
  match r with
  | a :: b :: c :: ((_ :: _) as rest) => a :: b :: c :: sep ++ group_rev sep rest
  | _ => r
  end.

Definition group (l : locale) (ds : jsstring) : jsstring :=
  if Z.of_nat (length ds) <? minimum_grouping l then ds
  else rev (group_rev (rev (group_separator l)) (rev ds)).

(** [ds] padded with zeros on the left to [n] digits. *)
Definition pad_left (n : nat) (ds : jsstring) : jsstring :=
  repeat 48 (n - length ds) ++ ds.

(** Trailing zeros removed, down to [n] digits. *)
Fixpoint strip_zeros_rev (n : nat) (r : jsstring) : jsstring :=
  match r with
  | c :: r' =>
      if (c =? 48) && (n <? length r)%nat then strip_zeros_rev n r' else r
  | [] => []
  end.

Definition strip_zeros (n : nat) (ds : jsstring) : jsstring :=
  rev (strip_zeros_rev n (rev ds)).

(** A non-negative [num / den] with at least [minf] and at most [maxf]
    decimals. *)
Definition format_fixed (l : locale) (minf maxf : nat) (num den : Z) :
    jsstring :=
  let n := round_half_expand num den (Z.of_nat maxf) in
  let int := n / 10 ^ Z.of_nat maxf in
  let frac :=
    strip_zeros minf (pad_left maxf (digits (n mod 10 ^ Z.of_nat maxf))) in
  group l (digits int)
  ++ match maxf, frac with
     | O, _ | _, [] => []
     | _, _ => decimal_separator l ++ frac
     end.

(** The formatter; [decimal] says which decimal stands for the double
    [m * 2^e] when it is rounded. *)
Definition format_number (decimal : positive -> Z -> Z * Z) (l : locale)
    (prefix : jsstring) (minf maxf : nat) (x : number) : jsstring :=
  match x with
  | S754_nan => prefix ++ nan_text l
  | S754_infinity neg => minus_sign neg ++ prefix ++ infinity_text l
  | S754_zero neg => minus_sign neg ++ prefix ++ format_fixed l minf maxf 0 1
  | S754_finite neg m e =>
      let '(num, den) := decimal m e in
      minus_sign neg ++ prefix ++ format_fixed l minf maxf num den
  end.

(** [x.toLocaleString("es-AR")]: up to three decimals.  The browsers round
    the shortest decimal of the double, as their formatting library (ICU)
    does; ECMA-402 words the rounding on the exact value, which is
    [format_number num_fraction].  The two differ only for a double whose
    shortest decimal ends in a [5] right after the last digit kept. *)
Definition Number_toLocaleString_model (x : number) : jsstring :=
  format_number shortest_fraction es_AR [] 0 3 x.

(** [x.toLocaleString("es-AR", {style: "currency", currency: "ARS"})]: the
    peso has two decimals. *)
Definition Number_toLocaleCurrency_model (x : number) : jsstring :=
  format_number shortest_fraction es_AR (currency_prefix es_AR) 2 2 x.

(** The strings of a locale are strings. *)
Definition wf_locale (l : locale) : Prop :=
  wf_string (group_separator l) /\ wf_string (decimal_separator l)
  /\ wf_string (nan_text l) /\ wf_string (infinity_text l)
  /\ wf_string (currency_prefix l).

(** ** The texts are well-formed strings *)

Section FormatWf.
Implicit Types (s ds r acc : jsstring) (z n : Z) (x : number) (l : locale).

Lemma digits_fuel_wf fuel z acc :
  wf_string acc -> wf_string (digits_fuel fuel z acc).
Proof.
  revert z acc. induction fuel as [|fuel IH]; intros z acc Hacc; [done|].
  cbn [digits_fuel]. assert (0 <= 48 + z mod 10 < 65536) by zlia.
  case_match; auto with js.
Qed.

Lemma digits_wf z : wf_string (digits z).
Proof. apply digits_fuel_wf, wf_string_nil. Qed.

Lemma minus_sign_wf (neg : bool) : wf_string (minus_sign neg).
Proof. destruct neg; cbn; auto with js. Qed.

#[local] Hint Resolve digits_wf minus_sign_wf : js.

Lemma num_layout_wf ds n : wf_string ds -> wf_string (num_layout ds n).
Proof.
  intros Hds. unfold num_layout. repeat case_match; subst; auto 8 with js;
    apply wf_string_cons in Hds as [? Hds]; auto 10 with js.
Qed.

Lemma Number_toString_model_wf x : wf_string (Number_toString_model x).
Proof.
  destruct x as [neg|neg| |neg m e]; cbn [Number_toString_model];
    auto with js.
  destruct (shortest m e) as [s n]. auto using num_layout_wf with js.
Qed.

Lemma group_rev_wf sep r : wf_string sep -> wf_string r -> wf_string (group_rev sep r).
Proof.
  intros Hsep. induction r as [|a|a b|a b c r IH] using list_ind3; try done.
  intros Hr. cbn [group_rev]. destruct r as [|d r]; [done|].
  repeat (apply wf_string_cons in Hr as [? Hr]).
  repeat (apply wf_string_cons_2; [done|]). apply wf_string_app_2; [done|].
  apply IH. auto with js.
Qed.

Lemma strip_zeros_rev_wf (k : nat) r : wf_string r -> wf_string (strip_zeros_rev k r).
Proof.
  induction r as [|c r IH]; [done|]. intros Hr. cbn [strip_zeros_rev].
  case_match; [|done]. apply IH. by apply wf_string_cons in Hr as [_ ?].
Qed.

Lemma format_fixed_wf l (minf maxf : nat) num den :
  wf_locale l -> wf_string (format_fixed l minf maxf num den).
Proof.
  intros (Hg & Hd & _). unfold format_fixed, group, strip_zeros, pad_left.
  apply wf_string_app_2.
  - case_match; auto using group_rev_wf with js.
  - repeat case_match; auto with js; rewrite <- H0;
      auto 8 using strip_zeros_rev_wf with js.
Qed.

Lemma format_number_wf decimal l prefix (minf maxf : nat) x :
  wf_locale l -> wf_string prefix ->
  wf_string (format_number decimal l prefix minf maxf x).
Proof.
  intros Hl Hp. pose proof Hl as (_ & _ & Hn & Hi & _).
  destruct x as [neg|neg| |neg m e]; cbn [format_number];
    try destruct (decimal m e); auto 6 using format_fixed_wf with js.
Qed.

Lemma es_AR_wf : wf_locale es_AR.
Proof. unfold wf_locale, es_AR; cbn. split_and!; auto 6 with js. Qed.

Lemma Number_toLocaleString_model_wf x : wf_string (Number_toLocaleString_model x).
Proof. apply format_number_wf; auto using es_AR_wf with js. Qed.

Lemma Number_toLocaleCurrency_model_wf x :
  wf_string (Number_toLocaleCurrency_model x).
Proof. apply format_number_wf; [apply es_AR_wf|]. apply es_AR_wf. Qed.

End FormatWf.

(** ** The texts of some numbers *)

Example Number_toString_model_samples :
  Number_toString_model (num_of_Z 2) = str "2"
  /\ Number_toString_model (num_of_decimal false 1 (-1)) = str "0.1"
  /\ Number_toString_model (num_mul (num_of_decimal false 1 (-1)) (num_of_Z 3))
     = str "0.30000000000000004"
  /\ Number_toString_model (num_of_decimal true 125 (-1)) = str "-12.5"
  /\ Number_toString_model (num_of_decimal false 1 21) = str "1e+21"
  /\ Number_toString_model (num_of_decimal false 5 (-7)) = str "5e-7".
Proof. by_compute. Qed.

(** Doubles that need all seventeen digits, and the ends of the range.
    Among the decimals of seventeen digits that read as [1.1 + 2.2], the
    closest ends in [03]; the one below it, which also reads as that
    double, ends in [02].  The least double is written [5e-324], although
    every decimal from [3e-324] to [7e-324] reads as it. *)
Example Number_toString_model_long :
  Number_toString_model (S754_finite false 7430939385161319 (-51))
  = str "3.3000000000000003"
  /\ reads_as (S754_finite false 7430939385161319 (-51))
       33000000000000002 (-16) = true
  /\ Number_toString_model (S754_finite false 6004799503160661 (-54))
     = str "0.3333333333333333"
  /\ Number_toString_model (S754_finite false 9007199254740991 971)
     = str "1.7976931348623157e+308"
  /\ Number_toString_model (S754_finite false 1 (-1074)) = str "5e-324"
  /\ Number_toString_model (S754_finite false 4503599627370497 1)
     = str "9007199254740994"
  /\ Number_toString_model (S754_finite false 4897664594765414 (-50))
     = str "4.35".
Proof. by_compute. Qed.

(** The doubles of those samples are the ones the decimals of the source
    text stand for. *)
Example Number_toString_model_long_values :
  num_of_decimal false 33 (-1) <> S754_finite false 7430939385161319 (-51)
  /\ num_of_decimal false 33000000000000003 (-16)
     = S754_finite false 7430939385161319 (-51)
  /\ num_of_decimal false 5 (-324) = S754_finite false 1 (-1074)
  /\ num_of_decimal false 435 (-2) = S754_finite false 4897664594765414 (-50).
Proof. by_compute. Qed.

Example Number_toLocaleString_model_samples :
  Number_toLocaleString_model (num_of_Z 999) = str "999"
  /\ Number_toLocaleString_model (num_of_Z 1234) = str "1.234"
  /\ Number_toLocaleString_model (num_of_decimal false 12345 (-1))
     = str "1.234,5"
  /\ Number_toLocaleString_model (num_of_decimal false 12345678915 (-4))
     = str "1.234.567,892"
  /\ Number_toLocaleString_model (num_of_decimal true 5 (-4)) = str "-0,001"
  /\ Number_toLocaleString_model num_nan = str "NaN".
Proof. by_compute. Qed.

(** The amount of the specification's example: the symbol is followed by a
    no-break space. *)
Example Number_toLocaleCurrency_model_samples :
  Number_toLocaleCurrency_model (num_of_decimal false 12345 (-1))
  = str "$" ++ [160] ++ str "1.234,50"
  /\ Number_toLocaleCurrency_model num_zero = str "$" ++ [160] ++ str "0,00"
  /\ Number_toLocaleCurrency_model (num_of_decimal true 5 (-3))
     = str "-$" ++ [160] ++ str "0,01".
Proof. by_compute. Qed.

(** Rounding the shortest decimal and rounding the exact value differ on
    [1.0005], which as a double lies just below that decimal. *)
Example rounding_shortest_vs_exact :
  format_number shortest_fraction es_AR [] 0 3 (num_of_decimal false 10005 (-4))
  = str "1,001"
  /\ format_number num_fraction es_AR [] 0 3 (num_of_decimal false 10005 (-4))
     = str "1".
Proof. split; vm_compute; reflexivity. Qed.
