(* ===== verification/Browser.v ===== *)
(** * The browser

    The host the script runs in, assembled from the models of its
    functions: [atob] of [Base64], [JSON.parse] of [Json], the readers of
    [NumberText] and the writers of [NumberFormat].  The instance
    discharges the laws the script's theorems assume of a host, so every
    theorem stated for an arbitrary host holds of this one, and the script
    can be run on it.  The second half states what the decoding of the
    script does on this host with a cart that was encoded for it. *)

From Stdlib Require Import ZArith List Lia Bool String.
From stdpp Require Import base tactics list option numbers.
From S2P Require Import Prelude JsString Number Value Semantics Dom.
From S2P Require Import Query Cart Confirm Checkout.
From S2P Require Import Base64 NumberText Utf8 UrlQuery Json NumberFormat.

#[local] Open Scope Z_scope.

(** [Array.prototype.toLocaleString] joins with a comma. *)
Definition browser : Builtins := {|
  atob := atob_model;
  JSON_parse := JSON_parse_model;
  parseFloat := parseFloat_model;
  StringToNumber := StringToNumber_model;
  Number_toString := Number_toString_model;
  Number_toLocaleString := Number_toLocaleString_model;
  Number_toLocaleCurrency := Number_toLocaleCurrency_model;
  list_separator := [44];
|}.

(** The [items] parameter as the sender of the link makes it: the bytes of
    the JSON text in base64, in the URL-safe alphabet. *)
Definition encode_items (payload : jsstring) : jsstring :=
  base64_to_base64url (encode_bytes payload).

Lemma browser_laws : BuiltinsLaws browser.
Proof.
  split; cbn.
  - apply atob_model_error.
  - apply atob_model_byte_string.
  - apply JSON_parse_model_error.
  - apply JSON_parse_model_is_json.
  - apply JSON_parse_model_wf.
  - apply Number_toString_model_wf.
  - apply Number_toLocaleString_model_wf.
  - apply Number_toLocaleCurrency_model_wf.
  - auto with js.
Qed.

#[export] Existing Instance browser_laws.

Section OnBrowser.
#[local] Existing Instance browser.
Implicit Types (payload s : jsstring) (w : Browser).

(** The two replacements of the script undo the URL-safe alphabet. *)
Lemma base64url_encode_items payload :
  is_byte_string payload ->
  base64url_to_base64 (encode_items payload) = encode_bytes payload.
Proof.
  intros [H1 H2]%encode_bytes_standard. unfold encode_items.
  by apply base64url_inverse.
Qed.

(** The value of [items] is never [undefined], never holds a [NaN], and
    no object in it has a key twice, whatever the parameter. *)
Lemma decoded_cart_is_json (encoded : option jsstring) :
  is_json (decoded_cart encoded).1 = true.
Proof.
  destruct encoded as [s|]; [|done]. cbn [decoded_cart].
  destruct (decode_payload s) as [v|e] eqn:Hd; [|done]. cbn.
  unfold decode_payload in Hd. destruct (atob _) as [t|]; [|done].
  by apply JSON_parse_model_is_json in Hd.
Qed.

End OnBrowser.

(** ** The cart in a link *)

Section CartLink.
#[local] Existing Instance browser.

Lemma decode_encode_items (payload : jsstring) :
  is_byte_string payload ->
  decode_payload (encode_items payload) = JSON_parse_model payload.
Proof.
  intros Hp. unfold decode_payload. rewrite base64url_encode_items by done.
  cbn [atob browser]. by rewrite atob_encode_bytes.
Qed.

Lemma b64_char_alphabet v :
  0 <= v < 64 ->
  48 <= b64_char v <= 57 \/ 65 <= b64_char v <= 90
  \/ 97 <= b64_char v <= 122 \/ b64_char v = 43 \/ b64_char v = 47.
Proof. intros Hv. unfold b64_char. zcases; lia. Qed.

Lemma base64url_char_raw c :
  48 <= c <= 57 \/ 65 <= c <= 90 \/ 97 <= c <= 122 \/ c = 43 \/ c = 47
  \/ c = 61 ->
  forallb is_raw_char (base64_to_base64url [c]) = true.
Proof.
  intros Hc. unfold base64_to_base64url, replace_all, is_raw_char.
  cbn [map forallb]. destruct (Z.eqb_spec c 43) as [->|]; [done|].
  destruct (Z.eqb_spec c 47) as [->|]; [done|]. zcases; (done || lia).
Qed.

(** The URL-safe alphabet has no character the query parser touches. *)
Lemma encode_items_raw (payload : jsstring) :
  is_byte_string payload -> forallb is_raw_char (encode_items payload) = true.
Proof.
  intros Hr%encode_sextets_range.
  assert (Hc : Forall (fun c => forallb is_raw_char (base64_to_base64url [c]) = true)
                 (encode_bytes payload)).
  { unfold encode_bytes. apply Forall_app. split.
    - induction Hr as [|v l Hv _ IH]; constructor; [|done].
      apply base64url_char_raw. pose proof (b64_char_alphabet v Hv). lia.
    - unfold padding. repeat case_match; repeat constructor. }
  unfold encode_items. induction Hc as [|c l Hc _ IH]; [done|].
  change (c :: l) with ([c] ++ l). unfold base64_to_base64url in *.
  rewrite !replace_all_app, forallb_app. by rewrite Hc, IH.
Qed.

Lemma encode_items_nonempty (payload : jsstring) :
  payload <> [] -> encode_items payload <> [].
Proof. by destruct payload as [|x [|y [|z r]]]. Qed.

(** The cart of a link that carries the encoded payload. *)
Lemma cart_of_link (payload : jsstring) (ps : URLSearchParams) :
  is_byte_string payload ->
  cart ((str "items", encode_items payload) :: ps)
  = match JSON_parse_model payload with
    | Normal v => v
    | Throw _ => VArray []
    end.
Proof.
  intros Hp. unfold cart, itemsEncoded. cbn [params_get].
  rewrite bool_decide_eq_true_2 by done.
  destruct payload as [|b bs]; [done|].
  pose proof (encode_items_nonempty (b :: bs) ltac:(done)) as Hn.
  destruct (encode_items (b :: bs)) as [|c s] eqn:E; [done|].
  cbn [decoded_cart]. rewrite <- E, decode_encode_items by done.
  by destruct (JSON_parse_model (b :: bs)).
Qed.

End CartLink.

(** ** Properties *)

Section BrowserProperties.
#[local] Existing Instance browser.

(** C14 (cart round trip). Whatever text of bytes the sender encodes, the
    script's decoding hands exactly that text to [JSON.parse]: the alphabet
    mapping and [atob] undo the encoding, padding included. *)
Theorem decode_payload_encoded (payload : jsstring) :
  is_byte_string payload ->
  decode_payload (encode_items payload) = JSON_parse_model payload.
Proof. apply decode_encode_items. Qed.

(** C15 (the parser's fuel). [JSON.parse] is run with the length of the
    text as fuel.  That is enough: the decoding of the script gives the
    same result with any larger fuel, so no text is rejected or cut short
    for lack of it. *)
Theorem decode_payload_fuel (s : jsstring) (g : nat) :
  let text := base64url_to_base64 s in
  forall decoded, atob_model text = Normal decoded ->
  (length decoded < g)%nat ->
  decode_payload (B := browser) s
  = match parse_value g decoded with
    | Some (v, r) =>
        match skip_ws r with [] => Normal v | _ :: _ => Throw SyntaxError end
    | None => Throw SyntaxError
    end.
Proof.
  intros text decoded Ha Hg. unfold decode_payload. cbn [atob browser].
  fold text. rewrite Ha. cbn. unfold JSON_parse_model.
  by rewrite (parse_value_fuel g).
Qed.

(** C33 (the cart through the link). A payload encoded in the URL-safe
    alphabet passes through the query parser unchanged, whatever bytes it
    holds and whatever other parameters the link carries: the cart of the
    page opened at the link is what [JSON.parse] makes of the sender's
    text, or the empty cart when that is not JSON. *)
Theorem cart_through_link (payload : jsstring) (ps : URLSearchParams) :
  is_byte_string payload -> forallb is_raw_pair ps = true ->
  cart (URLSearchParams_new
          (raw_search ((str "items", encode_items payload) :: ps)))
  = match JSON_parse_model payload with
    | Normal v => v
    | Throw _ => VArray []
    end.
Proof.
  intros Hp Hps. rewrite URLSearchParams_new_raw; [by apply cart_of_link|].
  cbn [forallb]. rewrite Hps, andb_true_r. unfold is_raw_pair. cbn [fst snd].
  by rewrite encode_items_raw.
Qed.

End BrowserProperties.
