(* ===== verification/Sender.v ===== *)
(** * The sender of the link

    The page is opened from a link whose [items] parameter holds the cart:
    a JSON array of objects with [name], [quantity] and [unit_price],
    encoded in URL-safe base64 (section 6 of the specification).  This file
    models the sender's side for carts with whole quantities and prices:
    the JSON text of such a cart, with the escapes a serializer writes
    ([json.dumps] and [JSON.stringify] differ only in white space and in
    escaping non-ASCII characters), and shows that
    [JSON.parse] reads it back, for every cart and not only for the
    examples of [Scenarios].

    With the decoding of [Browser] and the rendering of [ViewModel] this
    gives the round trip of the specification in general: the page opened
    at the link of a cart shows one row per item, in order, with the
    product as subtotal. *)

From Stdlib Require Import ZArith List Lia Bool String.
From stdpp Require Import base tactics list option numbers.
From S2P Require Import Prelude JsString Number NumberExact Value Semantics Dom.
From S2P Require Import Query Cart Confirm Checkout ViewModel.
From S2P Require Import Base64 NumberText Utf8 UrlQuery Json NumberFormat Browser.

#[local] Open Scope Z_scope.

(** ** The JSON text of a cart *)

(** An item as the sender holds it. *)
Record item : Type := Item {
  item_name : jsstring;
  item_quantity : Z;
  item_unit_price : Z
}.

(** A lowercase hexadecimal digit. *)
Definition lower_hex (n : Z) : Z := if n <? 10 then 48 + n else 87 + n.

(** A character inside a JSON string: the quote and the backslash are
    escaped, the control characters have their short escapes or
    [\u00XX], and everything outside printable ASCII is written as
    [\uXXXX], one escape per code unit. *)
Definition print_char (c : Z) : jsstring :=
  if c =? 34 then [92; 34]
  else if c =? 92 then [92; 92]
  else if c =? 8 then [92; 98]
  else if c =? 12 then [92; 102]
  else if c =? 10 then [92; 110]
  else if c =? 13 then [92; 114]
  else if c =? 9 then [92; 116]
  else if (c <? 32) || (126 <? c) then
    [92; 117; lower_hex (c / 4096); lower_hex ((c / 256) mod 16);
     lower_hex ((c / 16) mod 16); lower_hex (c mod 16)]
  else [c].

Definition print_string (s : jsstring) : jsstring :=
  34 :: flat_map print_char s ++ [34].

(** An integer: a minus sign if negative, and the decimal digits. *)
Definition print_integer (z : Z) : jsstring :=
  if z <? 0 then 45 :: digits (- z) else digits z.

(** The white space a serializer puts after a comma and after a colon:
    none for [JSON.stringify], a space for [json.dumps]. *)
Record layout : Type := Layout {
  after_comma : jsstring;
  after_colon : jsstring
}.

Definition compact : layout := {| after_comma := []; after_colon := [] |}.
Definition spaced : layout := {| after_comma := [32]; after_colon := [32] |}.

Definition wf_layout (lay : layout) : bool :=
  forallb is_json_ws (after_comma lay) && forallb is_json_ws (after_colon lay).

Section Printer.
Variable lay : layout.

Definition print_member (key : string) (text : jsstring) : jsstring :=
  print_string (str key) ++ 58 :: after_colon lay ++ text.

Definition print_item (it : item) : jsstring :=
  123 :: print_member "name" (print_string (item_name it))
  ++ 44 :: after_comma lay
  ++ print_member "quantity" (print_integer (item_quantity it))
  ++ 44 :: after_comma lay
  ++ print_member "unit_price" (print_integer (item_unit_price it))
  ++ [125].

Fixpoint print_items (its : list item) : jsstring :=
  match its with
  | [] => []
  | it :: its' =>
      print_item it
      ++ match its' with
         | [] => []
         | _ :: _ => 44 :: after_comma lay ++ print_items its'
         end
  end.

Definition print_cart (its : list item) : jsstring :=
  91 :: print_items its ++ [93].

(** The [items] parameter of the link. *)
Definition cart_parameter (its : list item) : jsstring :=
  encode_items (print_cart its).

End Printer.

(** The cart the script should see. *)
Definition line_item_of (it : item) : LineItem :=
  {| li_name := item_name it;
     li_quantity := num_of_Z (item_quantity it);
     li_unit_price := num_of_Z (item_unit_price it) |}.

Definition item_value (it : item) : value :=
  line_item (item_name it) (num_of_Z (item_quantity it))
    (num_of_Z (item_unit_price it)).

(** An item the round trip holds for: the name is a string, the numbers
    are integers a double holds. *)
Definition item_ok (it : item) : bool :=
  forallb is_code_unit (item_name it)
  && (Z.abs (item_quantity it) <? 2 ^ 53)
  && (Z.abs (item_unit_price it) <? 2 ^ 53).

(** ** Strings *)

Section Strings.
Implicit Types (c n : Z) (s rest acc : jsstring).

Lemma hex_value_lower n : 0 <= n < 16 -> hex_value (lower_hex n) = Some n.
Proof.
  intros Hn. unfold hex_value, lower_hex, is_digit.
  destruct (Z.ltb_spec n 10); zcases; f_equal; lia.
Qed.

Lemma hex4_lower c :
  0 <= c < 65536 ->
  hex4 (lower_hex (c / 4096)) (lower_hex ((c / 256) mod 16))
    (lower_hex ((c / 16) mod 16)) (lower_hex (c mod 16)) = Some c.
Proof.
  intros Hc. unfold hex4. rewrite !hex_value_lower by zlia. f_equal. zlia.
Qed.

(** One printed character is read as the character. *)
Lemma parse_chars_print_char c rest acc :
  0 <= c < 65536 ->
  parse_chars (print_char c ++ rest) acc = parse_chars rest (c :: acc).
Proof.
  intros Hc. unfold print_char.
  destruct (Z.eqb_spec c 34) as [->|H1]; [done|].
  destruct (Z.eqb_spec c 92) as [->|H2]; [done|].
  destruct (Z.eqb_spec c 8) as [->|H3]; [done|].
  destruct (Z.eqb_spec c 12) as [->|H4]; [done|].
  destruct (Z.eqb_spec c 10) as [->|H5]; [done|].
  destruct (Z.eqb_spec c 13) as [->|H6]; [done|].
  destruct (Z.eqb_spec c 9) as [->|H7]; [done|].
  destruct ((c <? 32) || (126 <? c)) eqn:He; cbn [app parse_chars].
  - cbn [Z.eqb Pos.eqb]. by rewrite hex4_lower.
  - apply orb_false_iff in He as [?%Z.ltb_ge ?%Z.ltb_ge]. by zcases.
Qed.

Lemma parse_chars_print s rest acc :
  wf_string s ->
  parse_chars (flat_map print_char s ++ 34 :: rest) acc
  = Some (rev acc ++ s, rest).
Proof.
  intros Hs. revert acc. induction Hs as [|c s Hc _ IH]; intros acc.
  - cbn. by rewrite app_nil_r.
  - cbn [flat_map]. rewrite <- app_assoc, parse_chars_print_char, IH by done.
    cbn [rev]. by rewrite <- app_assoc.
Qed.

(** The printed text is printable ASCII. *)
Lemma print_char_ascii c :
  0 <= c < 65536 -> Forall (fun b => 32 <= b < 127) (print_char c).
Proof.
  intros Hc.
  assert (Hh : forall k, 0 <= k < 16 -> 32 <= lower_hex k < 127)
    by (intros k Hk; unfold lower_hex; zcases; lia).
  unfold print_char.
  destruct (Z.eqb_spec c 34); [by repeat constructor|].
  destruct (Z.eqb_spec c 92); [by repeat constructor|].
  destruct (Z.eqb_spec c 8); [by repeat constructor|].
  destruct (Z.eqb_spec c 12); [by repeat constructor|].
  destruct (Z.eqb_spec c 10); [by repeat constructor|].
  destruct (Z.eqb_spec c 13); [by repeat constructor|].
  destruct (Z.eqb_spec c 9); [by repeat constructor|].
  destruct ((c <? 32) || (126 <? c)) eqn:He.
  - repeat constructor; try apply Hh; zlia.
  - apply orb_false_iff in He as [?%Z.ltb_ge ?%Z.ltb_ge].
    repeat constructor; lia.
Qed.

End Strings.

(** ** Numbers *)

Section Numbers.
Implicit Types (c z a n : Z) (ds rest acc : jsstring).

(** The value of a run of decimal digits on top of [a]. *)
Definition decimal_value (ds : jsstring) (a : Z) : Z :=
  fold_left (fun a c => 10 * a + (c - 48)) ds a.

(** What may follow a number in the text of a cart. *)
Definition ends_number (rest : jsstring) : Prop :=
  match rest with
  | c :: _ => is_digit c = false /\ c <> 46 /\ c <> 101 /\ c <> 69
  | [] => True
  end.

Lemma read_digits_run ds rest a n :
  forallb is_digit ds = true -> ends_number rest ->
  read_digits (ds ++ rest) a n
  = (decimal_value ds a, n + Z.of_nat (length ds), rest).
Proof.
  intros Hds Hr. revert a n.
  induction ds as [|d ds IH]; intros a n; cbn [app length decimal_value fold_left].
  - rewrite Z.add_0_r. destruct rest as [|c r]; [done|]. cbn [read_digits].
    destruct Hr as [-> _]. done.
  - cbn [forallb] in Hds. apply andb_true_iff in Hds as [Hd Hds].
    cbn [read_digits]. rewrite Hd, IH by done. unfold decimal_value.
    do 2 f_equal. lia.
Qed.

(** The digits of [z]: digits, not empty, with the value [z] and without a
    leading zero. *)
Lemma digits_fuel_spec (fuel : nat) z acc :
  (1 <= fuel)%nat -> 0 <= z < 2 ^ Z.of_nat fuel ->
  exists d ds,
    digits_fuel fuel z acc = d :: ds ++ acc
    /\ forallb is_digit (d :: ds) = true
    /\ decimal_value (d :: ds) 0 = z
    /\ (d = 48 -> z = 0 /\ ds = []).
Proof.
  revert z acc. induction fuel as [|fuel IH]; intros z acc Hf Hz; [lia|].
  cbn [digits_fuel]. destruct (Z.ltb_spec z 10) as [Hlt|Hge].
  - exists (48 + z mod 10), []. unfold is_digit. cbn.
    split_and!; [done|zcases; first [done|zlia]|zlia|].
    intros Hd. split; [zlia|done].
  - assert (4 <= Z.of_nat (S fuel)).
    { destruct (Z.lt_ge_cases (Z.of_nat (S fuel)) 4) as [Hs|]; [|done].
      assert (2 ^ Z.of_nat (S fuel) <= 2 ^ 3)
        by (apply Z.pow_le_mono_r; lia).
      change (2 ^ 3) with 8 in *. lia. }
    assert (0 <= z / 10 < 2 ^ Z.of_nat fuel).
    { rewrite Nat2Z.inj_succ, Z.pow_succ_r in Hz by lia. zlia. }
    destruct (IH (z / 10) (48 + z mod 10 :: acc))
      as (d & ds & -> & Hd & Hv & Hz0); [lia|done|].
    exists d, (ds ++ [48 + z mod 10]). split_and!.
    + by rewrite <- app_assoc.
    + rewrite app_comm_cons, forallb_app, Hd. unfold is_digit. cbn.
      zcases; first [done|zlia].
    + rewrite app_comm_cons. unfold decimal_value in *.
      rewrite fold_left_app, Hv. cbn. zlia.
    + intros Hd0. apply Hz0 in Hd0 as [? _]. zlia.
Qed.

Lemma digits_spec z :
  0 <= z ->
  exists d ds,
    digits z = d :: ds
    /\ forallb is_digit (d :: ds) = true
    /\ decimal_value (d :: ds) 0 = z
    /\ (d = 48 -> z = 0 /\ ds = []).
Proof.
  intros Hz. unfold digits.
  destruct (digits_fuel_spec (S (Z.to_nat (Z.log2 z))) z []) as (d & ds & H);
    [lia| |exists d, ds; by rewrite app_nil_r in H].
  split; [done|]. rewrite Nat2Z.inj_succ, Z2Nat.id by apply Z.log2_nonneg.
  destruct (decide (z = 0)) as [->|]; [done|]. apply Z.log2_spec. lia.
Qed.

(** [parse_number] after the sign. *)
Definition number_tail (neg : bool) (s1 : jsstring) : option (number * jsstring) :=
  let '(i, ni, r1) :=
    match s1 with
    | c :: r => if c =? 48 then (0, 1, r) else read_digits s1 0 0
    | [] => (0, 0, s1)
    end in
  if ni =? 0 then None
  else
    let frac :=
      match r1 with
      | c :: r =>
          if c =? 46 then
            let '(m, nf, r') := read_digits r i 0 in
            if nf =? 0 then None else Some (m, nf, r')
          else Some (i, 0, r1)
      | [] => Some (i, 0, r1)
      end in
    match frac with
    | Some (m, nf, r2) =>
        let '(e, r3) := read_exponent r2 in
        Some (num_of_decimal neg m (e - nf), r3)
    | None => None
    end.

Lemma parse_number_minus rest : parse_number (45 :: rest) = number_tail true rest.
Proof. reflexivity. Qed.

Lemma parse_number_plain c rest :
  c <> 45 -> parse_number (c :: rest) = number_tail false (c :: rest).
Proof. intros Hc. unfold parse_number. by destruct (Z.eqb_spec c 45). Qed.

Lemma decimal_value_mono ds a :
  0 <= a -> forallb is_digit ds = true -> a <= decimal_value ds a.
Proof.
  unfold decimal_value. revert a.
  induction ds as [|d ds IH]; intros a Ha Hds; cbn in *; [lia|].
  apply andb_true_iff in Hds as [Hd Hds]. unfold is_digit in Hd.
  etransitivity; [|apply IH; [lia|done]]. lia.
Qed.

(** The part of a number after its integer digits, when nothing of a
    number follows. *)
Lemma number_rest neg m n rest :
  ends_number rest -> n <> 0 ->
  (if n =? 0 then None
   else
     match
       match rest with
       | c :: r =>
           if c =? 46 then
             let '(m', nf, r') := read_digits r m 0 in
             if nf =? 0 then None else Some (m', nf, r')
           else Some (m, 0, rest)
       | [] => Some (m, 0, rest)
       end
     with
     | Some (m', nf, r2) =>
         let '(e, r3) := read_exponent r2 in
         Some (num_of_decimal neg m' (e - nf), r3)
     | None => None
     end) = Some (num_of_decimal neg m 0, rest).
Proof.
  intros Hr Hn. destruct (Z.eqb_spec n 0); [done|].
  destruct rest as [|c r]; [done|]. destruct Hr as (_ & H46 & H101 & H69).
  destruct (Z.eqb_spec c 46); [done|]. unfold read_exponent. by zcases.
Qed.

Lemma number_tail_digits neg m rest :
  0 <= m -> ends_number rest ->
  number_tail neg (digits m ++ rest) = Some (num_of_decimal neg m 0, rest).
Proof.
  intros Hm Hr. destruct (digits_spec m Hm) as (d & ds & -> & Hds & Hv & H0).
  unfold number_tail. cbn [app]. destruct (Z.eqb_spec d 48) as [->|Hd].
  - destruct (H0 eq_refl) as [-> ->]. by apply number_rest.
  - rewrite app_comm_cons, (read_digits_run (d :: ds) rest 0 0 Hds Hr), Hv.
    apply number_rest; [done|]. cbn [length]. lia.
Qed.

(** A printed integer is read as that integer, without rounding. *)
Lemma parse_number_integer z rest :
  Z.abs z < 2 ^ 53 -> ends_number rest ->
  parse_number (print_integer z ++ rest) = Some (num_of_Z z, rest).
Proof.
  intros Hz Hr. unfold print_integer. destruct (Z.ltb_spec z 0).
  - cbn [app]. rewrite parse_number_minus, number_tail_digits by (done || lia).
    by rewrite (num_of_decimal_num_of_Z true), Z.opp_involutive
      by (unfold prec; lia).
  - destruct (digits_spec z) as (d & ds & Hd & Hds & _); [done|].
    assert (d <> 45).
    { cbn [forallb] in Hds. apply andb_true_iff in Hds as [Hd' _].
      unfold is_digit in Hd'. lia. }
    pose proof (number_tail_digits false z rest ltac:(done) Hr) as Ht.
    rewrite Hd in *. cbn [app] in *. rewrite parse_number_plain, Ht by done.
    destruct (decide (z = 0)) as [->|]; [done|].
    by rewrite (num_of_decimal_num_of_Z false) by (unfold prec; lia).
Qed.

End Numbers.

(** ** Values *)

Section Values.
Variable lay : layout.
Hypothesis lay_ok : wf_layout lay = true.
Implicit Types (c : Z) (s ws rest : jsstring) (f n : nat) (it : item)
  (its : list item) (v : value).

Lemma skip_ws_app ws s :
  forallb is_json_ws ws = true -> skip_ws (ws ++ s) = skip_ws s.
Proof.
  induction ws as [|c ws IH]; [done|]. cbn [forallb app skip_ws].
  intros [-> ?]%andb_true_iff. by apply IH.
Qed.

Lemma after_comma_ws : forallb is_json_ws (after_comma lay) = true.
Proof. by apply andb_true_iff in lay_ok as [? _]. Qed.

Lemma after_colon_ws : forallb is_json_ws (after_colon lay) = true.
Proof. by apply andb_true_iff in lay_ok as [_ ?]. Qed.

Lemma print_string_app s rest :
  print_string s ++ rest = 34 :: flat_map print_char s ++ 34 :: rest.
Proof. unfold print_string. cbn [app]. by rewrite <- app_assoc. Qed.

Lemma print_member_app (key : string) text rest :
  print_member lay key text ++ rest
  = 34 :: flat_map print_char (str key)
    ++ 34 :: 58 :: after_colon lay ++ text ++ rest.
Proof.
  unfold print_member. rewrite <- app_assoc, print_string_app. cbn [app].
  by rewrite <- app_assoc.
Qed.

(** A printed string, with white space in front of it. *)
Lemma parse_value_string f ws s rest :
  forallb is_json_ws ws = true -> wf_string s ->
  parse_value (S f) (ws ++ print_string s ++ rest) = Some (VString s, rest).
Proof.
  intros Hws Hs. cbn [parse_value].
  rewrite skip_ws_app, print_string_app by done.
  cbn [skip_ws is_json_ws Z.eqb Pos.eqb orb].
  by rewrite (parse_chars_print s rest []).
Qed.

Lemma print_integer_head z :
  exists c r, print_integer z = c :: r /\ (c = 45 \/ is_digit c = true).
Proof.
  unfold print_integer. destruct (Z.ltb_spec z 0).
  - exists 45, (digits (- z)). by split; [|left].
  - destruct (digits_spec z) as (d & ds & -> & Hds & _); [done|].
    exists d, ds. split; [done|right]. cbn [forallb] in Hds.
    by apply andb_true_iff in Hds as [? _].
Qed.

(** A printed integer, with white space in front of it. *)
Lemma parse_value_integer f ws z rest :
  forallb is_json_ws ws = true -> Z.abs z < 2 ^ 53 -> ends_number rest ->
  parse_value (S f) (ws ++ print_integer z ++ rest)
  = Some (VNumber (num_of_Z z), rest).
Proof.
  intros Hws Hz Hr. pose proof (parse_number_integer z rest Hz Hr) as Hn.
  destruct (print_integer_head z) as (c & r & E & Hc). rewrite E in *.
  cbn [parse_value]. rewrite skip_ws_app by done. cbn [app] in *.
  assert (Hd : c = 45 \/ 48 <= c <= 57) by (unfold is_digit in Hc; lia).
  assert (is_json_ws c = false) as Hw by (unfold is_json_ws; by zcases).
  cbn [skip_ws]. rewrite Hw.
  change (str "true") with [116; 114; 117; 101].
  change (str "false") with [102; 97; 108; 115; 101].
  change (str "null") with [110; 117; 108; 108]. cbn [is_prefix].
  destruct (Z.eqb_spec c 123); [lia|]. destruct (Z.eqb_spec c 91); [lia|].
  destruct (Z.eqb_spec c 34); [lia|]. destruct (Z.eqb_spec 116 c); [lia|].
  destruct (Z.eqb_spec 102 c); [lia|]. destruct (Z.eqb_spec 110 c); [lia|].
  cbn [andb]. by rewrite Hn.
Qed.

Lemma skip_ws_member ws (key : string) text rest :
  forallb is_json_ws ws = true ->
  skip_ws (ws ++ print_member lay key text ++ rest)
  = print_member lay key text ++ rest.
Proof. intros Hws. by rewrite skip_ws_app, print_member_app. Qed.

(** One member, and what follows it: a comma and more members, or the
    closing brace. *)
Lemma parse_members_step (pv : jsstring -> option (value * jsstring))
    n s (key : string) text c rest v acc :
  skip_ws s = print_member lay key text ++ c :: rest ->
  is_json_ws c = false ->
  pv (after_colon lay ++ text ++ c :: rest) = Some (v, c :: rest) ->
  parse_members pv (S n) s acc
  = if c =? 44 then parse_members pv n rest (set_prop (str key) v acc)
    else if c =? 125 then Some (VObject (set_prop (str key) v acc), rest)
    else None.
Proof.
  intros Hs Hc Hv. cbn [parse_members]. rewrite Hs, print_member_app.
  cbn [Z.eqb Pos.eqb].
  rewrite (parse_chars_print (str key) _ []) by apply str_wf.
  cbn [app skip_ws is_json_ws Z.eqb Pos.eqb orb]. rewrite Hv.
  cbn [skip_ws]. by rewrite Hc.
Qed.

Lemma item_ok_spec it :
  item_ok it = true ->
  wf_string (item_name it) /\ Z.abs (item_quantity it) < 2 ^ 53
  /\ Z.abs (item_unit_price it) < 2 ^ 53.
Proof.
  unfold item_ok. rewrite !andb_true_iff, !Z.ltb_lt.
  intros [[?%forallb_is_code_unit ?] ?]. done.
Qed.

Lemma print_item_app it rest :
  print_item lay it ++ rest
  = 123 :: print_member lay "name" (print_string (item_name it))
    ++ 44 :: after_comma lay
    ++ print_member lay "quantity" (print_integer (item_quantity it))
    ++ 44 :: after_comma lay
    ++ print_member lay "unit_price" (print_integer (item_unit_price it))
    ++ 125 :: rest.
Proof.
  unfold print_item.
  repeat first [rewrite <- app_assoc | progress cbn [app]]. done.
Qed.

(** An object whose first member follows the brace at once. *)
Lemma parse_value_object f ws (key : string) text rest :
  forallb is_json_ws ws = true ->
  parse_value (S f) (ws ++ 123 :: print_member lay key text ++ rest)
  = parse_members (parse_value f) f (print_member lay key text ++ rest) [].
Proof.
  intros Hws. cbn [parse_value]. rewrite skip_ws_app by done.
  cbn [skip_ws is_json_ws Z.eqb Pos.eqb orb].
  pose proof (skip_ws_member [] key text rest eq_refl) as Hm.
  cbn [app] in Hm. rewrite Hm, print_member_app. by cbn [Z.eqb Pos.eqb].
Qed.

Lemma ends_number_punctuation c rest :
  c = 44 \/ c = 125 \/ c = 93 -> ends_number (c :: rest).
Proof. intros Hc. unfold ends_number, is_digit. split; [by zcases|lia]. Qed.

(** A printed item, with white space in front of it. *)
Lemma parse_value_item f ws it rest :
  forallb is_json_ws ws = true -> item_ok it = true ->
  parse_value (S (S (S (S (S f))))) (ws ++ print_item lay it ++ rest)
  = Some (item_value it, rest).
Proof.
  intros Hws (Hn & Hq & Hu)%item_ok_spec.
  rewrite print_item_app, parse_value_object by done.
  erewrite (parse_members_step _ _ _ "name" _ 44 _ (VString (item_name it)));
    [|apply (skip_ws_member []); done|done
     |apply parse_value_string; [apply after_colon_ws|done]].
  cbn [Z.eqb Pos.eqb].
  erewrite (parse_members_step _ _ _ "quantity" _ 44 _
             (VNumber (num_of_Z (item_quantity it))));
    [|apply skip_ws_member, after_comma_ws|done
     |apply parse_value_integer;
        [apply after_colon_ws|done|apply ends_number_punctuation; lia]].
  cbn [Z.eqb Pos.eqb].
  erewrite (parse_members_step _ _ _ "unit_price" _ 125 _
             (VNumber (num_of_Z (item_unit_price it))));
    [|apply skip_ws_member, after_comma_ws|done
     |apply parse_value_integer;
        [apply after_colon_ws|done|apply ends_number_punctuation; lia]].
  cbn [Z.eqb Pos.eqb]. unfold item_value, line_item. cbn [set_prop].
  by rewrite !bool_decide_eq_false_2 by (by intros ?%str_inj).
Qed.

End Values.

Section Carts.
Variable lay : layout.
Hypothesis lay_ok : wf_layout lay = true.
Implicit Types (c : Z) (s ws rest : jsstring) (f n : nat) (it : item)
  (its : list item) (v : value).

Lemma print_items_cons it its rest :
  print_items lay (it :: its) ++ rest
  = print_item lay it
    ++ match its with
       | [] => rest
       | _ :: _ => 44 :: after_comma lay ++ print_items lay its ++ rest
       end.
Proof.
  cbn [print_items]. rewrite <- app_assoc. f_equal.
  destruct its; [done|]. cbn [app]. by rewrite <- app_assoc.
Qed.

(** The elements of a printed cart. *)
Lemma parse_elements_items f n ws its acc rest :
  forallb is_json_ws ws = true -> forallb item_ok its = true ->
  its <> [] -> (length its <= n)%nat ->
  parse_elements (parse_value (S (S (S (S (S f)))))) n
    (ws ++ print_items lay its ++ 93 :: rest) acc
  = Some (VArray (rev acc ++ map item_value its), rest).
Proof.
  revert n ws acc. induction its as [|it its IH]; intros n ws acc Hws Hits Hne Hn;
    [done|].
  cbn [forallb] in Hits. apply andb_true_iff in Hits as [Hit Hits].
  destruct n as [|n]; [cbn in Hn; lia|]. cbn [parse_elements].
  rewrite print_items_cons, (parse_value_item lay lay_ok) by done.
  destruct its as [|it' its'].
  - by cbn [skip_ws is_json_ws Z.eqb Pos.eqb orb map rev].
  - cbn [skip_ws is_json_ws Z.eqb Pos.eqb orb].
    rewrite IH; [|by apply after_comma_ws|done|done|cbn [length] in *; lia].
    cbn [rev map]. by rewrite <- app_assoc.
Qed.

(** The printed cart is read as the cart. *)
Lemma parse_value_cart its :
  forallb item_ok its = true ->
  parse_value (S (S (S (S (S (S (length its))))))) (print_cart lay its)
  = Some (VArray (map item_value its), []).
Proof.
  intros Hits. unfold print_cart. cbn [parse_value skip_ws is_json_ws Z.eqb
    Pos.eqb orb].
  destruct its as [|it its]; [done|].
  pose proof (parse_elements_items (length (it :: its))
    (S (S (S (S (S (length (it :: its)))))))
    [] (it :: its) [] [] eq_refl Hits ltac:(done) ltac:(lia)) as Hp.
  cbn [app rev] in Hp. rewrite print_items_cons, print_item_app in *.
  cbn [skip_ws is_json_ws Z.eqb Pos.eqb orb]. exact Hp.
Qed.

Lemma JSON_parse_print_cart its :
  forallb item_ok its = true ->
  JSON_parse_model (print_cart lay its) = Normal (VArray (map item_value its)).
Proof.
  intros Hits. unfold JSON_parse_model.
  by rewrite (parse_value_fuel_le _ _ _ _ (parse_value_cart its Hits))
    by lia.
Qed.

(** *** The text is ASCII *)

Lemma print_string_ascii s :
  wf_string s -> Forall (fun b => 0 <= b < 128) (print_string s).
Proof.
  intros Hs. unfold print_string. constructor; [lia|].
  apply Forall_app. split; [|by repeat constructor].
  induction Hs as [|c s Hc _ IH]; cbn [flat_map]; [constructor|].
  apply Forall_app. split; [|done].
  pose proof (print_char_ascii c Hc) as Ha. rewrite Forall_forall in *.
  intros b Hb%Ha. lia.
Qed.

Lemma ws_ascii ws :
  forallb is_json_ws ws = true -> Forall (fun b => 0 <= b < 128) ws.
Proof.
  induction ws as [|c ws IH]; cbn [forallb]; [constructor|].
  intros [Hc Hws]%andb_true_iff. constructor; [|by apply IH].
  unfold is_json_ws in Hc. lia.
Qed.

Lemma print_integer_ascii z :
  Forall (fun b => 0 <= b < 128) (print_integer z).
Proof.
  assert (Hd : forall m, 0 <= m -> Forall (fun b => 0 <= b < 128) (digits m)).
  { intros m Hm. destruct (digits_spec m Hm) as (d & ds & -> & Hds & _).
    pose proof (proj1 (forallb_forall _ _) Hds) as Hall.
    apply Forall_forall. intros b Hb%Hall. unfold is_digit in Hb. lia. }
  unfold print_integer. destruct (Z.ltb_spec z 0).
  - constructor; [lia|]. apply Hd. lia.
  - by apply Hd.
Qed.

Lemma print_member_ascii (key : string) text :
  Forall (fun b => 0 <= b < 128) text ->
  Forall (fun b => 0 <= b < 128) (print_member lay key text).
Proof.
  intros Ht. unfold print_member. apply Forall_app.
  split; [apply print_string_ascii, str_wf|]. constructor; [lia|].
  apply Forall_app. split; [apply ws_ascii, (after_colon_ws lay lay_ok)|done].
Qed.

Lemma print_item_ascii it :
  item_ok it = true -> Forall (fun b => 0 <= b < 128) (print_item lay it).
Proof.
  intros (Hn & _ & _)%item_ok_spec. unfold print_item.
  pose proof (ws_ascii _ (after_comma_ws lay lay_ok)) as Hc.
  pose proof (ws_ascii _ (after_colon_ws lay lay_ok)) as Hk.
  repeat first
    [ lia | done | apply Forall_app; split
    | apply print_member_ascii | by apply print_string_ascii
    | apply print_integer_ascii | apply Forall_cons_iff; split
    | apply Forall_nil ].
Qed.

Lemma print_cart_ascii its :
  forallb item_ok its = true ->
  Forall (fun b => 0 <= b < 128) (print_cart lay its).
Proof.
  intros Hits. unfold print_cart. constructor; [lia|].
  apply Forall_app. split; [|by repeat constructor].
  induction its as [|it its IH]; [constructor|]. cbn [forallb] in Hits.
  apply andb_true_iff in Hits as [Hit Hits]. cbn [print_items].
  apply Forall_app. split; [by apply print_item_ascii|].
  destruct its as [|it' its']; [constructor|]. constructor; [lia|].
  apply Forall_app. split; [apply ws_ascii, (after_comma_ws lay lay_ok)|].
  by apply IH.
Qed.

Lemma print_cart_byte_string its :
  forallb item_ok its = true -> is_byte_string (print_cart lay its).
Proof.
  intros Ha%print_cart_ascii. unfold is_byte_string.
  rewrite Forall_forall in *. intros b Hb%Ha. lia.
Qed.

End Carts.

(** ** The page of a cart *)

Section Pages.
#[local] Existing Instance browser.
Implicit Types (lay : layout) (it : item) (its : list item)
  (ps : URLSearchParams) (w : Browser).

(** The row the page shows for an item: name, quantity, unit price and
    the integer product as subtotal. *)
Definition cart_row (it : item) : element :=
  row_of (item_name it) (Number_toString (num_of_Z (item_quantity it)))
    (Number_toLocaleString (num_of_Z (item_unit_price it)))
    (Number_toLocaleString
       (num_of_Z (item_unit_price it * item_quantity it))).

(** Quantities and prices that are not negative, with a product a double
    holds. *)
Definition item_natural (it : item) : bool :=
  (0 <=? item_quantity it) && (0 <=? item_unit_price it)
  && (item_unit_price it * item_quantity it <? 2 ^ 53).

Lemma as_cart_items its :
  as_cart (VArray (map item_value its)) = Some (map line_item_of its).
Proof.
  cbn [as_cart]. apply mapM_Some. induction its as [|it its IH]; constructor; done.
Qed.

Lemma decoded_cart_link (payload : jsstring) ps v :
  is_byte_string payload -> JSON_parse_model payload = Normal v ->
  decoded_cart (itemsEncoded ((str "items", encode_items payload) :: ps))
  = (v, []).
Proof.
  intros Hp Hv. unfold itemsEncoded. cbn [params_get].
  rewrite bool_decide_eq_true_2 by done.
  destruct payload as [|b bs]; [done|].
  pose proof (encode_items_nonempty (b :: bs) ltac:(done)) as Hn.
  destruct (encode_items (b :: bs)) as [|c s] eqn:E; [done|].
  cbn [decoded_cart]. by rewrite <- E, decode_encode_items, Hv.
Qed.

Lemma item_natural_ok it :
  item_ok it = true -> item_natural it = true ->
  item_row (line_item_of it) = cart_row it.
Proof.
  intros (_ & Hq & Hu)%item_ok_spec. unfold item_natural.
  rewrite !andb_true_iff, !Z.leb_le, Z.ltb_lt. intros [[? ?] ?].
  unfold item_row, cart_row, li_subtotal. cbn [line_item_of li_name
    li_quantity li_unit_price].
  by rewrite num_mul_naturals by (unfold prec; lia).
Qed.

End Pages.

(** ** Properties *)

Section SenderProperties.
#[local] Existing Instance browser.
Implicit Types (lay : layout) (it : item) (its : list item)
  (ps : URLSearchParams) (w : Browser).

(** C34 (carts round trip). Whatever the cart (names with quotes,
    backslashes, control characters or characters outside ASCII, negative
    or zero numbers, any number of items) and whatever white space the
    serializer puts after commas and colons, the script's decoding of the
    [items] parameter yields the cart: an array with one object per item,
    in order, with the name as a string and the two numbers as the doubles
    of the integers, unrounded. *)
Theorem cart_round_trip lay its :
  wf_layout lay = true -> forallb item_ok its = true ->
  decode_payload (cart_parameter lay its)
  = Normal (VArray (map item_value its))
  /\ as_cart (VArray (map item_value its)) = Some (map line_item_of its).
Proof.
  intros Hl Hits. split; [|apply as_cart_items]. unfold cart_parameter.
  rewrite decode_encode_items by by apply print_cart_byte_string.
  by apply JSON_parse_print_cart.
Qed.

(** C35 (the page of a cart). The page opened at a link that carries the
    cart of the sender, on a complete page, is the rendered page: the buyer
    fields painted, a table with one row per item of the cart in order,
    the listener registered, and nothing on the console. *)
Theorem sender_link_renders lay its ps w :
  wf_layout lay = true -> forallb item_ok its = true ->
  forallb is_raw_pair ps = true -> complete_page (page w) = true ->
  let params := (str "items", cart_parameter lay its) :: ps in
  page_load (raw_search params) w
  = {| page := rendered params (items_table (map line_item_of its)) (page w);
       console := console w |}.
Proof.
  intros Hl Hits Hps Hc params. unfold page_load.
  pose proof (print_cart_byte_string lay Hl its Hits) as Hb.
  pose proof (decoded_cart_link _ ps _ Hb (JSON_parse_print_cart lay Hl its Hits))
    as Hd.
  rewrite URLSearchParams_new_raw.
  - rewrite (load_ok params w (items_table (map line_item_of its)) Hc).
    + unfold cart_log, params, cart_parameter. by rewrite Hd, app_nil_r.
    + unfold cart, params, cart_parameter. rewrite Hd.
      apply build_table_cart, as_cart_items.
  - unfold params. cbn [forallb]. rewrite Hps, andb_true_r.
    unfold is_raw_pair, cart_parameter. cbn [fst snd].
    by rewrite encode_items_raw.
Qed.

(** C36 (whole subtotals in every row). For a cart of quantities and
    prices that are not negative, with products below [2^53], the rows of
    the table show the integer products as subtotals: none of the
    multiplications of line 50 rounds. *)
Theorem sender_rows_whole its :
  forallb item_ok its = true -> forallb item_natural its = true ->
  build_table (VArray (map item_value its))
  = Normal (append_children (map cart_row its) new_table).
Proof.
  intros Hits Hnat. rewrite (build_table_cart _ _ (as_cart_items its)).
  unfold items_table. do 2 f_equal.
  induction its as [|it its IH]; [done|]. cbn [forallb map] in *.
  apply andb_true_iff in Hits as [Hit Hits].
  apply andb_true_iff in Hnat as [Hn Hnat].
  by rewrite item_natural_ok, IH.
Qed.

End SenderProperties.

(** Examples: the two layouts of the Widget cart, a negative number, and
    a name with a quote, a backslash, a line feed, a control character, a
    Latin letter outside ASCII and a surrogate pair. *)
Example print_cart_samples :
  print_cart compact [Item (str "Widget") 3 10]
  = replace_all 39 34 (str "[{'name':'Widget','quantity':3,'unit_price':10}]")
  /\ print_cart spaced [Item (str "A") 1 2; Item (str "B") (-3) 0]
     = replace_all 39 34
         (str "[{'name': 'A', 'quantity': 1, 'unit_price': 2}, {'name': 'B', 'quantity': -3, 'unit_price': 0}]")
  /\ print_string [34; 92; 10; 1; 233; 55357; 56832; 122]
     = [34; 92; 34; 92; 92; 92; 110] ++ str "\u0001\u00e9\ud83d\ude00z"
       ++ [34].
Proof. by vm_compute. Qed.
