(* ===== verification/IntegerText.v ===== *)
(** * Integers as text

    What the page shows for a whole number.  [Number::toString] and
    [toLocaleString] of [NumberFormat] work on doubles: they search for the
    shortest decimal that reads back as the double.  On the double of an
    integer below [10^15] that search ends at the integer itself, so that
    the quantity of line 53 is shown as its decimal digits, and the prices
    of lines 54-55 and the amount of lines 12-15 as their digits in groups
    of three.  Below [10^15] every decimal the search tries is an integer
    below [2^53], which a double holds exactly ([NumberExact]). *)

From Stdlib Require Import ZArith List Lia Bool String SpecFloat.
From stdpp Require Import base tactics list option numbers.
From S2P Require Import Prelude JsString Number NumberExact Value Semantics Dom.
From S2P Require Import Query Cart Confirm Checkout ViewModel.
From S2P Require Import UrlQuery NumberFormat Browser Sender.

#[local] Open Scope Z_scope.

(** ** Texts *)

(** An integer in plain decimal: a minus sign when [neg] is set, and the
    digits. *)
Definition integer_text (neg : bool) (z : Z) : jsstring :=
  minus_sign neg ++ digits z.

(** The same with the digits in groups of three, as [es-AR] writes
    them. *)
Definition grouped_text (neg : bool) (z : Z) : jsstring :=
  minus_sign neg ++ group es_AR (digits z).

(** An amount of whole pesos: the symbol, the grouped digits, and two
    zeros after the comma. *)
Definition peso_text (neg : bool) (z : Z) : jsstring :=
  minus_sign neg ++ currency_prefix es_AR ++ group es_AR (digits z)
  ++ str ",00".

(** The row the page shows for an item of whole numbers: the name, the
    quantity in digits, the unit price and the subtotal in grouped
    digits. *)
Definition text_row (it : item) : element :=
  row_of (item_name it) (digits (item_quantity it))
    (group es_AR (digits (item_unit_price it)))
    (group es_AR (digits (item_unit_price it * item_quantity it))).

(** Quantities and prices that are not negative and, with their product,
    below [10^15]. *)
Definition item_small (it : item) : bool :=
  (0 <=? item_quantity it) && (item_quantity it <? 10 ^ 15)
  && (0 <=? item_unit_price it) && (item_unit_price it <? 10 ^ 15)
  && (item_unit_price it * item_quantity it <? 10 ^ 15).

(** ** The decimal digits of an integer *)

Section Digits.
Implicit Types (z s : Z) (acc : jsstring) (fuel : nat).

(** The loop of [digits] does not depend on its fuel, and the digits it
    has yet to produce go in front of those it has. *)
Lemma pow2_succ (n : nat) : 2 ^ Z.of_nat (S n) = 2 * 2 ^ Z.of_nat n.
Proof. rewrite Nat2Z.inj_succ, Z.pow_succ_r; lia. Qed.

Lemma digits_fuel_acc fuel fuel' z acc acc' :
  0 <= z < 2 ^ Z.of_nat (S fuel) -> z < 2 ^ Z.of_nat (S fuel') ->
  digits_fuel (S fuel) z (acc ++ acc') = digits_fuel (S fuel') z acc ++ acc'.
Proof.
  revert fuel' z acc. induction fuel as [|fuel IH]; intros fuel' z acc Hz Hz';
    cbn [digits_fuel]; destruct (Z.ltb_spec z 10); try done.
  { cbn in Hz. lia. }
  destruct fuel' as [|fuel']; [cbn in Hz'; lia|].
  rewrite !pow2_succ in Hz, Hz'.
  pose proof (pow2_pos (Z.of_nat fuel) ltac:(lia)).
  pose proof (pow2_pos (Z.of_nat fuel') ltac:(lia)).
  rewrite app_comm_cons. apply IH; rewrite !pow2_succ; zlia.
Qed.

Lemma digits_fuel_digits fuel z acc :
  0 <= z < 2 ^ Z.of_nat (S fuel) -> digits_fuel (S fuel) z acc = digits z ++ acc.
Proof.
  intros Hz. unfold digits. apply (digits_fuel_acc fuel _ z [] acc Hz).
  rewrite Nat2Z.inj_succ, Z2Nat.id by apply Z.log2_nonneg.
  destruct (decide (z = 0)) as [->|]; [done|]. apply Z.log2_spec. lia.
Qed.

Lemma digits_small z : 0 <= z < 10 -> digits z = [48 + z].
Proof.
  intros Hz. unfold digits. cbn [digits_fuel].
  rewrite (proj2 (Z.ltb_lt z 10)) by lia. by rewrite Z.mod_small.
Qed.

(** One more digit for each division by ten. *)
Lemma digits_step z : 10 <= z -> digits z = digits (z / 10) ++ [48 + z mod 10].
Proof.
  intros Hz. unfold digits at 1. cbn [digits_fuel].
  rewrite (proj2 (Z.ltb_ge z 10)) by lia.
  pose proof (Z.log2_spec z ltac:(lia)) as [Hl1 Hl2].
  rewrite Z.pow_succ_r in Hl2 by apply Z.log2_nonneg.
  destruct (Z.to_nat (Z.log2 z)) as [|fuel] eqn:Hf.
  { assert (Z.log2 z = 0) as Hl0 by (pose proof (Z.log2_nonneg z); lia).
    rewrite Hl0 in Hl2. lia. }
  apply (digits_fuel_digits fuel (z / 10) [_]).
  rewrite <- Hf, Z2Nat.id by apply Z.log2_nonneg. zlia.
Qed.

Lemma digits_mul_10 s : 0 < s -> digits (10 * s) = digits s ++ [48].
Proof.
  intros Hs. rewrite digits_step by lia.
  by rewrite Z.mul_comm, Z.div_mul, Z.mod_mul.
Qed.

(** Trailing zeros. *)
Lemma digits_mul_pow10 s (j : nat) :
  0 < s -> digits (s * 10 ^ Z.of_nat j) = digits s ++ repeat 48 j.
Proof.
  intros Hs. induction j as [|j IH]; [by rewrite Z.mul_1_r, app_nil_r|].
  rewrite Nat2Z.inj_succ, Z.pow_succ_r by lia.
  replace (s * (10 * 10 ^ Z.of_nat j)) with (10 * (s * 10 ^ Z.of_nat j)) by lia.
  rewrite digits_mul_10, IH by (apply Z.mul_pos_pos; lia).
  rewrite <- app_assoc. f_equal. symmetry. apply repeat_cons.
Qed.

(** As many digits as the powers of ten say. *)
Lemma pow10_succ (n : nat) : 10 ^ Z.of_nat (S n) = 10 * 10 ^ Z.of_nat n.
Proof. rewrite Nat2Z.inj_succ, Z.pow_succ_r; lia. Qed.

Lemma pow10_pos k : 0 <= k -> 0 < 10 ^ k.
Proof. intros. apply Z.pow_pos_nonneg; lia. Qed.

Lemma digits_length s (k : nat) :
  10 ^ Z.of_nat k <= s < 10 ^ Z.of_nat (S k) -> length (digits s) = S k.
Proof.
  revert s. induction k as [|k IH]; intros s Hs.
  { rewrite digits_small; [done|]. cbn in Hs. lia. }
  rewrite !pow10_succ in Hs. pose proof (pow10_pos (Z.of_nat k) ltac:(lia)).
  rewrite digits_step, length_app, IH; [cbn; lia| |lia].
  rewrite pow10_succ. zlia.
Qed.

End Digits.

(** ** The decimal exponent *)

Section Exponent.
Implicit Types (a b z D : Z) (fuel j k : nat).

(** The search stops at the first power of ten above the quotient. *)
Lemma decimal_exponent_spec j fuel a b (n0 : Z) :
  0 < b -> (j <= fuel)%nat -> a < b * 10 ^ Z.of_nat j ->
  (forall i : nat, (i < j)%nat -> b * 10 ^ Z.of_nat i <= a) ->
  decimal_exponent fuel a b n0 = n0 + Z.of_nat j.
Proof.
  revert fuel b n0. induction j as [|j IH]; intros fuel b n0 Hb Hf Ha Hi.
  { rewrite Z.mul_1_r in Ha. destruct fuel; cbn [decimal_exponent];
      rewrite ?(proj2 (Z.ltb_lt a b)) by done; lia. }
  destruct fuel as [|fuel]; [lia|]. cbn [decimal_exponent].
  pose proof (Hi 0%nat ltac:(lia)) as H0. rewrite Z.mul_1_r in H0.
  rewrite (proj2 (Z.ltb_ge a b)) by done.
  rewrite IH; [lia|lia|lia| |].
  - rewrite pow10_succ in Ha. lia.
  - intros i Hlt. specialize (Hi (S i) ltac:(lia)). rewrite pow10_succ in Hi. lia.
Qed.

(** Powers of ten are ordered as their exponents. *)
Lemma pow10_le (i j : nat) : (i <= j)%nat -> 10 ^ Z.of_nat i <= 10 ^ Z.of_nat j.
Proof. intros. apply Z.pow_le_mono_r; lia. Qed.

(** An integer of [S k] digits has the decimal exponent [S k]. *)
Lemma decimal_exponent_integer z D k :
  0 < D -> 10 ^ Z.of_nat k <= z < 10 ^ Z.of_nat (S k) -> (k < 300)%nat ->
  decimal_exponent 640 (z * D * 10 ^ 324) D (-324) = Z.of_nat (S k).
Proof.
  intros HD [Hz1 Hz2] Hk.
  rewrite (decimal_exponent_spec (324 + S k)); [lia|done|lia| |].
  - rewrite Nat2Z.inj_add, Z.pow_add_r by lia. change (Z.of_nat 324) with 324.
    pose proof (pow10_pos 324 ltac:(lia)). nia.
  - intros i Hi. pose proof (pow10_le i (324 + k) ltac:(lia)) as Hle.
    rewrite Nat2Z.inj_add, Z.pow_add_r in Hle by lia.
    change (Z.of_nat 324) with 324 in Hle.
    pose proof (pow10_pos 324 ltac:(lia)). nia.
Qed.

(** Every positive integer has a number of digits. *)
Lemma decimal_width z (K : nat) :
  0 < z < 10 ^ Z.of_nat K ->
  exists k, (k < K)%nat /\ 10 ^ Z.of_nat k <= z < 10 ^ Z.of_nat (S k).
Proof.
  induction K as [|K IH]; intros Hz; [cbn in Hz; lia|].
  destruct (Z.lt_ge_cases z (10 ^ Z.of_nat K)) as [Hlt|Hge].
  - destruct IH as (k & Hk & Hzk); [lia|]. exists k. split; [lia|done].
  - exists K. split; [lia|]. lia.
Qed.

End Exponent.

(** ** Decimals that are integers *)

Section Reading.
Implicit Types (y z p D : Z) (s : bool).

(** A decimal with a positive exponent whose value is below [2^53] is read
    as the double of that integer. *)
Lemma num_of_decimal_exp s y p :
  0 < y -> 0 <= p -> y * 10 ^ p < 2 ^ prec ->
  num_of_decimal s y p = int_number s (y * 10 ^ p).
Proof.
  intros Hy Hp Hb. unfold num_of_decimal.
  rewrite (proj2 (Z.leb_gt y 0)), (proj2 (Z.leb_le 0 p)) by done.
  pose proof (pow10_pos p Hp).
  destruct (y * 10 ^ p) as [|q|q] eqn:Hq; [lia| |lia]. cbn [binary_normalize].
  by rewrite (binary_round_integer false q Hb).
Qed.

(** Different integers are different doubles. *)
Lemma int_number_inj s y z :
  0 < y < 2 ^ prec -> 0 < z < 2 ^ prec ->
  int_number s y = int_number s z -> y = z.
Proof.
  intros Hy Hz Heq. destruct y as [|q|q], z as [|r|r]; try lia.
  pose proof (int_number_integer s q ltac:(lia)) as H1.
  pose proof (int_number_integer s r ltac:(lia)) as H2.
  rewrite Heq, H2 in H1. destruct s; congruence.
Qed.

Lemma reads_as_integer y p z :
  0 < y -> 0 <= p -> y * 10 ^ p < 2 ^ prec -> 0 < z < 2 ^ prec ->
  reads_as (int_number false z) y p = bool_decide (y * 10 ^ p = z).
Proof.
  intros Hy Hp Hb Hz. unfold reads_as. rewrite num_of_decimal_exp by done.
  pose proof (pow10_pos p Hp).
  apply bool_decide_ext. split; [|by intros ->].
  apply int_number_inj; [nia|done].
Qed.

(** The exact value of the double of an integer: the integer itself, over
    a power of two. *)
Lemma num_fraction_integer z :
  0 < z < 2 ^ prec ->
  exists D, 0 < D
    /\ num_fraction (int_mantissa z) (int_exponent z) = (z * D, D).
Proof.
  intros Hz. destruct z as [|q|q]; try lia.
  pose proof (digits2_small q ltac:(lia)) as Hd.
  pose proof (int_mantissa_spec q ltac:(lia)) as Hm.
  exists (2 ^ (prec - Zpos (digits2_pos q))).
  split; [apply pow2_pos; lia|]. unfold num_fraction, int_exponent.
  cbn [Zdigits2]. rewrite Hm.
  destruct (Z.leb_spec 0 (Zpos (digits2_pos q) - prec)) as [Hge|Hlt].
  - replace (Zpos (digits2_pos q) - prec) with 0 by lia.
    replace (prec - Zpos (digits2_pos q)) with 0 by lia. by rewrite !Z.mul_1_r.
  - do 2 f_equal. lia.
Qed.

End Reading.

(** ** The shortest decimal of an integer *)

Section Shortest.
(** An integer [z] of [S k] digits, at most fifteen, and the denominator
    [D] of its exact value. *)
Context (z D : Z) (k : nat).
Hypothesis HD : 0 < D.
Hypothesis Hz : 10 ^ Z.of_nat k <= z < 10 ^ Z.of_nat (S k).
Hypothesis Hk : (k < 15)%nat.

Let x : number := int_number false z.

Lemma width_small : 10 ^ Z.of_nat (S k) < 2 ^ prec.
Proof.
  apply Z.le_lt_trans with (10 ^ 15); [|done].
  apply (pow10_le (S k) 15). lia.
Qed.

Lemma integer_small : 0 < z < 2 ^ prec.
Proof.
  pose proof width_small. pose proof (pow10_pos (Z.of_nat k) ltac:(lia)). lia.
Qed.

(** The integer cut after [c] of its digits: [lo] is what stands before
    the cut and [r] what stands after it. *)
Lemma digits_cut (c : nat) :
  (1 <= c <= S k)%nat ->
  let p := Z.of_nat (S k) - Z.of_nat c in
  let lo := z / 10 ^ p in
  let r := z mod 10 ^ p in
  0 <= p /\ 0 < 10 ^ p /\ z = 10 ^ p * lo + r /\ 0 <= r < 10 ^ p
  /\ 0 < lo /\ lo + 1 <= 10 ^ Z.of_nat c
  /\ 10 ^ Z.of_nat (S k) = 10 ^ Z.of_nat c * 10 ^ p.
Proof.
  intros Hc p lo r. assert (Hp : 0 <= p) by (unfold p; lia).
  pose proof (pow10_pos p Hp) as H10.
  assert (Hsplit : 10 ^ Z.of_nat (S k) = 10 ^ Z.of_nat c * 10 ^ p).
  { rewrite <- Z.pow_add_r by lia. f_equal. unfold p. lia. }
  assert (Hlow : 10 ^ p <= 10 ^ Z.of_nat k).
  { unfold p. replace (Z.of_nat (S k) - Z.of_nat c) with (Z.of_nat (S k - c))
      by lia. apply pow10_le. lia. }
  pose proof (Z.div_mod z (10 ^ p) ltac:(lia)) as Hdm.
  pose proof (Z.mod_pos_bound z (10 ^ p) H10) as Hm.
  fold lo r in Hdm, Hm. split_and!; try done; try lia; nia.
Qed.

(** The decimal above the integer, with or without a carry into one more
    digit, is an integer above it, and does not read as its double. *)
Lemma above_never_reads (c : nat) :
  (1 <= c <= S k)%nat ->
  let p := Z.of_nat (S k) - Z.of_nat c in
  let lo := z / 10 ^ p in
  let hi := if lo + 1 =? 10 ^ Z.of_nat c
            then (10 ^ (Z.of_nat c - 1), Z.of_nat (S k) + 1)
            else (lo + 1, Z.of_nat (S k)) in
  reads_as x hi.1 (hi.2 - Z.of_nat c) = false.
Proof.
  intros Hc p lo hi. pose proof integer_small. pose proof width_small.
  destruct (digits_cut c Hc) as (Hp & H10 & Hdm & Hr & Hlo & Hhi & Hsplit).
  fold p lo in H10, Hdm, Hr, Hlo, Hhi, Hsplit. unfold hi, x.
  destruct (Z.eqb_spec (lo + 1) (10 ^ Z.of_nat c)) as [He|Hne]; cbn [fst snd].
  - replace (Z.of_nat (S k) + 1 - Z.of_nat c) with (p + 1) by (unfold p; lia).
    assert (Hv : 10 ^ (Z.of_nat c - 1) * 10 ^ (p + 1) = 10 ^ Z.of_nat (S k)).
    { rewrite <- Z.pow_add_r by lia. f_equal. unfold p. lia. }
    rewrite reads_as_integer; rewrite ?Hv;
      [|apply pow10_pos; lia|lia|done|done].
    apply bool_decide_eq_false. lia.
  - fold p. rewrite reads_as_integer by (done || nia).
    apply bool_decide_eq_false. nia.
Qed.

(** With [c] digits, the decimal below is the integer without its last
    [S k - c] digits; it reads back when those digits are zeros, and the
    decimal above never does. *)
Lemma candidate_integer (c : nat) :
  (1 <= c <= S k)%nat ->
  candidate x (z * D) D (Z.of_nat (S k)) (Z.of_nat c)
  = if bool_decide (z mod 10 ^ Z.of_nat (S k - c) = 0)
    then Some (z / 10 ^ Z.of_nat (S k - c), Z.of_nat (S k)) else None.
Proof.
  intros Hc. pose proof integer_small as Hs. pose proof width_small as Hw.
  pose proof (above_never_reads c Hc) as Eh.
  destruct (digits_cut c Hc) as (Hp & H10 & Hdm & Hr & Hlo & Hhi & Hsplit).
  replace (Z.of_nat (S k - c)) with (Z.of_nat (S k) - Z.of_nat c) by lia.
  cbv zeta in Eh. unfold candidate, scale10.
  rewrite (proj2 (Z.leb_le 0 _) Hp). cbv beta iota zeta.
  rewrite (Z.mul_comm D), Z.div_mul_cancel_r, Z.mul_mod_distr_r by lia.
  rewrite Eh, (reads_as_integer _ _ z) by (done || nia).
  rewrite (bool_decide_ext _ (z mod 10 ^ (Z.of_nat (S k) - Z.of_nat c) = 0))
    by lia.
  by case_bool_decide.
Qed.

(** The search ends at the integer without its trailing zeros. *)
Lemma shortest_from_integer (fuel c : nat) :
  (1 <= c <= S k)%nat -> (S k - c < fuel)%nat ->
  exists j : nat,
    (j <= k)%nat /\ z mod 10 ^ Z.of_nat j = 0
    /\ shortest_from fuel x (z * D) D (Z.of_nat (S k)) (Z.of_nat c)
       = (z / 10 ^ Z.of_nat j, Z.of_nat (S k)).
Proof.
  revert c. induction fuel as [|fuel IH]; intros c Hc Hf; [lia|].
  cbn [shortest_from]. rewrite candidate_integer by done.
  case_bool_decide as Hm.
  - exists (S k - c)%nat. split_and!; [lia|done..].
  - assert (c <> S k).
    { intros ->. apply Hm. rewrite Nat.sub_diag. apply Z.mod_1_r. }
    replace (Z.of_nat c + 1) with (Z.of_nat (S c)) by lia. apply IH; lia.
Qed.

End Shortest.

(** ** What the formatters print *)

Section Printing.
Implicit Types (z : Z) (neg : bool) (j k : nat).

(** The digits that remain when [j] trailing zeros are taken off. *)
Lemma stem_width z j k :
  (j <= k)%nat -> 10 ^ Z.of_nat k <= z < 10 ^ Z.of_nat (S k) ->
  z mod 10 ^ Z.of_nat j = 0 ->
  z / 10 ^ Z.of_nat j * 10 ^ Z.of_nat j = z
  /\ 10 ^ Z.of_nat (k - j) <= z / 10 ^ Z.of_nat j < 10 ^ Z.of_nat (S (k - j)).
Proof.
  intros Hj Hz Hm. pose proof (pow10_pos (Z.of_nat j) ltac:(lia)) as Hp.
  pose proof (Z.div_mod z (10 ^ Z.of_nat j) ltac:(lia)) as Hd.
  rewrite Hm, Z.add_0_r in Hd.
  assert (H1 : 10 ^ Z.of_nat k = 10 ^ Z.of_nat (k - j) * 10 ^ Z.of_nat j).
  { rewrite <- Z.pow_add_r by lia. f_equal. lia. }
  assert (H2 : 10 ^ Z.of_nat (S k)
               = 10 ^ Z.of_nat (S (k - j)) * 10 ^ Z.of_nat j).
  { rewrite <- Z.pow_add_r by lia. f_equal. lia. }
  set (q := z / 10 ^ Z.of_nat j) in *. split; [lia|]. nia.
Qed.

(** The shortest decimal of the double of an integer below [10^15]: the
    integer without its trailing zeros. *)
Lemma shortest_integer z :
  0 < z < 10 ^ 15 ->
  exists j k,
    (j <= k < 15)%nat /\ 10 ^ Z.of_nat k <= z < 10 ^ Z.of_nat (S k)
    /\ z mod 10 ^ Z.of_nat j = 0
    /\ shortest (int_mantissa z) (int_exponent z)
       = (z / 10 ^ Z.of_nat j, Z.of_nat (S k)).
Proof.
  intros Hz. destruct (decimal_width z 15 Hz) as (k & Hk & Hzk).
  destruct (num_fraction_integer z) as (D & HD & HF);
    [split; [lia|]; apply Z.lt_trans with (10 ^ 15); [lia|done]|].
  destruct (shortest_from_integer z D k HD Hzk Hk 17 1)
    as (j & Hj & Hm & Hs); [lia..|].
  exists j, k. split; [lia|]. split; [done|]. split; [done|].
  unfold shortest. rewrite HF. cbv beta iota zeta.
  rewrite (decimal_exponent_integer z D k) by (done || lia). exact Hs.
Qed.

Lemma shortest_fraction_integer z :
  0 < z < 10 ^ 15 ->
  shortest_fraction (int_mantissa z) (int_exponent z) = (z, 1).
Proof.
  intros Hz. destruct (shortest_integer z Hz) as (j & k & Hj & Hzk & Hm & Hs).
  destruct (stem_width z j k ltac:(lia) Hzk Hm) as [Hv Hw].
  unfold shortest_fraction. rewrite Hs, (digits_length _ _ Hw).
  replace (Z.of_nat (S k) - Z.of_nat (S (k - j))) with (Z.of_nat j) by lia.
  by rewrite (proj2 (Z.leb_le 0 (Z.of_nat j))), Hv by lia.
Qed.

(** Number::toString of an integer: its digits. *)
Lemma Number_toString_integer neg z :
  0 < z < 10 ^ 15 ->
  Number_toString_model (int_number neg z) = integer_text neg z.
Proof.
  intros Hz. destruct (shortest_integer z Hz) as (j & k & Hj & Hzk & Hm & Hs).
  destruct (stem_width z j k ltac:(lia) Hzk Hm) as [Hv Hw].
  unfold Number_toString_model, int_number, integer_text. rewrite Hs. f_equal.
  unfold num_layout. rewrite (digits_length _ _ Hw).
  rewrite (proj2 (Z.leb_le (Z.of_nat (S (k - j))) (Z.of_nat (S k)))) by lia.
  rewrite (proj2 (Z.leb_le (Z.of_nat (S k)) 21)) by lia. cbn [andb].
  replace (Z.to_nat (Z.of_nat (S k) - Z.of_nat (S (k - j)))) with j by lia.
  rewrite <- digits_mul_pow10; [by rewrite Hv|].
  pose proof (pow10_pos (Z.of_nat (k - j)) ltac:(lia)). lia.
Qed.

(** A whole number rounded to [f] decimals is itself. *)
Lemma round_half_expand_integer z (f : nat) :
  round_half_expand z 1 (Z.of_nat f) = z * 10 ^ Z.of_nat f.
Proof. unfold round_half_expand. zlia. Qed.

Lemma format_fixed_integer z (minf maxf : nat) :
  format_fixed es_AR minf maxf z 1
  = group es_AR (digits z)
    ++ match maxf, strip_zeros minf (pad_left maxf (digits 0)) with
       | O, _ | _, [] => []
       | _, frac => decimal_separator es_AR ++ frac
       end.
Proof.
  unfold format_fixed. rewrite round_half_expand_integer.
  pose proof (pow10_pos (Z.of_nat maxf) ltac:(lia)).
  rewrite Z.div_mul by lia. rewrite Z.mod_mul by lia. f_equal.
  destruct maxf; [done|]. by destruct (strip_zeros _ _).
Qed.

(** [toLocaleString("es-AR")] of an integer: its digits in groups of
    three. *)
Lemma Number_toLocaleString_integer neg z :
  0 < z < 10 ^ 15 ->
  Number_toLocaleString_model (int_number neg z) = grouped_text neg z.
Proof.
  intros Hz. unfold Number_toLocaleString_model, int_number, format_number.
  rewrite shortest_fraction_integer, format_fixed_integer by done.
  unfold grouped_text. cbn -[group digits]. by rewrite app_nil_r.
Qed.

(** The currency format of an integer: the symbol, the grouped digits and
    [,00]. *)
Lemma Number_toLocaleCurrency_integer neg z :
  0 < z < 10 ^ 15 ->
  Number_toLocaleCurrency_model (int_number neg z) = peso_text neg z.
Proof.
  intros Hz. unfold Number_toLocaleCurrency_model, int_number, format_number.
  by rewrite shortest_fraction_integer, format_fixed_integer by done.
Qed.

(** The three formats on the double of a natural number. *)
Lemma Number_toString_natural z :
  0 <= z < 10 ^ 15 -> Number_toString_model (num_of_Z z) = digits z.
Proof.
  intros Hz. destruct (decide (z = 0)) as [->|Hn]; [done|].
  rewrite num_of_Z_integer by (unfold prec; lia).
  rewrite (proj2 (Z.ltb_ge z 0)), Z.abs_eq by lia.
  by rewrite Number_toString_integer by lia.
Qed.

(** The integers of the sender's cart are written as [JSON.stringify]
    writes a Number: with Number::toString. *)
Lemma Number_toString_print_integer z :
  Z.abs z < 10 ^ 15 -> Number_toString_model (num_of_Z z) = print_integer z.
Proof.
  intros Hz. unfold print_integer. destruct (Z.ltb_spec z 0) as [Hneg|Hpos].
  - rewrite num_of_Z_integer by (unfold prec; lia).
    rewrite (proj2 (Z.ltb_lt z 0)), Number_toString_integer by lia.
    unfold integer_text. cbn [minus_sign app]. do 2 f_equal. lia.
  - apply Number_toString_natural. lia.
Qed.

Lemma Number_toLocaleString_natural z :
  0 <= z < 10 ^ 15 ->
  Number_toLocaleString_model (num_of_Z z) = group es_AR (digits z).
Proof.
  intros Hz. destruct (decide (z = 0)) as [->|Hn]; [done|].
  rewrite num_of_Z_integer by (unfold prec; lia).
  rewrite (proj2 (Z.ltb_ge z 0)), Z.abs_eq by lia.
  by rewrite Number_toLocaleString_integer by lia.
Qed.

End Printing.

(** ** The rows of a cart of whole numbers *)

Section Rows.
#[local] Existing Instance browser.
Implicit Types (it : item) (its : list item).

Lemma item_small_spec it :
  item_small it = true ->
  0 <= item_quantity it < 10 ^ 15 /\ 0 <= item_unit_price it < 10 ^ 15
  /\ 0 <= item_unit_price it * item_quantity it < 10 ^ 15.
Proof.
  unfold item_small. rewrite !andb_true_iff, !Z.leb_le, !Z.ltb_lt. nia.
Qed.

Lemma item_small_natural it : item_small it = true -> item_natural it = true.
Proof.
  intros (? & ? & ?)%item_small_spec. unfold item_natural.
  rewrite !andb_true_iff, !Z.leb_le, Z.ltb_lt. lia.
Qed.

Lemma cart_row_text it : item_small it = true -> cart_row it = text_row it.
Proof.
  intros (Hq & Hu & Hp)%item_small_spec. unfold cart_row, text_row.
  cbn [Number_toString Number_toLocaleString browser].
  by rewrite Number_toString_natural, !Number_toLocaleString_natural.
Qed.

Lemma sender_table_text its :
  forallb item_ok its = true -> forallb item_small its = true ->
  build_table (VArray (map item_value its))
  = Normal (append_children (map text_row its) new_table).
Proof.
  intros Hits Hs. rewrite (build_table_cart _ _ (as_cart_items its)).
  unfold items_table. do 2 f_equal.
  induction its as [|it its IH]; [done|]. cbn [forallb map] in *.
  apply andb_true_iff in Hits as [Hit Hits].
  apply andb_true_iff in Hs as [Hn Hs].
  by rewrite item_natural_ok, cart_row_text, IH by auto using item_small_natural.
Qed.

End Rows.

(** ** Properties *)

Section IntegerTextProperties.
#[local] Existing Instance browser.
Implicit Types (it : item) (its : list item) (lay : layout)
  (ps : URLSearchParams) (w : Browser).

(** C37 (the cells of a row). In the browser, an item whose quantity and
    unit price are positive integers with a product below [10^15] is shown
    as a row of four cells: the name, the quantity in decimal digits, the
    unit price and the product [unit_price * quantity] in decimal digits
    grouped by three with points, as [es-AR] writes them. *)
Theorem integer_row_text (n : jsstring) (q u : Z) :
  0 < q -> 0 < u -> u * q < 10 ^ 15 ->
  render_row (line_item n (num_of_Z q) (num_of_Z u))
  = Normal (text_row (Item n q u)).
Proof.
  intros Hq Hu Hp. rewrite render_row_fields by done.
  transitivity
    (Normal (E := error) (row_of n (Number_toString_model (num_of_Z q))
               (Number_toLocaleString_model (num_of_Z u))
               (Number_toLocaleString_model
                  (num_mul (num_of_Z u) (num_of_Z q))))); [done|].
  rewrite num_mul_naturals by (unfold prec; nia).
  by rewrite Number_toString_natural, !Number_toLocaleString_natural by nia.
Qed.

(** C38 (from the sender's cart to the text on the page). The page
    opened at a link that carries a cart of whole quantities and prices,
    not negative and with products below [10^15], on a complete page, is
    the rendered page whose table has one row per item, in order, with
    the quantity in digits and the price and the subtotal in grouped
    digits; nothing is logged. *)
Theorem sender_page_text lay its ps w :
  wf_layout lay = true -> forallb item_ok its = true ->
  forallb item_small its = true ->
  forallb is_raw_pair ps = true -> complete_page (page w) = true ->
  let params := (str "items", cart_parameter lay its) :: ps in
  page_load (raw_search params) w
  = {| page := rendered params
                 (append_children (map text_row its) new_table) (page w);
       console := console w |}.
Proof.
  intros Hl Hits Hs Hps Hc params. unfold page_load.
  pose proof (print_cart_byte_string lay Hl its Hits) as Hb.
  pose proof (decoded_cart_link _ ps _ Hb (JSON_parse_print_cart lay Hl its Hits))
    as Hd.
  rewrite URLSearchParams_new_raw.
  - rewrite (load_ok params w
               (append_children (map text_row its) new_table) Hc).
    + unfold cart_log, params, cart_parameter. by rewrite Hd, app_nil_r.
    + unfold cart, params, cart_parameter. rewrite Hd.
      by apply sender_table_text.
  - unfold params. cbn [forallb]. rewrite Hps, andb_true_r.
    unfold is_raw_pair, cart_parameter. cbn [fst snd].
    by rewrite encode_items_raw.
Qed.

End IntegerTextProperties.

(** Some numbers, as the three formats print them. *)
Example integer_text_samples :
  Number_toString_model (num_of_Z 1200) = str "1200"
  /\ Number_toLocaleString_model (num_of_Z 1234567) = str "1.234.567"
  /\ Number_toLocaleCurrency_model (num_of_Z (-1500)) = peso_text true 1500
  /\ peso_text true 1500 = str "-$" ++ [160] ++ str "1.500,00"
  /\ text_row (Item (str "Widget") 3 1500)
     = row_of (str "Widget") (str "3") (str "1.500") (str "4.500").
Proof. by_compute. Qed.
