(* ===== verification/Amount.v ===== *)
(** * The amount of the link, in the browser

    Line 11 of [src/checkout_web/script.js] is
    [parseFloat(amountRaw) || 0].  With the [parseFloat] of [NumberText]
    this file says which texts of the [amount] parameter are shown as zero,
    and what is made of a text that starts with an integer: the integer,
    whatever follows it.  The specification words the fallback as "any
    non-numeric input is zero"; a text such as [12abc] is not numeric, and
    is shown as twelve. *)

From Stdlib Require Import ZArith List Lia Bool String.
From stdpp Require Import base tactics list option numbers.
From S2P Require Import Prelude JsString Number NumberExact Value Semantics.
From S2P Require Import Query NumberText NumberFormat Browser Sender.
From S2P Require Import IntegerText.

#[local] Open Scope Z_scope.

(** ** Texts *)

(** The characters a decimal literal can start with: a digit, a sign, the
    point, and the [I] of [Infinity]. *)
Definition is_number_start (c : Z) : bool :=
  is_digit c || (c =? 45) || (c =? 43) || (c =? 46) || (c =? 73).

(** After its leading white space the text is empty or starts with a
    character no number starts with. *)
Definition names_no_number (s : jsstring) : bool :=
  match trim_start s with
  | c :: _ => negb (is_number_start c)
  | [] => true
  end.

(** An amount that starts with an integer: white space, the integer with
    or without a minus sign, and the rest of the text. *)
Definition amount_text (ws : jsstring) (neg : bool) (z : Z) (rest : jsstring) :
    jsstring :=
  ws ++ integer_text neg z ++ rest.

(** The zero amount as the page shows it. *)
Definition zero_amount : jsstring := str "$" ++ [160] ++ str "0,00".

(** ** [parseFloat] *)

Section ParseFloatFacts.
Implicit Types (s ws rest : jsstring) (c z : Z).

Lemma trim_start_app ws s :
  forallb is_str_whitespace ws = true -> trim_start (ws ++ s) = trim_start s.
Proof.
  induction ws as [|c ws IH]; [done|]. cbn [forallb app trim_start].
  intros [-> ?]%andb_true_iff. by apply IH.
Qed.

Lemma trim_start_head c s :
  is_str_whitespace c = false -> trim_start (c :: s) = c :: s.
Proof. cbn [trim_start]. by intros ->. Qed.

Lemma is_digit_not_whitespace c : is_digit c = true -> is_str_whitespace c = false.
Proof. unfold is_digit, is_str_whitespace. lia. Qed.

Lemma parseFloat_model_no_number s :
  names_no_number s = true -> parseFloat_model s = num_nan.
Proof.
  unfold names_no_number, parseFloat_model, is_number_start.
  destruct (trim_start s) as [|c t]; [done|].
  rewrite negb_true_iff, !orb_false_iff. intros [[[[Hd H1] H2] H3] H4].
  rewrite read_decimal_no_digit; [done|done|lia..].
Qed.

(** The digits of an integer, read back: nothing after them takes part
    unless it continues the literal. *)
Lemma read_unsigned_decimal_digits neg z rest :
  0 <= z -> ends_number rest ->
  read_unsigned_decimal neg (digits z ++ rest)
  = Some (num_of_decimal neg z 0, rest).
Proof.
  intros Hz Hr. destruct (digits_spec z Hz) as (d & ds & -> & Hds & Hv & _).
  assert (Hd : is_digit d = true).
  { cbn [forallb] in Hds. by apply andb_true_iff in Hds as [? _]. }
  unfold read_unsigned_decimal.
  change (str "Infinity") with (73 :: str "nfinity").
  cbn [app is_prefix].
  rewrite (proj2 (Z.eqb_neq 73 d)) by (unfold is_digit in Hd; lia).
  rewrite app_comm_cons, (read_digits_run (d :: ds) rest 0 0 Hds Hr), Hv.
  cbn [length andb]. rewrite (proj2 (Z.eqb_neq _ 0)) by lia. cbn [andb].
  destruct rest as [|c r]; [done|]. destruct Hr as (_ & H1 & H2 & H3).
  unfold read_exponent.
  rewrite (proj2 (Z.eqb_neq c 46)) by done.
  rewrite (proj2 (Z.eqb_neq c 101)) by done.
  by rewrite (proj2 (Z.eqb_neq c 69)) by done.
Qed.

Lemma integer_text_head neg z :
  0 <= z ->
  exists c t, integer_text neg z = c :: t /\ is_str_whitespace c = false.
Proof.
  intros Hz. unfold integer_text.
  destruct (digits_spec z Hz) as (d & ds & -> & Hds & _).
  destruct neg; [by exists 45, (d :: ds)|]. exists d, ds. split; [done|].
  apply is_digit_not_whitespace. cbn [forallb] in Hds.
  by apply andb_true_iff in Hds as [? _].
Qed.

Lemma read_decimal_integer neg z rest :
  0 <= z -> ends_number rest ->
  read_decimal (integer_text neg z ++ rest) = Some (num_of_decimal neg z 0, rest).
Proof.
  intros Hz Hr. unfold integer_text. destruct neg; cbn [minus_sign app].
  - by apply read_unsigned_decimal_digits.
  - rewrite <- (read_unsigned_decimal_digits false z rest Hz Hr).
    destruct (digits_spec z Hz) as (d & ds & -> & Hds & _).
    cbn [forallb] in Hds. apply andb_true_iff in Hds as [Hd _].
    cbn [app read_decimal].
    rewrite (proj2 (Z.eqb_neq d 45)) by (unfold is_digit in Hd; lia).
    by rewrite (proj2 (Z.eqb_neq d 43)) by (unfold is_digit in Hd; lia).
Qed.

(** [parseFloat] of white space, an integer and anything that does not
    continue it. *)
Lemma parseFloat_model_integer ws neg z rest :
  forallb is_str_whitespace ws = true -> 0 <= z -> ends_number rest ->
  parseFloat_model (ws ++ integer_text neg z ++ rest) = num_of_decimal neg z 0.
Proof.
  intros Hws Hz Hr. unfold parseFloat_model. rewrite trim_start_app by done.
  destruct (integer_text_head neg z Hz) as (c & t & Ht & Hc).
  rewrite Ht. cbn [app]. rewrite trim_start_head by done.
  change (c :: t ++ rest) with ((c :: t) ++ rest).
  by rewrite <- Ht, read_decimal_integer.
Qed.

(** [x || 0] on the integers a text can hold. *)
Lemma or_zero_integer neg z :
  0 <= z < 2 ^ 53 ->
  or_zero (num_of_decimal neg z 0) = num_of_Z (if neg then - z else z).
Proof.
  intros Hz. destruct (decide (z = 0)) as [->|Hn]; [by destruct neg|].
  rewrite <- (num_of_decimal_num_of_Z neg) by (unfold prec; lia).
  by rewrite num_of_decimal_integer by (unfold prec; lia).
Qed.

End ParseFloatFacts.

Section AmountFacts.
#[local] Existing Instance browser.

(** Line 11 on such a text. *)
Lemma amountNumber_integer (params : URLSearchParams) ws (neg : bool) z rest :
  amountRaw params = amount_text ws neg z rest ->
  forallb is_str_whitespace ws = true ->
  0 <= z < 2 ^ 53 -> ends_number rest ->
  amountNumber params = num_of_Z (if neg then - z else z).
Proof.
  intros Ha Hws Hz Hr. unfold amountNumber. cbn [parseFloat browser].
  rewrite Ha. unfold amount_text.
  rewrite parseFloat_model_integer by (done || lia).
  by apply or_zero_integer.
Qed.

End AmountFacts.

(** ** Properties *)

Section AmountProperties.
#[local] Existing Instance browser.
Implicit Types (params : URLSearchParams).

(** C20 (words are zero). An [amount] that, after its leading white
    space, is empty or starts with a character no number starts with
    (anything but a digit, a sign, the point and [I]) is shown as
    [$ 0,00]: [parseFloat] gives [NaN], which [|| 0] replaces. *)
Theorem amount_word_is_zero params :
  names_no_number (amountRaw params) = true ->
  amountNumber params = num_zero /\ amountFormatted params = zero_amount.
Proof.
  intros Hs. assert (Hz : amountNumber params = num_zero).
  { unfold amountNumber. cbn [parseFloat browser].
    by rewrite parseFloat_model_no_number. }
  split; [done|]. unfold amountFormatted. by rewrite Hz.
Qed.

(** C21 (a number and then anything). An [amount] made of white space,
    an integer below [2^53], with or without a minus sign, and any text
    that does not continue the number (no digit, point or [e] at its
    head) is the amount of that integer: what follows the digits is
    ignored, and the text is not treated as non-numeric.  The negative
    zero counts as zero. *)
Theorem amount_integer_prefix params ws (neg : bool) z rest :
  amountRaw params = amount_text ws neg z rest ->
  forallb is_str_whitespace ws = true ->
  0 <= z < 2 ^ 53 -> ends_number rest ->
  amountNumber params = num_of_Z (if neg then - z else z).
Proof. intros Ha Hws Hz Hr. by apply amountNumber_integer with ws rest. Qed.

(** C22 (whole amounts, as shown). Such an amount, when the integer is
    below [10^15], is shown as whole pesos: the symbol and a no-break
    space, the digits in groups of three, and [,00]; a minus sign goes in
    front of the symbol when the integer is negative, and none when it is
    zero. *)
Theorem amount_integer_text params ws (neg : bool) z rest :
  amountRaw params = amount_text ws neg z rest ->
  forallb is_str_whitespace ws = true ->
  0 <= z < 10 ^ 15 -> ends_number rest ->
  amountFormatted params = peso_text (neg && (0 <? z)) z.
Proof.
  intros Ha Hws Hz Hr. unfold amountFormatted.
  rewrite (amountNumber_integer params ws neg z rest) by (done || lia).
  cbn [Number_toLocaleCurrency browser].
  destruct (decide (z = 0)) as [->|Hn]; [by destruct neg|].
  rewrite (proj2 (Z.ltb_lt 0 z)), andb_true_r by lia.
  rewrite num_of_Z_integer by (unfold prec; destruct neg; lia).
  replace (Z.abs (if neg then - z else z)) with z by (destruct neg; lia).
  replace ((if neg then - z else z) <? 0) with neg by (destruct neg; lia).
  apply Number_toLocaleCurrency_integer. lia.
Qed.

End AmountProperties.

(** A word, white space, a symbol before the digits: no number.  A sign
    without digits passes the test of the first character and is [NaN]
    all the same; [ -7,5], with the decimal comma of the locale, is read
    as far as the number goes. *)
Example names_no_number_samples :
  names_no_number (str "abc") = true
  /\ names_no_number (str "  ") = true
  /\ names_no_number (str "$12") = true
  /\ names_no_number (str "12abc") = false
  /\ parseFloat_model (str "-") = num_nan
  /\ parseFloat_model (str " -7,5") = num_of_Z (-7).
Proof. by_compute. Qed.
