(* ===== verification/Scenarios.v ===== *)
(** * The script run in the browser

    The script of [Checkout] on the host of [Browser], for concrete links:
    the examples of the specification (an amount of [1234.5], the cart with
    one Widget, a cart that does not decode), carts that decode to something
    the loop cannot render, and a session of clicks.  Every statement here
    is closed and holds by evaluation: the runs are examples of what the
    general theorems of the other files say, and the last part applies
    each of those theorems to one of the runs. *)

From Stdlib Require Import ZArith List Lia Bool String.
From stdpp Require Import base tactics list option numbers.
From S2P Require Import Prelude JsString Number NumberExact Value Semantics Dom.
From S2P Require Import Query Cart Confirm Checkout WellFormed ViewModel.
From S2P Require Import Base64 NumberText Utf8 UrlQuery Json NumberFormat Browser.
From S2P Require Import Sender IntegerText Amount.

#[local] Open Scope Z_scope.
#[local] Existing Instance browser.

(** ** Links *)

(** A JSON text written with ['] for the quotes. *)
Definition json_lit (s : string) : jsstring := replace_all 39 34 (str s).

Definition link (user_id name email amount : string) (items : jsstring) :
    URLSearchParams :=
  [(str "user_id", str user_id); (str "name", str name);
   (str "email", str email); (str "amount", str amount);
   (str "items", items)].

Definition widget_json : jsstring :=
  json_lit "[{'name':'Widget','quantity':3,'unit_price':10}]".

(** An order of three Widgets. *)
Definition widget_link : URLSearchParams :=
  link "u-42" "Ana" "ana@example.com" "1234.5" (encode_items widget_json).

(** A link without parameters. *)
Definition bare_link : URLSearchParams := [].

(** A cart cut off in the middle of the base64 text. *)
Definition truncated_link : URLSearchParams :=
  link "u-42" "Ana" "ana@example.com" "12"
    (take 5 (encode_items widget_json)).

(** A cart that is base64 of a text that is not JSON. *)
Definition not_json_link : URLSearchParams :=
  link "u-42" "Ana" "ana@example.com" "12" (encode_items (str "hello")).

(** A cart that is JSON, but an object where an array is expected. *)
Definition object_link : URLSearchParams :=
  link "u-42" "Ana" "ana@example.com" "12" (encode_items (json_lit "{}")).

(** A cart whose second item has no [unit_price]. *)
Definition partial_link : URLSearchParams :=
  link "u-42" "Ana" "ana@example.com" "12"
    (encode_items (json_lit
       "[{'name':'Widget','quantity':3,'unit_price':10},{'name':'Gadget'}]")).

(** ** The page *)

Definition heading : element :=
  set_innerHTML (str "Tu pedido") (createElement (str "h2")).

(** The checkout page as it is served: empty slots, the container with its
    heading, the button enabled, the message hidden. *)
Definition checkout_page : Page := {|
  buyer_name := Some [];
  buyer_email := Some [];
  buyer_id := Some [];
  order_amount := Some [];
  card_right := Some [heading];
  btn_confirm := Some {| btn_disabled := false;
                         btn_text := str "Confirmar pedido";
                         btn_listeners := [] |};
  confirmation_hidden := Some true;
|}.

Definition start : Browser := {| page := checkout_page; console := [] |}.

(** The same page without the message element. *)
Definition page_without_message : Page :=
  {| buyer_name := Some []; buyer_email := Some []; buyer_id := Some [];
     order_amount := Some []; card_right := Some [heading];
     btn_confirm := btn_confirm checkout_page;
     confirmation_hidden := None |}.

(** The same page without the element of the buyer's id. *)
Definition page_without_id : Page :=
  {| buyer_name := Some []; buyer_email := Some []; buyer_id := None;
     order_amount := Some []; card_right := Some [heading];
     btn_confirm := btn_confirm checkout_page;
     confirmation_hidden := Some true |}.

(** ** What is expected *)

Definition widget_row : element :=
  row_of (str "Widget") (str "3") (str "10") (str "30").

Definition widget_table : element := append_children [widget_row] new_table.

(** The amount [1234.5] in pesos. *)
Definition amount_text : jsstring := str "$" ++ [160] ++ str "1.234,50".

Definition zero_text : jsstring := str "$" ++ [160] ++ str "0,00".

Definition twelve_text : jsstring := str "$" ++ [160] ++ str "12,00".

(** The page after the script rendered the link of the Widgets. *)
Definition widget_page : Page := {|
  buyer_name := Some (str "Ana");
  buyer_email := Some (str "ana@example.com");
  buyer_id := Some (str "u-42");
  order_amount := Some amount_text;
  card_right := Some [heading; widget_table];
  btn_confirm := Some {| btn_disabled := false;
                         btn_text := str "Confirmar pedido";
                         btn_listeners := [ConfirmListener] |};
  confirmation_hidden := Some true;
|}.

(** The same page after the order was confirmed. *)
Definition widget_page_confirmed : Page := {|
  buyer_name := Some (str "Ana");
  buyer_email := Some (str "ana@example.com");
  buyer_id := Some (str "u-42");
  order_amount := Some amount_text;
  card_right := Some [heading; widget_table];
  btn_confirm := Some {| btn_disabled := true;
                         btn_text := confirmed_label;
                         btn_listeners := [ConfirmListener] |};
  confirmation_hidden := Some false;
|}.

(** The page after a run that stopped in the loop: the slots are written,
    the container and the button are as served. *)
Definition aborted_page : Page := {|
  buyer_name := Some (str "Ana");
  buyer_email := Some (str "ana@example.com");
  buyer_id := Some (str "u-42");
  order_amount := Some twelve_text;
  card_right := Some [heading];
  btn_confirm := btn_confirm checkout_page;
  confirmation_hidden := Some true;
|}.

(** The page after a run whose cart did not decode: header-only table. *)
Definition empty_cart_page : Page := {|
  buyer_name := Some (str "Ana");
  buyer_email := Some (str "ana@example.com");
  buyer_id := Some (str "u-42");
  order_amount := Some twelve_text;
  card_right := Some [heading; new_table];
  btn_confirm := btn_confirm widget_page;
  confirmation_hidden := Some true;
|}.

Definition decode_failed (e : error) : log_entry :=
  LogError decode_error_message e.

(** The view model of the link of the Widgets. *)
Definition widget_vm : ViewModel := {|
  orderContext := {| buyerId := str "u-42"; buyerName := str "Ana";
                     buyerEmail := str "ana@example.com";
                     amount := num_of_decimal false 12345 (-1) |};
  items := [{| li_name := str "Widget"; li_quantity := num_of_Z 3;
               li_unit_price := num_of_Z 10 |}];
|}.

(** ** Runs *)

(** The Widget order, end to end: the link that carries
    [[{"name":"Widget","quantity":3,"unit_price":10}]] and an amount of
    [1234.5] renders the buyer, the amount as [$ 1.234,50], and a table of
    one body row whose cells are [Widget], [3], [$10] and the subtotal
    [$30]; the button has its listener and nothing is logged. *)
Example widget_end_to_end :
  load widget_link start = {| page := widget_page; console := [] |}.
Proof. vm_compute. reflexivity. Qed.

(** A cart that does not decode: a base64 text cut short and a base64 text
    of something that is not JSON both end in the [catch], with one line
    on the console, a table with the header and no body row, and the rest
    of the page rendered, the listener included. *)
Example malformed_cart_renders_empty :
  load truncated_link start
  = {| page := empty_cart_page;
       console := [decode_failed InvalidCharacterError] |}
  /\ load not_json_link start
     = {| page := empty_cart_page; console := [decode_failed SyntaxError] |}.
Proof. split; vm_compute; reflexivity. Qed.

(** Amounts: [1234.5] is shown as [$ 1.234,50], with a no-break space
    after the symbol; a text that is not a number is shown as zero; a text
    that starts with a number is shown as that number; the negative zero
    is shown as zero. *)
Example amount_examples :
  amountFormatted [(str "amount", str "1234.5")] = amount_text
  /\ amountFormatted [(str "amount", str "abc")] = zero_text
  /\ amountFormatted [(str "amount", str "12abc")] = twelve_text
  /\ amountFormatted [(str "amount", str "-0")] = zero_text
  /\ amountFormatted [] = zero_text.
Proof. by_compute. Qed.

(** Without parameters the page shows the defaults and an empty table. *)
Example bare_link_defaults :
  page (load bare_link start)
  = {| buyer_name := Some (str "Cliente");
       buyer_email := Some (str "sin-email@example.com");
       buyer_id := Some en_dash;
       order_amount := Some zero_text;
       card_right := Some [heading; new_table];
       btn_confirm := btn_confirm widget_page;
       confirmation_hidden := Some true |}.
Proof. vm_compute. reflexivity. Qed.

(** A cart that is an object, and a cart with an item that lacks its price:
    the loop throws, the page is left without table and the button without
    listener, so a click does nothing. *)
Example unrenderable_cart_aborts :
  load object_link start
  = {| page := aborted_page;
       console := [Uncaught (TypeError NotCallable)] |}
  /\ load partial_link start
     = {| page := aborted_page;
          console := [Uncaught (TypeError NullishProperty)] |}
  /\ click (load partial_link start) = load partial_link start.
Proof. by_compute. Qed.

(** One click confirms the order; a second click finds the button
    disabled. *)
Example widget_session :
  page (click (load widget_link start)) = widget_page_confirmed
  /\ click (click (load widget_link start)) = click (load widget_link start).
Proof. split; vm_compute; reflexivity. Qed.

(** On a page without the message element the listener throws at its
    first statement: each click logs, and the button stays enabled. *)
Example click_without_message :
  let w := load widget_link {| page := page_without_message; console := [] |} in
  click w = log (Uncaught (TypeError NullishProperty)) w
  /\ confirm_state_of (page (click w)) = Some Active.
Proof. split; vm_compute; reflexivity. Qed.

(** [atob] yields one character per byte: the two bytes of a UTF-8 [n]
    with tilde arrive in the table as two characters. *)
Example bytes_are_not_utf8 :
  decode_payload (encode_items ([34; 195; 177; 34]))
  = Normal (VString [195; 177]).
Proof. vm_compute. reflexivity. Qed.

(** ** Pages opened at a URL *)

(** The search string of the Widget order as a sender writes it by hand,
    with the [@] of the address escaped. *)
Definition widget_search : jsstring :=
  str "?user_id=u-42&name=Ana&email=ana%40example.com&amount=1234.5&items="
  ++ encode_items widget_json.

(** A cart [[">"]] in the standard alphabet, whose encoding holds a [+]. *)
Definition plus_search : jsstring :=
  str "?items=" ++ encode_bytes (json_lit "['>']").

(** A search string with broken escapes and broken UTF-8. *)
Definition broken_search : jsstring :=
  str "?name=%E2%82&email=%&items=%%%&=&&" ++ [0xD800; 0x3D; 0xDFFF].

(** The page at the URL of the Widget order is the page of the Widget
    order; the serializer writes the same order with the padding of the
    payload escaped, and it is read back as well. *)
Example widget_url_end_to_end :
  page_load widget_search start = {| page := widget_page; console := [] |}
  /\ page_load (search_of widget_link) start
     = {| page := widget_page; console := [] |}.
Proof. split; vm_compute; reflexivity. Qed.

(** The standard alphabet does not survive the query parser: the [+] is
    read as a space, [atob] drops it, and the cart is lost; the URL-safe
    alphabet carries the same cart. *)
Example standard_alphabet_is_lost :
  params_get (str "items") (URLSearchParams_new plus_search) = Some (str "WyI Il0=")
  /\ cart (URLSearchParams_new plus_search) = VArray []
  /\ cart_log (URLSearchParams_new plus_search)
     = [decode_failed InvalidCharacterError]
  /\ cart (URLSearchParams_new
             (str "?items=" ++ encode_items (json_lit "['>']")))
     = VArray [VString (str ">")].
Proof. by_compute. Qed.

(** A broken URL is read without failure: a truncated UTF-8 sequence and a
    lone surrogate become U+FFFD, a [%] that starts no escape stays, and the
    page is rendered with what was read and an empty table. *)
Example broken_url_renders :
  URLSearchParams_new broken_search
  = [(str "name", [0xFFFD]); (str "email", str "%"); (str "items", str "%%%");
     ([], []); ([0xFFFD], [0xFFFD])]
  /\ page_load broken_search start
     = {| page := rendered (URLSearchParams_new broken_search) new_table
                    (page start);
          console := [decode_failed InvalidCharacterError] |}.
Proof. by_compute. Qed.

(** ** Carts of the sender *)

(** Three Widgets, and an item whose name needs escapes. *)
Definition widget_items : list item := [Item (str "Widget") 3 10].

Definition quoted_items : list item :=
  [Item (str "Widget") 3 10;
   Item ([34; 60] ++ str "b>" ++ [92; 10; 233; 55357; 56832]) 2 1500].

(** The Widget cart of the examples is the compact text of the sender's
    cart, and its rows are the rows of the Widget page. *)
Example widget_items_link :
  cart_parameter compact widget_items = encode_items widget_json
  /\ map cart_row widget_items = [widget_row].
Proof. split; vm_compute; reflexivity. Qed.

(** A price below zero with a quantity of zero: the product is the
    negative zero, which the locale format shows with its sign. *)
Example negative_zero_subtotal :
  render_row (line_item (str "x") (num_of_Z 0) (num_of_Z (-3)))
  = Normal (row_of (str "x") (str "0") (str "-3") (str "-0")).
Proof. vm_compute. reflexivity. Qed.

(** ** The general theorems at these runs *)

Lemma load_renders_witness :
  (forall s, get_slot s (page (load widget_link start))
             = Some (slot_text widget_link s))
  /\ card_right (page (load widget_link start))
     = Some (default [] (card_right (page start)) ++ [widget_table])
  /\ btn_confirm (page (load widget_link start))
     = option_map (add_listener ConfirmListener) (btn_confirm (page start))
  /\ confirmation_hidden (page (load widget_link start))
     = confirmation_hidden (page start)
  /\ console (load widget_link start) = console start ++ cart_log widget_link.
Proof.
  apply (load_renders widget_link start widget_table); vm_compute; reflexivity.
Defined.

Lemma load_aborts_witness :
  (forall s, get_slot s (page (load object_link start))
             = Some (slot_text object_link s))
  /\ card_right (page (load object_link start)) = card_right (page start)
  /\ btn_confirm (page (load object_link start)) = btn_confirm (page start)
  /\ confirmation_hidden (page (load object_link start))
     = confirmation_hidden (page start)
  /\ console (load object_link start)
     = console start ++ cart_log object_link
       ++ [Uncaught (TypeError NotCallable)].
Proof.
  apply (load_aborts object_link start (TypeError NotCallable));
    vm_compute; reflexivity.
Defined.

Lemma load_paints_buyer_witness :
  get_slot BuyerName (page (load partial_link start))
  = Some (name partial_link)
  /\ get_slot BuyerEmail (page (load partial_link start))
     = Some (email partial_link)
  /\ get_slot BuyerId (page (load partial_link start))
     = Some (userId partial_link)
  /\ get_slot OrderAmount (page (load partial_link start))
     = Some (amountFormatted partial_link).
Proof. apply (load_paints_buyer partial_link start). reflexivity. Defined.

Lemma session_keeps_order_witness :
  (forall s, get_slot s (page (click (load widget_link start)))
             = Some (slot_text widget_link s))
  /\ card_right (page (click (load widget_link start)))
     = card_right (page (load widget_link start)).
Proof.
  apply (session_keeps_order widget_link start); [reflexivity|].
  apply reach_click, reach_start.
Defined.

Lemma build_table_rows_witness :
  exists l,
    cart widget_link = VArray l
    /\ el_tag widget_table = str "table"
    /\ el_class widget_table = str "items-table"
    /\ el_markup widget_table = header_markup
    /\ length (el_children widget_table) = length l
    /\ Forall2 (fun item row => render_row item = Normal row) l
         (el_children widget_table).
Proof.
  apply (build_table_rows (cart widget_link) widget_table).
  vm_compute. reflexivity.
Defined.

Lemma click_confirms_witness :
  shows_confirmation (page (click (load widget_link start))) = true
  /\ confirm_state_of (page (click (load widget_link start))) = Some Confirmed
  /\ (forall s, get_slot s (page (click (load widget_link start)))
                = get_slot s (page (load widget_link start)))
  /\ card_right (page (click (load widget_link start)))
     = card_right (page (load widget_link start))
  /\ console (click (load widget_link start))
     = console (load widget_link start).
Proof.
  apply (click_confirms (load widget_link start)); vm_compute; reflexivity.
Defined.

Lemma click_is_final_witness :
  click (click (click (load widget_link start)))
  = click (load widget_link start)
  /\ confirm_state_of (page (click (click (click (load widget_link start)))))
     = Some Confirmed
  /\ shows_confirmation (page (click (click (click (load widget_link start)))))
     = true.
Proof.
  apply (click_is_final (load widget_link start)); try (vm_compute; reflexivity).
  apply reach_click, reach_click, reach_start.
Defined.

Lemma session_confirmed_witness :
  click (click (load widget_link start))
  = {| page := confirmed_page (rendered widget_link widget_table (page start));
       console := console start ++ cart_log widget_link |}
  /\ confirm_state_of (page (click (click (load widget_link start))))
     = Some Confirmed
  /\ shows_confirmation (page (click (click (load widget_link start)))) = true.
Proof.
  apply (session_confirmed widget_link start widget_table);
    try (vm_compute; reflexivity).
  apply reach_click, reach_start.
Defined.

Lemma load_without_cart_witness :
  load bare_link start
  = {| page := rendered bare_link new_table (page start);
       console := console start |}
  /\ load truncated_link start
     = {| page := rendered truncated_link new_table (page start);
          console := console start ++ [decode_failed InvalidCharacterError] |}.
Proof.
  split.
  - apply (load_without_cart bare_link start); reflexivity.
  - apply (proj2 (load_without_cart truncated_link start eq_refl)
             (take 5 (encode_items widget_json)) InvalidCharacterError);
      vm_compute; reflexivity.
Defined.

Lemma load_dead_button_witness :
  click (load partial_link start) = load partial_link start.
Proof.
  apply (load_dead_button partial_link start (TypeError NullishProperty)
           {| btn_disabled := false; btn_text := str "Confirmar pedido";
              btn_listeners := [] |}); vm_compute; reflexivity.
Defined.

Lemma load_refines_render_witness :
  load widget_link start
  = {| page := render widget_vm (page start);
       console := console start ++ cart_log widget_link |}.
Proof.
  apply (load_refines_render widget_link start widget_vm);
    vm_compute; reflexivity.
Defined.

Lemma typed_cart_renders_witness :
  build_table (cart widget_link) = Normal (items_table (items widget_vm))
  /\ length (el_children (items_table (items widget_vm)))
     = length (items widget_vm).
Proof.
  apply (typed_cart_renders (cart widget_link) (items widget_vm)).
  vm_compute. reflexivity.
Defined.

Lemma load_missing_slot_witness :
  load widget_link {| page := page_without_id; console := [] |}
  = log (Uncaught (TypeError NullishProperty))
      (with_page (painted_before BuyerId widget_link)
         {| page := page_without_id; console := [] |}).
Proof.
  apply (load_missing_slot widget_link
           {| page := page_without_id; console := [] |} BuyerId).
  reflexivity.
Defined.

Lemma initialize_throws_witness :
  exists r, TypeError NotCallable = TypeError r.
Proof.
  apply (initialize_throws object_link start (TypeError NotCallable)).
  vm_compute. reflexivity.
Defined.

Lemma decode_payload_encoded_witness :
  decode_payload (encode_items widget_json) = JSON_parse_model widget_json.
Proof.
  apply (decode_payload_encoded widget_json).
  apply replace_all_byte_string; [lia | apply str_byte_string].
Defined.

Lemma decode_payload_fuel_witness :
  decode_payload (encode_items (str "[1, 2]"))
  = match parse_value 100 (str "[1, 2]") with
    | Some (v, r) =>
        match skip_ws r with [] => Normal v | _ :: _ => Throw SyntaxError end
    | None => Throw SyntaxError
    end.
Proof.
  apply (decode_payload_fuel (encode_items (str "[1, 2]")) 100 (str "[1, 2]")).
  - vm_compute. reflexivity.
  - vm_compute. lia.
Defined.

Lemma num_mul_exact_witness :
  num_integer (num_mul (num_of_Z 1500) (num_of_Z 3)) = Some (1500 * 3).
Proof. apply (num_mul_exact 1500 3); vm_compute; reflexivity. Defined.

Lemma integer_subtotal_witness :
  subtotal (line_item (str "Widget") (num_of_Z 3) (num_of_Z 10))
  = Normal (num_of_Z (10 * 3))
  /\ render_row (line_item (str "Widget") (num_of_Z 3) (num_of_Z 10))
     = Normal (row_of (str "Widget") (Number_toString (num_of_Z 3))
                 (Number_toLocaleString (num_of_Z 10))
                 (Number_toLocaleString (num_of_Z (10 * 3)))).
Proof.
  apply (integer_subtotal (str "Widget") 3 10); [lia | lia |].
  vm_compute. reflexivity.
Defined.

Lemma amount_word_is_zero_witness :
  amountNumber [(str "amount", str " n/a")] = num_zero
  /\ amountFormatted [(str "amount", str " n/a")] = zero_amount.
Proof. apply (amount_word_is_zero [(str "amount", str " n/a")]). reflexivity. Defined.

Lemma amount_integer_prefix_witness :
  amountNumber [(str "amount", str " -12abc")] = num_of_Z (-12).
Proof.
  apply (amount_integer_prefix [(str "amount", str " -12abc")]
           (str " ") true 12 (str "abc")); [reflexivity|reflexivity|lia|].
  vm_compute. by split_and!.
Defined.

Lemma amount_integer_text_witness :
  amountFormatted [(str "amount", str " -12abc")]
  = str "-$" ++ [160] ++ str "12,00".
Proof.
  apply (amount_integer_text [(str "amount", str " -12abc")]
           (str " ") true 12 (str "abc")); [reflexivity|reflexivity|lia|].
  vm_compute. by split_and!.
Defined.

Lemma integer_row_text_witness :
  render_row (line_item (str "Widget") (num_of_Z 3) (num_of_Z 1500))
  = Normal (row_of (str "Widget") (str "3") (str "1.500") (str "4.500")).
Proof. apply (integer_row_text (str "Widget") 3 1500); lia. Defined.

Lemma sender_page_text_witness :
  page_load
    (raw_search ((str "items", cart_parameter spaced quoted_items)
                 :: [(str "name", str "Ana")])) start
  = {| page := rendered ((str "items", cart_parameter spaced quoted_items)
                         :: [(str "name", str "Ana")])
                 (append_children (map text_row quoted_items) new_table)
                 (page start);
       console := console start |}.
Proof.
  apply (sender_page_text spaced quoted_items [(str "name", str "Ana")] start);
    vm_compute; reflexivity.
Defined.

Lemma page_load_link_witness :
  URLSearchParams_new (search_of widget_link) = widget_link
  /\ page_load (search_of widget_link) start = load widget_link start.
Proof.
  apply (page_load_link widget_link start), usv_pairs_check.
  vm_compute. reflexivity.
Defined.

Lemma page_load_raw_witness :
  URLSearchParams_new (raw_search widget_link) = widget_link
  /\ page_load (raw_search widget_link) start = load widget_link start.
Proof. apply (page_load_raw widget_link start). vm_compute. reflexivity. Defined.

Lemma cart_through_link_witness :
  cart (URLSearchParams_new
          (raw_search ((str "items", encode_items widget_json)
                       :: [(str "name", str "Ana")])))
  = match JSON_parse_model widget_json with
    | Normal v => v
    | Throw _ => VArray []
    end.
Proof.
  apply (cart_through_link widget_json [(str "name", str "Ana")]).
  - apply replace_all_byte_string; [lia | apply str_byte_string].
  - vm_compute. reflexivity.
Defined.

Lemma cart_round_trip_witness :
  decode_payload (cart_parameter spaced quoted_items)
  = Normal (VArray (map item_value quoted_items))
  /\ as_cart (VArray (map item_value quoted_items))
     = Some (map line_item_of quoted_items).
Proof. apply (cart_round_trip spaced quoted_items); vm_compute; reflexivity. Defined.

Lemma sender_link_renders_witness :
  page_load
    (raw_search ((str "items", cart_parameter spaced quoted_items)
                 :: [(str "name", str "Ana")])) start
  = {| page :=
         rendered ((str "items", cart_parameter spaced quoted_items)
                   :: [(str "name", str "Ana")])
           (items_table (map line_item_of quoted_items)) (page start);
       console := console start |}.
Proof.
  apply (sender_link_renders spaced quoted_items [(str "name", str "Ana")] start);
    vm_compute; reflexivity.
Defined.

Lemma sender_rows_whole_witness :
  build_table (VArray (map item_value quoted_items))
  = Normal (append_children (map cart_row quoted_items) new_table).
Proof. apply (sender_rows_whole quoted_items); vm_compute; reflexivity. Defined.
